(** * g2core motion pipeline: G-code parser, runtime executor, stepper preparation

    A shallow embedding of the parts of the firmware that the specification
    talks about:

    - [Arith]: the arithmetic of C [float] and [double], as an interface
      whose instance for the firmware is IEEE binary32 and binary64 (on the
      standard [spec_float]); a second instance, the rationals, serves to
      evaluate examples;
    - [Util]: the ASCII float formatter and parser of MotateUtilities;
    - [Stepper]: [st_prep_line], [st_prep_dwell], the loader [_load_move]
      and the SysTick dwell countdown of stepper.cpp;
    - [Parser]: checksum verification and block parsing of gcode_parser.cpp;
    - [Planner]: the runtime executor and forward planner of plan_exec.cpp. *)

From Stdlib Require Import ZArith QArith Qround Qabs Qpower Lia Lqa List Bool Ascii String.
From Stdlib Require Import SpecFloat.
Import ListNotations.

Set Implicit Arguments.

(* ================================================================= *)
(** ** Machine integers *)

Module MachInt.
Open Scope Z_scope.

(** Two's complement reduction to a signed 32-bit value ([int32_t]). *)
Definition to_int32 (z : Z) : Z := (z + 2 ^ 31) mod 2 ^ 32 - 2 ^ 31.

(** Reduction to an unsigned 32-bit value ([uint32_t]). *)
Definition to_uint32 (z : Z) : Z := z mod 2 ^ 32.

(** Reduction to an unsigned 8-bit value ([uint8_t]). *)
Definition to_uint8 (z : Z) : Z := z mod 2 ^ 8.



End MachInt.

(* ================================================================= *)
(** ** Floating-point arithmetic *)

Module Arith.

(** The operations the firmware performs on values of C type [float].
    [f_to_Z] is the C conversion to an integer type (truncation toward
    zero), [f_lit] the value of a decimal literal converted to [float],
    [f_round] the C library [round] (halves away from zero).

    An expression of the source with an operand of type [double] (a
    decimal literal without suffix) is evaluated in [double]: [dbl] is the
    type of its value, [d_of_f] the promotion of a [float] (exact),
    [d_lit] a decimal literal, [d_add] to [d_ltb] the arithmetic and the
    comparison in [double], and [f_of_d] the conversion back to [float] on
    assignment, argument passing or return.

    The C conversion of a float to an integer type is undefined for an
    infinity, a NaN and a value whose integer part is outside the range of
    the type.  [f_to_Z] and the reductions of [MachInt] applied to it give
    some value there; what is proved about a conversion is stated for
    arguments on which C defines it. *)
Class FloatOps (F : Type) : Type := {
  f_add : F -> F -> F;
  f_sub : F -> F -> F;
  f_mul : F -> F -> F;
  f_div : F -> F -> F;
  f_opp : F -> F;
  f_abs : F -> F;
  f_ltb : F -> F -> bool;
  f_leb : F -> F -> bool;
  f_eqb : F -> F -> bool;
  f_of_Z : Z -> F;
  f_lit : Q -> F;
  f_to_Z : F -> Z;
  f_ceil : F -> F;
  f_round : F -> F;
  f_isinf : F -> bool;
  f_isnan : F -> bool;
  dbl : Type;
  d_of_f : F -> dbl;
  f_of_d : dbl -> F;
  d_lit : Q -> dbl;
  d_add : dbl -> dbl -> dbl;
  d_sub : dbl -> dbl -> dbl;
  d_mul : dbl -> dbl -> dbl;
  d_div : dbl -> dbl -> dbl;
  d_ltb : dbl -> dbl -> bool
}.

Declare Scope float_scope.
Delimit Scope float_scope with flt.
Infix "+!" := f_add (at level 50, left associativity) : float_scope.
Infix "-!" := f_sub (at level 50, left associativity) : float_scope.
Infix "*!" := f_mul (at level 40, left associativity) : float_scope.
Infix "/!" := f_div (at level 40, left associativity) : float_scope.
Infix "<!" := f_ltb (at level 70, no associativity) : float_scope.
Infix "<=!" := f_leb (at level 70, no associativity) : float_scope.
Infix "==!" := f_eqb (at level 70, no associativity) : float_scope.
Infix "+!!" := d_add (at level 50, left associativity) : float_scope.
Infix "-!!" := d_sub (at level 50, left associativity) : float_scope.
Infix "*!!" := d_mul (at level 40, left associativity) : float_scope.
Infix "/!!" := d_div (at level 40, left associativity) : float_scope.
Infix "<!!" := d_ltb (at level 70, no associativity) : float_scope.

(** C's [a > b] and [a >= b] are [b < a] and [b <= a]. *)
Definition f_gtb {F} `{FloatOps F} (a b : F) : bool := f_ltb b a.
Definition f_geb {F} `{FloatOps F} (a b : F) : bool := f_leb b a.
Infix ">!" := f_gtb (at level 70, no associativity) : float_scope.
Infix ">=!" := f_geb (at level 70, no associativity) : float_scope.

(* --------------------------------------------------------------- *)
(** *** Exact rational arithmetic

    The reading of the firmware's formulas over the rationals: no rounding,
    no infinities, no NaN; division by zero yields zero, as [Qinv] does.
    It is not the arithmetic of the firmware: what is proved of the code is
    proved for every instance of the interface or for binary32. *)

Definition Q_trunc (q : Q) : Z := Z.quot (Qnum q) (Zpos (Qden q)).

Definition Q_round (q : Q) : Z :=
  if Qle_bool 0 q then Qfloor (q + (1 # 2)) else Qceiling (q - (1 # 2)).

#[export] Instance exact : FloatOps Q := {
  f_add := Qplus;
  f_sub := Qminus;
  f_mul := Qmult;
  f_div := Qdiv;
  f_opp := Qopp;
  f_abs := Qabs;
  f_ltb := fun a b => negb (Qle_bool b a);
  f_leb := Qle_bool;
  f_eqb := Qeq_bool;
  f_of_Z := inject_Z;
  f_lit := fun q => q;
  f_to_Z := Q_trunc;
  f_ceil := fun q => inject_Z (Qceiling q);
  f_round := fun q => inject_Z (Q_round q);
  f_isinf := fun _ => false;
  f_isnan := fun _ => false;
  dbl := Q;
  d_of_f := fun q => q;
  f_of_d := fun q => q;
  d_lit := fun q => q;
  d_add := Qplus;
  d_sub := Qminus;
  d_mul := Qmult;
  d_div := Qdiv;
  d_ltb := fun a b => negb (Qle_bool b a)
}.

(* --------------------------------------------------------------- *)
(** *** IEEE 754 binary32

    C [float] on the targets of the firmware.  Values are [spec_float]s;
    the arithmetic is the correctly rounded (nearest, ties to even)
    arithmetic of the standard library at precision 24, [emax] 128.
    A decimal literal of the source is a [double] constant converted to
    [float]: [lit] rounds it to binary64 first. *)

Module B32.
Open Scope Z_scope.

Definition prec : Z := 24.
Definition emax : Z := 128.

Definition b32 : Type := spec_float.

Definition of_Z (z : Z) : b32 := binary_normalize prec emax z 0 false.

(** Values of C type [double]: binary64. *)
Definition b64 : Type := spec_float.

Definition d_of_Z (z : Z) : b64 := binary_normalize 53 1024 z 0 false.

(** Conversion of a binary64 value to binary32 (rounded to nearest). *)
Definition d2f (d : b64) : b32 :=
  match d with
  | S754_finite s m e => binary_normalize prec emax (cond_Zopp s (Zpos m)) e s
  | _ => d
  end.

(** Promotion of a binary32 value to binary64 (exact). *)
Definition f2d (x : b32) : b64 :=
  match x with
  | S754_finite s m e => binary_normalize 53 1024 (cond_Zopp s (Zpos m)) e s
  | _ => x
  end.

(** A decimal literal of the source: the binary64 value nearest to it. *)
Definition dlit (q : Q) : b64 :=
  SFdiv 53 1024 (d_of_Z (Qnum q)) (d_of_Z (Zpos (Qden q))).

Definition lit (q : Q) : b32 := d2f (dlit q).

(** The integer [s * m], [s] the sign. *)
Definition signed (s : bool) (m : positive) : Z := cond_Zopp s (Zpos m).

(** The rational a finite value denotes.  An infinity and a NaN denote no
    rational; [B2Q] gives zero for them, and a statement about [B2Q x]
    takes [x] finite. *)
Definition B2Q (x : b32) : Q :=
  match x with
  | S754_finite s m e =>
      match e with
      | Z0 => inject_Z (signed s m)
      | Zpos p => inject_Z (signed s m * Zpos (2 ^ p))
      | Zneg p => Qmake (signed s m) (2 ^ p)
      end
  | _ => 0%Q
  end.

(** Conversion to an integer type: the value truncated toward zero.
    The conversion of an infinity or a NaN is undefined in C; [to_Z] gives
    zero for them, and a statement about a conversion takes its argument
    finite. *)
Definition to_Z (x : b32) : Z :=
  match x with
  | S754_finite s m e =>
      match e with
      | Z0 => signed s m
      | Zpos p => signed s m * Zpos (2 ^ p)
      | Zneg p => Z.quot (signed s m) (Zpos (2 ^ p))
      end
  | _ => 0
  end.

Definition of_Z_signed_zero (s : bool) (n : Z) : b32 :=
  if n =? 0 then S754_zero s else of_Z n.

Definition ceil (x : b32) : b32 :=
  match x with
  | S754_finite s m (Zneg p) =>
      let q := Z.quot (signed s m) (Zpos (2 ^ p)) in
      let exact := (q * Zpos (2 ^ p) =? signed s m) in
      of_Z_signed_zero s (if s || exact then q else q + 1)
  | _ => x
  end.

Definition round (x : b32) : b32 :=
  match x with
  | S754_finite s m (Zneg p) =>
      let n := Z.div (2 * Zpos m + Zpos (2 ^ p)) (2 * Zpos (2 ^ p)) in
      of_Z_signed_zero s (cond_Zopp s n)
  | _ => x
  end.

Definition isinf (x : b32) : bool :=
  match x with S754_infinity _ => true | _ => false end.

Definition isnan (x : b32) : bool :=
  match x with S754_nan => true | _ => false end.

Definition is_finite (x : b32) : bool :=
  match x with S754_zero _ | S754_finite _ _ _ => true | _ => false end.

#[export] Instance binary32 : FloatOps b32 := {
  f_add := SFadd prec emax;
  f_sub := SFsub prec emax;
  f_mul := SFmul prec emax;
  f_div := SFdiv prec emax;
  f_opp := SFopp;
  f_abs := SFabs;
  f_ltb := SFltb;
  f_leb := SFleb;
  f_eqb := SFeqb;
  f_of_Z := of_Z;
  f_lit := lit;
  f_to_Z := to_Z;
  f_ceil := ceil;
  f_round := round;
  f_isinf := isinf;
  f_isnan := isnan;
  dbl := b64;
  d_of_f := f2d;
  f_of_d := d2f;
  d_lit := dlit;
  d_add := SFadd 53 1024;
  d_sub := SFsub 53 1024;
  d_mul := SFmul 53 1024;
  d_div := SFdiv 53 1024;
  d_ltb := SFltb
}.



End B32.

End Arith.

(* ================================================================= *)
(** ** Status codes *)

(** The [stat_t] codes the modelled functions return; [STAT_OTHER] stands
    for the codes returned by functions outside this development. *)
Inductive stat_t : Type :=
  | STAT_OK
  | STAT_EAGAIN
  | STAT_NOOP
  | STAT_COMPLETE
  | STAT_INTERNAL_ERROR
  | STAT_PREP_LINE_MOVE_TIME_IS_INFINITE
  | STAT_PREP_LINE_MOVE_TIME_IS_NAN
  | STAT_INVALID_OR_MALFORMED_COMMAND
  | STAT_BAD_NUMBER_FORMAT
  | STAT_GCODE_COMMAND_UNSUPPORTED
  | STAT_MCODE_COMMAND_UNSUPPORTED
  | STAT_MODAL_GROUP_VIOLATION
  | STAT_GCODE_AXIS_IS_MISSING
  | STAT_CHECKSUM_MATCH_FAILED
  | STAT_MISSING_LINE_NUMBER_WITH_CHECKSUM
  | STAT_OTHER (code : nat).

Definition stat_eq_dec (a b : stat_t) : {a = b} + {a <> b}.
Proof. decide equality. apply Nat.eq_dec. Defined.

Definition stat_eqb (a b : stat_t) : bool :=
  if stat_eq_dec a b then true else false.

(** Block types of planner.h ([blockType]), shared by the planner queue and
    the stepper prep slot. *)
Inductive blockType : Type :=
  | BLOCK_TYPE_NULL
  | BLOCK_TYPE_ALINE
  | BLOCK_TYPE_COMMAND
  | BLOCK_TYPE_DWELL
  | BLOCK_TYPE_JSON_WAIT
  | BLOCK_TYPE_TOOL
  | BLOCK_TYPE_SPINDLE_SPEED
  | BLOCK_TYPE_STOP
  | BLOCK_TYPE_END.

Definition blockType_rank (t : blockType) : nat :=
  match t with
  | BLOCK_TYPE_NULL => 0
  | BLOCK_TYPE_ALINE => 1
  | BLOCK_TYPE_COMMAND => 2
  | BLOCK_TYPE_DWELL => 3
  | BLOCK_TYPE_JSON_WAIT => 4
  | BLOCK_TYPE_TOOL => 5
  | BLOCK_TYPE_SPINDLE_SPEED => 6
  | BLOCK_TYPE_STOP => 7
  | BLOCK_TYPE_END => 8
  end.

Definition blockType_eqb (a b : blockType) : bool :=
  Nat.eqb (blockType_rank a) (blockType_rank b).


(* ================================================================= *)
(** ** Stepper preparation and loading (stepper.cpp) *)

Module Stepper.
Import Arith MachInt.
Open Scope Z_scope.

Inductive prepBufferState : Type :=
  | PREP_BUFFER_OWNED_BY_LOADER
  | PREP_BUFFER_OWNED_BY_EXEC.

Definition prepBufferState_eqb (a b : prepBufferState) : bool :=
  match a, b with
  | PREP_BUFFER_OWNED_BY_LOADER, PREP_BUFFER_OWNED_BY_LOADER => true
  | PREP_BUFFER_OWNED_BY_EXEC, PREP_BUFFER_OWNED_BY_EXEC => true
  | _, _ => false
  end.

(** Constants and macros of stepper.h, hardware.h and util.h.  These
    headers are not among the modelled sources, so their values are
    parameters of the model.  [DDA_SUBSTEPS] multiplies both a [float]
    and the integer tick count; it is taken as a floating constant. *)
Record Settings (F : Type) : Type := {
  FREQUENCY_DDA : F;
  FREQUENCY_DWELL : F;
  DDA_SUBSTEPS : F;
  STEP_CORRECTION_THRESHOLD : F;
  STEP_CORRECTION_FACTOR : F;
  STEP_CORRECTION_MAX : F;
  STEP_CORRECTION_HOLDOFF : Z;
  DIRECTION_CW : Z;
  DIRECTION_CCW : Z;
  fp_ZERO : F -> bool;
  fp_NOT_ZERO : F -> bool
}.

(** Effects of the loader on the hardware and on the other modules. *)
Inductive hwEvent : Type :=
  | MotionStopped (motor : nat)
  | MotorEnable (motor : nat)
  | SetDirection (motor : nat) (dir : Z)
  | SetEncoderStepSign (motor : nat) (sign : Z)
  | AccumulateEncoder (motor : nat)
  | DdaTimerStart
  | RegisterDwellEvent
  | UnregisterDwellEvent
  | RuntimeCommand (bf : option nat)
  | RequestExecMove.

Section WithFloat.
Context {F : Type} `{FloatOps F}.
Variable hw : Settings F.
Local Open Scope float_scope.

(** Per-motor part of the prep slot ([st_pre.mot[]]). *)
Record stPrepMotor : Type := {
  pre_substep_increment : Z;
  pre_direction : Z;
  pre_prev_direction : Z;
  pre_step_sign : Z;
  pre_accumulator_correction_flag : bool;
  pre_accumulator_correction : F;
  pre_prev_segment_time : F;
  pre_correction_holdoff : Z;
  pre_corrected_steps : F
}.

(** The prep slot ([st_pre]). *)
Record stPrepSingleton : Type := {
  pre_buffer_state : prepBufferState;
  pre_block_type : blockType;
  pre_bf : option nat;
  pre_dda_ticks : Z;
  pre_dda_ticks_X_substeps : Z;
  pre_dwell_ticks : Z;
  pre_mot : list stPrepMotor
}.

(** Per-motor part of the run slot ([st_run.mot[]]). *)
Record stRunMotor : Type := {
  run_substep_increment : Z;
  run_substep_accumulator : Z
}.

(** The run slot ([st_run]). *)
Record stRunSingleton : Type := {
  run_dda_ticks_downcount : Z;
  run_dwell_ticks_downcount : Z;
  run_dda_ticks_X_substeps : Z;
  run_mot : list stRunMotor
}.

Definition f_min (a b : F) : F := if a <! b then a else b.
Definition f_max (a b : F) : F := if a <! b then b else a.
Definition min3 (a b c : F) : F := f_min (f_min a b) c.
Definition max3 (a b c : F) : F := f_max (f_max a b) c.

(** [cm_panic] latches the alarm in the canonical machine and hands
    back the status it was given. *)
Definition cm_panic (status : stat_t) : stat_t := status.

(** Body of the motor loop of [st_prep_line]. *)
Definition prep_motor (polarity : Z) (segment_time : F)
           (mot : stPrepMotor) (travel following : F) : stPrepMotor * F :=
  if fp_ZERO hw travel then
    ({| pre_substep_increment := 0;
        pre_direction := pre_direction mot;
        pre_prev_direction := pre_prev_direction mot;
        pre_step_sign := pre_step_sign mot;
        pre_accumulator_correction_flag := pre_accumulator_correction_flag mot;
        pre_accumulator_correction := pre_accumulator_correction mot;
        pre_prev_segment_time := pre_prev_segment_time mot;
        pre_correction_holdoff := pre_correction_holdoff mot;
        pre_corrected_steps := pre_corrected_steps mot |}, travel)
  else
    let positive := travel >=! f_of_Z 0 in
    let dir := if positive then Z.lxor (DIRECTION_CW hw) polarity
               else Z.lxor (DIRECTION_CCW hw) polarity in
    let sign := if positive then 1 else -1 in
    let time_changed :=
      d_lit (1 # 10000000) <!! d_of_f (f_abs (segment_time -! pre_prev_segment_time mot)) in
    let not_first := fp_NOT_ZERO hw (pre_prev_segment_time mot) in
    let flag := if time_changed && not_first then true
                else pre_accumulator_correction_flag mot in
    let corr := if time_changed && not_first
                then segment_time /! pre_prev_segment_time mot
                else pre_accumulator_correction mot in
    let prev_time := if time_changed then segment_time
                     else pre_prev_segment_time mot in
    let holdoff := to_int32 (pre_correction_holdoff mot - 1) in
    let nudge := (holdoff <? 0)
                 && (f_abs following >! STEP_CORRECTION_THRESHOLD hw) in
    let scaled := following *! STEP_CORRECTION_FACTOR hw in
    let correction_steps :=
      if scaled >! f_of_Z 0
      then min3 scaled (f_abs travel) (STEP_CORRECTION_MAX hw)
      else max3 scaled (f_opp (f_abs travel)) (f_opp (STEP_CORRECTION_MAX hw)) in
    let travel' := if nudge then travel -! correction_steps else travel in
    ({| pre_substep_increment :=
          to_uint32 (f_to_Z (f_round (f_abs (travel' *! DDA_SUBSTEPS hw))));
        pre_direction := dir;
        pre_prev_direction := pre_prev_direction mot;
        pre_step_sign := sign;
        pre_accumulator_correction_flag := flag;
        pre_accumulator_correction := corr;
        pre_prev_segment_time := prev_time;
        pre_correction_holdoff :=
          if nudge then STEP_CORRECTION_HOLDOFF hw else holdoff;
        pre_corrected_steps :=
          if nudge then pre_corrected_steps mot +! correction_steps
          else pre_corrected_steps mot |}, travel').

(** The motor loop: [st_cfg.mot[]], [st_pre.mot[]], [travel_steps[]] and
    [following_error[]] are arrays of [MOTORS] entries. *)
Fixpoint prep_motors (polarity : list Z) (segment_time : F)
         (mots : list stPrepMotor) (travel following : list F)
  : list stPrepMotor * list F :=
  match mots, polarity, travel, following with
  | m :: ms, p :: ps, t :: ts, e :: es =>
      let '(m', t') := prep_motor p segment_time m t e in
      let '(ms', ts') := prep_motors ps segment_time ms ts es in
      (m' :: ms', t' :: ts')
  | _, _, _, _ => (mots, travel)
  end.

(** The tick count of a segment, [(int32_t)(segment_time * 60 *
    FREQUENCY_DDA)]: [segment_time] is in minutes.  The conversion is
    defined in C for a finite product whose integer part is an [int32_t]. *)
Definition segment_dda_ticks (segment_time : F) : Z :=
  to_int32 (f_to_Z (segment_time *! f_of_Z 60 *! FREQUENCY_DDA hw)).

Definition st_prep_line (polarity : list Z) (pre : stPrepSingleton)
           (travel_steps following_error : list F) (segment_time : F)
  : stat_t * stPrepSingleton * list F :=
  if negb (prepBufferState_eqb (pre_buffer_state pre) PREP_BUFFER_OWNED_BY_EXEC)
  then (cm_panic STAT_INTERNAL_ERROR, pre, travel_steps)
  else if f_isinf segment_time
  then (cm_panic STAT_PREP_LINE_MOVE_TIME_IS_INFINITE, pre, travel_steps)
  else if f_isnan segment_time
  then (cm_panic STAT_PREP_LINE_MOVE_TIME_IS_NAN, pre, travel_steps)
  else
    let ticks := segment_dda_ticks segment_time in
    let '(mots, travel') :=
      prep_motors polarity segment_time (pre_mot pre) travel_steps following_error in
    (STAT_OK,
     {| pre_buffer_state := PREP_BUFFER_OWNED_BY_LOADER;
        pre_block_type := BLOCK_TYPE_ALINE;
        pre_bf := pre_bf pre;
        pre_dda_ticks := ticks;
        pre_dda_ticks_X_substeps :=
          to_int32 (f_to_Z (f_of_Z ticks *! DDA_SUBSTEPS hw));
        pre_dwell_ticks := pre_dwell_ticks pre;
        pre_mot := mots |},
     travel').

Definition st_prep_null (pre : stPrepSingleton) : stPrepSingleton :=
  {| pre_buffer_state := PREP_BUFFER_OWNED_BY_EXEC;
     pre_block_type := BLOCK_TYPE_NULL;
     pre_bf := pre_bf pre;
     pre_dda_ticks := pre_dda_ticks pre;
     pre_dda_ticks_X_substeps := pre_dda_ticks_X_substeps pre;
     pre_dwell_ticks := pre_dwell_ticks pre;
     pre_mot := pre_mot pre |}.

Definition st_prep_command (pre : stPrepSingleton) (bf : nat) : stPrepSingleton :=
  {| pre_buffer_state := PREP_BUFFER_OWNED_BY_LOADER;
     pre_block_type := BLOCK_TYPE_COMMAND;
     pre_bf := Some bf;
     pre_dda_ticks := pre_dda_ticks pre;
     pre_dda_ticks_X_substeps := pre_dda_ticks_X_substeps pre;
     pre_dwell_ticks := pre_dwell_ticks pre;
     pre_mot := pre_mot pre |}.

(** The tick count of a dwell:
    [std::max((uint32_t)((microseconds / 1000000) * FREQUENCY_DWELL), 1u)]. *)
Definition dwell_ticks_of (microseconds : F) : Z :=
  Z.max (to_uint32 (f_to_Z (microseconds /! f_of_Z 1000000 *! FREQUENCY_DWELL hw))) 1.

Definition st_prep_dwell (pre : stPrepSingleton) (microseconds : F) : stPrepSingleton :=
  {| pre_buffer_state := PREP_BUFFER_OWNED_BY_LOADER;
     pre_block_type := BLOCK_TYPE_DWELL;
     pre_bf := pre_bf pre;
     pre_dda_ticks := pre_dda_ticks pre;
     pre_dda_ticks_X_substeps := pre_dda_ticks_X_substeps pre;
     pre_dwell_ticks := dwell_ticks_of microseconds;
     pre_mot := pre_mot pre |}.

(** The stepper module: prep slot, run slot, whether the dwell SysTick
    event is registered, and the effects emitted so far, in program order. *)
Record stepper : Type := {
  st_pre : stPrepSingleton;
  st_run : stRunSingleton;
  dwell_event_registered : bool;
  hw_log : list hwEvent
}.

Definition st_runtime_isbusy (run : stRunSingleton) : bool :=
  negb (run_dda_ticks_downcount run =? 0) || negb (run_dwell_ticks_downcount run =? 0).

(** The accumulator of a motor before the direction test: scaled by the
    accumulator correction when the prep slot flags a change of time base
    ([substep_accumulator *= accumulator_correction], an [int32_t] times a
    [float]: the product is computed in [float] and converted back).  The
    conversion is defined in C for a finite product whose integer part is
    an [int32_t]. *)
Definition corrected_accumulator (pm : stPrepMotor) (rm : stRunMotor) : Z :=
  if pre_accumulator_correction_flag pm
  then to_int32 (f_to_Z (f_of_Z (run_substep_accumulator rm)
                         *! pre_accumulator_correction pm))
  else run_substep_accumulator rm.

(** Loading of one motor, the block the loader repeats for MOTOR_1 to
    MOTOR_6.  Returns the prep and run parts of the motor and the
    effects, in program order. *)
Definition load_motor (ticks_X_substeps : Z) (motor : nat)
           (pm : stPrepMotor) (rm : stRunMotor)
  : stPrepMotor * stRunMotor * list hwEvent :=
  let inc := pre_substep_increment pm in
  if negb (inc =? 0) then
    let acc1 := corrected_accumulator pm rm in
    let flipped := negb (pre_direction pm =? pre_prev_direction pm) in
    let acc2 := if flipped then to_int32 (- (ticks_X_substeps + acc1)) else acc1 in
    ({| pre_substep_increment := inc;
        pre_direction := pre_direction pm;
        pre_prev_direction := if flipped then pre_direction pm
                              else pre_prev_direction pm;
        pre_step_sign := pre_step_sign pm;
        pre_accumulator_correction_flag := false;
        pre_accumulator_correction := pre_accumulator_correction pm;
        pre_prev_segment_time := pre_prev_segment_time pm;
        pre_correction_holdoff := pre_correction_holdoff pm;
        pre_corrected_steps := pre_corrected_steps pm |},
     {| run_substep_increment := inc; run_substep_accumulator := acc2 |},
     (if flipped then [SetDirection motor (pre_direction pm)] else [])
       ++ [MotorEnable motor; SetEncoderStepSign motor (pre_step_sign pm);
           AccumulateEncoder motor])
  else
    (pm,
     {| run_substep_increment := inc;
        run_substep_accumulator := run_substep_accumulator rm |},
     [MotionStopped motor; AccumulateEncoder motor]).

Fixpoint load_motors (ticks_X_substeps : Z) (motor : nat)
         (pms : list stPrepMotor) (rms : list stRunMotor)
  : list stPrepMotor * list stRunMotor * list hwEvent :=
  match pms, rms with
  | pm :: pms', rm :: rms' =>
      let '(pm', rm', ev) := load_motor ticks_X_substeps motor pm rm in
      let '(pms'', rms'', evs) := load_motors ticks_X_substeps (S motor) pms' rms' in
      (pm' :: pms'', rm' :: rms'', ev ++ evs)
  | _, _ => (pms, rms, [])
  end.

Definition set_loaded (pre : stPrepSingleton) (mots : list stPrepMotor)
  : stPrepSingleton :=
  {| pre_buffer_state := PREP_BUFFER_OWNED_BY_EXEC;
     pre_block_type := BLOCK_TYPE_NULL;
     pre_bf := pre_bf pre;
     pre_dda_ticks := pre_dda_ticks pre;
     pre_dda_ticks_X_substeps := pre_dda_ticks_X_substeps pre;
     pre_dwell_ticks := pre_dwell_ticks pre;
     pre_mot := mots |}.

(** The loader.  (The diagnostic [printf] of the source is left out.) *)
Definition _load_move (st : stepper) : stepper :=
  let pre := st_pre st in
  let run := st_run st in
  if st_runtime_isbusy run then st
  else if negb (prepBufferState_eqb (pre_buffer_state pre) PREP_BUFFER_OWNED_BY_LOADER)
  then {| st_pre := pre; st_run := run;
          dwell_event_registered := dwell_event_registered st;
          hw_log := hw_log st ++ map MotionStopped (seq 0 (List.length (run_mot run))) |}
  else
    match pre_block_type pre with
    | BLOCK_TYPE_ALINE =>
        let X := pre_dda_ticks_X_substeps pre in
        let '(pms, rms, evs) := load_motors X 0 (pre_mot pre) (run_mot run) in
        {| st_pre := set_loaded pre pms;
           st_run := {| run_dda_ticks_downcount := pre_dda_ticks pre;
                        run_dwell_ticks_downcount := run_dwell_ticks_downcount run;
                        run_dda_ticks_X_substeps := X;
                        run_mot := rms |};
           dwell_event_registered := dwell_event_registered st;
           hw_log := hw_log st ++ evs ++ [DdaTimerStart; RequestExecMove] |}
    | BLOCK_TYPE_DWELL =>
        {| st_pre := set_loaded pre (pre_mot pre);
           st_run := {| run_dda_ticks_downcount := run_dda_ticks_downcount run;
                        run_dwell_ticks_downcount := pre_dwell_ticks pre;
                        run_dda_ticks_X_substeps := run_dda_ticks_X_substeps run;
                        run_mot := run_mot run |};
           dwell_event_registered := true;
           hw_log := hw_log st ++ [RegisterDwellEvent; RequestExecMove] |}
    | BLOCK_TYPE_COMMAND =>
        {| st_pre := set_loaded pre (pre_mot pre);
           st_run := run;
           dwell_event_registered := dwell_event_registered st;
           hw_log := hw_log st ++ [RuntimeCommand (pre_bf pre); RequestExecMove] |}
    | _ =>
        {| st_pre := set_loaded pre (pre_mot pre);
           st_run := run;
           dwell_event_registered := dwell_event_registered st;
           hw_log := hw_log st ++ [RequestExecMove] |}
    end.

(** The countdown of [dwell_systick_event]:
    [--st_run.dwell_ticks_downcount == 0] on an unsigned counter. *)
Definition dwell_tick (run : stRunSingleton) : stRunSingleton * bool :=
  let d := to_uint32 (run_dwell_ticks_downcount run - 1) in
  ({| run_dda_ticks_downcount := run_dda_ticks_downcount run;
      run_dwell_ticks_downcount := d;
      run_dda_ticks_X_substeps := run_dda_ticks_X_substeps run;
      run_mot := run_mot run |}, d =? 0).

Definition dwell_systick_event (st : stepper) : stepper :=
  let '(run', fired) := dwell_tick (st_run st) in
  if fired
  then _load_move {| st_pre := st_pre st; st_run := run';
                     dwell_event_registered := false;
                     hw_log := hw_log st ++ [UnregisterDwellEvent] |}
  else {| st_pre := st_pre st; st_run := run';
          dwell_event_registered := dwell_event_registered st;
          hw_log := hw_log st |}.

(** One SysTick interrupt: the registered events run. *)
Definition systick (st : stepper) : stepper :=
  if dwell_event_registered st then dwell_systick_event st else st.

Definition with_pre (st : stepper) (pre : stPrepSingleton) : stepper :=
  {| st_pre := pre; st_run := st_run st;
     dwell_event_registered := dwell_event_registered st;
     hw_log := hw_log st |}.

Definition st_request_load_move (st : stepper) : stepper :=
  if st_runtime_isbusy (st_run st) then st
  else if prepBufferState_eqb (pre_buffer_state (st_pre st)) PREP_BUFFER_OWNED_BY_LOADER
  then _load_move st
  else st.

(** [st_prep_out_of_band_dwell]: a dwell that bypasses the planner,
    prepared and loaded at once when the runtime is idle. *)
Definition st_prep_out_of_band_dwell (st : stepper) (microseconds : F) : stepper :=
  if negb (st_runtime_isbusy (st_run st))
  then st_request_load_move (with_pre st (st_prep_dwell (st_pre st) microseconds))
  else st.

End WithFloat.

Arguments stPrepMotor : clear implicits.
Arguments stPrepSingleton : clear implicits.
Arguments stepper : clear implicits.

(** A configuration to evaluate the model on: the 200 kHz DDA clock,
    1 kHz dwell clock and 32 substeps the specification quotes, and
    [util.h]'s comparison of magnitudes with [EPSILON = 0.00001]. *)
Definition example_settings : Settings B32.b32 :=
  {| FREQUENCY_DDA := B32.of_Z 200000;
     FREQUENCY_DWELL := B32.of_Z 1000;
     DDA_SUBSTEPS := B32.of_Z 32;
     STEP_CORRECTION_THRESHOLD := B32.of_Z 2;
     STEP_CORRECTION_FACTOR := B32.lit (1 # 4);
     STEP_CORRECTION_MAX := B32.lit (6 # 10);
     STEP_CORRECTION_HOLDOFF := 5;
     DIRECTION_CW := 0;
     DIRECTION_CCW := 1;
     fp_ZERO := fun x => SFltb (SFabs x) (B32.lit (1 # 100000));
     fp_NOT_ZERO := fun x => SFltb (B32.lit (1 # 100000)) (SFabs x) |}.

Definition idle_motor : stPrepMotor B32.b32 :=
  {| pre_substep_increment := 0;
     pre_direction := 0;
     pre_prev_direction := 0;
     pre_step_sign := 0;
     pre_accumulator_correction_flag := false;
     pre_accumulator_correction := B32.of_Z 0;
     pre_prev_segment_time := B32.of_Z 0;
     pre_correction_holdoff := 0;
     pre_corrected_steps := B32.of_Z 0 |}.

(** The prep slot after [stepper_init] and [stepper_reset], for one motor. *)
Definition reset_prep : stPrepSingleton B32.b32 :=
  {| pre_buffer_state := PREP_BUFFER_OWNED_BY_EXEC;
     pre_block_type := BLOCK_TYPE_NULL;
     pre_bf := None;
     pre_dda_ticks := 0;
     pre_dda_ticks_X_substeps := 0;
     pre_dwell_ticks := 0;
     pre_mot := [idle_motor] |}.

(** The stepper after [stepper_init] and [stepper_reset], for one motor. *)
Definition reset_stepper : stepper B32.b32 :=
  {| st_pre := reset_prep;
     st_run := {| run_dda_ticks_downcount := 0;
                  run_dwell_ticks_downcount := 0;
                  run_dda_ticks_X_substeps := 0;
                  run_mot := [ {| run_substep_increment := 0;
                                  run_substep_accumulator := 0 |} ] |};
     dwell_event_registered := false;
     hw_log := [] |}.

(** A line segment handed to the loader, for one motor: 1000 ticks of 32
    substeps, 640 substeps per tick, the accumulator at -1000 from the
    previous segment, which ran in direction 0.  [dir] is the direction of
    the new segment, [flag] whether the time base changed (by a factor 2). *)
Definition ready_segment (dir : Z) (flag : bool) : stepper B32.b32 :=
  {| st_pre := {| pre_buffer_state := PREP_BUFFER_OWNED_BY_LOADER;
                  pre_block_type := BLOCK_TYPE_ALINE;
                  pre_bf := None;
                  pre_dda_ticks := 1000;
                  pre_dda_ticks_X_substeps := 32000;
                  pre_dwell_ticks := 0;
                  pre_mot := [ {| pre_substep_increment := 640;
                                  pre_direction := dir;
                                  pre_prev_direction := 0;
                                  pre_step_sign := 1;
                                  pre_accumulator_correction_flag := flag;
                                  pre_accumulator_correction := B32.of_Z 2;
                                  pre_prev_segment_time := B32.lit (1 # 12000);
                                  pre_correction_holdoff := 0;
                                  pre_corrected_steps := B32.of_Z 0 |} ] |};
     st_run := {| run_dda_ticks_downcount := 0;
                  run_dwell_ticks_downcount := 0;
                  run_dda_ticks_X_substeps := 32000;
                  run_mot := [ {| run_substep_increment := 640;
                                  run_substep_accumulator := -1000 |} ] |};
     dwell_event_registered := false;
     hw_log := [] |}.

End Stepper.

(* ================================================================= *)
(** ** Float formatting and parsing (MotateUtilities) *)

Module Util.
Import Arith MachInt.
Open Scope Z_scope.

(** The characters of a C string, the terminating NUL left out. *)
Definition text : Type := list ascii.

Definition text_of (s : string) : text := list_ascii_of_string s.

Definition code (c : ascii) : Z := Z.of_N (N_of_ascii c).

Definition is_digit (c : ascii) : bool := (48 <=? code c) && (code c <=? 57).

Definition digit_value (c : ascii) : Z := code c - 48.

(** ['0' + d] stored in a [char]. *)
Definition digit_char (d : Z) : ascii := ascii_of_N (Z.to_N ((48 + d) mod 256)).

Section WithFloat.
Context {F : Type} `{FloatOps F}.
Local Open Scope float_scope.

(** [c_atof_frac_]: the digits after the point, [v_ + digit * m_], the
    weight [m_] divided by ten at each digit ([m_ / 10.0], a division in
    [double] whose result is passed as a [float]).  Returns the value and
    the text left. *)
Fixpoint c_atof_frac_ (p : text) (v m : F) : F * text :=
  match p with
  | c :: rest =>
      if is_digit c
      then c_atof_frac_ rest (v +! f_of_Z (digit_value c) *! m)
                        (f_of_d (d_of_f m /!! d_lit 10))
      else (v, p)
  | [] => (v, p)
  end.

(** [c_atof_int_]: the digits before the point, accumulated in an [int]
    (overflow of the accumulator is undefined in C; it wraps here). *)
Fixpoint c_atof_int_ (p : text) (v : Z) : F * text :=
  match p with
  | c :: rest =>
      if Ascii.eqb c "."
      then let '(frac, rest') :=
             c_atof_frac_ rest (f_of_Z 0) (f_of_d (d_lit 1 /!! d_lit 10)) in
           (f_of_Z v +! frac, rest')
      else if is_digit c
      then c_atof_int_ rest (to_int32 (digit_value c + v * 10))
      else (f_of_Z v, p)
  | [] => (f_of_Z v, p)
  end.

(** [c_atof]: an optional minus sign, then the number; after a minus sign
    the number is multiplied by the [double] constant [-1.0] and the
    product returned as a [float]. *)
Definition c_atof (p : text) : F * text :=
  match p with
  | c :: rest =>
      if Ascii.eqb c "-"
      then let '(v, rest') := c_atof_int_ rest 0 in
           (f_of_d (d_of_f v *!! d_lit (-1)), rest')
      else c_atof_int_ p 0
  | [] => c_atof_int_ p 0
  end.

Definition atof (buffer : text) : F * text := c_atof buffer.

(** [round_lookup_]: half a unit of the last printed decimal. *)
Definition round_lookup_ : list F :=
  [ f_lit (5 # 10); f_lit (5 # 100); f_lit (5 # 1000); f_lit (5 # 10000);
    f_lit (5 # 100000); f_lit (5 # 1000000); f_lit (5 # 10000000);
    f_lit (5 # 100000000); f_lit (5 # 1000000000); f_lit (5 # 10000000000);
    f_lit (5 # 100000000000) ].

(** The conversion [(int)x]. *)
Definition int_of (x : F) : Z := to_int32 (f_to_Z x).

(** First loop of [c_floattoa]: the decimal digits of the integer part, least
    significant first.  [None] when [maxlen] is exceeded.  The loop runs
    once per decimal digit; [fuel] bounds the number of turns. *)
Fixpoint integer_digits (fuel : nat) (maxlen : Z) (integer_part_ length_ : Z)
         (written : text) : option (Z * text) :=
  if integer_part_ >? 0 then
    match fuel with
    | O => None
    | S fuel' =>
        if length_ >? maxlen then None
        else
          let t_ := integer_part_ / 10 in
          integer_digits fuel' maxlen t_ (length_ + 1)
            (written ++ [digit_char (integer_part_ - t_ * 10)])
    end
  else Some (length_, written).

(** Second loop of [c_floattoa]: [precision] digits of the fraction. *)
Fixpoint fraction_digits (precision : nat) (maxlen : Z) (frac_part_ : F)
         (length_ : Z) (written : text) : option (Z * text) :=
  match precision with
  | O => Some (length_, written)
  | S precision' =>
      if length_ >? maxlen then None
      else
        let scaled := f_of_d (d_of_f frac_part_ *!! d_lit 10) in
        fraction_digits precision' maxlen
          (scaled -! f_of_Z (int_of scaled)) (length_ + 1)
          (written ++ [digit_char (int_of scaled)])
  end.

(** Third loop of [c_floattoa], on the text written, last character first:
    trailing zeros are dropped while more than one character is left. *)
Fixpoint strip_zeros (reversed : text) (length_ : Z) : text * Z :=
  match reversed with
  | c :: rest =>
      if Ascii.eqb c "0" && (length_ >? 1)
      then strip_zeros rest (length_ - 1)
      else (reversed, length_)
  | [] => (reversed, length_)
  end.

Definition strip_point (reversed : text) (length_ : Z) : text * Z :=
  match reversed with
  | c :: rest => if Ascii.eqb c "." then (rest, length_ - 1) else (reversed, length_)
  | [] => (reversed, length_)
  end.

(** [c_floattoa] on a value that is not negative.  Returns the length and
    the characters of the buffer up to that length; reading
    [round_lookup_] outside its eleven entries is undefined in C and reads
    zero here.  The loops test [length_++ > maxlen] before they store a
    character, so that up to [maxlen + 1] characters are stored, and no
    terminating NUL follows the last digit: the text returned is the
    characters stored, whatever the size of the buffer. *)
Definition c_floattoa_nonneg (input : F) (maxlen : Z) (precision : nat) : Z * text :=
  let rounded := input +! nth precision round_lookup_ (f_of_Z 0) in
  let integer_part_ := int_of rounded in
  match integer_digits (S (Z.to_nat (Z.log2 integer_part_))) maxlen integer_part_ 0 [] with
  | None => (0, [])
  | Some (length0, digits) =>
      let int_text := if length0 >? 0 then rev digits else ["0"%char] in
      let int_length_ := if length0 >? 0 then length0 else 1 in
      let frac_part_ := rounded -! f_of_Z (int_of rounded) in
      match fraction_digits precision maxlen frac_part_ (int_length_ + 1)
                            (int_text ++ ["."%char]) with
      | None => (0, [])
      | Some (length1, written) =>
          let '(r1, l1) := strip_zeros (rev written) length1 in
          let '(r2, l2) := strip_point r1 l1 in
          (l2, rev r2)
      end
  end.

(** [c_floattoa]: a negative value is printed as a minus sign followed by
    its opposite, in a buffer one character shorter. *)
Definition c_floattoa (input : F) (maxlen : Z) (precision : nat) : Z * text :=
  if d_of_f input <!! d_lit 0
  then let '(len, written) := c_floattoa_nonneg (f_opp input) (maxlen - 1) precision in
       (len + 1, "-"%char :: written)
  else c_floattoa_nonneg input maxlen precision.

(** Formatting then parsing. *)
Definition floattoa_atof (input : F) (maxlen : Z) (precision : nat) : F :=
  fst (atof (snd (c_floattoa input maxlen precision))).

End WithFloat.

(** The value of a string of fraction digits, [0.d1 d2 ...], and of a
    string of integer digits continuing the value [v]. *)
Fixpoint frac_val (ds : text) : Q :=
  match ds with
  | c :: rest => (inject_Z (digit_value c) + frac_val rest) / 10
  | [] => 0
  end.

Fixpoint int_val (v : Z) (ds : text) : Z :=
  match ds with
  | c :: rest => int_val (digit_value c + v * 10) rest
  | [] => v
  end.

Fixpoint all_digits (ds : text) : bool :=
  match ds with
  | c :: rest => is_digit c && all_digits rest
  | [] => true
  end.

End Util.

(* ================================================================= *)
(** ** G-code parser (gcode_parser.cpp) *)

Module Parser.
Import Arith MachInt Util.
Open Scope Z_scope.

(** *** Characters *)

Definition is_nul (c : ascii) : bool := code c =? 0.

(** [isspace], [isupper], [isalnum] and [toupper] of the C locale. *)
Definition is_space (c : ascii) : bool :=
  (code c =? 32) || ((9 <=? code c) && (code c <=? 13)).

Definition is_upper (c : ascii) : bool := (65 <=? code c) && (code c <=? 90).

Definition is_lower (c : ascii) : bool := (97 <=? code c) && (code c <=? 122).

Definition is_alnum (c : ascii) : bool := is_upper c || is_lower c || is_digit c.

Definition to_upper (c : ascii) : ascii :=
  if is_lower c then ascii_of_N (Z.to_N (code c - 32)) else c.

(** The value of a [char] holding the byte [b], when converted to a wider
    integer type: [char] is signed on some targets, unsigned on others. *)
Definition char_value (signed_char : bool) (b : Z) : Z :=
  if signed_char && (128 <=? b) then b - 256 else b.

(** *** [strtol] and [atol]

    Base 10, for a [long] of 32 bits: white space, an optional sign, digits;
    a value out of range is clamped. *)

Fixpoint skip_spaces (s : text) : text :=
  match s with
  | c :: rest => if is_space c then skip_spaces rest else s
  | [] => []
  end.

Fixpoint decimal_value (s : text) (acc : Z) : Z :=
  match s with
  | c :: rest => if is_digit c then decimal_value rest (acc * 10 + digit_value c) else acc
  | [] => acc
  end.

Definition clamp_long (z : Z) : Z := Z.max (- 2 ^ 31) (Z.min (2 ^ 31 - 1) z).

Definition strtol (s : text) : Z :=
  match skip_spaces s with
  | c :: rest =>
      if Ascii.eqb c "-" then clamp_long (- decimal_value rest 0)
      else if Ascii.eqb c "+" then clamp_long (decimal_value rest 0)
      else clamp_long (decimal_value (c :: rest) 0)
  | [] => 0
  end.

Definition atol (s : text) : Z := strtol s.

(** *** Checksum *)

(** The scanning loop of [_verify_checksum]: the XOR of the characters
    before the first ['*'], NUL, line feed or carriage return, these
    characters, and the text after a ['*'] that stopped the scan. *)
Fixpoint checksum_scan (str : text) (checksum : Z) : Z * text * option text :=
  match str with
  | c :: rest =>
      if is_nul c || Ascii.eqb c "010" || Ascii.eqb c "013"
      then (checksum, [], None)
      else if Ascii.eqb c "*"
      then (checksum, [], Some rest)
      else let '(k, scanned, after) := checksum_scan rest (Z.lxor checksum (code c)) in
           (k, c :: scanned, after)
  | [] => (checksum, [], None)
  end.

(** The line number test of [_verify_checksum]: the line starts with ['N']. *)
Definition has_line_number (str : text) : bool :=
  match str with c :: _ => Ascii.eqb c "N" | [] => false end.

(** [_verify_checksum].  Returns the status, the line (cut at the ['*']
    when there is one) and whether [gf.checksum] was set. *)
Definition _verify_checksum (signed_char : bool) (str : text) : stat_t * text * bool :=
  let '(checksum, scanned, after) := checksum_scan str 0 in
  match after with
  | Some digits =>
      if negb (strtol digits =? char_value signed_char checksum)
      then (STAT_CHECKSUM_MATCH_FAILED, scanned, true)
      else if negb (has_line_number str)
      then (STAT_MISSING_LINE_NUMBER_WITH_CHECKSUM, scanned, true)
      else (STAT_OK, scanned, true)
  | None => (STAT_OK, str, false)
  end.

(** A line carries a checksum field when the scan stops at a ['*']. *)
Definition checksum_field (str : text) : option (Z * text) :=
  match checksum_scan str 0 with
  | (checksum, _, Some digits) => Some (checksum, digits)
  | (_, _, None) => None
  end.

(** *** Normalization *)

Definition is_msg (a b c : ascii) : bool :=
  (Ascii.eqb a "m" || Ascii.eqb a "M")
  && (Ascii.eqb b "s" || Ascii.eqb b "S")
  && (Ascii.eqb c "g" || Ascii.eqb c "G").

(** Whether the text after a ['('] opens an active comment: a ['{'] or
    the letters MSG. *)
Definition opens_active (after : text) : bool :=
  match after with
  | a :: rest =>
      Ascii.eqb a "{"
      || match rest with
         | b :: c :: _ => is_msg a b c
         | _ => false
         end
  | [] => false
  end.

Definition next_is_digit (after : text) : bool :=
  match after with c :: _ => is_digit c | [] => false end.

Definition next_is_nul (after : text) : bool :=
  match after with c :: _ => is_nul c | [] => true end.

(** Where the read pointer [gc_rd] of the first pass is. *)
Inductive gcMode : Type :=
  | GC_main                        (* the main loop *)
  | GC_skip_one (in_string : bool) (* stepping over one character of an active comment *)
  | GC_active (in_string : bool)   (* the loop that skips an active comment *)
  | GC_plain.                      (* the loop that skips a plain comment *)

(** First pass of [_normalize_gcode_block]: the characters kept for the
    G-code text, and the line as the pass leaves it for the second pass
    (a [';'] or ['%'] cuts it, the ['('] of a plain comment becomes a
    space).  After an unterminated plain comment the source reads on
    beyond the terminating NUL; the model stops at the end of the line. *)
Fixpoint normalize_gcode (mode : gcMode) (last_char_was_digit : bool) (str : text)
  : text * text :=
  match str with
  | [] => ([], [])
  | c :: rest =>
      if is_nul c then ([], [])
      else
        match mode with
        | GC_main =>
            if Ascii.eqb c ";" || Ascii.eqb c "%" then ([], [])
            else if Ascii.eqb c "(" then
              if opens_active rest
              then let '(kept, line) := normalize_gcode (GC_skip_one false)
                                          last_char_was_digit rest in
                   (kept, c :: line)
              else let '(kept, line) := normalize_gcode GC_plain last_char_was_digit rest in
                   (kept, " "%char :: line)
            else if negb (is_space c) then
              if is_digit c || Ascii.eqb c "." then
                let do_copy := last_char_was_digit || negb (Ascii.eqb c "0")
                               || negb (next_is_digit rest) in
                let '(kept, line) := normalize_gcode GC_main true rest in
                (if do_copy then to_upper c :: kept else kept, c :: line)
              else if is_alnum c || Ascii.eqb c "-" then
                let '(kept, line) := normalize_gcode GC_main false rest in
                (to_upper c :: kept, c :: line)
              else
                let '(kept, line) := normalize_gcode GC_main last_char_was_digit rest in
                (kept, c :: line)
            else
              let '(kept, line) := normalize_gcode GC_main last_char_was_digit rest in
              (kept, c :: line)
        | GC_skip_one in_string =>
            let '(kept, line) := normalize_gcode (GC_active in_string)
                                   last_char_was_digit rest in
            (kept, c :: line)
        | GC_active in_string =>
            let mode' :=
              if Ascii.eqb c "034" then GC_active true
              else if in_string then
                if Ascii.eqb c "092" && negb (next_is_nul rest)
                then GC_skip_one true else GC_active true
              else if Ascii.eqb c ")" then GC_main
              else GC_active false in
            let '(kept, line) := normalize_gcode mode' last_char_was_digit rest in
            (kept, c :: line)
        | GC_plain =>
            let mode' := if Ascii.eqb c ")" then GC_main else GC_plain in
            let '(kept, line) := normalize_gcode mode' last_char_was_digit rest in
            (kept, c :: line)
        end
  end.

(** Where the read pointer [ac_rd] of the second pass is. *)
Inductive acMode : Type :=
  | AC_main                                     (* looking for a ['('] *)
  | AC_skip (n : nat) (then_copy : option bool) (* stepping over [S n] characters,
                                                   then copying (in a message or
                                                   not) or back to the main loop *)
  | AC_copy (in_msg in_string escaped : bool).  (* the copy loop *)

(** What follows the ['('] the second pass found: the mode to go on with
    and the output, latest character first. *)
Definition open_comment (after : text) (out : text) : acMode * text :=
  let replace_brace (o : text) : option text :=
    match o with
    | c :: o' => if Ascii.eqb c "}" then Some (","%char :: o') else None
    | [] => None
    end in
  match after with
  | a :: rest =>
      let msg := match rest with b :: c :: _ => is_msg a b c | _ => false end in
      if msg then
        let space := match rest with
                     | _ :: _ :: d :: _ => Ascii.eqb d " "
                     | _ => false
                     end in
        let out1 := match replace_brace out with
                    | Some o => o
                    | None => "{"%char :: out
                    end in
        (AC_skip (if space then 3 else 2) (Some true),
         "034"%char :: ":"%char :: "g"%char :: "s"%char :: "m"%char :: out1)
      else if Ascii.eqb a "{" then
        match replace_brace out with
        | Some o => (AC_skip 0 (Some false), o)
        | None => (AC_copy false false false, out)
        end
      else (AC_skip 0 None, out)
  | [] => (AC_main, out)
  end.

(** Second pass of [_normalize_gcode_block]: the active comments of the
    line, merged; [out] is the text written so far, latest character
    first. *)
Fixpoint normalize_comments (mode : acMode) (str : text) (out : text) : text :=
  match str with
  | [] => rev out
  | c :: rest =>
      if is_nul c then rev out
      else
        match mode with
        | AC_main =>
            if Ascii.eqb c "(" then
              let '(mode', out') := open_comment rest out in
              normalize_comments mode' rest out'
            else normalize_comments AC_main rest out
        | AC_skip n then_copy =>
            match n with
            | S n' => normalize_comments (AC_skip n' then_copy) rest out
            | O =>
                match then_copy with
                | Some in_msg => normalize_comments (AC_copy in_msg false false) rest out
                | None => normalize_comments AC_main rest out
                end
            end
        | AC_copy in_msg in_string escaped =>
            if negb in_string && Ascii.eqb c ")"
            then
              normalize_comments (AC_skip 0 None) rest
                (if in_msg then "}"%char :: "034"%char :: out else out)
            else
              let escaped' :=
                if in_string && Ascii.eqb c "092" then true
                else if negb escaped && Ascii.eqb c "034" then escaped
                else false in
              let quote := negb (in_string && Ascii.eqb c "092")
                           && negb escaped && Ascii.eqb c "034" in
              let in_string' := if quote && negb in_msg then negb in_string else in_string in
              let out1 := if quote && in_msg then "092"%char :: out else out in
              let out2 := if in_string || in_msg || negb (Ascii.eqb c " ")
                          then c :: out1 else out1 in
              normalize_comments (AC_copy in_msg in_string' escaped') rest out2
        end
  end.

(** [_normalize_gcode_block]: the G-code text, the active comment and the
    block-delete flag. *)
Definition _normalize_gcode_block (str : text) : text * text * bool :=
  let block_delete_flag :=
    match str with c :: _ => Ascii.eqb c "/" | [] => false end in
  let '(gcode, line) :=
    match str with
    | c :: rest =>
        if Ascii.eqb c "/"
        then let '(kept, line') := normalize_gcode GC_main false rest in (kept, c :: line')
        else normalize_gcode GC_main false str
    | [] => ([], [])
    end in
  (gcode, normalize_comments AC_main line [], block_delete_flag).

(** *** Parsed blocks *)

(** Modal groups, [cmModalGroup]. *)
Inductive cmModalGroup : Type :=
  | MODAL_GROUP_G0 | MODAL_GROUP_G1 | MODAL_GROUP_G2 | MODAL_GROUP_G3
  | MODAL_GROUP_G5 | MODAL_GROUP_G6 | MODAL_GROUP_G7 | MODAL_GROUP_G8
  | MODAL_GROUP_G9 | MODAL_GROUP_G12 | MODAL_GROUP_G13
  | MODAL_GROUP_M4 | MODAL_GROUP_M6 | MODAL_GROUP_M7 | MODAL_GROUP_M8
  | MODAL_GROUP_M9.

Definition cmModalGroup_eq_dec (a b : cmModalGroup) : {a = b} + {a <> b}.
Proof. decide equality. Defined.

Inductive axis : Type :=
  | AXIS_X | AXIS_Y | AXIS_Z | AXIS_A | AXIS_B | AXIS_C | AXIS_U | AXIS_V | AXIS_W.

(** The fields of [GCodeValue_t] and [GCodeFlag_t] (the parameter of the
    macros [SET_MODAL] and [SET_NON_MODAL]). *)
Inductive parm : Type :=
  | next_action | motion_mode | program_flow | linenum
  | target (a : axis) | arc_offset (k : nat) | arc_radius
  | F_word | P_word | S_word | H_word | L_word
  | feed_rate_mode | select_plane | units_mode | coord_system | path_control
  | distance_mode | arc_distance_mode | origin_offset_mode | absolute_override
  | tool | tool_select | tool_change
  | coolant_mist | coolant_flood | coolant_off | spindle_control
  | m48_enable | fro_control | tro_control | spo_control
  | checksum.

Definition parm_eq_dec (a b : parm) : {a = b} + {a <> b}.
Proof. repeat decide equality. Defined.

(** The named constants the parser stores (enumerators of this file and of
    canonical_machine.h). *)
Inductive cmConst : Type :=
  | MOTION_MODE_STRAIGHT_TRAVERSE | MOTION_MODE_STRAIGHT_FEED
  | MOTION_MODE_CW_ARC | MOTION_MODE_CCW_ARC | MOTION_MODE_CANCEL_MOTION_MODE
  | NEXT_ACTION_DWELL | NEXT_ACTION_SET_G10_DATA
  | NEXT_ACTION_GOTO_G28_POSITION | NEXT_ACTION_SET_G28_POSITION
  | NEXT_ACTION_SEARCH_HOME | NEXT_ACTION_SET_ABSOLUTE_ORIGIN
  | NEXT_ACTION_HOMING_NO_SET
  | NEXT_ACTION_GOTO_G30_POSITION | NEXT_ACTION_SET_G30_POSITION
  | NEXT_ACTION_STRAIGHT_PROBE_ERR | NEXT_ACTION_STRAIGHT_PROBE
  | NEXT_ACTION_STRAIGHT_PROBE_AWAY_ERR | NEXT_ACTION_STRAIGHT_PROBE_AWAY
  | NEXT_ACTION_SET_TL_OFFSET | NEXT_ACTION_SET_ADDITIONAL_TL_OFFSET
  | NEXT_ACTION_CANCEL_TL_OFFSET
  | NEXT_ACTION_SET_G92_OFFSETS | NEXT_ACTION_RESET_G92_OFFSETS
  | NEXT_ACTION_SUSPEND_G92_OFFSETS | NEXT_ACTION_RESUME_G92_OFFSETS
  | NEXT_ACTION_JSON_COMMAND_SYNC | NEXT_ACTION_JSON_COMMAND_ASYNC
  | NEXT_ACTION_JSON_WAIT
  | CANON_PLANE_XY | CANON_PLANE_XZ | CANON_PLANE_YZ
  | INCHES | MILLIMETERS
  | ABSOLUTE_OVERRIDE_ON_DISPLAY_WITH_NO_OFFSETS
  | G54 | G55 | G56 | G57 | G58 | G59
  | PATH_EXACT_PATH | PATH_EXACT_STOP | PATH_CONTINUOUS
  | ABSOLUTE_DISTANCE_MODE | INCREMENTAL_DISTANCE_MODE
  | INVERSE_TIME_MODE | UNITS_PER_MINUTE_MODE
  | PROGRAM_STOP | PROGRAM_END
  | SPINDLE_CW | SPINDLE_CCW | SPINDLE_OFF
  | COOLANT_ON | COOLANT_OFF.

Section WithFloat.
Context {F : Type} `{FloatOps F}.
Local Open Scope float_scope.

(** A value stored in a field of [gv]. *)
Inductive gval : Type :=
  | Zeroed                  (* as [memset] leaves it *)
  | Const (c : cmConst)
  | Num (x : F)
  | Int (z : Z)
  | Flag (b : bool).

(** The parser's globals: [gv], [gf] and [gp.modals]. *)
Record parserState : Type := {
  gv : parm -> gval;
  gf : parm -> bool;
  modals : cmModalGroup -> bool
}.

Definition upd {V : Type} (m : parm -> V) (p : parm) (v : V) : parm -> V :=
  fun q => if parm_eq_dec q p then v else m q.

Definition SET_MODAL (m : cmModalGroup) (p : parm) (val : gval) (st : parserState)
  : parserState :=
  {| gv := upd (gv st) p val;
     gf := upd (gf st) p true;
     modals := fun g => if cmModalGroup_eq_dec g m then true else modals st g |}.

Definition SET_NON_MODAL (p : parm) (val : gval) (st : parserState) : parserState :=
  {| gv := upd (gv st) p val;
     gf := upd (gf st) p true;
     modals := modals st |}.

(** [_get_next_gcode_word], after the letter: the value, its integer
    reading, and the number of characters the value takes. *)
Definition word_value (after_letter : text) : F * Z * nat :=
  let '(value, rest) := c_atof after_letter in
  (value, to_int32 (atol after_letter), (List.length after_letter - List.length rest)%nat).

(** [_point]: the first decimal of the value. *)
Definition _point (value : F) : Z :=
  to_uint8 (f_to_Z (value *! f_of_Z 10 -! f_of_Z (f_to_Z value) *! f_of_Z 10)).

(** What the [switch] of [_parse_gcode_block] does with a word. *)
Inductive wordAction : Type :=
  | Modal (m : cmModalGroup) (p : parm) (val : gval)
  | NonModal (p : parm) (val : gval)
  | Ignored
  | Rejected (status : stat_t).

Definition unsupported : wordAction := Rejected STAT_GCODE_COMMAND_UNSUPPORTED.

(** The G words: [switch ((uint8_t)value)] under [case 'G']. *)
Definition g_word (value : F) : wordAction :=
  match to_uint8 (f_to_Z value) with
  | 0 => Modal MODAL_GROUP_G1 motion_mode (Const MOTION_MODE_STRAIGHT_TRAVERSE)
  | 1 => Modal MODAL_GROUP_G1 motion_mode (Const MOTION_MODE_STRAIGHT_FEED)
  | 2 => Modal MODAL_GROUP_G1 motion_mode (Const MOTION_MODE_CW_ARC)
  | 3 => Modal MODAL_GROUP_G1 motion_mode (Const MOTION_MODE_CCW_ARC)
  | 4 => NonModal next_action (Const NEXT_ACTION_DWELL)
  | 10 => Modal MODAL_GROUP_G0 next_action (Const NEXT_ACTION_SET_G10_DATA)
  | 17 => Modal MODAL_GROUP_G2 select_plane (Const CANON_PLANE_XY)
  | 18 => Modal MODAL_GROUP_G2 select_plane (Const CANON_PLANE_XZ)
  | 19 => Modal MODAL_GROUP_G2 select_plane (Const CANON_PLANE_YZ)
  | 20 => Modal MODAL_GROUP_G6 units_mode (Const INCHES)
  | 21 => Modal MODAL_GROUP_G6 units_mode (Const MILLIMETERS)
  | 28 =>
      match _point value with
      | 0 => Modal MODAL_GROUP_G0 next_action (Const NEXT_ACTION_GOTO_G28_POSITION)
      | 1 => Modal MODAL_GROUP_G0 next_action (Const NEXT_ACTION_SET_G28_POSITION)
      | 2 => NonModal next_action (Const NEXT_ACTION_SEARCH_HOME)
      | 3 => NonModal next_action (Const NEXT_ACTION_SET_ABSOLUTE_ORIGIN)
      | 4 => NonModal next_action (Const NEXT_ACTION_HOMING_NO_SET)
      | _ => unsupported
      end
  | 30 =>
      match _point value with
      | 0 => Modal MODAL_GROUP_G0 next_action (Const NEXT_ACTION_GOTO_G30_POSITION)
      | 1 => Modal MODAL_GROUP_G0 next_action (Const NEXT_ACTION_SET_G30_POSITION)
      | _ => unsupported
      end
  | 38 =>
      match _point value with
      | 2 => NonModal next_action (Const NEXT_ACTION_STRAIGHT_PROBE_ERR)
      | 3 => NonModal next_action (Const NEXT_ACTION_STRAIGHT_PROBE)
      | 4 => NonModal next_action (Const NEXT_ACTION_STRAIGHT_PROBE_AWAY_ERR)
      | 5 => NonModal next_action (Const NEXT_ACTION_STRAIGHT_PROBE_AWAY)
      | _ => unsupported
      end
  | 40 => Ignored
  | 43 =>
      match _point value with
      | 0 => NonModal next_action (Const NEXT_ACTION_SET_TL_OFFSET)
      | 2 => NonModal next_action (Const NEXT_ACTION_SET_ADDITIONAL_TL_OFFSET)
      | _ => unsupported
      end
  | 49 => NonModal next_action (Const NEXT_ACTION_CANCEL_TL_OFFSET)
  | 53 => NonModal absolute_override (Const ABSOLUTE_OVERRIDE_ON_DISPLAY_WITH_NO_OFFSETS)
  | 54 => Modal MODAL_GROUP_G12 coord_system (Const G54)
  | 55 => Modal MODAL_GROUP_G12 coord_system (Const G55)
  | 56 => Modal MODAL_GROUP_G12 coord_system (Const G56)
  | 57 => Modal MODAL_GROUP_G12 coord_system (Const G57)
  | 58 => Modal MODAL_GROUP_G12 coord_system (Const G58)
  | 59 => Modal MODAL_GROUP_G12 coord_system (Const G59)
  | 61 =>
      match _point value with
      | 0 => Modal MODAL_GROUP_G13 path_control (Const PATH_EXACT_PATH)
      | 1 => Modal MODAL_GROUP_G13 path_control (Const PATH_EXACT_STOP)
      | _ => unsupported
      end
  | 64 => Modal MODAL_GROUP_G13 path_control (Const PATH_CONTINUOUS)
  | 80 => Modal MODAL_GROUP_G1 motion_mode (Const MOTION_MODE_CANCEL_MOTION_MODE)
  | 90 =>
      match _point value with
      | 0 => Modal MODAL_GROUP_G3 distance_mode (Const ABSOLUTE_DISTANCE_MODE)
      | 1 => Modal MODAL_GROUP_G3 arc_distance_mode (Const ABSOLUTE_DISTANCE_MODE)
      | _ => unsupported
      end
  | 91 =>
      match _point value with
      | 0 => Modal MODAL_GROUP_G3 distance_mode (Const INCREMENTAL_DISTANCE_MODE)
      | 1 => Modal MODAL_GROUP_G3 arc_distance_mode (Const INCREMENTAL_DISTANCE_MODE)
      | _ => unsupported
      end
  | 92 =>
      match _point value with
      | 0 => Modal MODAL_GROUP_G0 next_action (Const NEXT_ACTION_SET_G92_OFFSETS)
      | 1 => NonModal next_action (Const NEXT_ACTION_RESET_G92_OFFSETS)
      | 2 => NonModal next_action (Const NEXT_ACTION_SUSPEND_G92_OFFSETS)
      | 3 => NonModal next_action (Const NEXT_ACTION_RESUME_G92_OFFSETS)
      | _ => unsupported
      end
  | 93 => Modal MODAL_GROUP_G5 feed_rate_mode (Const INVERSE_TIME_MODE)
  | 94 => Modal MODAL_GROUP_G5 feed_rate_mode (Const UNITS_PER_MINUTE_MODE)
  | _ => unsupported
  end.

(** The M words: [switch ((uint8_t)value)] under [case 'M'], without the
    Marlin dialect ([MARLIN_COMPAT_ENABLED] off). *)
Definition m_word (value : F) : wordAction :=
  match to_uint8 (f_to_Z value) with
  | 0 | 1 | 60 => Modal MODAL_GROUP_M4 program_flow (Const PROGRAM_STOP)
  | 2 | 30 => Modal MODAL_GROUP_M4 program_flow (Const PROGRAM_END)
  | 3 => Modal MODAL_GROUP_M7 spindle_control (Const SPINDLE_CW)
  | 4 => Modal MODAL_GROUP_M7 spindle_control (Const SPINDLE_CCW)
  | 5 => Modal MODAL_GROUP_M7 spindle_control (Const SPINDLE_OFF)
  | 6 => NonModal tool_change (Flag true)
  | 7 => Modal MODAL_GROUP_M8 coolant_mist (Const COOLANT_ON)
  | 8 => Modal MODAL_GROUP_M8 coolant_flood (Const COOLANT_ON)
  | 9 => Modal MODAL_GROUP_M8 coolant_off (Const COOLANT_OFF)
  | 48 => Modal MODAL_GROUP_M9 m48_enable (Flag true)
  | 49 => Modal MODAL_GROUP_M9 m48_enable (Flag false)
  | 50 =>
      match _point value with
      | 0 => Modal MODAL_GROUP_M9 fro_control (Flag true)
      | 1 => Modal MODAL_GROUP_M9 tro_control (Flag true)
      | _ => unsupported
      end
  | 51 => Modal MODAL_GROUP_M9 spo_control (Flag true)
  | 100 =>
      match _point value with
      | 0 => NonModal next_action (Const NEXT_ACTION_JSON_COMMAND_SYNC)
      | 1 => NonModal next_action (Const NEXT_ACTION_JSON_COMMAND_ASYNC)
      | _ => unsupported
      end
  | 101 => NonModal next_action (Const NEXT_ACTION_JSON_WAIT)
  | _ => Rejected STAT_MCODE_COMMAND_UNSUPPORTED
  end.

(** The outer [switch (letter)]. *)
Definition word_action (letter : ascii) (value : F) (value_int : Z) : wordAction :=
  let float_field (p : parm) := NonModal p (Num value) in
  let byte_field (p : parm) := NonModal p (Int (to_uint8 (f_to_Z value))) in
  match letter with
  | "G"%char => g_word value
  | "M"%char => m_word value
  | "T"%char => byte_field tool_select
  | "F"%char => float_field F_word
  | "P"%char => float_field P_word
  | "S"%char => float_field S_word
  | "X"%char => float_field (target AXIS_X)
  | "Y"%char => float_field (target AXIS_Y)
  | "Z"%char => float_field (target AXIS_Z)
  | "A"%char => float_field (target AXIS_A)
  | "B"%char => float_field (target AXIS_B)
  | "C"%char => float_field (target AXIS_C)
  | "U"%char => float_field (target AXIS_U)
  | "V"%char => float_field (target AXIS_V)
  | "W"%char => float_field (target AXIS_W)
  | "H"%char => byte_field H_word
  | "I"%char => float_field (arc_offset 0)
  | "J"%char => float_field (arc_offset 1)
  | "K"%char => float_field (arc_offset 2)
  | "L"%char => byte_field L_word
  | "R"%char => float_field arc_radius
  | "N"%char => NonModal linenum (Int (to_uint32 value_int))
  | _ => unsupported
  end.

(** The statuses with which the [switch] rejects a word. *)
Definition rejection_ok (a : wordAction) : Prop :=
  match a with
  | Rejected s => s = STAT_GCODE_COMMAND_UNSUPPORTED \/ s = STAT_MCODE_COMMAND_UNSUPPORTED
  | _ => True
  end.

Definition apply_action (a : wordAction) (st : parserState) : stat_t * parserState :=
  match a with
  | Modal m p val => (STAT_OK, SET_MODAL m p val st)
  | NonModal p val => (STAT_OK, SET_NON_MODAL p val st)
  | Ignored => (STAT_OK, st)
  | Rejected status => (status, st)
  end.

(** The word loop of [_parse_gcode_block].  A turn reads a letter and its
    value; [skip] counts the characters of that value the read pointer
    still has to pass.  The loop ends with the status that stops it:
    [STAT_COMPLETE] at the end of the text, or an error. *)
Fixpoint parse_words (pstr : text) (skip : nat) (st : parserState)
  : stat_t * parserState :=
  match pstr with
  | [] => (STAT_COMPLETE, st)
  | c :: rest =>
      match skip with
      | S n => parse_words rest n st
      | O =>
          if is_nul c then (STAT_COMPLETE, st)
          else if negb (is_upper c) then (STAT_INVALID_OR_MALFORMED_COMMAND, st)
          else
            let '(value, value_int, n) := word_value rest in
            if Nat.eqb n 0 then (STAT_BAD_NUMBER_FORMAT, st)
            else
              let '(status, st') := apply_action (word_action c value value_int) st in
              if stat_eqb status STAT_OK then parse_words rest n st' else (status, st')
      end
  end.

(** [_validate_gcode_block]: its checks are commented out in the source. *)
Definition _validate_gcode_block (st : parserState) (active_comment : text) : stat_t :=
  STAT_OK.

(** The canonical machine and the platform, as the parser sees them.
    [_execute_gcode_block] hands the parsed block to the canonical machine,
    one call per flag set, in the order of NIST RS274NGC table 8; the model
    stops at that boundary.  [cm_is_alarmed] is asked after [cm_parse_clear]
    has seen the text. *)
Record Machine : Type := {
  char_is_signed : bool;
  cm_get_motion_mode : gval;
  feed_rate_mode_is_inverse_time : bool;
  cm_is_alarmed : text -> stat_t;
  _execute_gcode_block : parserState -> text -> stat_t
}.

(** The result of a call of the parser: the status returned, the block
    handed to [_execute_gcode_block] if any, and the parser's globals. *)
Record parseResult : Type := {
  status : stat_t;
  dispatched : option (parserState * text);
  globals : parserState
}.

Definition cleared (cm : Machine) (st : parserState) : parserState :=
  let gv0 := upd (fun _ => Zeroed) motion_mode (cm_get_motion_mode cm) in
  {| gv := if feed_rate_mode_is_inverse_time cm
           then upd gv0 F_word (Num (f_of_Z 0)) else gv0;
     gf := if feed_rate_mode_is_inverse_time cm
           then upd (fun _ => false) F_word true else (fun _ => false);
     modals := modals st |}.

Definition _parse_gcode_block (cm : Machine) (st : parserState)
           (buf active_comment : text) : parseResult :=
  let '(scan, st') := parse_words buf 0 (cleared cm st) in
  if negb (stat_eqb scan STAT_OK) && negb (stat_eqb scan STAT_COMPLETE)
  then {| status := scan; dispatched := None; globals := st' |}
  else
    let valid := _validate_gcode_block st' active_comment in
    if negb (stat_eqb valid STAT_OK)
    then {| status := valid; dispatched := None; globals := st' |}
    else {| status := _execute_gcode_block cm st' active_comment;
            dispatched := Some (st', active_comment);
            globals := st' |}.

Definition set_checksum_flag (st : parserState) : parserState :=
  {| gv := gv st; gf := upd (gf st) checksum true; modals := modals st |}.

(** [gcode_parser]: the top level. *)
Definition gcode_parser (cm : Machine) (st : parserState) (block : text) : parseResult :=
  let '(check_ret, str, flagged) := _verify_checksum (char_is_signed cm) block in
  let st1 := if flagged then set_checksum_flag st else st in
  if negb (stat_eqb check_ret STAT_OK)
  then {| status := check_ret; dispatched := None; globals := st1 |}
  else
    let '(gcode, active_comment, block_delete_flag) := _normalize_gcode_block str in
    match gcode with
    | [] => {| status := STAT_OK; dispatched := None; globals := st1 |}
    | _ :: _ =>
        let alarm := cm_is_alarmed cm gcode in
        if negb (stat_eqb alarm STAT_OK)
        then {| status := alarm; dispatched := None; globals := st1 |}
        else if block_delete_flag
        then {| status := STAT_NOOP; dispatched := None; globals := st1 |}
        else _parse_gcode_block cm st1 gcode active_comment
    end.

End WithFloat.

Arguments gval : clear implicits.
Arguments parserState : clear implicits.
Arguments Machine : clear implicits.
Arguments parseResult : clear implicits.
Arguments wordAction : clear implicits.

(** The modal group of the G-code numbered [n] (integer part), for those
    the parser files under a group. *)
Definition g_group (n : Z) : option cmModalGroup :=
  match @g_word Q exact (inject_Z n) with
  | Modal m _ _ => Some m
  | _ => None
  end.

(** A machine to evaluate the parser on: signed characters, the previous
    motion mode a straight feed, feed per minute, no alarm, every block
    accepted by the canonical machine. *)
Definition example_machine : Machine B32.b32 :=
  {| char_is_signed := true;
     cm_get_motion_mode := Const MOTION_MODE_STRAIGHT_FEED;
     feed_rate_mode_is_inverse_time := false;
     cm_is_alarmed := fun _ => STAT_OK;
     _execute_gcode_block := fun _ _ => STAT_OK |}.

(** The parser's globals after [gcode_parser_init]. *)
Definition initial_state : parserState B32.b32 :=
  {| gv := fun _ => Zeroed; gf := fun _ => false; modals := fun _ => false |}.

End Parser.


(* ================================================================= *)
(** ** Planner runtime and move execution (planner.h, plan_exec.cpp) *)

Module Planner.
Import Arith MachInt Stepper.
Open Scope Z_scope.

(** [bufferState] of planner.h, in the order of the enumeration. *)
Inductive bufferState : Type :=
  | MP_BUFFER_EMPTY
  | MP_BUFFER_INITIALIZING
  | MP_BUFFER_NOT_PLANNED
  | MP_BUFFER_BACK_PLANNED
  | MP_BUFFER_FULLY_PLANNED
  | MP_BUFFER_RUNNING
  | MP_BUFFER_POLAND
  | MP_BUFFER_UKRAINE.

Definition bufferState_rank (s : bufferState) : nat :=
  match s with
  | MP_BUFFER_EMPTY => 0
  | MP_BUFFER_INITIALIZING => 1
  | MP_BUFFER_NOT_PLANNED => 2
  | MP_BUFFER_BACK_PLANNED => 3
  | MP_BUFFER_FULLY_PLANNED => 4
  | MP_BUFFER_RUNNING => 5
  | MP_BUFFER_POLAND => 6
  | MP_BUFFER_UKRAINE => 7
  end.

Definition bufferState_eqb (a b : bufferState) : bool :=
  Nat.eqb (bufferState_rank a) (bufferState_rank b).

Definition bufferState_ltb (a b : bufferState) : bool :=
  Nat.ltb (bufferState_rank a) (bufferState_rank b).

Definition bufferState_leb (a b : bufferState) : bool :=
  Nat.leb (bufferState_rank a) (bufferState_rank b).

Inductive blockState : Type :=
  | BLOCK_INACTIVE
  | BLOCK_INITIAL_ACTION
  | BLOCK_ACTIVE.

Definition blockState_eqb (a b : blockState) : bool :=
  match a, b with
  | BLOCK_INACTIVE, BLOCK_INACTIVE => true
  | BLOCK_INITIAL_ACTION, BLOCK_INITIAL_ACTION => true
  | BLOCK_ACTIVE, BLOCK_ACTIVE => true
  | _, _ => false
  end.

Inductive moveSection : Type :=
  | SECTION_HEAD
  | SECTION_BODY
  | SECTION_TAIL.

Definition moveSection_eqb (a b : moveSection) : bool :=
  match a, b with
  | SECTION_HEAD, SECTION_HEAD => true
  | SECTION_BODY, SECTION_BODY => true
  | SECTION_TAIL, SECTION_TAIL => true
  | _, _ => false
  end.

Inductive sectionState : Type :=
  | SECTION_OFF
  | SECTION_NEW
  | SECTION_RUNNING.

Definition sectionState_eqb (a b : sectionState) : bool :=
  match a, b with
  | SECTION_OFF, SECTION_OFF => true
  | SECTION_NEW, SECTION_NEW => true
  | SECTION_RUNNING, SECTION_RUNNING => true
  | _, _ => false
  end.

(** Modelled from the spec: the feedhold states, in the order of the
    specification's state list (the enumeration is declared in
    canonical_machine.h).  [FEEDHOLD_HOLD] stands for the states that
    follow [FEEDHOLD_MOTION_STOPPED] (the hold itself and its exit), which
    the executor only tests with [>= FEEDHOLD_MOTION_STOPPED]. *)
Inductive cmFeedholdState : Type :=
  | FEEDHOLD_OFF
  | FEEDHOLD_SYNC
  | FEEDHOLD_DECEL_CONTINUE
  | FEEDHOLD_DECEL_TO_ZERO
  | FEEDHOLD_DECEL_COMPLETE
  | FEEDHOLD_MOTION_STOPPING
  | FEEDHOLD_MOTION_STOPPED
  | FEEDHOLD_HOLD.

Definition cmFeedholdState_rank (s : cmFeedholdState) : nat :=
  match s with
  | FEEDHOLD_OFF => 0
  | FEEDHOLD_SYNC => 1
  | FEEDHOLD_DECEL_CONTINUE => 2
  | FEEDHOLD_DECEL_TO_ZERO => 3
  | FEEDHOLD_DECEL_COMPLETE => 4
  | FEEDHOLD_MOTION_STOPPING => 5
  | FEEDHOLD_MOTION_STOPPED => 6
  | FEEDHOLD_HOLD => 7
  end.

Definition cmFeedholdState_eqb (a b : cmFeedholdState) : bool :=
  Nat.eqb (cmFeedholdState_rank a) (cmFeedholdState_rank b).

(** The motion states the executor names ([cm->motion_state]);
    [MOTION_OTHER] stands for the remaining values of the enumeration of
    canonical_machine.h. *)
Inductive cmMotionState : Type :=
  | MOTION_STOP
  | MOTION_RUN
  | MOTION_OTHER.

Definition cmMotionState_eqb (a b : cmMotionState) : bool :=
  match a, b with
  | MOTION_STOP, MOTION_STOP => true
  | MOTION_RUN, MOTION_RUN => true
  | MOTION_OTHER, MOTION_OTHER => true
  | _, _ => false
  end.

(** The callback of a planner buffer ([bf->bf_func]): the line executor of
    plan_exec.cpp, or one of the callbacks defined in other files (dwell,
    command, ...), told apart by a number. *)
Inductive bfFunc : Type :=
  | BF_mp_exec_aline
  | BF_callback (id : nat).

(** A call into the stepper preparation made by the executor. *)
Inductive prepCall : Type :=
  | PrepLine
  | PrepNull
  | PrepDwell
  | PrepCommand.

(** Requests the executor sends to other interrupt levels and modules. *)
Inductive request : Type :=
  | RequestForwardPlan
  | RequestStatusReport (immediate : bool)
  | PlannerTimeAccounting
  | CycleEnd.

Section WithFloat.
Context {F : Type} `{FloatOps F}.
Variable hw : Settings F.
Local Open Scope float_scope.

(** Segment timing constants of planner.h. *)
Definition MIN_SEGMENT_MS : F := f_lit (75 # 100).
Definition NOM_SEGMENT_MS : F := MIN_SEGMENT_MS *! f_of_Z 2.
Definition NOM_SEGMENT_USEC : F := NOM_SEGMENT_MS *! f_of_Z 1000.
Definition MIN_SEGMENT_TIME : F := MIN_SEGMENT_MS /! f_of_Z 60000.

(** The runtime part of a planned block ([mpBlockRuntimeBuf_t]); the [nx]
    link of the two-block ring is the other block. *)
Record mpBlockRuntimeBuf : Type := {
  head_length : F;
  body_length : F;
  tail_length : F;
  head_time : F;
  body_time : F;
  tail_time : F;
  cruise_velocity : F;
  exit_velocity : F
}.

Definition set_head_length (v : F) (x : mpBlockRuntimeBuf) : mpBlockRuntimeBuf :=
  {| head_length := v; body_length := body_length x;
     tail_length := tail_length x; head_time := head_time x;
     body_time := body_time x; tail_time := tail_time x;
     cruise_velocity := cruise_velocity x;
     exit_velocity := exit_velocity x |}.

Definition set_body_length (v : F) (x : mpBlockRuntimeBuf) : mpBlockRuntimeBuf :=
  {| head_length := head_length x; body_length := v;
     tail_length := tail_length x; head_time := head_time x;
     body_time := body_time x; tail_time := tail_time x;
     cruise_velocity := cruise_velocity x;
     exit_velocity := exit_velocity x |}.

Definition set_tail_length (v : F) (x : mpBlockRuntimeBuf) : mpBlockRuntimeBuf :=
  {| head_length := head_length x; body_length := body_length x;
     tail_length := v; head_time := head_time x; body_time := body_time x;
     tail_time := tail_time x; cruise_velocity := cruise_velocity x;
     exit_velocity := exit_velocity x |}.

Definition set_head_time (v : F) (x : mpBlockRuntimeBuf) : mpBlockRuntimeBuf :=
  {| head_length := head_length x; body_length := body_length x;
     tail_length := tail_length x; head_time := v; body_time := body_time x;
     tail_time := tail_time x; cruise_velocity := cruise_velocity x;
     exit_velocity := exit_velocity x |}.

Definition set_body_time (v : F) (x : mpBlockRuntimeBuf) : mpBlockRuntimeBuf :=
  {| head_length := head_length x; body_length := body_length x;
     tail_length := tail_length x; head_time := head_time x; body_time := v;
     tail_time := tail_time x; cruise_velocity := cruise_velocity x;
     exit_velocity := exit_velocity x |}.

Definition set_tail_time (v : F) (x : mpBlockRuntimeBuf) : mpBlockRuntimeBuf :=
  {| head_length := head_length x; body_length := body_length x;
     tail_length := tail_length x; head_time := head_time x;
     body_time := body_time x; tail_time := v;
     cruise_velocity := cruise_velocity x;
     exit_velocity := exit_velocity x |}.

Definition set_cruise_velocity (v : F) (x : mpBlockRuntimeBuf) : mpBlockRuntimeBuf :=
  {| head_length := head_length x; body_length := body_length x;
     tail_length := tail_length x; head_time := head_time x;
     body_time := body_time x; tail_time := tail_time x;
     cruise_velocity := v; exit_velocity := exit_velocity x |}.

Definition set_exit_velocity (v : F) (x : mpBlockRuntimeBuf) : mpBlockRuntimeBuf :=
  {| head_length := head_length x; body_length := body_length x;
     tail_length := tail_length x; head_time := head_time x;
     body_time := body_time x; tail_time := tail_time x;
     cruise_velocity := cruise_velocity x; exit_velocity := v |}.


(** A planner buffer ([mpBuf_t]), with the fields the executor reads or
    writes; [bf_gm_target] is [gm.target], [bf_gm_target_comp] is
    [gm.target_comp]. *)
Record mpBuf : Type := {
  buffer_state : bufferState;
  block_type : blockType;
  bf_block_state : blockState;
  plannable : bool;
  bf_length : F;
  block_time : F;
  bf_func : option bfFunc;
  bf_unit : list F;
  bf_axis_flags : list bool;
  bf_gm_target : list F;
  bf_gm_target_comp : list F
}.

Definition set_buffer_state (v : bufferState) (x : mpBuf) : mpBuf :=
  {| buffer_state := v; block_type := block_type x;
     bf_block_state := bf_block_state x; plannable := plannable x;
     bf_length := bf_length x; block_time := block_time x;
     bf_func := bf_func x; bf_unit := bf_unit x;
     bf_axis_flags := bf_axis_flags x; bf_gm_target := bf_gm_target x;
     bf_gm_target_comp := bf_gm_target_comp x |}.

Definition set_block_type (v : blockType) (x : mpBuf) : mpBuf :=
  {| buffer_state := buffer_state x; block_type := v;
     bf_block_state := bf_block_state x; plannable := plannable x;
     bf_length := bf_length x; block_time := block_time x;
     bf_func := bf_func x; bf_unit := bf_unit x;
     bf_axis_flags := bf_axis_flags x; bf_gm_target := bf_gm_target x;
     bf_gm_target_comp := bf_gm_target_comp x |}.

Definition set_bf_block_state (v : blockState) (x : mpBuf) : mpBuf :=
  {| buffer_state := buffer_state x; block_type := block_type x;
     bf_block_state := v; plannable := plannable x; bf_length := bf_length x;
     block_time := block_time x; bf_func := bf_func x; bf_unit := bf_unit x;
     bf_axis_flags := bf_axis_flags x; bf_gm_target := bf_gm_target x;
     bf_gm_target_comp := bf_gm_target_comp x |}.

Definition set_plannable (v : bool) (x : mpBuf) : mpBuf :=
  {| buffer_state := buffer_state x; block_type := block_type x;
     bf_block_state := bf_block_state x; plannable := v;
     bf_length := bf_length x; block_time := block_time x;
     bf_func := bf_func x; bf_unit := bf_unit x;
     bf_axis_flags := bf_axis_flags x; bf_gm_target := bf_gm_target x;
     bf_gm_target_comp := bf_gm_target_comp x |}.

Definition set_bf_length (v : F) (x : mpBuf) : mpBuf :=
  {| buffer_state := buffer_state x; block_type := block_type x;
     bf_block_state := bf_block_state x; plannable := plannable x;
     bf_length := v; block_time := block_time x; bf_func := bf_func x;
     bf_unit := bf_unit x; bf_axis_flags := bf_axis_flags x;
     bf_gm_target := bf_gm_target x;
     bf_gm_target_comp := bf_gm_target_comp x |}.

Definition set_block_time (v : F) (x : mpBuf) : mpBuf :=
  {| buffer_state := buffer_state x; block_type := block_type x;
     bf_block_state := bf_block_state x; plannable := plannable x;
     bf_length := bf_length x; block_time := v; bf_func := bf_func x;
     bf_unit := bf_unit x; bf_axis_flags := bf_axis_flags x;
     bf_gm_target := bf_gm_target x;
     bf_gm_target_comp := bf_gm_target_comp x |}.

Definition set_bf_func (v : option bfFunc) (x : mpBuf) : mpBuf :=
  {| buffer_state := buffer_state x; block_type := block_type x;
     bf_block_state := bf_block_state x; plannable := plannable x;
     bf_length := bf_length x; block_time := block_time x; bf_func := v;
     bf_unit := bf_unit x; bf_axis_flags := bf_axis_flags x;
     bf_gm_target := bf_gm_target x;
     bf_gm_target_comp := bf_gm_target_comp x |}.

Definition set_bf_unit (v : list F) (x : mpBuf) : mpBuf :=
  {| buffer_state := buffer_state x; block_type := block_type x;
     bf_block_state := bf_block_state x; plannable := plannable x;
     bf_length := bf_length x; block_time := block_time x;
     bf_func := bf_func x; bf_unit := v; bf_axis_flags := bf_axis_flags x;
     bf_gm_target := bf_gm_target x;
     bf_gm_target_comp := bf_gm_target_comp x |}.

Definition set_bf_axis_flags (v : list bool) (x : mpBuf) : mpBuf :=
  {| buffer_state := buffer_state x; block_type := block_type x;
     bf_block_state := bf_block_state x; plannable := plannable x;
     bf_length := bf_length x; block_time := block_time x;
     bf_func := bf_func x; bf_unit := bf_unit x; bf_axis_flags := v;
     bf_gm_target := bf_gm_target x;
     bf_gm_target_comp := bf_gm_target_comp x |}.

Definition set_bf_gm_target (v : list F) (x : mpBuf) : mpBuf :=
  {| buffer_state := buffer_state x; block_type := block_type x;
     bf_block_state := bf_block_state x; plannable := plannable x;
     bf_length := bf_length x; block_time := block_time x;
     bf_func := bf_func x; bf_unit := bf_unit x;
     bf_axis_flags := bf_axis_flags x; bf_gm_target := v;
     bf_gm_target_comp := bf_gm_target_comp x |}.

Definition set_bf_gm_target_comp (v : list F) (x : mpBuf) : mpBuf :=
  {| buffer_state := buffer_state x; block_type := block_type x;
     bf_block_state := bf_block_state x; plannable := plannable x;
     bf_length := bf_length x; block_time := block_time x;
     bf_func := bf_func x; bf_unit := bf_unit x;
     bf_axis_flags := bf_axis_flags x; bf_gm_target := bf_gm_target x;
     bf_gm_target_comp := v |}.


(** The planner queue ([mpPlannerQueue_t]): run and write cursors and the
    buffer pool, a ring in which [nx] is the next index. *)
Record mpPlannerQueue : Type := {
  q_r : nat;
  q_w : nat;
  buffers_available : Z;
  q_bf : list mpBuf
}.

Definition set_q_r (v : nat) (x : mpPlannerQueue) : mpPlannerQueue :=
  {| q_r := v; q_w := q_w x; buffers_available := buffers_available x;
     q_bf := q_bf x |}.

Definition set_q_w (v : nat) (x : mpPlannerQueue) : mpPlannerQueue :=
  {| q_r := q_r x; q_w := v; buffers_available := buffers_available x;
     q_bf := q_bf x |}.

Definition set_buffers_available (v : Z) (x : mpPlannerQueue) : mpPlannerQueue :=
  {| q_r := q_r x; q_w := q_w x; buffers_available := v; q_bf := q_bf x |}.

Definition set_q_bf (v : list mpBuf) (x : mpPlannerQueue) : mpPlannerQueue :=
  {| q_r := q_r x; q_w := q_w x; buffers_available := buffers_available x;
     q_bf := v |}.


(** The planner runtime ([mpPlannerRuntime_t], [mr]).  [r] and [p] say
    which of the two blocks is running and which is being planned (false
    for [block[0]]); [gm_target] and [gm_target_comp] are the fields of
    [gm] the executor uses. *)
Record mpPlannerRuntime : Type := {
  block_state : blockState;
  section : moveSection;
  section_state : sectionState;
  out_of_band_dwell_flag : bool;
  out_of_band_dwell_seconds : F;
  mr_unit : list F;
  axis_flags : list bool;
  target : list F;
  position : list F;
  waypoint : moveSection -> list F;
  target_steps : list F;
  position_steps : list F;
  commanded_steps : list F;
  encoder_steps : list F;
  following_error : list F;
  r_index : bool;
  p_index : bool;
  block0 : mpBlockRuntimeBuf;
  block1 : mpBlockRuntimeBuf;
  entry_velocity : F;
  segments : F;
  segment_count : Z;
  segment_velocity : F;
  segment_time : F;
  forward_diff_1 : F;
  forward_diff_2 : F;
  forward_diff_3 : F;
  forward_diff_4 : F;
  forward_diff_5 : F;
  gm_target : list F;
  gm_target_comp : list F
}.

Definition set_block_state (v : blockState) (x : mpPlannerRuntime) : mpPlannerRuntime :=
  {| block_state := v; section := section x;
     section_state := section_state x;
     out_of_band_dwell_flag := out_of_band_dwell_flag x;
     out_of_band_dwell_seconds := out_of_band_dwell_seconds x;
     mr_unit := mr_unit x; axis_flags := axis_flags x; target := target x;
     position := position x; waypoint := waypoint x;
     target_steps := target_steps x; position_steps := position_steps x;
     commanded_steps := commanded_steps x; encoder_steps := encoder_steps x;
     following_error := following_error x; r_index := r_index x;
     p_index := p_index x; block0 := block0 x; block1 := block1 x;
     entry_velocity := entry_velocity x; segments := segments x;
     segment_count := segment_count x;
     segment_velocity := segment_velocity x; segment_time := segment_time x;
     forward_diff_1 := forward_diff_1 x; forward_diff_2 := forward_diff_2 x;
     forward_diff_3 := forward_diff_3 x; forward_diff_4 := forward_diff_4 x;
     forward_diff_5 := forward_diff_5 x; gm_target := gm_target x;
     gm_target_comp := gm_target_comp x |}.

Definition set_section (v : moveSection) (x : mpPlannerRuntime) : mpPlannerRuntime :=
  {| block_state := block_state x; section := v;
     section_state := section_state x;
     out_of_band_dwell_flag := out_of_band_dwell_flag x;
     out_of_band_dwell_seconds := out_of_band_dwell_seconds x;
     mr_unit := mr_unit x; axis_flags := axis_flags x; target := target x;
     position := position x; waypoint := waypoint x;
     target_steps := target_steps x; position_steps := position_steps x;
     commanded_steps := commanded_steps x; encoder_steps := encoder_steps x;
     following_error := following_error x; r_index := r_index x;
     p_index := p_index x; block0 := block0 x; block1 := block1 x;
     entry_velocity := entry_velocity x; segments := segments x;
     segment_count := segment_count x;
     segment_velocity := segment_velocity x; segment_time := segment_time x;
     forward_diff_1 := forward_diff_1 x; forward_diff_2 := forward_diff_2 x;
     forward_diff_3 := forward_diff_3 x; forward_diff_4 := forward_diff_4 x;
     forward_diff_5 := forward_diff_5 x; gm_target := gm_target x;
     gm_target_comp := gm_target_comp x |}.

Definition set_section_state (v : sectionState) (x : mpPlannerRuntime) : mpPlannerRuntime :=
  {| block_state := block_state x; section := section x; section_state := v;
     out_of_band_dwell_flag := out_of_band_dwell_flag x;
     out_of_band_dwell_seconds := out_of_band_dwell_seconds x;
     mr_unit := mr_unit x; axis_flags := axis_flags x; target := target x;
     position := position x; waypoint := waypoint x;
     target_steps := target_steps x; position_steps := position_steps x;
     commanded_steps := commanded_steps x; encoder_steps := encoder_steps x;
     following_error := following_error x; r_index := r_index x;
     p_index := p_index x; block0 := block0 x; block1 := block1 x;
     entry_velocity := entry_velocity x; segments := segments x;
     segment_count := segment_count x;
     segment_velocity := segment_velocity x; segment_time := segment_time x;
     forward_diff_1 := forward_diff_1 x; forward_diff_2 := forward_diff_2 x;
     forward_diff_3 := forward_diff_3 x; forward_diff_4 := forward_diff_4 x;
     forward_diff_5 := forward_diff_5 x; gm_target := gm_target x;
     gm_target_comp := gm_target_comp x |}.

Definition set_out_of_band_dwell_flag (v : bool) (x : mpPlannerRuntime) : mpPlannerRuntime :=
  {| block_state := block_state x; section := section x;
     section_state := section_state x; out_of_band_dwell_flag := v;
     out_of_band_dwell_seconds := out_of_band_dwell_seconds x;
     mr_unit := mr_unit x; axis_flags := axis_flags x; target := target x;
     position := position x; waypoint := waypoint x;
     target_steps := target_steps x; position_steps := position_steps x;
     commanded_steps := commanded_steps x; encoder_steps := encoder_steps x;
     following_error := following_error x; r_index := r_index x;
     p_index := p_index x; block0 := block0 x; block1 := block1 x;
     entry_velocity := entry_velocity x; segments := segments x;
     segment_count := segment_count x;
     segment_velocity := segment_velocity x; segment_time := segment_time x;
     forward_diff_1 := forward_diff_1 x; forward_diff_2 := forward_diff_2 x;
     forward_diff_3 := forward_diff_3 x; forward_diff_4 := forward_diff_4 x;
     forward_diff_5 := forward_diff_5 x; gm_target := gm_target x;
     gm_target_comp := gm_target_comp x |}.

Definition set_out_of_band_dwell_seconds (v : F) (x : mpPlannerRuntime) : mpPlannerRuntime :=
  {| block_state := block_state x; section := section x;
     section_state := section_state x;
     out_of_band_dwell_flag := out_of_band_dwell_flag x;
     out_of_band_dwell_seconds := v; mr_unit := mr_unit x;
     axis_flags := axis_flags x; target := target x; position := position x;
     waypoint := waypoint x; target_steps := target_steps x;
     position_steps := position_steps x;
     commanded_steps := commanded_steps x; encoder_steps := encoder_steps x;
     following_error := following_error x; r_index := r_index x;
     p_index := p_index x; block0 := block0 x; block1 := block1 x;
     entry_velocity := entry_velocity x; segments := segments x;
     segment_count := segment_count x;
     segment_velocity := segment_velocity x; segment_time := segment_time x;
     forward_diff_1 := forward_diff_1 x; forward_diff_2 := forward_diff_2 x;
     forward_diff_3 := forward_diff_3 x; forward_diff_4 := forward_diff_4 x;
     forward_diff_5 := forward_diff_5 x; gm_target := gm_target x;
     gm_target_comp := gm_target_comp x |}.

Definition set_mr_unit (v : list F) (x : mpPlannerRuntime) : mpPlannerRuntime :=
  {| block_state := block_state x; section := section x;
     section_state := section_state x;
     out_of_band_dwell_flag := out_of_band_dwell_flag x;
     out_of_band_dwell_seconds := out_of_band_dwell_seconds x; mr_unit := v;
     axis_flags := axis_flags x; target := target x; position := position x;
     waypoint := waypoint x; target_steps := target_steps x;
     position_steps := position_steps x;
     commanded_steps := commanded_steps x; encoder_steps := encoder_steps x;
     following_error := following_error x; r_index := r_index x;
     p_index := p_index x; block0 := block0 x; block1 := block1 x;
     entry_velocity := entry_velocity x; segments := segments x;
     segment_count := segment_count x;
     segment_velocity := segment_velocity x; segment_time := segment_time x;
     forward_diff_1 := forward_diff_1 x; forward_diff_2 := forward_diff_2 x;
     forward_diff_3 := forward_diff_3 x; forward_diff_4 := forward_diff_4 x;
     forward_diff_5 := forward_diff_5 x; gm_target := gm_target x;
     gm_target_comp := gm_target_comp x |}.

Definition set_axis_flags (v : list bool) (x : mpPlannerRuntime) : mpPlannerRuntime :=
  {| block_state := block_state x; section := section x;
     section_state := section_state x;
     out_of_band_dwell_flag := out_of_band_dwell_flag x;
     out_of_band_dwell_seconds := out_of_band_dwell_seconds x;
     mr_unit := mr_unit x; axis_flags := v; target := target x;
     position := position x; waypoint := waypoint x;
     target_steps := target_steps x; position_steps := position_steps x;
     commanded_steps := commanded_steps x; encoder_steps := encoder_steps x;
     following_error := following_error x; r_index := r_index x;
     p_index := p_index x; block0 := block0 x; block1 := block1 x;
     entry_velocity := entry_velocity x; segments := segments x;
     segment_count := segment_count x;
     segment_velocity := segment_velocity x; segment_time := segment_time x;
     forward_diff_1 := forward_diff_1 x; forward_diff_2 := forward_diff_2 x;
     forward_diff_3 := forward_diff_3 x; forward_diff_4 := forward_diff_4 x;
     forward_diff_5 := forward_diff_5 x; gm_target := gm_target x;
     gm_target_comp := gm_target_comp x |}.

Definition set_target (v : list F) (x : mpPlannerRuntime) : mpPlannerRuntime :=
  {| block_state := block_state x; section := section x;
     section_state := section_state x;
     out_of_band_dwell_flag := out_of_band_dwell_flag x;
     out_of_band_dwell_seconds := out_of_band_dwell_seconds x;
     mr_unit := mr_unit x; axis_flags := axis_flags x; target := v;
     position := position x; waypoint := waypoint x;
     target_steps := target_steps x; position_steps := position_steps x;
     commanded_steps := commanded_steps x; encoder_steps := encoder_steps x;
     following_error := following_error x; r_index := r_index x;
     p_index := p_index x; block0 := block0 x; block1 := block1 x;
     entry_velocity := entry_velocity x; segments := segments x;
     segment_count := segment_count x;
     segment_velocity := segment_velocity x; segment_time := segment_time x;
     forward_diff_1 := forward_diff_1 x; forward_diff_2 := forward_diff_2 x;
     forward_diff_3 := forward_diff_3 x; forward_diff_4 := forward_diff_4 x;
     forward_diff_5 := forward_diff_5 x; gm_target := gm_target x;
     gm_target_comp := gm_target_comp x |}.

Definition set_position (v : list F) (x : mpPlannerRuntime) : mpPlannerRuntime :=
  {| block_state := block_state x; section := section x;
     section_state := section_state x;
     out_of_band_dwell_flag := out_of_band_dwell_flag x;
     out_of_band_dwell_seconds := out_of_band_dwell_seconds x;
     mr_unit := mr_unit x; axis_flags := axis_flags x; target := target x;
     position := v; waypoint := waypoint x; target_steps := target_steps x;
     position_steps := position_steps x;
     commanded_steps := commanded_steps x; encoder_steps := encoder_steps x;
     following_error := following_error x; r_index := r_index x;
     p_index := p_index x; block0 := block0 x; block1 := block1 x;
     entry_velocity := entry_velocity x; segments := segments x;
     segment_count := segment_count x;
     segment_velocity := segment_velocity x; segment_time := segment_time x;
     forward_diff_1 := forward_diff_1 x; forward_diff_2 := forward_diff_2 x;
     forward_diff_3 := forward_diff_3 x; forward_diff_4 := forward_diff_4 x;
     forward_diff_5 := forward_diff_5 x; gm_target := gm_target x;
     gm_target_comp := gm_target_comp x |}.

Definition set_waypoint (v : moveSection -> list F) (x : mpPlannerRuntime) : mpPlannerRuntime :=
  {| block_state := block_state x; section := section x;
     section_state := section_state x;
     out_of_band_dwell_flag := out_of_band_dwell_flag x;
     out_of_band_dwell_seconds := out_of_band_dwell_seconds x;
     mr_unit := mr_unit x; axis_flags := axis_flags x; target := target x;
     position := position x; waypoint := v; target_steps := target_steps x;
     position_steps := position_steps x;
     commanded_steps := commanded_steps x; encoder_steps := encoder_steps x;
     following_error := following_error x; r_index := r_index x;
     p_index := p_index x; block0 := block0 x; block1 := block1 x;
     entry_velocity := entry_velocity x; segments := segments x;
     segment_count := segment_count x;
     segment_velocity := segment_velocity x; segment_time := segment_time x;
     forward_diff_1 := forward_diff_1 x; forward_diff_2 := forward_diff_2 x;
     forward_diff_3 := forward_diff_3 x; forward_diff_4 := forward_diff_4 x;
     forward_diff_5 := forward_diff_5 x; gm_target := gm_target x;
     gm_target_comp := gm_target_comp x |}.

Definition set_target_steps (v : list F) (x : mpPlannerRuntime) : mpPlannerRuntime :=
  {| block_state := block_state x; section := section x;
     section_state := section_state x;
     out_of_band_dwell_flag := out_of_band_dwell_flag x;
     out_of_band_dwell_seconds := out_of_band_dwell_seconds x;
     mr_unit := mr_unit x; axis_flags := axis_flags x; target := target x;
     position := position x; waypoint := waypoint x; target_steps := v;
     position_steps := position_steps x;
     commanded_steps := commanded_steps x; encoder_steps := encoder_steps x;
     following_error := following_error x; r_index := r_index x;
     p_index := p_index x; block0 := block0 x; block1 := block1 x;
     entry_velocity := entry_velocity x; segments := segments x;
     segment_count := segment_count x;
     segment_velocity := segment_velocity x; segment_time := segment_time x;
     forward_diff_1 := forward_diff_1 x; forward_diff_2 := forward_diff_2 x;
     forward_diff_3 := forward_diff_3 x; forward_diff_4 := forward_diff_4 x;
     forward_diff_5 := forward_diff_5 x; gm_target := gm_target x;
     gm_target_comp := gm_target_comp x |}.

Definition set_position_steps (v : list F) (x : mpPlannerRuntime) : mpPlannerRuntime :=
  {| block_state := block_state x; section := section x;
     section_state := section_state x;
     out_of_band_dwell_flag := out_of_band_dwell_flag x;
     out_of_band_dwell_seconds := out_of_band_dwell_seconds x;
     mr_unit := mr_unit x; axis_flags := axis_flags x; target := target x;
     position := position x; waypoint := waypoint x;
     target_steps := target_steps x; position_steps := v;
     commanded_steps := commanded_steps x; encoder_steps := encoder_steps x;
     following_error := following_error x; r_index := r_index x;
     p_index := p_index x; block0 := block0 x; block1 := block1 x;
     entry_velocity := entry_velocity x; segments := segments x;
     segment_count := segment_count x;
     segment_velocity := segment_velocity x; segment_time := segment_time x;
     forward_diff_1 := forward_diff_1 x; forward_diff_2 := forward_diff_2 x;
     forward_diff_3 := forward_diff_3 x; forward_diff_4 := forward_diff_4 x;
     forward_diff_5 := forward_diff_5 x; gm_target := gm_target x;
     gm_target_comp := gm_target_comp x |}.

Definition set_commanded_steps (v : list F) (x : mpPlannerRuntime) : mpPlannerRuntime :=
  {| block_state := block_state x; section := section x;
     section_state := section_state x;
     out_of_band_dwell_flag := out_of_band_dwell_flag x;
     out_of_band_dwell_seconds := out_of_band_dwell_seconds x;
     mr_unit := mr_unit x; axis_flags := axis_flags x; target := target x;
     position := position x; waypoint := waypoint x;
     target_steps := target_steps x; position_steps := position_steps x;
     commanded_steps := v; encoder_steps := encoder_steps x;
     following_error := following_error x; r_index := r_index x;
     p_index := p_index x; block0 := block0 x; block1 := block1 x;
     entry_velocity := entry_velocity x; segments := segments x;
     segment_count := segment_count x;
     segment_velocity := segment_velocity x; segment_time := segment_time x;
     forward_diff_1 := forward_diff_1 x; forward_diff_2 := forward_diff_2 x;
     forward_diff_3 := forward_diff_3 x; forward_diff_4 := forward_diff_4 x;
     forward_diff_5 := forward_diff_5 x; gm_target := gm_target x;
     gm_target_comp := gm_target_comp x |}.

Definition set_encoder_steps (v : list F) (x : mpPlannerRuntime) : mpPlannerRuntime :=
  {| block_state := block_state x; section := section x;
     section_state := section_state x;
     out_of_band_dwell_flag := out_of_band_dwell_flag x;
     out_of_band_dwell_seconds := out_of_band_dwell_seconds x;
     mr_unit := mr_unit x; axis_flags := axis_flags x; target := target x;
     position := position x; waypoint := waypoint x;
     target_steps := target_steps x; position_steps := position_steps x;
     commanded_steps := commanded_steps x; encoder_steps := v;
     following_error := following_error x; r_index := r_index x;
     p_index := p_index x; block0 := block0 x; block1 := block1 x;
     entry_velocity := entry_velocity x; segments := segments x;
     segment_count := segment_count x;
     segment_velocity := segment_velocity x; segment_time := segment_time x;
     forward_diff_1 := forward_diff_1 x; forward_diff_2 := forward_diff_2 x;
     forward_diff_3 := forward_diff_3 x; forward_diff_4 := forward_diff_4 x;
     forward_diff_5 := forward_diff_5 x; gm_target := gm_target x;
     gm_target_comp := gm_target_comp x |}.

Definition set_following_error (v : list F) (x : mpPlannerRuntime) : mpPlannerRuntime :=
  {| block_state := block_state x; section := section x;
     section_state := section_state x;
     out_of_band_dwell_flag := out_of_band_dwell_flag x;
     out_of_band_dwell_seconds := out_of_band_dwell_seconds x;
     mr_unit := mr_unit x; axis_flags := axis_flags x; target := target x;
     position := position x; waypoint := waypoint x;
     target_steps := target_steps x; position_steps := position_steps x;
     commanded_steps := commanded_steps x; encoder_steps := encoder_steps x;
     following_error := v; r_index := r_index x; p_index := p_index x;
     block0 := block0 x; block1 := block1 x;
     entry_velocity := entry_velocity x; segments := segments x;
     segment_count := segment_count x;
     segment_velocity := segment_velocity x; segment_time := segment_time x;
     forward_diff_1 := forward_diff_1 x; forward_diff_2 := forward_diff_2 x;
     forward_diff_3 := forward_diff_3 x; forward_diff_4 := forward_diff_4 x;
     forward_diff_5 := forward_diff_5 x; gm_target := gm_target x;
     gm_target_comp := gm_target_comp x |}.

Definition set_r_index (v : bool) (x : mpPlannerRuntime) : mpPlannerRuntime :=
  {| block_state := block_state x; section := section x;
     section_state := section_state x;
     out_of_band_dwell_flag := out_of_band_dwell_flag x;
     out_of_band_dwell_seconds := out_of_band_dwell_seconds x;
     mr_unit := mr_unit x; axis_flags := axis_flags x; target := target x;
     position := position x; waypoint := waypoint x;
     target_steps := target_steps x; position_steps := position_steps x;
     commanded_steps := commanded_steps x; encoder_steps := encoder_steps x;
     following_error := following_error x; r_index := v;
     p_index := p_index x; block0 := block0 x; block1 := block1 x;
     entry_velocity := entry_velocity x; segments := segments x;
     segment_count := segment_count x;
     segment_velocity := segment_velocity x; segment_time := segment_time x;
     forward_diff_1 := forward_diff_1 x; forward_diff_2 := forward_diff_2 x;
     forward_diff_3 := forward_diff_3 x; forward_diff_4 := forward_diff_4 x;
     forward_diff_5 := forward_diff_5 x; gm_target := gm_target x;
     gm_target_comp := gm_target_comp x |}.

Definition set_p_index (v : bool) (x : mpPlannerRuntime) : mpPlannerRuntime :=
  {| block_state := block_state x; section := section x;
     section_state := section_state x;
     out_of_band_dwell_flag := out_of_band_dwell_flag x;
     out_of_band_dwell_seconds := out_of_band_dwell_seconds x;
     mr_unit := mr_unit x; axis_flags := axis_flags x; target := target x;
     position := position x; waypoint := waypoint x;
     target_steps := target_steps x; position_steps := position_steps x;
     commanded_steps := commanded_steps x; encoder_steps := encoder_steps x;
     following_error := following_error x; r_index := r_index x;
     p_index := v; block0 := block0 x; block1 := block1 x;
     entry_velocity := entry_velocity x; segments := segments x;
     segment_count := segment_count x;
     segment_velocity := segment_velocity x; segment_time := segment_time x;
     forward_diff_1 := forward_diff_1 x; forward_diff_2 := forward_diff_2 x;
     forward_diff_3 := forward_diff_3 x; forward_diff_4 := forward_diff_4 x;
     forward_diff_5 := forward_diff_5 x; gm_target := gm_target x;
     gm_target_comp := gm_target_comp x |}.

Definition set_block0 (v : mpBlockRuntimeBuf) (x : mpPlannerRuntime) : mpPlannerRuntime :=
  {| block_state := block_state x; section := section x;
     section_state := section_state x;
     out_of_band_dwell_flag := out_of_band_dwell_flag x;
     out_of_band_dwell_seconds := out_of_band_dwell_seconds x;
     mr_unit := mr_unit x; axis_flags := axis_flags x; target := target x;
     position := position x; waypoint := waypoint x;
     target_steps := target_steps x; position_steps := position_steps x;
     commanded_steps := commanded_steps x; encoder_steps := encoder_steps x;
     following_error := following_error x; r_index := r_index x;
     p_index := p_index x; block0 := v; block1 := block1 x;
     entry_velocity := entry_velocity x; segments := segments x;
     segment_count := segment_count x;
     segment_velocity := segment_velocity x; segment_time := segment_time x;
     forward_diff_1 := forward_diff_1 x; forward_diff_2 := forward_diff_2 x;
     forward_diff_3 := forward_diff_3 x; forward_diff_4 := forward_diff_4 x;
     forward_diff_5 := forward_diff_5 x; gm_target := gm_target x;
     gm_target_comp := gm_target_comp x |}.

Definition set_block1 (v : mpBlockRuntimeBuf) (x : mpPlannerRuntime) : mpPlannerRuntime :=
  {| block_state := block_state x; section := section x;
     section_state := section_state x;
     out_of_band_dwell_flag := out_of_band_dwell_flag x;
     out_of_band_dwell_seconds := out_of_band_dwell_seconds x;
     mr_unit := mr_unit x; axis_flags := axis_flags x; target := target x;
     position := position x; waypoint := waypoint x;
     target_steps := target_steps x; position_steps := position_steps x;
     commanded_steps := commanded_steps x; encoder_steps := encoder_steps x;
     following_error := following_error x; r_index := r_index x;
     p_index := p_index x; block0 := block0 x; block1 := v;
     entry_velocity := entry_velocity x; segments := segments x;
     segment_count := segment_count x;
     segment_velocity := segment_velocity x; segment_time := segment_time x;
     forward_diff_1 := forward_diff_1 x; forward_diff_2 := forward_diff_2 x;
     forward_diff_3 := forward_diff_3 x; forward_diff_4 := forward_diff_4 x;
     forward_diff_5 := forward_diff_5 x; gm_target := gm_target x;
     gm_target_comp := gm_target_comp x |}.

Definition set_entry_velocity (v : F) (x : mpPlannerRuntime) : mpPlannerRuntime :=
  {| block_state := block_state x; section := section x;
     section_state := section_state x;
     out_of_band_dwell_flag := out_of_band_dwell_flag x;
     out_of_band_dwell_seconds := out_of_band_dwell_seconds x;
     mr_unit := mr_unit x; axis_flags := axis_flags x; target := target x;
     position := position x; waypoint := waypoint x;
     target_steps := target_steps x; position_steps := position_steps x;
     commanded_steps := commanded_steps x; encoder_steps := encoder_steps x;
     following_error := following_error x; r_index := r_index x;
     p_index := p_index x; block0 := block0 x; block1 := block1 x;
     entry_velocity := v; segments := segments x;
     segment_count := segment_count x;
     segment_velocity := segment_velocity x; segment_time := segment_time x;
     forward_diff_1 := forward_diff_1 x; forward_diff_2 := forward_diff_2 x;
     forward_diff_3 := forward_diff_3 x; forward_diff_4 := forward_diff_4 x;
     forward_diff_5 := forward_diff_5 x; gm_target := gm_target x;
     gm_target_comp := gm_target_comp x |}.

Definition set_segments (v : F) (x : mpPlannerRuntime) : mpPlannerRuntime :=
  {| block_state := block_state x; section := section x;
     section_state := section_state x;
     out_of_band_dwell_flag := out_of_band_dwell_flag x;
     out_of_band_dwell_seconds := out_of_band_dwell_seconds x;
     mr_unit := mr_unit x; axis_flags := axis_flags x; target := target x;
     position := position x; waypoint := waypoint x;
     target_steps := target_steps x; position_steps := position_steps x;
     commanded_steps := commanded_steps x; encoder_steps := encoder_steps x;
     following_error := following_error x; r_index := r_index x;
     p_index := p_index x; block0 := block0 x; block1 := block1 x;
     entry_velocity := entry_velocity x; segments := v;
     segment_count := segment_count x;
     segment_velocity := segment_velocity x; segment_time := segment_time x;
     forward_diff_1 := forward_diff_1 x; forward_diff_2 := forward_diff_2 x;
     forward_diff_3 := forward_diff_3 x; forward_diff_4 := forward_diff_4 x;
     forward_diff_5 := forward_diff_5 x; gm_target := gm_target x;
     gm_target_comp := gm_target_comp x |}.

Definition set_segment_count (v : Z) (x : mpPlannerRuntime) : mpPlannerRuntime :=
  {| block_state := block_state x; section := section x;
     section_state := section_state x;
     out_of_band_dwell_flag := out_of_band_dwell_flag x;
     out_of_band_dwell_seconds := out_of_band_dwell_seconds x;
     mr_unit := mr_unit x; axis_flags := axis_flags x; target := target x;
     position := position x; waypoint := waypoint x;
     target_steps := target_steps x; position_steps := position_steps x;
     commanded_steps := commanded_steps x; encoder_steps := encoder_steps x;
     following_error := following_error x; r_index := r_index x;
     p_index := p_index x; block0 := block0 x; block1 := block1 x;
     entry_velocity := entry_velocity x; segments := segments x;
     segment_count := v; segment_velocity := segment_velocity x;
     segment_time := segment_time x; forward_diff_1 := forward_diff_1 x;
     forward_diff_2 := forward_diff_2 x; forward_diff_3 := forward_diff_3 x;
     forward_diff_4 := forward_diff_4 x; forward_diff_5 := forward_diff_5 x;
     gm_target := gm_target x; gm_target_comp := gm_target_comp x |}.

Definition set_segment_velocity (v : F) (x : mpPlannerRuntime) : mpPlannerRuntime :=
  {| block_state := block_state x; section := section x;
     section_state := section_state x;
     out_of_band_dwell_flag := out_of_band_dwell_flag x;
     out_of_band_dwell_seconds := out_of_band_dwell_seconds x;
     mr_unit := mr_unit x; axis_flags := axis_flags x; target := target x;
     position := position x; waypoint := waypoint x;
     target_steps := target_steps x; position_steps := position_steps x;
     commanded_steps := commanded_steps x; encoder_steps := encoder_steps x;
     following_error := following_error x; r_index := r_index x;
     p_index := p_index x; block0 := block0 x; block1 := block1 x;
     entry_velocity := entry_velocity x; segments := segments x;
     segment_count := segment_count x; segment_velocity := v;
     segment_time := segment_time x; forward_diff_1 := forward_diff_1 x;
     forward_diff_2 := forward_diff_2 x; forward_diff_3 := forward_diff_3 x;
     forward_diff_4 := forward_diff_4 x; forward_diff_5 := forward_diff_5 x;
     gm_target := gm_target x; gm_target_comp := gm_target_comp x |}.

Definition set_segment_time (v : F) (x : mpPlannerRuntime) : mpPlannerRuntime :=
  {| block_state := block_state x; section := section x;
     section_state := section_state x;
     out_of_band_dwell_flag := out_of_band_dwell_flag x;
     out_of_band_dwell_seconds := out_of_band_dwell_seconds x;
     mr_unit := mr_unit x; axis_flags := axis_flags x; target := target x;
     position := position x; waypoint := waypoint x;
     target_steps := target_steps x; position_steps := position_steps x;
     commanded_steps := commanded_steps x; encoder_steps := encoder_steps x;
     following_error := following_error x; r_index := r_index x;
     p_index := p_index x; block0 := block0 x; block1 := block1 x;
     entry_velocity := entry_velocity x; segments := segments x;
     segment_count := segment_count x;
     segment_velocity := segment_velocity x; segment_time := v;
     forward_diff_1 := forward_diff_1 x; forward_diff_2 := forward_diff_2 x;
     forward_diff_3 := forward_diff_3 x; forward_diff_4 := forward_diff_4 x;
     forward_diff_5 := forward_diff_5 x; gm_target := gm_target x;
     gm_target_comp := gm_target_comp x |}.

Definition set_forward_diff_1 (v : F) (x : mpPlannerRuntime) : mpPlannerRuntime :=
  {| block_state := block_state x; section := section x;
     section_state := section_state x;
     out_of_band_dwell_flag := out_of_band_dwell_flag x;
     out_of_band_dwell_seconds := out_of_band_dwell_seconds x;
     mr_unit := mr_unit x; axis_flags := axis_flags x; target := target x;
     position := position x; waypoint := waypoint x;
     target_steps := target_steps x; position_steps := position_steps x;
     commanded_steps := commanded_steps x; encoder_steps := encoder_steps x;
     following_error := following_error x; r_index := r_index x;
     p_index := p_index x; block0 := block0 x; block1 := block1 x;
     entry_velocity := entry_velocity x; segments := segments x;
     segment_count := segment_count x;
     segment_velocity := segment_velocity x; segment_time := segment_time x;
     forward_diff_1 := v; forward_diff_2 := forward_diff_2 x;
     forward_diff_3 := forward_diff_3 x; forward_diff_4 := forward_diff_4 x;
     forward_diff_5 := forward_diff_5 x; gm_target := gm_target x;
     gm_target_comp := gm_target_comp x |}.

Definition set_forward_diff_2 (v : F) (x : mpPlannerRuntime) : mpPlannerRuntime :=
  {| block_state := block_state x; section := section x;
     section_state := section_state x;
     out_of_band_dwell_flag := out_of_band_dwell_flag x;
     out_of_band_dwell_seconds := out_of_band_dwell_seconds x;
     mr_unit := mr_unit x; axis_flags := axis_flags x; target := target x;
     position := position x; waypoint := waypoint x;
     target_steps := target_steps x; position_steps := position_steps x;
     commanded_steps := commanded_steps x; encoder_steps := encoder_steps x;
     following_error := following_error x; r_index := r_index x;
     p_index := p_index x; block0 := block0 x; block1 := block1 x;
     entry_velocity := entry_velocity x; segments := segments x;
     segment_count := segment_count x;
     segment_velocity := segment_velocity x; segment_time := segment_time x;
     forward_diff_1 := forward_diff_1 x; forward_diff_2 := v;
     forward_diff_3 := forward_diff_3 x; forward_diff_4 := forward_diff_4 x;
     forward_diff_5 := forward_diff_5 x; gm_target := gm_target x;
     gm_target_comp := gm_target_comp x |}.

Definition set_forward_diff_3 (v : F) (x : mpPlannerRuntime) : mpPlannerRuntime :=
  {| block_state := block_state x; section := section x;
     section_state := section_state x;
     out_of_band_dwell_flag := out_of_band_dwell_flag x;
     out_of_band_dwell_seconds := out_of_band_dwell_seconds x;
     mr_unit := mr_unit x; axis_flags := axis_flags x; target := target x;
     position := position x; waypoint := waypoint x;
     target_steps := target_steps x; position_steps := position_steps x;
     commanded_steps := commanded_steps x; encoder_steps := encoder_steps x;
     following_error := following_error x; r_index := r_index x;
     p_index := p_index x; block0 := block0 x; block1 := block1 x;
     entry_velocity := entry_velocity x; segments := segments x;
     segment_count := segment_count x;
     segment_velocity := segment_velocity x; segment_time := segment_time x;
     forward_diff_1 := forward_diff_1 x; forward_diff_2 := forward_diff_2 x;
     forward_diff_3 := v; forward_diff_4 := forward_diff_4 x;
     forward_diff_5 := forward_diff_5 x; gm_target := gm_target x;
     gm_target_comp := gm_target_comp x |}.

Definition set_forward_diff_4 (v : F) (x : mpPlannerRuntime) : mpPlannerRuntime :=
  {| block_state := block_state x; section := section x;
     section_state := section_state x;
     out_of_band_dwell_flag := out_of_band_dwell_flag x;
     out_of_band_dwell_seconds := out_of_band_dwell_seconds x;
     mr_unit := mr_unit x; axis_flags := axis_flags x; target := target x;
     position := position x; waypoint := waypoint x;
     target_steps := target_steps x; position_steps := position_steps x;
     commanded_steps := commanded_steps x; encoder_steps := encoder_steps x;
     following_error := following_error x; r_index := r_index x;
     p_index := p_index x; block0 := block0 x; block1 := block1 x;
     entry_velocity := entry_velocity x; segments := segments x;
     segment_count := segment_count x;
     segment_velocity := segment_velocity x; segment_time := segment_time x;
     forward_diff_1 := forward_diff_1 x; forward_diff_2 := forward_diff_2 x;
     forward_diff_3 := forward_diff_3 x; forward_diff_4 := v;
     forward_diff_5 := forward_diff_5 x; gm_target := gm_target x;
     gm_target_comp := gm_target_comp x |}.

Definition set_forward_diff_5 (v : F) (x : mpPlannerRuntime) : mpPlannerRuntime :=
  {| block_state := block_state x; section := section x;
     section_state := section_state x;
     out_of_band_dwell_flag := out_of_band_dwell_flag x;
     out_of_band_dwell_seconds := out_of_band_dwell_seconds x;
     mr_unit := mr_unit x; axis_flags := axis_flags x; target := target x;
     position := position x; waypoint := waypoint x;
     target_steps := target_steps x; position_steps := position_steps x;
     commanded_steps := commanded_steps x; encoder_steps := encoder_steps x;
     following_error := following_error x; r_index := r_index x;
     p_index := p_index x; block0 := block0 x; block1 := block1 x;
     entry_velocity := entry_velocity x; segments := segments x;
     segment_count := segment_count x;
     segment_velocity := segment_velocity x; segment_time := segment_time x;
     forward_diff_1 := forward_diff_1 x; forward_diff_2 := forward_diff_2 x;
     forward_diff_3 := forward_diff_3 x; forward_diff_4 := forward_diff_4 x;
     forward_diff_5 := v; gm_target := gm_target x;
     gm_target_comp := gm_target_comp x |}.

Definition set_gm_target (v : list F) (x : mpPlannerRuntime) : mpPlannerRuntime :=
  {| block_state := block_state x; section := section x;
     section_state := section_state x;
     out_of_band_dwell_flag := out_of_band_dwell_flag x;
     out_of_band_dwell_seconds := out_of_band_dwell_seconds x;
     mr_unit := mr_unit x; axis_flags := axis_flags x; target := target x;
     position := position x; waypoint := waypoint x;
     target_steps := target_steps x; position_steps := position_steps x;
     commanded_steps := commanded_steps x; encoder_steps := encoder_steps x;
     following_error := following_error x; r_index := r_index x;
     p_index := p_index x; block0 := block0 x; block1 := block1 x;
     entry_velocity := entry_velocity x; segments := segments x;
     segment_count := segment_count x;
     segment_velocity := segment_velocity x; segment_time := segment_time x;
     forward_diff_1 := forward_diff_1 x; forward_diff_2 := forward_diff_2 x;
     forward_diff_3 := forward_diff_3 x; forward_diff_4 := forward_diff_4 x;
     forward_diff_5 := forward_diff_5 x; gm_target := v;
     gm_target_comp := gm_target_comp x |}.

Definition set_gm_target_comp (v : list F) (x : mpPlannerRuntime) : mpPlannerRuntime :=
  {| block_state := block_state x; section := section x;
     section_state := section_state x;
     out_of_band_dwell_flag := out_of_band_dwell_flag x;
     out_of_band_dwell_seconds := out_of_band_dwell_seconds x;
     mr_unit := mr_unit x; axis_flags := axis_flags x; target := target x;
     position := position x; waypoint := waypoint x;
     target_steps := target_steps x; position_steps := position_steps x;
     commanded_steps := commanded_steps x; encoder_steps := encoder_steps x;
     following_error := following_error x; r_index := r_index x;
     p_index := p_index x; block0 := block0 x; block1 := block1 x;
     entry_velocity := entry_velocity x; segments := segments x;
     segment_count := segment_count x;
     segment_velocity := segment_velocity x; segment_time := segment_time x;
     forward_diff_1 := forward_diff_1 x; forward_diff_2 := forward_diff_2 x;
     forward_diff_3 := forward_diff_3 x; forward_diff_4 := forward_diff_4 x;
     forward_diff_5 := forward_diff_5 x; gm_target := gm_target x;
     gm_target_comp := v |}.


(** Constants and functions of util.h, planner.cpp, plan_zoid.cpp,
    kinematics and encoders that the executor calls.  These files are not
    among the modelled sources, so they are parameters of the model.
    [mp_get_run_buffer] and [mp_free_run_buffer] work on the planner queue;
    [mp_calculate_ramps] fills a runtime block from a buffer and an entry
    velocity; [mp_runtime_is_idle] looks at the stepper runtime. *)
Record Externals : Type := {
  uSec : F -> F;
  EPSILON2 : F;
  EPSILON4 : F;
  motor_polarity : list Z;
  en_read_encoder : nat -> F;
  kn_inverse_kinematics : list F -> list F;
  get_axis_vector_length : list F -> list F -> F;
  mp_get_target_length : F -> F -> mpBuf -> F;
  mp_get_decel_velocity : F -> F -> mpBuf -> F;
  mp_calculate_ramps : mpBlockRuntimeBuf -> mpBuf -> F -> mpBlockRuntimeBuf;
  mp_get_run_buffer : mpPlannerQueue -> option nat;
  mp_free_run_buffer : mpPlannerQueue -> bool * mpPlannerQueue;
  mp_runtime_is_idle : stRunSingleton -> bool
}.

Variable ext : Externals.

Definition zero : F := f_of_Z 0.

(** The running block [mr->r] and the planning block [mr->p]. *)
Definition block_at (i : bool) (m : mpPlannerRuntime) : mpBlockRuntimeBuf :=
  if i then block1 m else block0 m.

Definition set_block_at (i : bool) (b : mpBlockRuntimeBuf) (m : mpPlannerRuntime)
  : mpPlannerRuntime :=
  if i then set_block1 b m else set_block0 b m.

Definition mr_r (m : mpPlannerRuntime) : mpBlockRuntimeBuf := block_at (r_index m) m.
Definition mr_p (m : mpPlannerRuntime) : mpBlockRuntimeBuf := block_at (p_index m) m.

Definition set_mr_r (b : mpBlockRuntimeBuf) (m : mpPlannerRuntime) : mpPlannerRuntime :=
  set_block_at (r_index m) b m.
Definition set_mr_p (b : mpBlockRuntimeBuf) (m : mpPlannerRuntime) : mpPlannerRuntime :=
  set_block_at (p_index m) b m.

(** The time of a head or tail of the given length between two velocities
    of the given sum, [(2.0 * length) / sum]: the product and the quotient
    are computed in [double], the result is stored in a [float]. *)
Definition section_time (length velocities : F) : F :=
  f_of_d ((d_lit 2 *!! d_of_f length) /!! d_of_f velocities).

(** [_exec_aline_normalize_block]: folds sections shorter than
    [MIN_SEGMENT_TIME] into their neighbours.  The function reads
    [mr->entry_velocity], passed here as [mr_entry_velocity].  The last
    branch is the source's [debug_trap], which leaves the block as is.
    Half the body is [body_length * 0.5], computed and added in [double]. *)
Definition _exec_aline_normalize_block (mr_entry_velocity : F) (b : mpBlockRuntimeBuf)
  : mpBlockRuntimeBuf :=
  let b :=
    if (head_length b >! zero) && (head_time b <! MIN_SEGMENT_TIME) then
      let b := set_body_length (body_length b +! head_length b) b in
      let b := set_body_time (body_length b /! cruise_velocity b) b in
      let b := set_head_length zero b in
      set_head_time zero b
    else b in
  let b :=
    if (tail_length b >! zero) && (tail_time b <! MIN_SEGMENT_TIME) then
      let b := set_body_length (body_length b +! tail_length b) b in
      let b := set_body_time (body_length b /! cruise_velocity b) b in
      let b := set_tail_length zero b in
      set_tail_time zero b
    else b in
  if (body_length b >! zero) && (body_time b <! MIN_SEGMENT_TIME) then
    if tail_length b >! zero then
      if head_length b >! zero then
        let b := set_head_length
                   (f_of_d (d_of_f (head_length b)
                            +!! d_of_f (body_length b) *!! d_lit (1 # 2))) b in
        let b := set_tail_length
                   (f_of_d (d_of_f (tail_length b)
                            +!! d_of_f (body_length b) *!! d_lit (1 # 2))) b in
        let b := set_head_time (section_time (head_length b)
                                  (mr_entry_velocity +! cruise_velocity b)) b in
        let b := set_tail_time (section_time (tail_length b)
                                  (cruise_velocity b +! exit_velocity b)) b in
        let b := set_body_length zero b in
        set_body_time zero b
      else
        let b := set_tail_length (tail_length b +! body_length b) b in
        let b := set_tail_time (section_time (tail_length b)
                                  (cruise_velocity b +! exit_velocity b)) b in
        let b := set_body_length zero b in
        set_body_time zero b
    else if head_length b >! zero then
      let b := set_head_length (head_length b +! body_length b) b in
      let b := set_head_time (section_time (head_length b)
                                (mr_entry_velocity +! cruise_velocity b)) b in
      let b := set_body_length zero b in
      set_body_time zero b
    else b
  else b.

(** [_init_forward_diffs]: the forward differences of the quintic velocity
    curve from [v_0] to [v_1] over [mr->segments] steps, and the velocity
    of the first segment.  A product with a decimal constant ([6.0 * v_1],
    [5.0 * Bh_4], [h * 0.5]) and the sums such a product is part of are
    computed in [double] and stored in a [float]; [const1], [const2] and
    [const3] are [float] variables, their products [float] products. *)
Definition _init_forward_diffs (v_0 v_1 : F) (m : mpPlannerRuntime) : mpPlannerRuntime :=
  let A := f_of_d (d_lit (-6) *!! d_of_f v_0 +!! d_lit 6 *!! d_of_f v_1) in
  let B := f_of_d (d_lit 15 *!! d_of_f v_0 -!! d_lit 15 *!! d_of_f v_1) in
  let C := f_of_d (d_lit (-10) *!! d_of_f v_0 +!! d_lit 10 *!! d_of_f v_1) in
  let h := f_of_Z 1 /! segments m in
  let h_2 := h *! h in
  let h_3 := h_2 *! h in
  let h_4 := h_3 *! h in
  let h_5 := h_4 *! h in
  let Ah_5 := A *! h_5 in
  let Bh_4 := B *! h_4 in
  let Ch_3 := C *! h_3 in
  let const1 := f_lit (75625 # 10000) in
  let const2 := f_lit (325 # 100) in
  let const3 := f_lit (825 # 10) in
  let m := set_forward_diff_5
             (f_of_d (d_of_f (const1 *! Ah_5) +!! d_lit 5 *!! d_of_f Bh_4
                      +!! d_of_f (const2 *! Ch_3))) m in
  let m := set_forward_diff_4
             (f_of_d (d_of_f (const3 *! Ah_5) +!! d_lit 29 *!! d_of_f Bh_4
                      +!! d_lit 9 *!! d_of_f Ch_3)) m in
  let m := set_forward_diff_3
             (f_of_d (d_lit 255 *!! d_of_f Ah_5 +!! d_lit 48 *!! d_of_f Bh_4
                      +!! d_lit 6 *!! d_of_f Ch_3)) m in
  let m := set_forward_diff_2
             (f_of_d (d_lit 300 *!! d_of_f Ah_5 +!! d_lit 24 *!! d_of_f Bh_4)) m in
  let m := set_forward_diff_1 (f_of_d (d_lit 120 *!! d_of_f Ah_5)) m in
  let half_h := f_of_d (d_of_f h *!! d_lit (1 # 2)) in
  let half_h_3 := half_h *! half_h *! half_h in
  let half_h_4 := half_h_3 *! half_h in
  let half_h_5 := half_h_4 *! half_h in
  let half_Ch_3 := C *! half_h_3 in
  let half_Bh_4 := B *! half_h_4 in
  let half_Ah_5 := A *! half_h_5 in
  set_segment_velocity (half_Ah_5 +! half_Bh_4 +! half_Ch_3 +! v_0) m.


(** The state the executor works on: the canonical machine's cycle, hold
    and motion state ([cm_in_cycle] is [cm_get_machine_state() ==
    MACHINE_CYCLE], [cm_hold_type_skip] is [cm->hold_type ==
    FEEDHOLD_TYPE_SKIP]), the planner runtime [mr], the planner's
    [run_time_remaining], [position] and queue, the stepper module, and two
    logs kept for the analysis: the calls made into the stepper
    preparation and the requests sent to other modules, in program order. *)
Record machine : Type := {
  cm_in_cycle : bool;
  cm_hold_state : cmFeedholdState;
  cm_hold_type_skip : bool;
  cm_motion_state : cmMotionState;
  mr : mpPlannerRuntime;
  mp_run_time_remaining : F;
  mp_position : list F;
  mp_q : mpPlannerQueue;
  steppers : stepper F;
  prep_calls : list prepCall;
  requests : list request
}.

Definition set_cm_in_cycle (v : bool) (x : machine) : machine :=
  {| cm_in_cycle := v; cm_hold_state := cm_hold_state x;
     cm_hold_type_skip := cm_hold_type_skip x;
     cm_motion_state := cm_motion_state x; mr := mr x;
     mp_run_time_remaining := mp_run_time_remaining x;
     mp_position := mp_position x; mp_q := mp_q x; steppers := steppers x;
     prep_calls := prep_calls x; requests := requests x |}.

Definition set_cm_hold_state (v : cmFeedholdState) (x : machine) : machine :=
  {| cm_in_cycle := cm_in_cycle x; cm_hold_state := v;
     cm_hold_type_skip := cm_hold_type_skip x;
     cm_motion_state := cm_motion_state x; mr := mr x;
     mp_run_time_remaining := mp_run_time_remaining x;
     mp_position := mp_position x; mp_q := mp_q x; steppers := steppers x;
     prep_calls := prep_calls x; requests := requests x |}.

Definition set_cm_hold_type_skip (v : bool) (x : machine) : machine :=
  {| cm_in_cycle := cm_in_cycle x; cm_hold_state := cm_hold_state x;
     cm_hold_type_skip := v; cm_motion_state := cm_motion_state x;
     mr := mr x; mp_run_time_remaining := mp_run_time_remaining x;
     mp_position := mp_position x; mp_q := mp_q x; steppers := steppers x;
     prep_calls := prep_calls x; requests := requests x |}.

Definition set_cm_motion_state (v : cmMotionState) (x : machine) : machine :=
  {| cm_in_cycle := cm_in_cycle x; cm_hold_state := cm_hold_state x;
     cm_hold_type_skip := cm_hold_type_skip x; cm_motion_state := v;
     mr := mr x; mp_run_time_remaining := mp_run_time_remaining x;
     mp_position := mp_position x; mp_q := mp_q x; steppers := steppers x;
     prep_calls := prep_calls x; requests := requests x |}.

Definition set_mr (v : mpPlannerRuntime) (x : machine) : machine :=
  {| cm_in_cycle := cm_in_cycle x; cm_hold_state := cm_hold_state x;
     cm_hold_type_skip := cm_hold_type_skip x;
     cm_motion_state := cm_motion_state x; mr := v;
     mp_run_time_remaining := mp_run_time_remaining x;
     mp_position := mp_position x; mp_q := mp_q x; steppers := steppers x;
     prep_calls := prep_calls x; requests := requests x |}.

Definition set_mp_run_time_remaining (v : F) (x : machine) : machine :=
  {| cm_in_cycle := cm_in_cycle x; cm_hold_state := cm_hold_state x;
     cm_hold_type_skip := cm_hold_type_skip x;
     cm_motion_state := cm_motion_state x; mr := mr x;
     mp_run_time_remaining := v; mp_position := mp_position x;
     mp_q := mp_q x; steppers := steppers x; prep_calls := prep_calls x;
     requests := requests x |}.

Definition set_mp_position (v : list F) (x : machine) : machine :=
  {| cm_in_cycle := cm_in_cycle x; cm_hold_state := cm_hold_state x;
     cm_hold_type_skip := cm_hold_type_skip x;
     cm_motion_state := cm_motion_state x; mr := mr x;
     mp_run_time_remaining := mp_run_time_remaining x; mp_position := v;
     mp_q := mp_q x; steppers := steppers x; prep_calls := prep_calls x;
     requests := requests x |}.

Definition set_mp_q (v : mpPlannerQueue) (x : machine) : machine :=
  {| cm_in_cycle := cm_in_cycle x; cm_hold_state := cm_hold_state x;
     cm_hold_type_skip := cm_hold_type_skip x;
     cm_motion_state := cm_motion_state x; mr := mr x;
     mp_run_time_remaining := mp_run_time_remaining x;
     mp_position := mp_position x; mp_q := v; steppers := steppers x;
     prep_calls := prep_calls x; requests := requests x |}.

Definition set_steppers (v : stepper F) (x : machine) : machine :=
  {| cm_in_cycle := cm_in_cycle x; cm_hold_state := cm_hold_state x;
     cm_hold_type_skip := cm_hold_type_skip x;
     cm_motion_state := cm_motion_state x; mr := mr x;
     mp_run_time_remaining := mp_run_time_remaining x;
     mp_position := mp_position x; mp_q := mp_q x; steppers := v;
     prep_calls := prep_calls x; requests := requests x |}.

Definition set_prep_calls (v : list prepCall) (x : machine) : machine :=
  {| cm_in_cycle := cm_in_cycle x; cm_hold_state := cm_hold_state x;
     cm_hold_type_skip := cm_hold_type_skip x;
     cm_motion_state := cm_motion_state x; mr := mr x;
     mp_run_time_remaining := mp_run_time_remaining x;
     mp_position := mp_position x; mp_q := mp_q x; steppers := steppers x;
     prep_calls := v; requests := requests x |}.

Definition set_requests (v : list request) (x : machine) : machine :=
  {| cm_in_cycle := cm_in_cycle x; cm_hold_state := cm_hold_state x;
     cm_hold_type_skip := cm_hold_type_skip x;
     cm_motion_state := cm_motion_state x; mr := mr x;
     mp_run_time_remaining := mp_run_time_remaining x;
     mp_position := mp_position x; mp_q := mp_q x; steppers := steppers x;
     prep_calls := prep_calls x; requests := v |}.

(** Helpers of the embedding: reading and writing through the pointers
    [mr], [mr->r] and [bf]; [bf->nx] is the next index of the ring. *)
Definition upd_mr (f : mpPlannerRuntime -> mpPlannerRuntime) (s : machine) : machine :=
  set_mr (f (mr s)) s.

Definition upd_r (f : mpBlockRuntimeBuf -> mpBlockRuntimeBuf) (s : machine) : machine :=
  upd_mr (fun m => set_mr_r (f (mr_r m)) m) s.

Definition run_block (s : machine) : mpBlockRuntimeBuf := mr_r (mr s).

Fixpoint list_upd {A : Type} (i : nat) (f : A -> A) (l : list A) : list A :=
  match l, i with
  | [], _ => []
  | a :: l', O => f a :: l'
  | a :: l', S i' => a :: list_upd i' f l'
  end.

Fixpoint zip_with {A B C : Type} (f : A -> B -> C) (l : list A) (l' : list B) : list C :=
  match l, l' with
  | a :: t, b :: t' => f a b :: zip_with f t t'
  | _, _ => []
  end.

(** A buffer after [mpBuf_t::reset()]. *)
Definition mpBuf_reset (b : mpBuf) : mpBuf :=
  {| buffer_state := MP_BUFFER_EMPTY; block_type := BLOCK_TYPE_NULL;
     bf_block_state := BLOCK_INACTIVE; plannable := false;
     bf_length := zero; block_time := zero; bf_func := None;
     bf_unit := map (fun _ => zero) (bf_unit b);
     bf_axis_flags := map (fun _ => false) (bf_axis_flags b);
     bf_gm_target := map (fun _ => zero) (bf_gm_target b);
     bf_gm_target_comp := map (fun _ => zero) (bf_gm_target_comp b) |}.

Definition null_buf : mpBuf :=
  {| buffer_state := MP_BUFFER_EMPTY; block_type := BLOCK_TYPE_NULL;
     bf_block_state := BLOCK_INACTIVE; plannable := false;
     bf_length := zero; block_time := zero; bf_func := None;
     bf_unit := []; bf_axis_flags := []; bf_gm_target := [];
     bf_gm_target_comp := [] |}.

Definition pool_at (bf : nat) (pool : list mpBuf) : mpBuf := nth bf pool null_buf.

Definition buf_at (bf : nat) (s : machine) : mpBuf := pool_at bf (q_bf (mp_q s)).

Definition upd_buf (bf : nat) (f : mpBuf -> mpBuf) (s : machine) : machine :=
  set_mp_q (set_q_bf (list_upd bf f (q_bf (mp_q s))) (mp_q s)) s.

Definition pool_nx (bf : nat) (pool : list mpBuf) : nat := (S bf) mod (List.length pool).

Definition nx (bf : nat) (s : machine) : nat := pool_nx bf (q_bf (mp_q s)).

Definition log_prep (c : prepCall) (s : machine) : machine :=
  set_prep_calls (prep_calls s ++ [c]) s.

Definition send (r : request) (s : machine) : machine :=
  set_requests (requests s ++ [r]) s.

Definition st_request_forward_plan (s : machine) : machine := send RequestForwardPlan s.

Definition sr_request_status_report (immediate : bool) (s : machine) : machine :=
  send (RequestStatusReport immediate) s.

Definition cm_set_motion_state (v : cmMotionState) (s : machine) : machine :=
  set_cm_motion_state v s.

(** The calls into the stepper preparation, applied to the prep slot of
    the stepper module and logged. *)
Definition prep_null (s : machine) : machine :=
  log_prep PrepNull
    (set_steppers (with_pre (steppers s) (st_prep_null (st_pre (steppers s)))) s).

Definition prep_out_of_band_dwell (microseconds : F) (s : machine) : machine :=
  let s' := set_steppers (st_prep_out_of_band_dwell hw (steppers s) microseconds) s in
  if st_runtime_isbusy (st_run (steppers s)) then s' else log_prep PrepDwell s'.

(** The external callbacks of planner buffers ([_exec_dwell],
    [_exec_command], ... of files that are not modelled). *)
Variable exec_callback : nat -> nat -> machine -> stat_t * machine.

(** One axis of the compensated (Kahan) summation of [_exec_aline_segment]:
    the new target and the new compensation term. *)
Definition kahan_axis (segment_length u pos comp : F) : F * F :=
  let to_add := (u *! segment_length) -! comp in
  let tgt := pos +! to_add in
  (tgt, (tgt -! pos) -! to_add).

Fixpoint kahan_targets (segment_length : F) (units positions comps : list F)
  : list F * list F :=
  match units, positions, comps with
  | u :: us, p :: ps, c :: cs =>
      let '(t, c') := kahan_axis segment_length u p c in
      let '(ts, cs') := kahan_targets segment_length us ps cs in
      (t :: ts, c' :: cs')
  | _, _, _ => ([], [])
  end.

(** Travel of one motor; less than 0.01 step is truncated to zero (the
    source compares [fabs] with the [double] constant 0.01). *)
Definition travel_of (target_step position_step : F) : F :=
  let d := target_step -! position_step in
  if d_of_f (f_abs d) <!! d_lit (1 # 100) then zero else d.

(** [_exec_aline_segment]: computes the target of the next segment and
    hands the segment to [st_prep_line].  [ritorno] returns the status of
    [st_prep_line] when it is not [STAT_OK]. *)
Definition _exec_aline_segment (s : machine) : stat_t * machine :=
  let s := upd_mr (fun m => set_segment_count (to_uint32 (segment_count m - 1)) m) s in
  let s :=
    if (segment_count (mr s) =? 0) && cmFeedholdState_eqb (cm_hold_state s) FEEDHOLD_OFF
    then upd_mr (fun m => set_gm_target (waypoint m (section m)) m) s
    else
      let segment_length := segment_velocity (mr s) *! segment_time (mr s) in
      let '(targets, comps) :=
        kahan_targets segment_length (mr_unit (mr s)) (position (mr s))
                      (gm_target_comp (mr s)) in
      upd_mr (fun m => set_gm_target targets (set_gm_target_comp comps m)) s in
  let s := upd_mr (fun m => set_commanded_steps (position_steps m) m) s in
  let s := upd_mr (fun m => set_position_steps (target_steps m) m) s in
  let s := upd_mr (fun m => set_encoder_steps
                    (map (en_read_encoder ext) (seq 0 (List.length (target_steps m)))) m) s in
  let s := upd_mr (fun m => set_following_error
                    (zip_with f_sub (encoder_steps m) (commanded_steps m)) m) s in
  let s := upd_mr (fun m => set_target_steps (kn_inverse_kinematics ext (gm_target m)) m) s in
  let travel_steps :=
    zip_with travel_of (target_steps (mr s)) (position_steps (mr s)) in
  let s := set_mp_run_time_remaining (mp_run_time_remaining s -! segment_time (mr s)) s in
  let s := if mp_run_time_remaining s <! zero then set_mp_run_time_remaining zero s else s in
  let '(status, pre, _) :=
    st_prep_line hw (motor_polarity ext) (st_pre (steppers s)) travel_steps
                 (following_error (mr s)) (segment_time (mr s)) in
  let s := log_prep PrepLine (set_steppers (with_pre (steppers s) pre) s) in
  if negb (stat_eqb status STAT_OK) then (status, s)
  else
    let s := upd_mr (fun m => set_position (gm_target m) m) s in
    if segment_count (mr s) =? 0 then (STAT_OK, s) else (STAT_EAGAIN, s).

Definition shift_forward_diffs (m : mpPlannerRuntime) : mpPlannerRuntime :=
  let m := set_forward_diff_5 (forward_diff_5 m +! forward_diff_4 m) m in
  let m := set_forward_diff_4 (forward_diff_4 m +! forward_diff_3 m) m in
  let m := set_forward_diff_3 (forward_diff_3 m +! forward_diff_2 m) m in
  set_forward_diff_2 (forward_diff_2 m +! forward_diff_1 m) m.

(** Number of segments of a section of the given time:
    [ceil(uSec(time) / NOM_SEGMENT_USEC)]. *)
Definition section_segments (time : F) : F :=
  f_ceil (uSec ext time /! NOM_SEGMENT_USEC).


(** [_exec_aline_tail]. *)
Definition _exec_aline_tail (bf : nat) (s : machine) : stat_t * machine :=
  let first_pass := sectionState_eqb (section_state (mr s)) SECTION_NEW in
  let run (s : machine) : stat_t * machine :=
    let '(status, s) := _exec_aline_segment s in
    if stat_eqb status STAT_OK then (STAT_OK, s)
    else if negb first_pass then (STAT_EAGAIN, upd_mr shift_forward_diffs s)
    else (STAT_EAGAIN, s) in
  if first_pass then
    let s := upd_buf bf (set_plannable false) s in
    if fp_ZERO hw (tail_length (run_block s)) then (STAT_OK, s)
    else
      let s := upd_mr (fun m => set_segments (section_segments (tail_time (mr_r m))) m) s in
      let s := upd_mr (fun m => set_segment_count (to_uint32 (f_to_Z (segments m))) m) s in
      let s := upd_mr (fun m => set_segment_time (tail_time (mr_r m) /! segments m) m) s in
      let s :=
        if segment_count (mr s) =? 1
        then upd_mr (fun m => set_segment_velocity
                                (tail_length (mr_r m) /! segment_time m) m) s
        else upd_mr (fun m => _init_forward_diffs (cruise_velocity (mr_r m))
                                                  (exit_velocity (mr_r m)) m) s in
      if segment_time (mr s) <! MIN_SEGMENT_TIME then (STAT_OK, s)
      else run (upd_mr (set_section_state SECTION_RUNNING) s)
  else
    run (upd_mr (fun m => set_segment_velocity
                            (segment_velocity m +! forward_diff_5 m) m) s).

(** [_exec_aline_body]. *)
Definition _exec_aline_body (bf : nat) (s : machine) : stat_t * machine :=
  let run (s : machine) : stat_t * machine :=
    let '(status, s) := _exec_aline_segment s in
    if stat_eqb status STAT_OK then
      if fp_ZERO hw (tail_length (run_block s)) then (STAT_OK, s)
      else
        (STAT_EAGAIN,
         upd_mr (fun m => set_section_state SECTION_NEW (set_section SECTION_TAIL m)) s)
    else (STAT_EAGAIN, s) in
  if sectionState_eqb (section_state (mr s)) SECTION_NEW then
    if fp_ZERO hw (body_length (run_block s)) then
      _exec_aline_tail bf (upd_mr (set_section SECTION_TAIL) s)
    else
      let body_time := body_time (run_block s) in
      let s := upd_mr (fun m => set_segments (section_segments body_time) m) s in
      let s := upd_mr (fun m => set_segment_time (body_time /! segments m) m) s in
      let s := upd_mr (fun m => set_segment_velocity (cruise_velocity (mr_r m)) m) s in
      let s := upd_mr (fun m => set_segment_count (to_uint32 (f_to_Z (segments m))) m) s in
      if segment_time (mr s) <! MIN_SEGMENT_TIME then (STAT_OK, s)
      else run (upd_mr (set_section_state SECTION_RUNNING) s)
  else run s.

(** [_exec_aline_head]. *)
Definition _exec_aline_head (bf : nat) (s : machine) : stat_t * machine :=
  let first_pass := sectionState_eqb (section_state (mr s)) SECTION_NEW in
  let run (s : machine) : stat_t * machine :=
    let '(status, s) := _exec_aline_segment s in
    if stat_eqb status STAT_OK then
      if fp_ZERO hw (body_length (run_block s)) && fp_ZERO hw (tail_length (run_block s))
      then (STAT_OK, s)
      else
        (STAT_EAGAIN,
         upd_mr (fun m => set_section_state SECTION_NEW (set_section SECTION_BODY m)) s)
    else if negb first_pass then (STAT_EAGAIN, upd_mr shift_forward_diffs s)
    else (STAT_EAGAIN, s) in
  if first_pass then
    if fp_ZERO hw (head_length (run_block s)) then
      _exec_aline_body bf (upd_mr (set_section SECTION_BODY) s)
    else
      let s := upd_mr (fun m => set_segments (section_segments (head_time (mr_r m))) m) s in
      let s := upd_mr (fun m => set_segment_count (to_uint32 (f_to_Z (segments m))) m) s in
      let s := upd_mr (fun m => set_segment_time (head_time (mr_r m) /! segments m) m) s in
      let s :=
        if segment_count (mr s) =? 1
        then upd_mr (fun m => set_segment_velocity
                                (head_length (mr_r m) /! segment_time m) m) s
        else upd_mr (fun m => _init_forward_diffs (entry_velocity m)
                                                  (cruise_velocity (mr_r m)) m) s in
      if segment_time (mr s) <! MIN_SEGMENT_TIME then (STAT_OK, s)
      else run (upd_mr (set_section_state SECTION_RUNNING) s)
  else
    run (upd_mr (fun m => set_segment_velocity
                            (segment_velocity m +! forward_diff_5 m) m) s).

(** [mpPlannerRuntime_t::reset()]. *)
Definition mr_reset (m : mpPlannerRuntime) : mpPlannerRuntime :=
  let m := set_block_state BLOCK_INACTIVE m in
  let m := set_section SECTION_HEAD m in
  let m := set_section_state SECTION_OFF m in
  let m := set_entry_velocity zero m in
  let m := set_mr_r (set_exit_velocity zero (mr_r m)) m in
  set_segment_velocity zero m.

(** The loop of [_exec_aline_feedhold] that reverts the buffers from the
    held one onwards to [MP_BUFFER_BACK_PLANNED], so that they can be
    forward planned again.  It stops at the first buffer that is not past
    [MP_BUFFER_BACK_PLANNED]; every buffer it passes becomes such a buffer,
    so it ends within one turn of the ring: the fuel passed is the size of
    the ring plus one. *)
Fixpoint revert_planned (fuel : nat) (bf : nat) (pool : list mpBuf) : list mpBuf :=
  match fuel with
  | O => pool
  | S fuel' =>
      if bufferState_ltb MP_BUFFER_BACK_PLANNED (buffer_state (pool_at bf pool))
      then revert_planned fuel' (pool_nx bf pool)
             (list_upd bf (fun b => set_plannable true
                                      (set_buffer_state MP_BUFFER_BACK_PLANNED b)) pool)
      else pool
  end.

Definition free_run_buffer (s : machine) : bool * machine :=
  let '(empty, q) := mp_free_run_buffer ext (mp_q s) in
  (empty, set_mp_q q s).


(** [_exec_aline_feedhold]: the feedhold state machine run from within
    [mp_exec_aline]. *)
Definition _exec_aline_feedhold (bf : nat) (s : machine) : stat_t * machine :=
  if cmFeedholdState_eqb (cm_hold_state s) FEEDHOLD_MOTION_STOPPING then
    if mp_runtime_is_idle ext (st_run (steppers s)) then
      let s :=
        if cm_hold_type_skip s then
          snd (free_run_buffer (set_mp_position (position (mr s)) s))
        else
          let s := upd_buf bf (set_bf_length
                     (get_axis_vector_length ext (position (mr s)) (target (mr s)))) s in
          if bf_length (buf_at bf s) <! EPSILON4 ext then
            snd (free_run_buffer (set_mp_position (position (mr s)) s))
          else
            let s := upd_buf bf (set_bf_block_state BLOCK_INITIAL_ACTION) s in
            let pool := q_bf (mp_q s) in
            set_mp_q (set_q_bf (revert_planned (S (List.length pool)) bf pool) (mp_q s)) s in
      let s := upd_mr mr_reset s in
      let s := cm_set_motion_state MOTION_STOP s in
      let s := set_cm_hold_state FEEDHOLD_MOTION_STOPPED s in
      (STAT_NOOP, sr_request_status_report true s)
    else (STAT_NOOP, s)
  else if cmFeedholdState_eqb (cm_hold_state s) FEEDHOLD_DECEL_COMPLETE then
    (STAT_OK, set_cm_hold_state FEEDHOLD_MOTION_STOPPING s)
  else if cmFeedholdState_eqb (cm_hold_state s) FEEDHOLD_SYNC
          || (cmFeedholdState_eqb (cm_hold_state s) FEEDHOLD_DECEL_CONTINUE
              && blockState_eqb (block_state (mr s)) BLOCK_INITIAL_ACTION) then
    if moveSection_eqb (section (mr s)) SECTION_TAIL then
      if exit_velocity (run_block s) <! EPSILON2 ext
      then (STAT_EAGAIN, set_cm_hold_state FEEDHOLD_DECEL_TO_ZERO s)
      else (STAT_EAGAIN, set_cm_hold_state FEEDHOLD_DECEL_CONTINUE s)
    else if moveSection_eqb (section (mr s)) SECTION_HEAD
            && negb (sectionState_eqb (section_state (mr s)) SECTION_NEW) then
      (STAT_EAGAIN, s)
    else
      let s := upd_mr (set_section SECTION_TAIL) s in
      let s := upd_mr (set_section_state SECTION_NEW) s in
      let s := upd_mr (fun m => set_entry_velocity (segment_velocity m) m) s in
      let s := upd_r (set_cruise_velocity (entry_velocity (mr s))) s in
      let s := upd_r (set_tail_length
                 (mp_get_target_length ext zero (cruise_velocity (run_block s))
                                       (buf_at bf s))) s in
      let s := upd_r (set_head_length zero) s in
      let s := upd_r (set_body_length zero) s in
      let s := upd_r (set_head_time zero) s in
      let s := upd_r (set_body_time zero) s in
      let available_length :=
        get_axis_vector_length ext (target (mr s)) (position (mr s)) in
      let s :=
        if (available_length +! EPSILON2 ext -! tail_length (run_block s)) >! zero then
          let s := set_cm_hold_state FEEDHOLD_DECEL_TO_ZERO s in
          let s := upd_r (set_exit_velocity zero) s in
          let s := upd_r (fun b => set_tail_time
                     (tail_length b *! f_of_Z 2 /! (exit_velocity b +! cruise_velocity b)) b) s in
          upd_buf bf (set_block_time (tail_time (run_block s))) s
        else
          let s := set_cm_hold_state FEEDHOLD_DECEL_CONTINUE s in
          let s := upd_r (set_tail_length available_length) s in
          let s := upd_r (set_exit_velocity
                     (mp_get_decel_velocity ext (cruise_velocity (run_block s))
                                            (tail_length (run_block s)) (buf_at bf s))) s in
          if exit_velocity (run_block s) >=! zero then
            let s := upd_r (fun b => set_tail_time
                       (tail_length b *! f_of_Z 2 /! (exit_velocity b +! cruise_velocity b)) b) s in
            upd_buf bf (set_block_time (tail_time (run_block s))) s
          else
            let s := upd_mr (set_section SECTION_BODY) s in
            let s := upd_r (fun b => set_exit_velocity (cruise_velocity b) b) s in
            let s := upd_r (set_body_length available_length) s in
            let s := upd_r (fun b => set_body_time (body_length b /! cruise_velocity b) b) s in
            let s := upd_r (set_tail_length zero) s in
            upd_r (set_tail_time zero) s in
      (STAT_EAGAIN,
       upd_mr (fun m => set_mr_r (_exec_aline_normalize_block (entry_velocity m) (mr_r m)) m) s)
  else (STAT_EAGAIN, s).

(** The initialization of a new block in [mp_exec_aline]
    ([mr->block_state == BLOCK_INACTIVE]): swaps the running and the
    planning block, normalizes the block, copies the move and computes the
    starting section and the waypoints. *)
Definition exec_aline_start (bf : nat) (s : machine) : machine :=
  let s := upd_mr (fun m => set_gm_target (bf_gm_target (buf_at bf s))
                    (set_gm_target_comp (bf_gm_target_comp (buf_at bf s)) m)) s in
  let s := upd_buf bf (set_bf_block_state BLOCK_ACTIVE) s in
  let s := upd_mr (set_block_state BLOCK_INITIAL_ACTION) s in
  let s := upd_mr (fun m => set_p_index (negb (p_index m)) (set_r_index (p_index m) m)) s in
  let s := upd_mr (fun m => set_mr_r
                    (_exec_aline_normalize_block (entry_velocity m) (mr_r m)) m) s in
  let s := upd_mr (set_mr_unit (bf_unit (buf_at bf s))) s in
  let s := upd_mr (set_target (bf_gm_target (buf_at bf s))) s in
  let s := upd_mr (set_axis_flags (bf_axis_flags (buf_at bf s))) s in
  let s := upd_mr (set_section_state SECTION_NEW) s in
  let s := upd_mr (fun m => set_section
                    (if fp_ZERO hw (head_length (mr_r m))
                     then if fp_ZERO hw (body_length (mr_r m))
                          then SECTION_TAIL else SECTION_BODY
                     else SECTION_HEAD) m) s in
  upd_mr (fun m => set_waypoint
            (fun sec =>
               let b := mr_r m in
               let l := match sec with
                        | SECTION_HEAD => head_length b
                        | SECTION_BODY => head_length b +! body_length b
                        | SECTION_TAIL => head_length b +! body_length b +! tail_length b
                        end in
               zip_with (fun pos u => pos +! u *! l) (position m) (mr_unit m)) m) s.

(** The main dispatcher of [mp_exec_aline] and the completion of the
    block. *)
Definition exec_aline_run (bf : nat) (s : machine) : stat_t * machine :=
  let s := upd_mr (set_block_state BLOCK_ACTIVE) s in
  let '(status, s) :=
    match section (mr s) with
    | SECTION_HEAD => _exec_aline_head bf s
    | SECTION_BODY => _exec_aline_body bf s
    | SECTION_TAIL => _exec_aline_tail bf s
    end in
  let s :=
    if moveSection_eqb (section (mr s)) SECTION_TAIL
       || (moveSection_eqb (section (mr s)) SECTION_BODY && (segment_count (mr s) <? 3))
    then upd_buf bf (set_plannable false) s else s in
  let s :=
    if cmFeedholdState_eqb (cm_hold_state s) FEEDHOLD_DECEL_TO_ZERO
       && (stat_eqb status STAT_OK || stat_eqb status STAT_NOOP)
    then upd_buf bf (set_bf_block_state BLOCK_INITIAL_ACTION)
                 (set_cm_hold_state FEEDHOLD_DECEL_COMPLETE s)
    else s in
  let s :=
    if negb (cmMotionState_eqb (cm_motion_state s) MOTION_RUN)
    then cm_set_motion_state MOTION_RUN s else s in
  if stat_eqb status STAT_EAGAIN then (status, sr_request_status_report false s)
  else
    let s := upd_mr (set_block_state BLOCK_INACTIVE) s in
    let s := upd_mr (set_section_state SECTION_OFF) s in
    let s := set_mp_run_time_remaining zero s in
    let s := upd_mr (fun m => set_entry_velocity (exit_velocity (mr_r m)) m) s in
    if blockState_eqb (bf_block_state (buf_at bf s)) BLOCK_ACTIVE then
      let '(empty, s) := free_run_buffer s in
      if empty then
        if cmFeedholdState_eqb (cm_hold_state s) FEEDHOLD_OFF
        then (status, send CycleEnd (cm_set_motion_state MOTION_STOP s))
        else (status, s)
      else (status, st_request_forward_plan s)
    else (status, s).

(** [mp_exec_aline]. *)
Definition mp_exec_aline (bf : nat) (s : machine) : stat_t * machine :=
  if negb (cm_in_cycle s) then (STAT_NOOP, s)
  else if blockState_eqb (bf_block_state (buf_at bf s)) BLOCK_INACTIVE then (STAT_NOOP, s)
  else
    let s :=
      if blockState_eqb (block_state (mr s)) BLOCK_INACTIVE
      then exec_aline_start bf s else s in
    if negb (cmFeedholdState_eqb (cm_hold_state s) FEEDHOLD_OFF) then
      if Nat.leb (cmFeedholdState_rank FEEDHOLD_MOTION_STOPPED)
                 (cmFeedholdState_rank (cm_hold_state s))
      then (STAT_NOOP, s)
      else
        let '(status, s) := _exec_aline_feedhold bf s in
        if stat_eqb status STAT_OK || stat_eqb status STAT_NOOP then (status, s)
        else exec_aline_run bf s
    else exec_aline_run bf s.

(** [mp_exec_move]: dequeues the run buffer and runs its callback. *)
Definition mp_exec_move (s : machine) : stat_t * machine :=
  if out_of_band_dwell_flag (mr s) then
    let s := upd_mr (set_out_of_band_dwell_flag false) s in
    (STAT_OK,
     prep_out_of_band_dwell (out_of_band_dwell_seconds (mr s) *! f_of_Z 1000000) s)
  else
    match mp_get_run_buffer ext (mp_q s) with
    | None => (STAT_NOOP, prep_null s)
    | Some bf =>
        let callback (s : machine) : stat_t * machine :=
          match bf_func (buf_at bf s) with
          | None => (cm_panic STAT_INTERNAL_ERROR, s)
          | Some BF_mp_exec_aline => mp_exec_aline bf s
          | Some (BF_callback id) => exec_callback id bf s
          end in
        let ask_and_run (s : machine) : stat_t * machine :=
          callback
            (if bufferState_leb MP_BUFFER_BACK_PLANNED (buffer_state (buf_at (nx bf s) s))
             then st_request_forward_plan s else s) in
        if blockType_eqb (block_type (buf_at bf s)) BLOCK_TYPE_ALINE then
          if negb (bufferState_eqb (buffer_state (buf_at bf s)) MP_BUFFER_RUNNING) then
            if bufferState_ltb (buffer_state (buf_at bf s)) MP_BUFFER_BACK_PLANNED
               && cmMotionState_eqb (cm_motion_state s) MOTION_RUN
            then (STAT_NOOP, prep_null s)
            else if bufferState_eqb (buffer_state (buf_at bf s)) MP_BUFFER_BACK_PLANNED
            then (STAT_NOOP, st_request_forward_plan s)
            else if bufferState_eqb (buffer_state (buf_at bf s)) MP_BUFFER_FULLY_PLANNED
            then ask_and_run
                   (send PlannerTimeAccounting
                         (upd_buf bf (set_buffer_state MP_BUFFER_RUNNING) s))
            else (STAT_NOOP, s)
          else ask_and_run s
        else callback s
    end.

(** The command loop of [mp_forward_plan]: marks the back-planned commands
    from [bf] on as fully planned and stops at the first buffer that is not
    a command.  In a ring that holds nothing but commands the source's loop
    does not end; the model stops after one turn of the ring. *)
Fixpoint plan_commands (fuel : nat) (bf : nat) (planned_something : bool)
         (pool : list mpBuf) : nat * bool * list mpBuf :=
  match fuel with
  | O => (bf, planned_something, pool)
  | S fuel' =>
      if Nat.leb (blockType_rank BLOCK_TYPE_COMMAND)
                 (blockType_rank (block_type (pool_at bf pool)))
      then
        if bufferState_eqb (buffer_state (pool_at bf pool)) MP_BUFFER_BACK_PLANNED
        then plan_commands fuel' (pool_nx bf pool) true
               (list_upd bf (set_buffer_state MP_BUFFER_FULLY_PLANNED) pool)
        else plan_commands fuel' (pool_nx bf pool) planned_something pool
      else (bf, planned_something, pool)
  end.

(** [_plan_aline]: forward plans the buffer into the planning block
    [mr->p].  [mp_calculate_ramps] also records planning hints in the
    buffer, which the model does not carry. *)
Definition _plan_aline (bf : nat) (entry_velocity : F) (s : machine) : machine :=
  let s := upd_mr (fun m => set_mr_p
                    (mp_calculate_ramps ext (mr_p m) (buf_at bf s) entry_velocity) m) s in
  let s := upd_buf bf (set_buffer_state MP_BUFFER_FULLY_PLANNED) s in
  upd_buf bf (set_plannable false) s.

(** [mp_forward_plan]. *)
Definition mp_forward_plan (s : machine) : stat_t * machine :=
  match mp_get_run_buffer ext (mp_q s) with
  | None => (STAT_NOOP, prep_null s)
  | Some bf =>
      if bufferState_ltb (buffer_state (buf_at bf s)) MP_BUFFER_BACK_PLANNED
      then (STAT_NOOP, s)
      else
        let '(bf, entry_velocity) :=
          if bufferState_eqb (buffer_state (buf_at bf s)) MP_BUFFER_RUNNING
          then (nx bf s, exit_velocity (run_block s))
          else (bf, entry_velocity (mr s)) in
        let '(bf, entry_velocity, planned_something, s) :=
          if negb (blockType_eqb (block_type (buf_at bf s)) BLOCK_TYPE_ALINE) then
            let pool := q_bf (mp_q s) in
            let '(bf, planned_something, pool) :=
              plan_commands (List.length pool) bf false pool in
            let s := set_mp_q (set_q_bf pool (mp_q s)) s in
            if blockType_eqb (block_type (buf_at bf s)) BLOCK_TYPE_ALINE
               && bufferState_ltb MP_BUFFER_BACK_PLANNED (buffer_state (buf_at bf s))
            then (bf, exit_velocity (run_block s), planned_something, s)
            else (bf, entry_velocity, planned_something, s)
          else (bf, entry_velocity, false, s) in
        if blockType_eqb (block_type (buf_at bf s)) BLOCK_TYPE_ALINE
           && bufferState_eqb (buffer_state (buf_at bf s)) MP_BUFFER_BACK_PLANNED
        then (STAT_OK, _plan_aline bf entry_velocity s)
        else (if planned_something then STAT_OK else STAT_NOOP, s)
  end.


End WithFloat.

Arguments mpBlockRuntimeBuf : clear implicits.
Arguments mpBuf : clear implicits.
Arguments mpPlannerQueue : clear implicits.
Arguments mpPlannerRuntime : clear implicits.
Arguments Externals : clear implicits.
Arguments machine : clear implicits.


(** A block that is all body and shorter than [MIN_SEGMENT_TIME]: 1 mm at
    100000 mm/min, 0.00001 min (0.6 ms). *)
Definition short_body_block : mpBlockRuntimeBuf B32.b32 :=
  {| head_length := B32.of_Z 0; body_length := B32.of_Z 1; tail_length := B32.of_Z 0;
     head_time := B32.of_Z 0; body_time := B32.lit (1 # 100000);
     tail_time := B32.of_Z 0;
     cruise_velocity := B32.of_Z 100000; exit_velocity := B32.of_Z 100000 |}.

(** A block whose head is shorter than [MIN_SEGMENT_TIME]: 0.01 mm in
    0.00001 min (0.6 ms), then 2 mm of body at 2000 mm/min and 1 mm of
    tail. *)
Definition brief_head_block : mpBlockRuntimeBuf B32.b32 :=
  {| head_length := B32.lit (1 # 100); body_length := B32.of_Z 2;
     tail_length := B32.of_Z 1;
     head_time := B32.lit (1 # 100000); body_time := B32.lit (1 # 1000);
     tail_time := B32.lit (1 # 1000);
     cruise_velocity := B32.of_Z 2000; exit_velocity := B32.of_Z 0 |}.


(** A block without a head: 2 mm of body at 2000 mm/min, then 1 mm of
    tail. *)
Definition headless_block : mpBlockRuntimeBuf B32.b32 :=
  {| head_length := B32.of_Z 0; body_length := B32.of_Z 2;
     tail_length := B32.of_Z 1;
     head_time := B32.of_Z 0; body_time := B32.lit (1 # 1000);
     tail_time := B32.lit (1 # 1000);
     cruise_velocity := B32.of_Z 2000; exit_velocity := B32.of_Z 0 |}.

(** A block whose head, 0.001 mm in 0.000001 min, is shorter than
    [MIN_SEGMENT_TIME], before 10 mm of body at 1000 mm/min. *)
Definition tiny_head_block : mpBlockRuntimeBuf B32.b32 :=
  {| head_length := B32.lit (1 # 1000); body_length := B32.of_Z 10;
     tail_length := B32.of_Z 0;
     head_time := B32.lit (1 # 1000000); body_time := B32.lit (1 # 100);
     tail_time := B32.of_Z 0;
     cruise_velocity := B32.of_Z 1000; exit_velocity := B32.of_Z 1000 |}.

(** The length of a head or tail [x] that takes half of the body [b]:
    [x += b * 0.5], the product and the sum computed in [double]. *)
Definition half_more {F : Type} `{FloatOps F} (x b : F) : F :=
  f_of_d (d_add (d_of_f x) (d_mul (d_of_f b) (d_lit (1 # 2)))).

(** The lengths (head, body, tail) that [_exec_aline_normalize_block] can
    leave for a block of lengths [hl], [bl], [tl]: the block as it was; the
    head, the tail or both folded into the body; the body folded into the
    head, into the tail or, by halves, into both; and the body, with the
    head (tail) it has taken, folded into the tail (head).  Every section
    is moved whole, by additions in [float] ([double] for the halves). *)
Definition folded_lengths {F : Type} `{FloatOps F} (hl bl tl : F) : list (F * F * F) :=
  [ (hl, bl, tl);
    (f_of_Z 0, f_add bl hl, tl);
    (hl, f_add bl tl, f_of_Z 0);
    (f_of_Z 0, f_add (f_add bl hl) tl, f_of_Z 0);
    (f_add hl bl, f_of_Z 0, tl);
    (hl, f_of_Z 0, f_add tl bl);
    (half_more hl bl, f_of_Z 0, half_more tl bl);
    (f_of_Z 0, f_of_Z 0, f_add tl (f_add bl hl));
    (f_add hl (f_add bl tl), f_of_Z 0, f_of_Z 0) ].

(** The executor makes at most one call into the stepper preparation
    between the states [s] and [s']. *)
Definition prepares_at_most_one {F : Type} (s s' : machine F) : Prop :=
  exists l, prep_calls s' = prep_calls s ++ l /\ (List.length l <= 1)%nat.

(** The state of buffer [bf] of the queue. *)
Definition state_of {F : Type} `{FloatOps F} (bf : nat) (s : machine F) : bufferState :=
  buffer_state (buf_at bf s).

(** The ways the state of a buffer changes from [a] to [b]: not at all,
    the start of a fully planned buffer ([MP_BUFFER_FULLY_PLANNED] to
    [MP_BUFFER_RUNNING]), the release of the buffer ([MP_BUFFER_EMPTY]), or,
    when [revert] holds, the return of a planned or running buffer to
    [MP_BUFFER_BACK_PLANNED]. *)
Definition buffer_transition (revert : Prop) (a b : bufferState) : Prop :=
  a = b
  \/ (a = MP_BUFFER_FULLY_PLANNED /\ b = MP_BUFFER_RUNNING)
  \/ b = MP_BUFFER_EMPTY
  \/ (revert /\ b = MP_BUFFER_BACK_PLANNED
      /\ (bufferState_rank MP_BUFFER_BACK_PLANNED < bufferState_rank a)%nat).

(** The claim of the specification on [buffer_state], in its weakest
    reading: from [a] to [b] the state does not go back in the order of the
    enumeration, unless the buffer is released and the cycle starts again. *)
Definition never_backwards (a b : bufferState) : Prop :=
  (bufferState_rank a <= bufferState_rank b)%nat \/ b = MP_BUFFER_EMPTY.

(** The changes of a buffer state that the executor and the forward planner
    make: none; a step forward, from back planned to fully planned or from
    fully planned to running; the release of the buffer; and, when [revert]
    holds, the return of a planned or running buffer to
    [MP_BUFFER_BACK_PLANNED]. *)
Definition planner_step (revert : Prop) (a b : bufferState) : Prop :=
  a = b
  \/ (a = MP_BUFFER_BACK_PLANNED /\ b = MP_BUFFER_FULLY_PLANNED)
  \/ (a = MP_BUFFER_FULLY_PLANNED /\ b = MP_BUFFER_RUNNING)
  \/ b = MP_BUFFER_EMPTY
  \/ (revert /\ b = MP_BUFFER_BACK_PLANNED
      /\ (bufferState_rank MP_BUFFER_BACK_PLANNED < bufferState_rank a)%nat).

(** A buffer keeps its state from [a] to [b] or is released. *)
Definition kept_or_released (a b : bufferState) : Prop :=
  b = a \/ b = MP_BUFFER_EMPTY.

(** A buffer keeps its state, is released, or, when [revert] holds, goes
    back from a state past [MP_BUFFER_BACK_PLANNED] to that state. *)
Definition kept_released_or_reverted (revert : Prop) (a b : bufferState) : Prop :=
  b = a \/ b = MP_BUFFER_EMPTY
  \/ (revert /\ b = MP_BUFFER_BACK_PLANNED
      /\ (bufferState_rank MP_BUFFER_BACK_PLANNED < bufferState_rank a)%nat).

Section Examples.
Context {F : Type} `{FloatOps F}.
Local Open Scope float_scope.

(** Values to evaluate the model on: the clocks and thresholds of
    [Stepper.example_settings], for any arithmetic. *)
Definition example_hw : Settings F :=
  {| FREQUENCY_DDA := f_of_Z 200000;
     FREQUENCY_DWELL := f_of_Z 1000;
     DDA_SUBSTEPS := f_of_Z 32;
     STEP_CORRECTION_THRESHOLD := f_of_Z 2;
     STEP_CORRECTION_FACTOR := f_lit (1 # 4);
     STEP_CORRECTION_MAX := f_lit (6 # 10);
     STEP_CORRECTION_HOLDOFF := 5;
     DIRECTION_CW := 0;
     DIRECTION_CCW := 1;
     fp_ZERO := fun x => f_abs x <! f_lit (1 # 100000);
     fp_NOT_ZERO := fun x => f_lit (1 # 100000) <! f_abs x |}.

(** Modelled from the spec: the run cursor [r] of the queue points to the
    buffer that is running or next to run; there is none when that buffer
    is empty. *)
Definition example_get_run_buffer (q : mpPlannerQueue F) : option nat :=
  if bufferState_eqb (buffer_state (pool_at (q_r q) (q_bf q))) MP_BUFFER_EMPTY
  then None else Some (q_r q).

(** Modelled from the spec: releasing the run buffer resets it (its state
    becomes [MP_BUFFER_EMPTY]) and advances the run cursor; the result tells
    whether the queue is empty (the run cursor has reached the write
    cursor). *)
Definition example_free_run_buffer (q : mpPlannerQueue F) : bool * mpPlannerQueue F :=
  let q' := set_q_bf (list_upd (q_r q) mpBuf_reset (q_bf q)) q in
  let q' := set_q_r (pool_nx (q_r q) (q_bf q)) q' in
  let q' := set_buffers_available (buffers_available q + 1) q' in
  (Nat.eqb (q_w q') (q_r q'), q').

Fixpoint sum_abs_diff (a b : list F) : F :=
  match a, b with
  | x :: a', y :: b' => f_abs (x -! y) +! sum_abs_diff a' b'
  | _, _ => zero
  end.

(** External functions to evaluate the model on.  Times are in minutes
    ([uSec] converts to microseconds); a motor makes 100 steps per
    millimetre of its axis; the encoders read zero; the length of an axis
    vector is taken along the axes, which is its length for the moves along
    one axis used below; braking lengths and velocities are not exercised
    by the examples and are zero; the ramp of a block is a body at the
    entry velocity. *)
Definition example_ext : Externals F :=
  {| uSec := fun t => t *! f_of_Z 60000000;
     EPSILON2 := f_lit (1 # 10000);
     EPSILON4 := f_lit (1 # 100);
     motor_polarity := [0];
     en_read_encoder := fun _ => zero;
     kn_inverse_kinematics := map (fun x => x *! f_of_Z 100);
     get_axis_vector_length := sum_abs_diff;
     mp_get_target_length := fun _ _ _ => zero;
     mp_get_decel_velocity := fun _ _ _ => zero;
     mp_calculate_ramps := fun b bf v =>
       set_body_time (bf_length bf /! v) (set_body_length (bf_length bf) b);
     mp_get_run_buffer := example_get_run_buffer;
     mp_free_run_buffer := example_free_run_buffer;
     mp_runtime_is_idle := fun run => negb (st_runtime_isbusy run) |}.

(** A callback in the manner of a command: it hands the buffer to the
    stepper preparation. *)
Definition example_callback (id bf : nat) (s : machine F) : stat_t * machine F :=
  (STAT_OK,
   log_prep PrepCommand
     (set_steppers (with_pre (steppers s) (st_prep_command (st_pre (steppers s)) bf)) s)).

(** A move of 4 mm along one axis from rest to rest: 1 mm of head, 2 mm of
    body at 2000 mm/min, 1 mm of tail, 0.001 min each. *)
Definition example_block : mpBlockRuntimeBuf F :=
  {| head_length := f_of_Z 1; body_length := f_of_Z 2; tail_length := f_of_Z 1;
     head_time := f_lit (1 # 1000); body_time := f_lit (1 # 1000);
     tail_time := f_lit (1 # 1000);
     cruise_velocity := f_of_Z 2000; exit_velocity := f_of_Z 0 |}.

Definition example_buf (state : bufferState) : mpBuf F :=
  {| buffer_state := state; block_type := BLOCK_TYPE_ALINE;
     bf_block_state := BLOCK_ACTIVE; plannable := true;
     bf_length := f_of_Z 4; block_time := f_lit (3 # 1000);
     bf_func := Some BF_mp_exec_aline;
     bf_unit := [f_of_Z 1]; bf_axis_flags := [true];
     bf_gm_target := [f_of_Z 4]; bf_gm_target_comp := [f_of_Z 0] |}.

(** The runtime at position 0 of the move, in the given block state,
    section and section state. *)
Definition example_runtime (bs : blockState) (sec : moveSection) (ss : sectionState)
  : mpPlannerRuntime F :=
  {| block_state := bs; section := sec; section_state := ss;
     out_of_band_dwell_flag := false; out_of_band_dwell_seconds := zero;
     mr_unit := [f_of_Z 1]; axis_flags := [true];
     target := [f_of_Z 4]; position := [zero];
     waypoint := fun sec => match sec with
                            | SECTION_HEAD => [f_of_Z 1]
                            | SECTION_BODY => [f_of_Z 3]
                            | SECTION_TAIL => [f_of_Z 4]
                            end;
     target_steps := [zero]; position_steps := [zero]; commanded_steps := [zero];
     encoder_steps := [zero]; following_error := [zero];
     r_index := false; p_index := true;
     block0 := example_block; block1 := example_block;
     entry_velocity := zero; segments := zero; segment_count := 0;
     segment_velocity := zero; segment_time := zero;
     forward_diff_1 := zero; forward_diff_2 := zero; forward_diff_3 := zero;
     forward_diff_4 := zero; forward_diff_5 := zero;
     gm_target := [zero]; gm_target_comp := [zero] |}.

Definition example_stepper : stepper F :=
  {| st_pre := {| pre_buffer_state := PREP_BUFFER_OWNED_BY_EXEC;
                  pre_block_type := BLOCK_TYPE_NULL;
                  pre_bf := None;
                  pre_dda_ticks := 0;
                  pre_dda_ticks_X_substeps := 0;
                  pre_dwell_ticks := 0;
                  pre_mot := [ {| pre_substep_increment := 0;
                                  pre_direction := 0;
                                  pre_prev_direction := 0;
                                  pre_step_sign := 0;
                                  pre_accumulator_correction_flag := false;
                                  pre_accumulator_correction := zero;
                                  pre_prev_segment_time := zero;
                                  pre_correction_holdoff := 0;
                                  pre_corrected_steps := zero |} ] |};
     st_run := {| run_dda_ticks_downcount := 0;
                  run_dwell_ticks_downcount := 0;
                  run_dda_ticks_X_substeps := 0;
                  run_mot := [ {| run_substep_increment := 0;
                                  run_substep_accumulator := 0 |} ] |};
     dwell_event_registered := false;
     hw_log := [] |}.

(** The machine in cycle and in motion, with the given hold state and
    runtime, a queue of four buffers of which the first is the run buffer
    (an instance of the example move in state [run_state]), the second an
    instance in state [next_state], and an idle stepper. *)
Definition example_machine (hold : cmFeedholdState) (m : mpPlannerRuntime F)
           (run_state next_state : bufferState) : machine F :=
  {| cm_in_cycle := true; cm_hold_state := hold; cm_hold_type_skip := false;
     cm_motion_state := MOTION_RUN; mr := m;
     mp_run_time_remaining := f_lit (3 # 1000);
     mp_position := [f_of_Z 8];
     mp_q := {| q_r := 0%nat; q_w := 2%nat; buffers_available := 2;
                q_bf := [example_buf run_state; example_buf next_state;
                         null_buf; null_buf] |};
     steppers := example_stepper;
     prep_calls := []; requests := [] |}.

End Examples.

End Planner.
(* ================================================================= *)
(** ** The segments of a section: values to evaluate the model on *)

Module Curve.
Import Arith MachInt Stepper Planner.

(** The example move in its head, with one segment left to run. *)
Definition last_segment_machine : machine Q :=
  example_machine FEEDHOLD_OFF
    (set_segment_count 1 (example_runtime BLOCK_ACTIVE SECTION_HEAD SECTION_RUNNING))
    MP_BUFFER_RUNNING MP_BUFFER_BACK_PLANNED.

End Curve.


(* ================================================================= *)
(** ** The DDA interrupt and the reset of the stepper (stepper.cpp) *)

Module Dda.
Import Arith MachInt Stepper.
Open Scope Z_scope.

(** Effects of the DDA interrupt on the step pins, the encoders and the
    DDA timer, in program order. *)
Inductive ddaEvent : Type :=
  | StepEnd (motor : nat)
  | StepStart (motor : nat)
  | IncrementEncoder (motor : nat)
  | DdaTimerStop.

(** The DDA of one motor, the statement the interrupt repeats for MOTOR_1
    to MOTOR_6: the accumulator (an [int32_t]) takes the substep
    increment; when it becomes positive the motor steps and the
    accumulator gives back [dda_ticks_X_substeps]. *)
Definition dda_motor (ticks_X_substeps : Z) (motor : nat) (rm : stRunMotor)
  : stRunMotor * list ddaEvent :=
  let acc := to_int32 (run_substep_accumulator rm + run_substep_increment rm) in
  if 0 <? acc then
    ({| run_substep_increment := run_substep_increment rm;
        run_substep_accumulator := to_int32 (acc - ticks_X_substeps) |},
     [StepStart motor; IncrementEncoder motor])
  else
    ({| run_substep_increment := run_substep_increment rm;
        run_substep_accumulator := acc |}, []).

Fixpoint dda_motors (ticks_X_substeps : Z) (motor : nat) (rms : list stRunMotor)
  : list stRunMotor * list ddaEvent :=
  match rms with
  | [] => ([], [])
  | rm :: rms' =>
      let '(rm', ev) := dda_motor ticks_X_substeps motor rm in
      let '(rms'', evs) := dda_motors ticks_X_substeps (S motor) rms' in
      (rm' :: rms'', ev ++ evs)
  end.

(** The DDA interrupt up to the end-of-segment test: the step pins are
    cleared; with the down count at zero the timer is stopped; otherwise
    the DDAs run and the down count (an [uint32_t]) is decremented.  The
    boolean tells whether the segment has ended
    ([--st_run.dda_ticks_downcount == 0]). *)
Definition dda_tick (run : stRunSingleton) : stRunSingleton * list ddaEvent * bool :=
  let ends := map StepEnd (seq 0 (List.length (run_mot run))) in
  if run_dda_ticks_downcount run =? 0 then (run, ends ++ [DdaTimerStop], false)
  else
    let '(rms, evs) := dda_motors (run_dda_ticks_X_substeps run) 0 (run_mot run) in
    let d := to_uint32 (run_dda_ticks_downcount run - 1) in
    ({| run_dda_ticks_downcount := d;
        run_dwell_ticks_downcount := run_dwell_ticks_downcount run;
        run_dda_ticks_X_substeps := run_dda_ticks_X_substeps run;
        run_mot := rms |}, ends ++ evs, d =? 0).

Section WithFloat.
Context {F : Type} `{FloatOps F}.

(** [dda_timer_type::interrupt]: at the end of a segment the loader runs
    at once. *)
Definition dda_timer_interrupt (st : stepper F) : stepper F * list ddaEvent :=
  let '(run, evs, ended) := dda_tick (st_run st) in
  let st' := {| st_pre := st_pre st; st_run := run;
                dwell_event_registered := dwell_event_registered st;
                hw_log := hw_log st |} in
  (if ended then _load_move st' else st', evs).

(** [k] DDA interrupts in a row. *)
Fixpoint dda_interrupts (k : nat) (st : stepper F) : stepper F * list ddaEvent :=
  match k with
  | O => (st, [])
  | S k' =>
      let '(st', evs) := dda_timer_interrupt st in
      let '(st'', evs') := dda_interrupts k' st' in
      (st'', evs ++ evs')
  end.

(** The stepper with another run slot. *)
Definition with_run (st : stepper F) (run : stRunSingleton) : stepper F :=
  {| st_pre := st_pre st; st_run := run;
     dwell_event_registered := dwell_event_registered st;
     hw_log := hw_log st |}.

(** [stepper_reset], for the initial direction [STEP_INITIAL_DIRECTION] of
    stepper.h.  (The reset of the encoders, in another module, is left
    out.) *)
Definition reset_prep_motor (initial_direction : Z) (pm : stPrepMotor F) : stPrepMotor F :=
  {| pre_substep_increment := pre_substep_increment pm;
     pre_direction := initial_direction;
     pre_prev_direction := initial_direction;
     pre_step_sign := pre_step_sign pm;
     pre_accumulator_correction_flag := pre_accumulator_correction_flag pm;
     pre_accumulator_correction := pre_accumulator_correction pm;
     pre_prev_segment_time := pre_prev_segment_time pm;
     pre_correction_holdoff := pre_correction_holdoff pm;
     pre_corrected_steps := f_of_Z 0 |}.

Definition reset_run_motor (rm : stRunMotor) : stRunMotor :=
  {| run_substep_increment := run_substep_increment rm;
     run_substep_accumulator := 0 |}.

Definition stepper_reset (initial_direction : Z) (st : stepper F)
  : stepper F * list ddaEvent :=
  ({| st_pre := {| pre_buffer_state := PREP_BUFFER_OWNED_BY_EXEC;
                   pre_block_type := pre_block_type (st_pre st);
                   pre_bf := pre_bf (st_pre st);
                   pre_dda_ticks := pre_dda_ticks (st_pre st);
                   pre_dda_ticks_X_substeps := pre_dda_ticks_X_substeps (st_pre st);
                   pre_dwell_ticks := pre_dwell_ticks (st_pre st);
                   pre_mot := map (reset_prep_motor initial_direction)
                                  (pre_mot (st_pre st)) |};
      st_run := {| run_dda_ticks_downcount := 0;
                   run_dwell_ticks_downcount := 0;
                   run_dda_ticks_X_substeps := run_dda_ticks_X_substeps (st_run st);
                   run_mot := map reset_run_motor (run_mot (st_run st)) |};
      dwell_event_registered := dwell_event_registered st;
      hw_log := hw_log st |}, [DdaTimerStop]).

End WithFloat.

(** The number of step pulses of a motor among the effects. *)
Fixpoint steps_of (motor : nat) (evs : list ddaEvent) : Z :=
  match evs with
  | [] => 0
  | StepStart m :: evs' => (if Nat.eqb m motor then 1 else 0) + steps_of motor evs'
  | _ :: evs' => steps_of motor evs'
  end.

(** [k] DDA interrupts of a segment, as far as the run slot goes: the
    ticks before the one that ends the segment leave the loader out. *)
Fixpoint dda_ticks (k : nat) (run : stRunSingleton) : stRunSingleton * list ddaEvent :=
  match k with
  | O => (run, [])
  | S k' =>
      let '(run', evs, _) := dda_tick run in
      let '(run'', evs') := dda_ticks k' run' in
      (run'', evs ++ evs')
  end.

(** The accumulator of a motor is in the range the DDA keeps it in. *)
Definition accumulator_in_range (ticks_X_substeps : Z) (rm : stRunMotor) : Prop :=
  - ticks_X_substeps <= run_substep_accumulator rm <= 0
  /\ 0 <= run_substep_increment rm <= ticks_X_substeps.

(** A run slot with five ticks left of a segment of ten substeps per tick:
    motor 0 adds 4 substeps a tick from a full accumulator debt, motor 1
    steps on every tick. *)
Definition dda_example_run : stRunSingleton :=
  {| run_dda_ticks_downcount := 5;
     run_dwell_ticks_downcount := 0;
     run_dda_ticks_X_substeps := 10;
     run_mot :=
       [ {| run_substep_increment := 4; run_substep_accumulator := -10 |};
         {| run_substep_increment := 10; run_substep_accumulator := 0 |} ] |}.

Import Arith.B32.

(** The stepper with a prepared line segment and [dda_example_run] in the
    run slot. *)
Definition dda_example_stepper : stepper B32.b32 :=
  with_run (ready_segment 0 false) dda_example_run.

(** The reset stepper after the loader has taken a dwell of 500 ms. *)
Definition dwelling_stepper : stepper B32.b32 :=
  _load_move (with_pre reset_stepper
                (st_prep_dwell example_settings reset_prep (B32.of_Z 500000))).

(** The prep slot of the reset stepper after [st_prep_line] for ten steps
    in 5 ms. *)
Definition prepared_line : stat_t * stPrepSingleton B32.b32 * list B32.b32 :=
  st_prep_line example_settings [0] reset_prep [B32.of_Z 10] [B32.of_Z 0]
               (B32.lit (1 # 12000)).

End Dda.
(* ================================================================= *)
(** ** Motate utilities: strings, integers, bit fields, SysTick events *)

Module Motate.
Import Arith MachInt Util.
Open Scope Z_scope.

(** *** Character buffers

    A [char] array is a list of characters; a pointer into it is an
    offset.  A C string read through a [const char *] is the [text] from
    the pointer on: reading at its end reads the terminating NUL. *)

Definition NUL : ascii := Ascii.zero.

Definition is_NUL (c : ascii) : bool := Ascii.eqb c NUL.

(** [*p] for a string. *)
Definition deref (p : text) : ascii := hd NUL p.

(** [*(t + i) = c].  (A write past the end of the array is undefined in C;
    it is dropped here.) *)
Fixpoint poke (buf : list ascii) (i : nat) (c : ascii) : list ascii :=
  match buf, i with
  | [], _ => []
  | _ :: rest, O => c :: rest
  | x :: rest, S i' => x :: poke rest i' c
  end.

(** [*(t + i)].  (A read past the end is undefined in C; it reads NUL
    here.) *)
Definition peek (buf : list ascii) (i : nat) : ascii := nth i buf NUL.

(** The characters of a string before its terminating NUL. *)
Fixpoint chars (p : text) : text :=
  match p with
  | [] => []
  | c :: rest => if is_NUL c then [] else c :: chars rest
  end.

(** [c_strlen]: [None] is the null pointer. *)
Fixpoint c_strlen_ (p : text) (count_ : Z) : Z :=
  match p with
  | [] => count_
  | c :: rest => if is_NUL c then count_ else c_strlen_ rest (to_int32 (count_ + 1))
  end.

Definition c_strlen (p : option text) : Z :=
  match p with
  | None => 0
  | Some p => c_strlen_ p 0
  end.

Definition strlen (p : option text) : Z := c_strlen p.

(** [streq]: [None] is the null pointer, [n] a [size_t]. *)
Fixpoint streq_ (p q : text) (n : nat) : Z :=
  match n with
  | O => 1
  | S n' =>
      if negb (Ascii.eqb (deref p) (deref q)) then 0
      else if is_NUL (deref p) || is_NUL (deref q) then 1
      else streq_ (tl p) (tl q) n'
  end.

Definition streq (p q : option text) (n : nat) : Z :=
  match p, q with
  | Some p, Some q => streq_ p q n
  | _, _ => 1
  end.

(** [c_strreverse(t, count_)] on the array [buf], [t] at offset [t]: the
    ends are swapped and the function goes on inwards.  It always returns
    [count_]. *)
Fixpoint c_strreverse_ (fuel : nat) (buf : list ascii) (t : nat) (count_ : Z)
  : list ascii :=
  match fuel with
  | O => buf
  | S fuel' =>
      if count_ >? 1 then
        let hold := peek buf t in
        let last := (t + Z.to_nat (count_ - 1))%nat in
        let buf := poke buf t (peek buf last) in
        let buf := poke buf last hold in
        c_strreverse_ fuel' buf (S t) (count_ - 2)
      else buf
  end.

(** The recursion of [c_strreverse] ends after [count_ / 2] swaps. *)
Definition c_strreverse (buf : list ascii) (t : nat) (count_ : Z) : Z * list ascii :=
  (count_, c_strreverse_ (Z.to_nat (count_ / 2)) buf t count_).

(** [c_strcpy(t, f, max_len_, count_)], for pointers that are not null.
    The conditional of the source ends at [( *t = *f )]; the comma after it
    makes the test of [*f] and the recursive call the value of the whole
    expression, whatever [max_len_] is.  So the walk goes on to the end of
    [f], writing while [max_len_] allows. *)
Fixpoint c_strcpy (buf : list ascii) (t : nat) (f : text) (max_len_ count_ : Z)
  : Z * list ascii :=
  let buf :=
    if max_len_ <=? 0 then buf
    else if max_len_ =? 1 then poke buf t NUL
    else poke buf t (deref f) in
  match f with
  | [] => (count_, buf)
  | c :: f' =>
      if is_NUL c then (count_, buf)
      else c_strcpy buf (S t) f' (to_int32 (max_len_ - 1)) (to_int32 (count_ + 1))
  end.

Definition strncpy (buf : list ascii) (t : nat) (f : text) (max_len_ : Z)
  : Z * list ascii :=
  c_strcpy buf t f max_len_ 0.

(** [c_itoa_backwards_]: the decimal digits of [value], least significant
    first; [0] when [maxlen] runs out.  ([value % 10] and [value / 10] are
    C's, which truncate; the function is called on values that are not
    negative, [INT_MIN] apart.)  The recursion takes one turn per digit. *)
Fixpoint c_itoa_backwards_ (fuel : nat) (buf : list ascii) (p : nat)
         (value maxlen count_ : Z) : Z * list ascii :=
  if maxlen <? 1 then (0, buf)
  else if (value >? 0) || (count_ =? 0) then
    match fuel with
    | O => (0, buf)
    | S fuel' =>
        c_itoa_backwards_ fuel' (poke buf p (digit_char (Z.rem value 10))) (S p)
                          (Z.quot value 10) (maxlen - 1) (count_ + 1)
    end
  else (count_, buf).

(** Turns of [c_itoa_backwards_] that suffice for [value]. *)
Definition itoa_fuel (value : Z) : nat := S (S (Z.to_nat (Z.log2 (Z.abs value)))).

(** [c_itoa(value, p, maxlen)]: the minus sign is written before the digits
    are tried. *)
Definition c_itoa (buf : list ascii) (p : nat) (value maxlen : Z) : Z * list ascii :=
  if value <? 0 then
    let buf := poke buf p "-"%char in
    let value' := to_int32 (- value) in
    let '(n, buf) := c_itoa_backwards_ (itoa_fuel value') buf (S p) value' (maxlen - 1) 0 in
    let '(n, buf) := c_strreverse buf (S p) n in
    (n + 1, buf)
  else
    let '(n, buf) := c_itoa_backwards_ (itoa_fuel value) buf p value maxlen 0 in
    c_strreverse buf p n.

(** [c_itoa_len]: one turn for the sign, one per digit and one to end. *)
Fixpoint c_itoa_len_ (fuel : nat) (value length_ : Z) : Z :=
  match fuel with
  | O => length_ + 1
  | S fuel' =>
      if value <? 0 then c_itoa_len_ fuel' (to_int32 (- value)) (length_ + 1)
      else if value >? 0 then c_itoa_len_ fuel' (Z.quot value 10) (length_ + 1)
      else length_ + 1
  end.

Definition c_itoa_len (value : Z) : Z :=
  c_itoa_len_ (S (S (itoa_fuel value))) value 0.

(** *** Bit manipulation on [uint32_t] *)

Definition not32 (u : Z) : Z := to_uint32 (Z.lnot u).

(** [__builtin_ctz]: the number of trailing zero bits.  (Undefined for 0 in
    C; 0 here.) *)
Fixpoint ctz_pos (p : positive) : Z :=
  match p with
  | xO p' => 1 + ctz_pos p'
  | _ => 0
  end.

Definition ctz (u : Z) : Z :=
  match u with
  | Zpos p => ctz_pos p
  | _ => 0
  end.

Definition Rd_bits (value mask : Z) : Z := Z.land value mask.

Definition Wr_bits (lvalue mask bits : Z) : Z :=
  Z.lor (Z.land lvalue (not32 mask)) (Z.land bits mask).

Definition Tst_bits (value mask : Z) : bool := negb (Rd_bits value mask =? 0).

Definition Clr_bits (lvalue mask : Z) : Z := Z.land lvalue (not32 mask).

Definition Set_bits (lvalue mask : Z) : Z := Z.lor lvalue mask.

Definition Tgl_bits (lvalue mask : Z) : Z := Z.lxor lvalue mask.

Definition Rd_bitfield (value mask : Z) : Z :=
  Z.shiftr (Rd_bits value mask) (ctz mask).

Definition Wr_bitfield (lvalue mask bitfield : Z) : Z :=
  Wr_bits lvalue mask (to_uint32 (Z.shiftl (to_uint32 bitfield) (ctz mask))).

(** *** SysTick events

    A [SysTickEvent] is known by its address, a number; [next] holds the
    [next] pointer of every event, [None] being [nullptr]. *)

Record sysTickTimer : Type := {
  _motateTickCount : Z;
  firstEvent : option nat;
  next : nat -> option nat
}.

Definition set_next (nxt : nat -> option nat) (event : nat) (v : option nat)
  : nat -> option nat :=
  fun e => if Nat.eqb e event then v else nxt e.

(** The loop of [registerEvent], from [event] on.  A list of events that
    runs into itself keeps the loop going for ever: [None] when [fuel]
    turns do not reach the end. *)
Fixpoint register_walk (fuel : nat) (nxt : nat -> option nat) (event new_event : nat)
  : option (nat -> option nat) :=
  match fuel with
  | O => None
  | S fuel' =>
      match nxt event with
      | None => Some (set_next (set_next nxt event (Some new_event)) new_event None)
      | Some e =>
          if Nat.eqb new_event e then Some nxt
          else register_walk fuel' nxt e new_event
      end
  end.

Definition registerEvent (fuel : nat) (st : sysTickTimer) (new_event : nat)
  : option sysTickTimer :=
  match firstEvent st with
  | None =>
      Some {| _motateTickCount := _motateTickCount st;
              firstEvent := Some new_event; next := next st |}
  | Some event =>
      if Nat.eqb new_event event then Some st
      else
        match register_walk fuel (next st) event new_event with
        | None => None
        | Some nxt =>
            Some {| _motateTickCount := _motateTickCount st;
                    firstEvent := firstEvent st; next := nxt |}
        end
  end.

(** The loop of [unregisterEvent], from [event] on. *)
Fixpoint unregister_walk (fuel : nat) (nxt : nat -> option nat) (event new_event : nat)
  : option (nat -> option nat) :=
  match fuel with
  | O => None
  | S fuel' =>
      match nxt event with
      | None => Some nxt
      | Some e =>
          if Nat.eqb e new_event then Some (set_next nxt event (nxt e))
          else unregister_walk fuel' nxt e new_event
      end
  end.

(** [unregisterEvent].  With no event registered the source reads
    [firstEvent->next] through a null pointer: [None]. *)
Definition unregisterEvent (fuel : nat) (st : sysTickTimer) (new_event : nat)
  : option sysTickTimer :=
  match firstEvent st with
  | None => None
  | Some event =>
      if Nat.eqb event new_event then
        Some {| _motateTickCount := _motateTickCount st;
                firstEvent := next st event; next := next st |}
      else
        match unregister_walk fuel (next st) event new_event with
        | None => None
        | Some nxt =>
            Some {| _motateTickCount := _motateTickCount st;
                    firstEvent := firstEvent st; next := nxt |}
        end
  end.

(** The events whose callback [_handleEvents] calls, in order, for
    callbacks that leave the list alone. *)
Fixpoint events_from (fuel : nat) (nxt : nat -> option nat) (event : option nat)
  : option (list nat) :=
  match event with
  | None => Some []
  | Some e =>
      match fuel with
      | O => None
      | S fuel' =>
          match events_from fuel' nxt (nxt e) with
          | None => None
          | Some l => Some (e :: l)
          end
      end
  end.

Definition _handleEvents (fuel : nat) (st : sysTickTimer) : option (list nat) :=
  events_from fuel (next st) (firstEvent st).

Definition _increment (st : sysTickTimer) : sysTickTimer :=
  {| _motateTickCount := to_uint32 (_motateTickCount st + 1);
     firstEvent := firstEvent st; next := next st |}.

Definition getValue (st : sysTickTimer) : Z := _motateTickCount st.

(** The events from [p] on are those of [l], in order, and the last has
    no successor. *)
Fixpoint chain (nxt : nat -> option nat) (p : option nat) (l : list nat) : Prop :=
  match l with
  | [] => p = None
  | e :: l' => p = Some e /\ chain nxt (nxt e) l'
  end.

(** *** Timeout *)

Record Timeout : Type := {
  start_ : Z;
  delay_ : Z
}.

Definition isSet (t : Timeout) : bool := start_ t >? 0.

Definition isPast (st : sysTickTimer) (t : Timeout) : bool :=
  if negb (isSet t) then false
  else to_uint32 (getValue st - start_ t) >? delay_ t.

Definition Timeout_set (st : sysTickTimer) (delay : Z) : Timeout :=
  {| start_ := getValue st; delay_ := delay |}.

Definition Timeout_clear : Timeout := {| start_ := 0; delay_ := 0 |}.

(** *** Values to evaluate the model on *)

(** The SysTick timer after [init], with no event; with the events 1 and
    2 registered, in that order; and two ticks before its counter wraps. *)
Definition idle_timer : sysTickTimer :=
  {| _motateTickCount := 500; firstEvent := None; next := fun _ => None |}.

Definition two_event_timer : sysTickTimer :=
  {| _motateTickCount := 500; firstEvent := Some 1%nat;
     next := fun e => if Nat.eqb e 1 then Some 2%nat else None |}.

Definition wrapping_timer : sysTickTimer :=
  {| _motateTickCount := 4294967294; firstEvent := None; next := fun _ => None |}.

(** An array of eight characters, and one of eight NULs. *)
Definition example_buffer : list ascii := text_of "XXXXXXXX".

Definition zero_buffer : list ascii := repeat NUL 8.

End Motate.

(* ================================================================= *)
(** * Properties *)

Unset Implicit Arguments.

(* ================================================================= *)
(** ** Machine integers and binary32 conversions *)

Module MachIntFacts.
Import MachInt.
Open Scope Z_scope.

Lemma to_int32_small z : - 2 ^ 31 <= z < 2 ^ 31 -> to_int32 z = z.
Proof. intros H. unfold to_int32. rewrite Z.mod_small; lia. Qed.

Lemma to_uint32_small z : 0 <= z < 2 ^ 32 -> to_uint32 z = z.
Proof. intros H. unfold to_uint32. now rewrite Z.mod_small. Qed.

Lemma to_uint32_range z : 0 <= to_uint32 z < 2 ^ 32.
Proof. unfold to_uint32. apply Z.mod_pos_bound. lia. Qed.

End MachIntFacts.

Module B32Facts.
Import Arith Arith.B32.
Open Scope Z_scope.

(** [to_Z] is the truncation of the denoted rational. *)
Lemma to_Z_trunc (x : b32) : to_Z x = Q_trunc (B2Q x).
Proof.
  destruct x as [s|s| |s m e]; try reflexivity.
  destruct e as [|p|p]; unfold to_Z, B2Q, Q_trunc; cbn [Qnum Qden inject_Z].
  - now rewrite Z.quot_1_r.
  - now rewrite Z.quot_1_r.
  - reflexivity.
Qed.

(** Truncation keeps the integer part: for a non-negative value the
    result is the floor, for a non-positive one the ceiling. *)
Lemma to_Z_nonneg (x : b32) :
  (0 <= B2Q x)%Q ->
  (inject_Z (to_Z x) <= B2Q x)%Q /\ (B2Q x < inject_Z (to_Z x) + 1)%Q.
Proof.
  rewrite to_Z_trunc. generalize (B2Q x). intros [n d] H.
  unfold Q_trunc, Qle, Qlt in *. cbn [Qnum Qden inject_Z Qplus] in *.
  assert (Hn : 0 <= n) by lia.
  rewrite Z.quot_div_nonneg by lia.
  pose proof (Z.div_mod n (Zpos d) ltac:(lia)) as E.
  pose proof (Z.mod_pos_bound n (Zpos d) ltac:(lia)) as B.
  split; nia.
Qed.

Lemma to_Z_nonpos (x : b32) :
  (B2Q x <= 0)%Q ->
  (inject_Z (to_Z x) - 1 < B2Q x)%Q /\ (B2Q x <= inject_Z (to_Z x))%Q.
Proof.
  rewrite to_Z_trunc. generalize (B2Q x). intros [n d] H.
  unfold Q_trunc, Qle, Qlt, Qminus in *.
  cbn [Qnum Qden inject_Z Qplus Qopp] in *.
  assert (Hn : n <= 0) by lia.
  replace n with (- (- n)) by lia.
  rewrite Z.quot_opp_l by lia.
  rewrite Z.quot_div_nonneg by lia.
  pose proof (Z.div_mod (- n) (Zpos d) ltac:(lia)) as E.
  pose proof (Z.mod_pos_bound (- n) (Zpos d) ltac:(lia)) as B.
  split; nia.
Qed.

Lemma is_finite_not_inf_nan (x : b32) :
  is_finite x = true -> isinf x = false /\ isnan x = false.
Proof. destruct x; simpl; intros; split; congruence. Qed.

End B32Facts.

(* ================================================================= *)
(** ** Stepper preparation and loading *)

Module StepperFacts.
Import Arith Arith.B32 MachInt MachIntFacts B32Facts Stepper.
Open Scope Z_scope.

Section Dwell.
Context {F : Type} `{FloatOps F}.
Variable hw : Settings F.

Lemma dwell_ticks_of_range (microseconds : F) :
  1 <= dwell_ticks_of hw microseconds < 2 ^ 32.
Proof.
  unfold dwell_ticks_of.
  pose proof (to_uint32_range
    (f_to_Z (f_mul (f_div microseconds (f_of_Z 1000000)) (FREQUENCY_DWELL hw)))).
  lia.
Qed.

(** While the dwell event is registered with a count of at least two, a
    SysTick interrupt only decrements the count. *)
Lemma systick_counting (s : stepper F) :
  dwell_event_registered s = true ->
  2 <= run_dwell_ticks_downcount (st_run s) < 2 ^ 32 ->
  dwell_event_registered (systick s) = true /\
  st_pre (systick s) = st_pre s /\
  run_dda_ticks_downcount (st_run (systick s)) = run_dda_ticks_downcount (st_run s) /\
  run_dwell_ticks_downcount (st_run (systick s))
    = run_dwell_ticks_downcount (st_run s) - 1.
Proof.
  intros Hreg Hd. unfold systick. rewrite Hreg.
  unfold dwell_systick_event, dwell_tick.
  rewrite to_uint32_small by lia.
  destruct (Z.eqb_spec (run_dwell_ticks_downcount (st_run s) - 1) 0) as [E|E];
    [lia|]. cbn. auto.
Qed.

(** With a count of one the event fires: it unregisters itself and runs
    the loader, which finds nothing prepared. *)
Lemma systick_firing (s : stepper F) :
  dwell_event_registered s = true ->
  run_dwell_ticks_downcount (st_run s) = 1 ->
  run_dda_ticks_downcount (st_run s) = 0 ->
  pre_buffer_state (st_pre s) = PREP_BUFFER_OWNED_BY_EXEC ->
  dwell_event_registered (systick s) = false /\
  run_dwell_ticks_downcount (st_run (systick s)) = 0.
Proof.
  intros Hreg Hd Hdda Hpre. unfold systick. rewrite Hreg.
  unfold dwell_systick_event, dwell_tick. rewrite Hd. cbn.
  unfold _load_move, st_runtime_isbusy. cbn. rewrite Hdda, Hpre. cbn. auto.
Qed.

Lemma systick_iter_counting (s : stepper F) (n : Z) (k : nat) :
  dwell_event_registered s = true ->
  run_dwell_ticks_downcount (st_run s) = n ->
  n < 2 ^ 32 ->
  Z.of_nat k < n ->
  dwell_event_registered (Nat.iter k (@systick F _) s) = true /\
  st_pre (Nat.iter k (@systick F _) s) = st_pre s /\
  run_dda_ticks_downcount (st_run (Nat.iter k (@systick F _) s))
    = run_dda_ticks_downcount (st_run s) /\
  run_dwell_ticks_downcount (st_run (Nat.iter k (@systick F _) s)) = n - Z.of_nat k.
Proof.
  intros Hreg Hd Hn. induction k as [|k IH]; intros Hk.
  - cbn. repeat split; auto. lia.
  - destruct IH as (R & P & D & C); [lia|].
    rewrite !Nat.iter_succ.
    destruct (systick_counting (Nat.iter k (@systick F _) s) R) as (R' & P' & D' & C').
    + rewrite C. lia.
    + repeat split; try congruence. rewrite C', C. lia.
Qed.

(** C10. [st_prep_dwell] prepares at least one tick for every duration; once
    the loader has taken the dwell, the SysTick countdown stays registered
    for [n - 1] interrupts, counting down without wrapping, and fires on
    the [n]-th. *)
Theorem st_prep_dwell_countdown_terminates (st : stepper F) (microseconds : F) :
  st_runtime_isbusy (st_run st) = false ->
  let prepared := st_prep_dwell hw (st_pre st) microseconds in
  let n := pre_dwell_ticks prepared in
  let loaded := _load_move (with_pre st prepared) in
  1 <= n < 2 ^ 32 /\
  dwell_event_registered loaded = true /\
  run_dwell_ticks_downcount (st_run loaded) = n /\
  (forall k : nat, Z.of_nat k < n ->
     dwell_event_registered (Nat.iter k (@systick F _) loaded) = true /\
     run_dwell_ticks_downcount (st_run (Nat.iter k (@systick F _) loaded))
       = n - Z.of_nat k) /\
  dwell_event_registered (Nat.iter (Z.to_nat n) (@systick F _) loaded) = false /\
  run_dwell_ticks_downcount (st_run (Nat.iter (Z.to_nat n) (@systick F _) loaded)) = 0.
Proof.
  intros Hidle prepared n loaded.
  assert (Hn : 1 <= n < 2 ^ 32) by apply dwell_ticks_of_range.
  assert (Hbusy : run_dda_ticks_downcount (st_run st) = 0).
  { unfold st_runtime_isbusy in Hidle. apply orb_false_elim in Hidle.
    destruct Hidle as [A _]. apply negb_false_iff in A. now apply Z.eqb_eq. }
  assert (Hl : dwell_event_registered loaded = true /\
               run_dwell_ticks_downcount (st_run loaded) = n /\
               run_dda_ticks_downcount (st_run loaded) = 0 /\
               pre_buffer_state (st_pre loaded) = PREP_BUFFER_OWNED_BY_EXEC).
  { unfold loaded, _load_move, with_pre. cbn. rewrite Hidle. cbn. auto. }
  destruct Hl as (R & C & D & P).
  assert (Hk : forall k : nat, Z.of_nat k < n ->
     dwell_event_registered (Nat.iter k (@systick F _) loaded) = true /\
     st_pre (Nat.iter k (@systick F _) loaded) = st_pre loaded /\
     run_dda_ticks_downcount (st_run (Nat.iter k (@systick F _) loaded)) = 0 /\
     run_dwell_ticks_downcount (st_run (Nat.iter k (@systick F _) loaded))
       = n - Z.of_nat k).
  { intros k Hk.
    destruct (systick_iter_counting loaded n k R C) as (R' & P' & D' & C'); try lia.
    repeat split; auto. congruence. }
  split; [exact Hn|]. split; [exact R|]. split; [exact C|].
  split; [intros k Hlt; destruct (Hk k Hlt) as (A & _ & _ & B); auto|].
  replace (Z.to_nat n) with (S (Z.to_nat (n - 1))) by lia.
  rewrite !Nat.iter_succ.
  destruct (Hk (Z.to_nat (n - 1))) as (R' & P' & D' & C'); [lia|].
  apply systick_firing; auto; try congruence.
  rewrite C'. lia.
Qed.

End Dwell.

(** The theorem at a 500 ms dwell on the reset stepper: 500 ticks. *)
Lemma st_prep_dwell_countdown_terminates_witness :
  pre_dwell_ticks (st_prep_dwell example_settings reset_prep (of_Z 500000)) = 500 /\
  dwell_event_registered
    (Nat.iter 500 (@systick b32 _)
       (_load_move (with_pre reset_stepper
          (st_prep_dwell example_settings reset_prep (of_Z 500000))))) = false.
Proof.
  split; [vm_compute; reflexivity|].
  pose proof (@st_prep_dwell_countdown_terminates b32 _ example_settings
                reset_stepper (of_Z 500000) eq_refl) as T.
  cbv zeta in T. destruct T as (_ & _ & _ & _ & T & _).
  exact T.
Defined.

(* ----------------------------------------------------------------- *)
(** *** Tick count of a segment *)

Lemma Q_lt_inject_Z (a : Z) (q : Q) (b : Z) :
  (inject_Z a <= q)%Q -> (q < inject_Z b)%Q -> a < b.
Proof.
  intros A B. apply Z.lt_nge. intros C.
  rewrite Zle_Qle in C. lra.
Qed.

Lemma Q_gt_inject_Z (a : Z) (q : Q) (b : Z) :
  (inject_Z a < q)%Q -> (q <= inject_Z b)%Q -> a < b.
Proof.
  intros A B. apply Z.lt_nge. intros C.
  rewrite Zle_Qle in C. lra.
Qed.

(** The conversion [(int32_t)x] of a binary32 value inside the [int32_t]
    range is the integer part of [x]. *)
Lemma int32_cast_trunc (x : b32) :
  (- inject_Z (2 ^ 31) < B2Q x)%Q -> (B2Q x < inject_Z (2 ^ 31))%Q ->
  ((0 <= B2Q x)%Q ->
     (inject_Z (to_int32 (to_Z x)) <= B2Q x)%Q /\
     (B2Q x < inject_Z (to_int32 (to_Z x)) + 1)%Q) /\
  ((B2Q x <= 0)%Q ->
     (inject_Z (to_int32 (to_Z x)) - 1 < B2Q x)%Q /\
     (B2Q x <= inject_Z (to_int32 (to_Z x)))%Q).
Proof.
  intros Lo Hi. split; intros Sgn.
  - destruct (to_Z_nonneg x Sgn) as [A B].
    assert (0 <= to_Z x).
    { apply Z.lt_succ_r. apply (Q_lt_inject_Z 0 (B2Q x)); [exact Sgn|].
      rewrite <- Z.add_1_r, inject_Z_plus. exact B. }
    assert (to_Z x < 2 ^ 31) by (apply (Q_lt_inject_Z _ (B2Q x)); assumption).
    rewrite to_int32_small by lia. auto.
  - destruct (to_Z_nonpos x Sgn) as [A B].
    assert (to_Z x - 1 < 0).
    { apply (Q_gt_inject_Z _ (B2Q x)); [|exact Sgn].
      unfold Z.sub. rewrite inject_Z_plus, inject_Z_opp. exact A. }
    assert (- 2 ^ 31 < to_Z x).
    { apply (Q_gt_inject_Z _ (B2Q x)); [|exact B].
      rewrite inject_Z_opp. exact Lo. }
    rewrite to_int32_small by lia. auto.
Qed.

(** C1 (as the code has it).  For a finite segment time whose binary32
    product [segment_time * 60 * FREQUENCY_DDA] is finite and inside the
    [int32_t] range (where the C conversion is defined), and a prep slot owned
    by the executor, [st_prep_line] succeeds and its tick count is that
    product truncated toward zero (the C conversion to [int32_t]), not
    rounded to nearest: for the product [v], [ticks <= v < ticks + 1] when
    [v >= 0] and [ticks - 1 < v <= ticks] when [v <= 0]. *)
Theorem st_prep_line_dda_ticks_truncated
    (hw : Settings b32) (polarity : list Z) (pre : stPrepSingleton b32)
    (travel following : list b32) (segment_time : b32) :
  pre_buffer_state pre = PREP_BUFFER_OWNED_BY_EXEC ->
  is_finite segment_time = true ->
  is_finite (f_mul (f_mul segment_time (f_of_Z 60)) (FREQUENCY_DDA hw)) = true ->
  let v := B2Q (f_mul (f_mul segment_time (f_of_Z 60)) (FREQUENCY_DDA hw)) in
  let out := st_prep_line hw polarity pre travel following segment_time in
  let ticks := inject_Z (pre_dda_ticks (snd (fst out))) in
  (- inject_Z (2 ^ 31) < v)%Q -> (v < inject_Z (2 ^ 31))%Q ->
  fst (fst out) = STAT_OK /\
  ((0 <= v)%Q -> (ticks <= v)%Q /\ (v < ticks + 1)%Q) /\
  ((v <= 0)%Q -> (ticks - 1 < v)%Q /\ (v <= ticks)%Q).
Proof.
  intros Hown Hfin _ v out ticks Lo Hi.
  destruct (is_finite_not_inf_nan segment_time Hfin) as [Hinf Hnan].
  assert (E : out = (STAT_OK,
            snd (fst out), snd out) /\
            pre_dda_ticks (snd (fst out)) = segment_dda_ticks hw segment_time).
  { unfold out, st_prep_line. rewrite Hown. cbn [prepBufferState_eqb negb].
    change (f_isinf segment_time) with (isinf segment_time).
    change (f_isnan segment_time) with (isnan segment_time).
    rewrite Hinf, Hnan.
    destruct (prep_motors hw polarity segment_time (pre_mot pre) travel following).
    cbn. auto. }
  destruct E as [E1 E2]. split; [now rewrite E1|].
  unfold ticks. rewrite E2. unfold segment_dda_ticks.
  change (f_to_Z ?x) with (to_Z x).
  apply int32_cast_trunc; assumption.
Qed.

(** A segment of [2^-21] minutes (28.6 us) on the 200 kHz clock: the product
    is 5.72 ticks, the prepared count is 5. *)
Lemma st_prep_line_dda_ticks_truncated_witness :
  fst (fst (st_prep_line example_settings [0] reset_prep [of_Z 0] [of_Z 0]
              (lit (1 # 2097152)))) = STAT_OK /\
  pre_dda_ticks (snd (fst (st_prep_line example_settings [0] reset_prep
                             [of_Z 0] [of_Z 0] (lit (1 # 2097152))))) = 5.
Proof.
  pose proof (st_prep_line_dda_ticks_truncated example_settings [0] reset_prep
                [of_Z 0] [of_Z 0] (lit (1 # 2097152)) eq_refl eq_refl eq_refl) as T.
  cbv zeta in T.
  destruct T as [T _]; [vm_compute; reflexivity | vm_compute; reflexivity |].
  split; [exact T | vm_compute; reflexivity].
Defined.

(** C1 (as stated) fails: on the 200 kHz clock a segment of [2^-21] minutes
    gives a finite product of 5.72 ticks; the nearest integer is 6, the
    prepared count is 5. *)
Lemma st_prep_line_dda_ticks_not_rounded :
  ~ (forall (polarity : list Z) (pre : stPrepSingleton b32)
            (travel following : list b32) (segment_time : b32),
       pre_buffer_state pre = PREP_BUFFER_OWNED_BY_EXEC ->
       is_finite segment_time = true ->
       is_finite (f_mul (f_mul segment_time (f_of_Z 60))
                    (FREQUENCY_DDA example_settings)) = true ->
       pre_dda_ticks
         (snd (fst (st_prep_line example_settings polarity pre travel following
                      segment_time)))
       = Q_round (B2Q (f_mul (f_mul segment_time (f_of_Z 60))
                         (FREQUENCY_DDA example_settings)))).
Proof.
  intros C.
  specialize (C [0] reset_prep [of_Z 0] [of_Z 0] (lit (1 # 2097152))
                eq_refl eq_refl eq_refl).
  vm_compute in C. discriminate C.
Qed.

(* ----------------------------------------------------------------- *)
(** *** Direction changes in the loader *)

Section Loader.
Context {F : Type} `{FloatOps F}.

Lemma load_motor_accumulator (X : Z) (motor : nat) (pm : stPrepMotor F) (rm : stRunMotor) :
  run_substep_accumulator (snd (fst (load_motor X motor pm rm))) =
    if pre_substep_increment pm =? 0 then run_substep_accumulator rm
    else if pre_direction pm =? pre_prev_direction pm
         then corrected_accumulator pm rm
         else to_int32 (- (X + corrected_accumulator pm rm)).
Proof.
  unfold load_motor, corrected_accumulator.
  destruct (pre_substep_increment pm =? 0); cbn; [reflexivity|].
  destruct (pre_direction pm =? pre_prev_direction pm); reflexivity.
Qed.

Lemma load_motors_nth (X : Z) (pms : list (stPrepMotor F)) :
  forall (rms : list stRunMotor) (motor i : nat) (pm : stPrepMotor F) (rm : stRunMotor),
  nth_error pms i = Some pm ->
  nth_error rms i = Some rm ->
  nth_error (snd (fst (load_motors X motor pms rms))) i
    = Some (snd (fst (load_motor X (motor + i) pm rm))).
Proof.
  induction pms as [|p pms IH]; intros rms motor i pm rm Hp Hr.
  - destruct i; discriminate.
  - destruct rms as [|r rms]; [destruct i; discriminate|].
    cbn [load_motors].
    destruct (load_motor X motor p r) as [[p' r'] ev] eqn:E.
    specialize (IH rms (S motor)).
    destruct (load_motors X (S motor) pms rms) as [[ps' rs'] evs] eqn:E'.
    destruct i as [|i]; cbn in *.
    + injection Hp as <-. injection Hr as <-.
      rewrite Nat.add_0_r, E. reflexivity.
    + rewrite (IH i pm rm Hp Hr). now rewrite Nat.add_succ_r.
Qed.

(** C6 (as the code has it).  When the loader takes a line segment, a motor
    with a non-zero substep increment first has its accumulator scaled by the
    accumulator correction if the prep slot flags a change of time base: the
    new value is the product [(float)acc * accumulator_correction] converted
    back to [int32_t].  Then a change of direction reflects it,
    [acc' = -(dda_ticks_X_substeps + acc)], and an unchanged direction leaves
    it.  A motor with a zero increment is not touched, whatever its direction
    fields.  The statement covers the inputs on which the C operations are
    defined: a product that is a number whose integer part is an [int32_t],
    and a reflection that does not overflow. *)
Theorem load_move_reflects_accumulator
    (st : stepper F) (i : nat) (pm : stPrepMotor F) (rm : stRunMotor) :
  st_runtime_isbusy (st_run st) = false ->
  pre_buffer_state (st_pre st) = PREP_BUFFER_OWNED_BY_LOADER ->
  pre_block_type (st_pre st) = BLOCK_TYPE_ALINE ->
  nth_error (pre_mot (st_pre st)) i = Some pm ->
  nth_error (run_mot (st_run st)) i = Some rm ->
  let X := pre_dda_ticks_X_substeps (st_pre st) in
  let acc := run_substep_accumulator rm in
  let product := f_mul (f_of_Z acc) (pre_accumulator_correction pm) in
  let acc1 := if pre_accumulator_correction_flag pm then f_to_Z product else acc in
  (pre_substep_increment pm <> 0 -> pre_accumulator_correction_flag pm = true ->
   f_isinf product = false /\ f_isnan product = false /\
   - 2 ^ 31 <= f_to_Z product < 2 ^ 31) ->
  (pre_substep_increment pm <> 0 -> pre_direction pm <> pre_prev_direction pm ->
   - 2 ^ 31 < X + acc1 < 2 ^ 31) ->
  exists rm' : stRunMotor,
    nth_error (run_mot (st_run (_load_move st))) i = Some rm' /\
    run_substep_accumulator rm' =
      if pre_substep_increment pm =? 0 then acc
      else if pre_direction pm =? pre_prev_direction pm then acc1
           else - (X + acc1).
Proof.
  intros Hidle Hown Htype Hp Hr X acc product acc1 Hscale Hflip.
  exists (snd (fst (load_motor X (0 + i) pm rm))).
  split.
  - unfold _load_move. rewrite Hidle, Hown, Htype. cbn [prepBufferState_eqb negb].
    pose proof (load_motors_nth X
                  (pre_mot (st_pre st)) (run_mot (st_run st)) 0 i pm rm Hp Hr) as L.
    fold X.
    destruct (load_motors X 0
                (pre_mot (st_pre st)) (run_mot (st_run st))) as [[pms rms] evs].
    exact L.
  - rewrite load_motor_accumulator.
    destruct (Z.eqb_spec (pre_substep_increment pm) 0) as [|Hinc]; [reflexivity|].
    assert (E1 : corrected_accumulator pm rm = acc1).
    { unfold corrected_accumulator, acc1, product, acc.
      destruct (pre_accumulator_correction_flag pm) eqn:Hflag; [|reflexivity].
      destruct (Hscale Hinc eq_refl) as (_ & _ & R).
      now apply to_int32_small. }
    rewrite E1.
    destruct (Z.eqb_spec (pre_direction pm) (pre_prev_direction pm)) as [|Hdir];
      [reflexivity|].
    apply to_int32_small. specialize (Hflip Hinc Hdir). lia.
Qed.

End Loader.

(** The theorem on a segment that reverses the motor after a change of the
    time base by a factor 2: the accumulator goes from -1000 to -2000, then
    to -(32000 - 2000). *)
Lemma load_move_reflects_accumulator_witness :
  exists rm' : stRunMotor,
    nth_error (run_mot (st_run (_load_move (ready_segment 1 true)))) 0 = Some rm' /\
    run_substep_accumulator rm' = -30000.
Proof.
  destruct (@load_move_reflects_accumulator b32 _ (ready_segment 1 true) 0%nat
              {| pre_substep_increment := 640;
                 pre_direction := 1;
                 pre_prev_direction := 0;
                 pre_step_sign := 1;
                 pre_accumulator_correction_flag := true;
                 pre_accumulator_correction := of_Z 2;
                 pre_prev_segment_time := lit (1 # 12000);
                 pre_correction_holdoff := 0;
                 pre_corrected_steps := of_Z 0 |}
              {| run_substep_increment := 640; run_substep_accumulator := -1000 |}
              eq_refl eq_refl eq_refl eq_refl eq_refl) as (rm' & E & A).
  - intros _ _. vm_compute. repeat split; discriminate.
  - intros _ _. vm_compute. split; reflexivity.
  - exists rm'. split; [exact E | exact A].
Defined.

(** C6 (as stated) fails: a segment in the same direction whose time base
    changed by a factor 2 has its accumulator scaled from -1000 to -2000
    by the loader. *)
Lemma load_move_accumulator_not_unchanged :
  ~ (forall (st : stepper b32) (i : nat) (pm : stPrepMotor b32) (rm rm' : stRunMotor),
       st_runtime_isbusy (st_run st) = false ->
       pre_buffer_state (st_pre st) = PREP_BUFFER_OWNED_BY_LOADER ->
       pre_block_type (st_pre st) = BLOCK_TYPE_ALINE ->
       nth_error (pre_mot (st_pre st)) i = Some pm ->
       nth_error (run_mot (st_run st)) i = Some rm ->
       nth_error (run_mot (st_run (_load_move st))) i = Some rm' ->
       (pre_direction pm <> pre_prev_direction pm ->
        run_substep_accumulator rm' =
          to_int32 (- (pre_dda_ticks_X_substeps (st_pre st)
                       + run_substep_accumulator rm))) /\
       (pre_direction pm = pre_prev_direction pm ->
        run_substep_accumulator rm' = run_substep_accumulator rm)).
Proof.
  intros C.
  destruct (C (ready_segment 0 true) 0%nat _ _ _
              eq_refl eq_refl eq_refl eq_refl eq_refl eq_refl) as [_ C2].
  specialize (C2 eq_refl). vm_compute in C2. discriminate C2.
Qed.

End StepperFacts.

(* ================================================================= *)
(** ** Float formatting and parsing *)

Module UtilFacts.
Import Arith Arith.B32 MachInt MachIntFacts Util.
Open Scope Z_scope.

Lemma digit_char_spec (d : Z) :
  0 <= d <= 9 -> is_digit (digit_char d) = true /\ digit_value (digit_char d) = d.
Proof.
  intros Hd.
  assert (C : d = 0 \/ d = 1 \/ d = 2 \/ d = 3 \/ d = 4 \/ d = 5 \/ d = 6 \/ d = 7
              \/ d = 8 \/ d = 9) by lia.
  repeat (destruct C as [-> | C]; [split; reflexivity|]). subst. split; reflexivity.
Qed.

Lemma is_digit_range (c : ascii) : is_digit c = true -> 0 <= digit_value c <= 9.
Proof.
  unfold is_digit, digit_value. intros E. apply andb_true_iff in E.
  destruct E as [A B]. apply Z.leb_le in A, B. lia.
Qed.

Lemma is_digit_not_point (c : ascii) : is_digit c = true -> Ascii.eqb c "." = false.
Proof.
  intros E. destruct (Ascii.eqb_spec c "."); [subst; discriminate | reflexivity].
Qed.

Lemma all_digits_app (a b : text) :
  all_digits (a ++ b) = all_digits a && all_digits b.
Proof. induction a; simpl; [reflexivity|]. now rewrite IHa, andb_assoc. Qed.

Lemma all_digits_rev (a : text) : all_digits (rev a) = all_digits a.
Proof.
  induction a; simpl; [reflexivity|].
  rewrite all_digits_app, IHa. simpl. rewrite andb_true_r. apply andb_comm.
Qed.

Lemma int_val_ge (ds : text) : forall v, 0 <= v -> all_digits ds = true -> v <= int_val v ds.
Proof.
  induction ds as [|c ds IH]; intros v Hv Hd; simpl in *; [lia|].
  apply andb_true_iff in Hd. destruct Hd as [Hc Hd].
  pose proof (is_digit_range c Hc).
  specialize (IH (digit_value c + v * 10) ltac:(lia) Hd). lia.
Qed.

Lemma int_val_app (a b : text) (v : Z) : int_val v (a ++ b) = int_val (int_val v a) b.
Proof. revert v. induction a; intros; simpl; auto. Qed.


(** [c_atof_int_] reads a run of digits into its [int] accumulator, whatever
    the float arithmetic; the accumulator stays an [int] when the value
    read does. *)
Lemma c_atof_int_digits {F : Type} `{FloatOps F} (ds : text) :
  forall (rest : text) (v : Z),
  all_digits ds = true -> 0 <= v -> int_val v ds < 2 ^ 31 ->
  c_atof_int_ (F := F) (ds ++ rest) v = c_atof_int_ rest (int_val v ds).
Proof.
  induction ds as [|c ds IH]; intros rest v Hd Hv Hb; [reflexivity|].
  simpl in Hd. apply andb_true_iff in Hd. destruct Hd as [Hc Hd].
  pose proof (is_digit_range c Hc) as R.
  simpl app. cbn [c_atof_int_]. rewrite (is_digit_not_point c Hc), Hc.
  simpl in Hb.
  pose proof (int_val_ge ds (digit_value c + v * 10) ltac:(lia) Hd).
  rewrite to_int32_small by lia.
  apply IH; auto; lia.
Qed.

(** In binary32 the value read back can be further from the value printed
    than [10^-precision]: with [maxlen] 30, 0.9f printed with 8 decimals is
    the text 0.9, which [atof] reads as the next float up; the difference,
    [2^-24], is larger than [10^-8]. *)
Lemma floattoa_atof_binary32_off :
  ~ (forall (x : b32) (precision : nat),
       is_finite x = true -> (0 <= B2Q x)%Q -> (precision <= 10)%nat ->
       (Qabs (B2Q (floattoa_atof x 30 precision) - B2Q x)
        <= (1 # 10) ^ Z.of_nat precision)%Q).
Proof.
  intros C.
  specialize (C (lit (9 # 10)) 8%nat eq_refl).
  assert (H0 : (0 <= B2Q (lit (9 # 10)))%Q) by (vm_compute; discriminate).
  specialize (C H0 ltac:(lia)).
  vm_compute in C. apply C. reflexivity.
Qed.

End UtilFacts.

(* ================================================================= *)
(** ** G-code parser *)

Module ParserFacts.
Import Arith Arith.B32 MachInt Util Parser.
Open Scope Z_scope.

Section WithFloat.
Context {F : Type} `{FloatOps F}.

Lemma g_word_rejection (value : F) : rejection_ok (g_word value).
Proof.
  unfold g_word, unsupported.
  generalize (to_uint8 (f_to_Z value)) as n. generalize (_point value) as k.
  intros k n.
  destruct n as [|n|n]; try exact I; try (left; reflexivity).
  do 7 (try (destruct n as [n|n|]; try exact I; try (left; reflexivity))).
  all: destruct k as [|k|k]; try exact I; try (left; reflexivity).
  all: do 3 (try (destruct k as [k|k|]; try exact I; try (left; reflexivity))).
Qed.

Lemma m_word_rejection (value : F) : rejection_ok (m_word value).
Proof.
  unfold m_word, unsupported.
  generalize (to_uint8 (f_to_Z value)) as n. generalize (_point value) as k.
  intros k n.
  destruct n as [|n|n]; try exact I; try (right; reflexivity).
  do 7 (try (destruct n as [n|n|]; try exact I; try (right; reflexivity))).
  all: destruct k as [|k|k]; try exact I; try (left; reflexivity).
  all: do 3 (try (destruct k as [k|k|]; try exact I; try (left; reflexivity))).
Qed.

Lemma word_action_rejection (letter : ascii) (value : F) (value_int : Z) :
  rejection_ok (word_action letter value value_int).
Proof.
  unfold word_action.
  destruct letter as [[] [] [] [] [] [] [] []];
    try exact I; try (left; reflexivity);
    try apply g_word_rejection; try apply m_word_rejection.
Qed.

(** The word loop stops at the end of the text or on one of four errors. *)
Lemma parse_words_status (pstr : text) : forall (skip : nat) (st : parserState F),
  let s := fst (parse_words pstr skip st) in
  s = STAT_COMPLETE \/ s = STAT_INVALID_OR_MALFORMED_COMMAND
  \/ s = STAT_BAD_NUMBER_FORMAT \/ s = STAT_GCODE_COMMAND_UNSUPPORTED
  \/ s = STAT_MCODE_COMMAND_UNSUPPORTED.
Proof.
  induction pstr as [|c rest IH]; intros skip st; cbn [parse_words].
  - left. reflexivity.
  - destruct skip as [|n]; [|apply IH].
    destruct (is_nul c); [left; reflexivity|].
    destruct (is_upper c); cbn [negb]; [|right; left; reflexivity].
    destruct (word_value rest) as [[value value_int] n].
    destruct (Nat.eqb n 0); [right; right; left; reflexivity|].
    pose proof (word_action_rejection c value value_int) as R.
    destruct (word_action c value value_int) as [m p v|p v| |s];
      cbn [apply_action]; try (change (stat_eqb STAT_OK STAT_OK) with true; cbv iota; apply IH).
    cbn in R. destruct R as [ -> | -> ]; cbn; auto.
Qed.

Lemma verify_checksum_status (signed_char : bool) (str : text) :
  let s := fst (fst (_verify_checksum signed_char str)) in
  s = STAT_OK \/ s = STAT_CHECKSUM_MATCH_FAILED
  \/ s = STAT_MISSING_LINE_NUMBER_WITH_CHECKSUM.
Proof.
  unfold _verify_checksum.
  destruct (checksum_scan str 0) as [[k scanned] [digits|]]; cbn; auto.
  destruct (negb (strtol digits =? char_value signed_char k)); cbn; auto.
  destruct (negb (has_line_number str)); cbn; auto.
Qed.

(** The checks of [_verify_checksum], in the order of the source. *)
Lemma verify_checksum_cases (signed_char : bool) (line : text) (k : Z) (digits : text) :
  checksum_field line = Some (k, digits) ->
  fst (fst (_verify_checksum signed_char line)) =
    if negb (strtol digits =? char_value signed_char k) then STAT_CHECKSUM_MATCH_FAILED
    else if negb (has_line_number line) then STAT_MISSING_LINE_NUMBER_WITH_CHECKSUM
    else STAT_OK.
Proof.
  unfold checksum_field, _verify_checksum.
  destruct (checksum_scan line 0) as [[k' scanned] [digits'|]]; [|discriminate].
  intros E. injection E as -> ->.
  destruct (negb (strtol digits =? char_value signed_char k)); [reflexivity|].
  destruct (negb (has_line_number line)); reflexivity.
Qed.

Lemma gcode_parser_checksum_rejects (cm : Machine F) (st : parserState F) (line : text) :
  fst (fst (_verify_checksum (char_is_signed cm) line)) <> STAT_OK ->
  status (gcode_parser cm st line) = fst (fst (_verify_checksum (char_is_signed cm) line))
  /\ dispatched (gcode_parser cm st line) = None.
Proof.
  unfold gcode_parser.
  destruct (_verify_checksum (char_is_signed cm) line) as [[check_ret str] flagged].
  cbn [fst]. intros Hne.
  unfold stat_eqb. destruct (stat_eq_dec check_ret STAT_OK) as [E|_]; [contradiction|].
  cbn. auto.
Qed.

(** C7 (as the code has it).  On a line that carries a checksum field, the
    checksum is compared first: a mismatch gives [CHECKSUM_MATCH_FAILED]
    whether or not the line starts with a line number; a line whose checksum
    matches but that does not start with ['N'] gives
    [MISSING_LINE_NUMBER_WITH_CHECKSUM].  Either way [gcode_parser] returns
    before normalizing or parsing, and nothing is dispatched. *)
Theorem gcode_parser_checksum
    (cm : Machine F) (st : parserState F) (line : text) (k : Z) (digits : text) :
  checksum_field line = Some (k, digits) ->
  (strtol digits <> char_value (char_is_signed cm) k ->
     status (gcode_parser cm st line) = STAT_CHECKSUM_MATCH_FAILED /\
     dispatched (gcode_parser cm st line) = None) /\
  (strtol digits = char_value (char_is_signed cm) k ->
   has_line_number line = false ->
     status (gcode_parser cm st line) = STAT_MISSING_LINE_NUMBER_WITH_CHECKSUM /\
     dispatched (gcode_parser cm st line) = None).
Proof.
  intros Hf.
  pose proof (verify_checksum_cases (char_is_signed cm) line k digits Hf) as V.
  split.
  - intros Hne. apply Z.eqb_neq in Hne. rewrite Hne in V. cbn in V.
    destruct (gcode_parser_checksum_rejects cm st line) as [S D].
    + rewrite V. discriminate.
    + rewrite S, V. auto.
  - intros Heq Hn. apply Z.eqb_eq in Heq. rewrite Heq, Hn in V. cbn in V.
    destruct (gcode_parser_checksum_rejects cm st line) as [S D].
    + rewrite V. discriminate.
    + rewrite S, V. auto.
Qed.

(** C2 (as the code has it).  The parser never answers
    [MODAL_GROUP_VIOLATION] by itself: that status can only come from the
    alarm test or from the canonical machine, to which the block was then
    dispatched.  [_validate_gcode_block] accepts every block; a block whose
    words all parse is dispatched; and of two words of one modal group the
    second is accepted and takes effect. *)
Theorem gcode_parser_no_modal_group_check
    (cm : Machine F) (st : parserState F) (line : text) :
  (status (gcode_parser cm st line) = STAT_MODAL_GROUP_VIOLATION ->
     (exists blk : parserState F * text,
        dispatched (gcode_parser cm st line) = Some blk /\
        _execute_gcode_block cm (fst blk) (snd blk) = STAT_MODAL_GROUP_VIOLATION)
     \/ (exists t : text, cm_is_alarmed cm t = STAT_MODAL_GROUP_VIOLATION)) /\
  (forall (st' : parserState F) (comment : text),
     _validate_gcode_block st' comment = STAT_OK) /\
  (forall buf comment : text,
     fst (parse_words buf 0 (cleared cm st)) = STAT_COMPLETE ->
     dispatched (_parse_gcode_block cm st buf comment)
       = Some (snd (parse_words buf 0 (cleared cm st)), comment)) /\
  (forall (m : cmModalGroup) (p1 p2 : parm) (v1 v2 : gval F) (s0 : parserState F),
     fst (apply_action (Modal m p2 v2) (snd (apply_action (Modal m p1 v1) s0))) = STAT_OK /\
     gv (snd (apply_action (Modal m p2 v2) (snd (apply_action (Modal m p1 v1) s0)))) p2 = v2 /\
     modals (snd (apply_action (Modal m p2 v2) (snd (apply_action (Modal m p1 v1) s0)))) m
       = true).
Proof.
  split; [|split; [reflexivity|split]].
  - unfold gcode_parser.
    pose proof (verify_checksum_status (char_is_signed cm) line) as V.
    destruct (_verify_checksum (char_is_signed cm) line) as [[check_ret str] flagged].
    cbn [fst] in V.
    set (st1 := if flagged then set_checksum_flag st else st).
    destruct (stat_eqb check_ret STAT_OK) eqn:Ec; cbn [negb].
    2:{ cbn. intros E. rewrite E in V. destruct V as [V|[V|V]]; discriminate V. }
    destruct (_normalize_gcode_block str) as [[gcode comment] del].
    destruct gcode as [|g gcode]; [cbn; discriminate|].
    destruct (stat_eqb (cm_is_alarmed cm (g :: gcode)) STAT_OK) eqn:Ea; cbn [negb].
    2:{ cbn. intros E. right. eauto. }
    destruct del; [cbn; discriminate|].
    unfold _parse_gcode_block.
    pose proof (parse_words_status (g :: gcode) 0 (cleared cm st1)) as P.
    destruct (parse_words (g :: gcode) 0 (cleared cm st1)) as [scan st'].
    cbn [fst] in P.
    destruct P as [ -> | [ -> | [ -> | [ -> | -> ] ] ] ]; cbn; try discriminate.
    intros E. left. eexists. split; [reflexivity|exact E].
  - intros buf comment. unfold _parse_gcode_block.
    destruct (parse_words buf 0 (cleared cm st)) as [scan st']. cbn [fst snd].
    intros ->. reflexivity.
  - intros m p1 p2 v1 v2 s0. cbn. unfold upd.
    destruct (parm_eq_dec p2 p2) as [_|N]; [|congruence].
    destruct (cmModalGroup_eq_dec m m) as [_|N]; [|congruence].
    auto.
Qed.

End WithFloat.

(** The theorem on a line without line number whose checksum field is
    right: the XOR of "G1 X1" is 63. *)
Lemma gcode_parser_checksum_witness :
  status (gcode_parser example_machine initial_state (text_of "G1 X1*63"))
    = STAT_MISSING_LINE_NUMBER_WITH_CHECKSUM /\
  dispatched (gcode_parser example_machine initial_state (text_of "G1 X1*63")) = None.
Proof.
  destruct (@gcode_parser_checksum b32 _ example_machine initial_state
              (text_of "G1 X1*63") 63 (text_of "63") eq_refl) as [_ T].
  apply T; reflexivity.
Defined.

(** C7 (as stated) fails: "G1 X1*99" has no line number and a wrong
    checksum; the parser answers [CHECKSUM_MATCH_FAILED], not
    [MISSING_LINE_NUMBER_WITH_CHECKSUM]. *)
Lemma gcode_parser_checksum_before_line_number :
  ~ (forall (cm : Machine b32) (st : parserState b32) (line : text) (k : Z) (digits : text),
       checksum_field line = Some (k, digits) ->
       (has_line_number line = false ->
          status (gcode_parser cm st line) = STAT_MISSING_LINE_NUMBER_WITH_CHECKSUM) /\
       (strtol digits <> char_value (char_is_signed cm) k ->
          status (gcode_parser cm st line) = STAT_CHECKSUM_MATCH_FAILED)).
Proof.
  intros C.
  destruct (C example_machine initial_state (text_of "G1 X1*99") 63 (text_of "99") eq_refl)
    as [C1 _].
  specialize (C1 eq_refl). vm_compute in C1. discriminate C1.
Qed.

(** The theorem on the block "G0G1": both words parse, the block is
    dispatched. *)
Lemma gcode_parser_no_modal_group_check_witness :
  exists st' : parserState b32,
    dispatched (_parse_gcode_block example_machine initial_state (text_of "G0G1") [])
      = Some (st', []) /\
    gv st' motion_mode = Const MOTION_MODE_STRAIGHT_FEED.
Proof.
  destruct (@gcode_parser_no_modal_group_check b32 _ example_machine initial_state [])
    as (_ & _ & T & _).
  eexists. split.
  - apply T. vm_compute. reflexivity.
  - vm_compute. reflexivity.
Defined.

(** C2 (as stated) fails: the line "G0 G1" holds two words of the motion
    group; the parser returns [STAT_OK] and dispatches the block, with the
    motion mode of the second word. *)
Lemma gcode_parser_accepts_two_motion_words :
  g_group 0 = Some MODAL_GROUP_G1 /\ g_group 1 = Some MODAL_GROUP_G1 /\
  ~ (status (gcode_parser example_machine initial_state (text_of "G0 G1"))
       = STAT_MODAL_GROUP_VIOLATION /\
     dispatched (gcode_parser example_machine initial_state (text_of "G0 G1")) = None).
Proof.
  split; [reflexivity|]. split; [reflexivity|].
  intros [S _]. vm_compute in S. discriminate S.
Qed.

End ParserFacts.

(* ================================================================= *)
(** ** Planner runtime and move execution *)

Module PlannerFacts.
Import Arith Arith.B32 MachInt MachIntFacts Stepper Planner.
Open Scope Z_scope.

(** Reduction of the record projections over the field updates. *)
Ltac proj :=
  cbn [head_length set_head_length body_length set_body_length tail_length
       set_tail_length head_time set_head_time body_time set_body_time
       tail_time set_tail_time cruise_velocity set_cruise_velocity
       exit_velocity set_exit_velocity buffer_state set_buffer_state
       block_type set_block_type bf_block_state set_bf_block_state
       plannable set_plannable bf_length set_bf_length block_time
       set_block_time bf_func set_bf_func bf_unit set_bf_unit bf_axis_flags
       set_bf_axis_flags bf_gm_target set_bf_gm_target bf_gm_target_comp
       set_bf_gm_target_comp q_r set_q_r q_w set_q_w buffers_available
       set_buffers_available q_bf set_q_bf block_state set_block_state
       section set_section section_state set_section_state
       out_of_band_dwell_flag set_out_of_band_dwell_flag
       out_of_band_dwell_seconds set_out_of_band_dwell_seconds mr_unit
       set_mr_unit axis_flags set_axis_flags target set_target position
       set_position waypoint set_waypoint target_steps set_target_steps
       position_steps set_position_steps commanded_steps
       set_commanded_steps encoder_steps set_encoder_steps following_error
       set_following_error r_index set_r_index p_index set_p_index block0
       set_block0 block1 set_block1 entry_velocity set_entry_velocity
       segments set_segments segment_count set_segment_count
       segment_velocity set_segment_velocity segment_time set_segment_time
       forward_diff_1 set_forward_diff_1 forward_diff_2 set_forward_diff_2
       forward_diff_3 set_forward_diff_3 forward_diff_4 set_forward_diff_4
       forward_diff_5 set_forward_diff_5 gm_target set_gm_target
       gm_target_comp set_gm_target_comp cm_in_cycle set_cm_in_cycle
       cm_hold_state set_cm_hold_state cm_hold_type_skip
       set_cm_hold_type_skip cm_motion_state set_cm_motion_state mr set_mr
       mp_run_time_remaining set_mp_run_time_remaining mp_position
       set_mp_position mp_q set_mp_q steppers set_steppers prep_calls
       set_prep_calls requests set_requests upd_mr upd_r upd_buf run_block
       mr_r mr_p set_mr_r set_mr_p block_at set_block_at log_prep send
       st_request_forward_plan sr_request_status_report cm_set_motion_state
       buf_at fst snd].

Ltac proj_in H :=
  cbn [head_length set_head_length body_length set_body_length tail_length
       set_tail_length head_time set_head_time body_time set_body_time
       tail_time set_tail_time cruise_velocity set_cruise_velocity
       exit_velocity set_exit_velocity buffer_state set_buffer_state
       block_type set_block_type bf_block_state set_bf_block_state
       plannable set_plannable bf_length set_bf_length block_time
       set_block_time bf_func set_bf_func bf_unit set_bf_unit bf_axis_flags
       set_bf_axis_flags bf_gm_target set_bf_gm_target bf_gm_target_comp
       set_bf_gm_target_comp q_r set_q_r q_w set_q_w buffers_available
       set_buffers_available q_bf set_q_bf block_state set_block_state
       section set_section section_state set_section_state
       out_of_band_dwell_flag set_out_of_band_dwell_flag
       out_of_band_dwell_seconds set_out_of_band_dwell_seconds mr_unit
       set_mr_unit axis_flags set_axis_flags target set_target position
       set_position waypoint set_waypoint target_steps set_target_steps
       position_steps set_position_steps commanded_steps
       set_commanded_steps encoder_steps set_encoder_steps following_error
       set_following_error r_index set_r_index p_index set_p_index block0
       set_block0 block1 set_block1 entry_velocity set_entry_velocity
       segments set_segments segment_count set_segment_count
       segment_velocity set_segment_velocity segment_time set_segment_time
       forward_diff_1 set_forward_diff_1 forward_diff_2 set_forward_diff_2
       forward_diff_3 set_forward_diff_3 forward_diff_4 set_forward_diff_4
       forward_diff_5 set_forward_diff_5 gm_target set_gm_target
       gm_target_comp set_gm_target_comp cm_in_cycle set_cm_in_cycle
       cm_hold_state set_cm_hold_state cm_hold_type_skip
       set_cm_hold_type_skip cm_motion_state set_cm_motion_state mr set_mr
       mp_run_time_remaining set_mp_run_time_remaining mp_position
       set_mp_position mp_q set_mp_q steppers set_steppers prep_calls
       set_prep_calls requests set_requests upd_mr upd_r upd_buf run_block
       mr_r mr_p set_mr_r set_mr_p block_at set_block_at log_prep send
       st_request_forward_plan sr_request_status_report cm_set_motion_state
       buf_at fst snd] in H.

Section Normalize.
Context {F : Type} `{FloatOps F}.

Ltac block_fields :=
  cbn [head_length body_length tail_length head_time body_time tail_time
       cruise_velocity exit_velocity set_head_length set_body_length
       set_tail_length set_head_time set_body_time set_tail_time].

(** What [_exec_aline_normalize_block] does to the sections of a block,
    whatever the arithmetic, given that zero is not greater than zero:
    the velocities of the block are kept; a head (tail) of positive length
    with a time below [MIN_SEGMENT_TIME] is folded away, its length and
    time become zero; and a body of positive length with a time below
    [MIN_SEGMENT_TIME] is left only in a block that then has neither a head
    nor a tail of positive length (the branch of the source's
    [debug_trap]). *)
Theorem normalize_block_folds_short_sections (entry : F) (b : mpBlockRuntimeBuf F) :
  f_gtb (f_of_Z 0) (f_of_Z 0) = false ->
  let b' := _exec_aline_normalize_block entry b in
  cruise_velocity b' = cruise_velocity b
  /\ exit_velocity b' = exit_velocity b
  /\ (f_gtb (head_length b) (f_of_Z 0) && f_ltb (head_time b) MIN_SEGMENT_TIME = true ->
      head_length b' = f_of_Z 0 /\ head_time b' = f_of_Z 0)
  /\ (f_gtb (tail_length b) (f_of_Z 0) && f_ltb (tail_time b) MIN_SEGMENT_TIME = true ->
      tail_length b' = f_of_Z 0 /\ tail_time b' = f_of_Z 0)
  /\ (f_gtb (body_length b') (f_of_Z 0) && f_ltb (body_time b') MIN_SEGMENT_TIME = true ->
      f_gtb (head_length b') (f_of_Z 0) = false
      /\ f_gtb (tail_length b') (f_of_Z 0) = false).
Proof.
  intros Hz.
  destruct b as [hl bl tl ht bt tt cv ev].
  unfold _exec_aline_normalize_block, zero. block_fields.
  destruct (f_gtb hl (f_of_Z 0) && f_ltb ht MIN_SEGMENT_TIME)%bool eqn:E1;
    block_fields.
  all: destruct (f_gtb tl (f_of_Z 0) && f_ltb tt MIN_SEGMENT_TIME)%bool eqn:E2;
    block_fields.
  all: rewrite ?Hz; cbn [andb]; block_fields.
  all: match goal with
       | |- context [(f_gtb ?x _ && f_ltb ?y _)%bool] =>
           destruct (f_gtb x (f_of_Z 0) && f_ltb y MIN_SEGMENT_TIME)%bool eqn:E3
       end; block_fields.
  all: repeat match goal with
       | |- context [if f_gtb ?x ?y then _ else _] =>
           let E := fresh "G" in destruct (f_gtb x y) eqn:E
       end; block_fields.
  all: rewrite ?Hz; cbn [andb].
  all: repeat split; intros; try reflexivity; try congruence.
Qed.

(** C4 (as the code has it).  What [_exec_aline_normalize_block] leaves of
    a block, whatever the arithmetic, given that zero is not greater than
    zero.  (a) The sections are moved whole: the lengths are one of the
    combinations of [folded_lengths], so that their sum is kept up to the
    rounding of the additions that move them.  (b) A head (tail) of positive
    length with a time below [MIN_SEGMENT_TIME] is folded into the body, its
    length and time become zero; a head (tail) that is left with a positive
    length has a time that is not below [MIN_SEGMENT_TIME], unless it has
    taken the body, in which case its time is recomputed as
    [2 * length / (v_in + v_out)] and not tested again; and a body of
    positive length with a time below [MIN_SEGMENT_TIME] is left only in a
    block that then has neither a head nor a tail of positive length (the
    branch of the source's [debug_trap]). *)
Theorem normalize_block_sections (entry : F) (b : mpBlockRuntimeBuf F) :
  f_gtb (f_of_Z 0) (f_of_Z 0) = false ->
  let b' := _exec_aline_normalize_block entry b in
  In (head_length b', body_length b', tail_length b')
     (folded_lengths (head_length b) (body_length b) (tail_length b))
  /\ (f_gtb (head_length b) (f_of_Z 0) && f_ltb (head_time b) MIN_SEGMENT_TIME = true ->
      head_length b' = f_of_Z 0 /\ head_time b' = f_of_Z 0)
  /\ (f_gtb (tail_length b) (f_of_Z 0) && f_ltb (tail_time b) MIN_SEGMENT_TIME = true ->
      tail_length b' = f_of_Z 0 /\ tail_time b' = f_of_Z 0)
  /\ (f_gtb (head_length b') (f_of_Z 0) = true ->
      f_ltb (head_time b') MIN_SEGMENT_TIME = false
      \/ head_time b' = section_time (head_length b') (f_add entry (cruise_velocity b)))
  /\ (f_gtb (tail_length b') (f_of_Z 0) = true ->
      f_ltb (tail_time b') MIN_SEGMENT_TIME = false
      \/ tail_time b'
         = section_time (tail_length b') (f_add (cruise_velocity b) (exit_velocity b)))
  /\ (f_gtb (body_length b') (f_of_Z 0) && f_ltb (body_time b') MIN_SEGMENT_TIME = true ->
      f_gtb (head_length b') (f_of_Z 0) = false
      /\ f_gtb (tail_length b') (f_of_Z 0) = false).
Proof.
  intros Hz.
  destruct b as [hl bl tl ht bt tt cv ev].
  unfold _exec_aline_normalize_block, zero, folded_lengths, half_more. block_fields.
  destruct (f_gtb hl (f_of_Z 0)) eqn:E1a; [destruct (f_ltb ht MIN_SEGMENT_TIME) eqn:E1b|];
    cbn [andb]; block_fields.
  all: destruct (f_gtb tl (f_of_Z 0)) eqn:E2a;
    [destruct (f_ltb tt MIN_SEGMENT_TIME) eqn:E2b|];
    cbn [andb]; block_fields.
  all: rewrite ?Hz; cbn [andb]; block_fields.
  all: match goal with
       | |- context [(f_gtb ?x _ && f_ltb ?y _)%bool] =>
           destruct (f_gtb x (f_of_Z 0) && f_ltb y MIN_SEGMENT_TIME)%bool eqn:E3
       end; block_fields.
  all: rewrite ?Hz, ?E1a, ?E2a; cbn [andb]; block_fields.
  all: repeat match goal with
       | |- _ /\ _ => split
       end.
  all: try (cbn [In]; repeat (first [left; reflexivity | right]); fail).
  all: intros; try discriminate; try congruence.
  all: try (split; reflexivity).
  all: try (left; assumption).
  all: try (right; reflexivity).
  all: try (match goal with
            | H0 : (f_gtb (f_of_Z 0) (f_of_Z 0) && _)%bool = true |- _ =>
                rewrite Hz in H0; discriminate H0
            end).
  all: split; assumption.
Qed.

End Normalize.

(** The theorem on [brief_head_block]: the head of 0.6 ms is folded into
    the body, which becomes 2.01 mm long. *)
Lemma normalize_block_folds_short_sections_witness :
  let b' := _exec_aline_normalize_block (B32.of_Z 0) brief_head_block in
  f_ltb (head_time brief_head_block) MIN_SEGMENT_TIME = true
  /\ head_length b' = B32.of_Z 0 /\ head_time b' = B32.of_Z 0
  /\ body_length b' = f_add (B32.of_Z 2) (B32.lit (1 # 100)).
Proof.
  intros b'.
  pose proof (normalize_block_folds_short_sections (B32.of_Z 0) brief_head_block
                eq_refl) as T.
  cbv zeta in T. destruct T as (_ & _ & T & _).
  destruct (T eq_refl) as [T1 T2].
  split; [vm_compute; reflexivity|]. split; [exact T1|]. split; [exact T2|].
  vm_compute. reflexivity.
Defined.

(** A block without head and tail is left as it is, whatever its body: the
    function has nothing to merge a short body into (the branch of the
    source's [debug_trap]). *)
Theorem normalize_block_all_body_unchanged {F : Type} `{FloatOps F}
        (entry : F) (b : mpBlockRuntimeBuf F) :
  f_gtb (head_length b) (f_of_Z 0) = false ->
  f_gtb (tail_length b) (f_of_Z 0) = false ->
  _exec_aline_normalize_block entry b = b.
Proof.
  intros A B. unfold _exec_aline_normalize_block, zero. cbv zeta.
  rewrite A. cbn [andb]. rewrite B. cbn [andb]. rewrite A, B.
  destruct (f_gtb (body_length b) (f_of_Z 0) && f_ltb (body_time b) MIN_SEGMENT_TIME)%bool;
    reflexivity.
Qed.

(** The theorem on [short_body_block]: 1 mm of body in 0.00001 min, which
    is less than [MIN_SEGMENT_TIME], stays. *)
Lemma normalize_block_all_body_unchanged_witness :
  _exec_aline_normalize_block (B32.of_Z 0) short_body_block = short_body_block
  /\ f_ltb (body_time short_body_block) MIN_SEGMENT_TIME = true.
Proof.
  split; [|vm_compute; reflexivity].
  apply (normalize_block_all_body_unchanged (B32.of_Z 0) short_body_block);
    vm_compute; reflexivity.
Defined.

(** The theorem on [brief_head_block]: the head of 0.6 ms is folded away,
    and the lengths become those of the block with its head added to the
    body. *)
Lemma normalize_block_sections_witness :
  let b' := _exec_aline_normalize_block (B32.of_Z 0) brief_head_block in
  f_ltb (head_time brief_head_block) MIN_SEGMENT_TIME = true
  /\ head_length b' = B32.of_Z 0 /\ head_time b' = B32.of_Z 0
  /\ (head_length b', body_length b', tail_length b')
     = (B32.of_Z 0, f_add (B32.of_Z 2) (B32.lit (1 # 100)), B32.of_Z 1)
  /\ In (head_length b', body_length b', tail_length b')
       (folded_lengths (B32.lit (1 # 100)) (B32.of_Z 2) (B32.of_Z 1)).
Proof.
  intros b'.
  pose proof (normalize_block_sections (B32.of_Z 0) brief_head_block eq_refl) as T.
  cbv zeta in T. destruct T as (T0 & T & _).
  destruct (T eq_refl) as [T1 T2].
  split; [vm_compute; reflexivity|]. split; [exact T1|]. split; [exact T2|].
  split; [vm_compute; reflexivity | exact T0].
Defined.

(** C4 (as stated) fails in binary32, in both parts.  (a) On
    [tiny_head_block] the head of 0.001 mm is added to the body of 10 mm
    and the sum is rounded: the three lengths no longer add up to what they
    did.  (b) On [short_body_block], which is all body, the body stays with
    its time of 0.6 ms, below [MIN_SEGMENT_TIME]. *)
Lemma normalize_block_claim_fails :
  ~ (forall (entry : b32) (b : mpBlockRuntimeBuf b32),
       is_finite (head_length b) = true -> is_finite (body_length b) = true ->
       is_finite (tail_length b) = true ->
       let b' := _exec_aline_normalize_block entry b in
       (B2Q (head_length b') + B2Q (body_length b') + B2Q (tail_length b')
        == B2Q (head_length b) + B2Q (body_length b) + B2Q (tail_length b))%Q)
  /\ ~ (forall (entry : b32) (b : mpBlockRuntimeBuf b32),
         let b' := _exec_aline_normalize_block entry b in
         (f_eqb (head_length b') (f_of_Z 0) = false ->
          f_leb MIN_SEGMENT_TIME (head_time b') = true)
         /\ (f_eqb (body_length b') (f_of_Z 0) = false ->
             f_leb MIN_SEGMENT_TIME (body_time b') = true)
         /\ (f_eqb (tail_length b') (f_of_Z 0) = false ->
             f_leb MIN_SEGMENT_TIME (tail_time b') = true)).
Proof.
  split; intros C.
  - specialize (C (B32.of_Z 0) tiny_head_block eq_refl eq_refl eq_refl).
    cbv zeta in C. vm_compute in C. discriminate C.
  - specialize (C (B32.of_Z 0) short_body_block). cbv zeta in C.
    destruct C as (_ & C & _). vm_compute in C.
    specialize (C eq_refl). discriminate.
Qed.

Section Velocity.
Context {F : Type} `{FloatOps F}.
Variable hw : Settings F.
Variable ext : Externals F.













End Velocity.




Section Exec.
Context {F : Type} `{FloatOps F}.
Variable hw : Settings F.
Variable ext : Externals F.
Variable cb : nat -> nat -> machine F -> stat_t * machine F.

Ltac split_all :=
  repeat match goal with
  | |- context [let '(_, _) := ?x in _] =>
      lazymatch x with
      | _exec_aline_segment _ _ _ => fail
      | free_run_buffer _ _ => fail
      | _ => destruct x
      end
  | |- context [if ?c then _ else _] => destruct c
  | |- context [match ?c with SECTION_HEAD => _ | _ => _ end] => destruct c
  end.

Lemma none_prepares (s s' : machine F) :
  prep_calls s' = prep_calls s -> prepares_at_most_one s s'.
Proof. intros E. exists []. rewrite E, app_nil_r. split; [reflexivity|cbn; lia]. Qed.

Lemma one_prepares (s s' : machine F) (c : prepCall) :
  prep_calls s' = prep_calls s ++ [c] -> prepares_at_most_one s s'.
Proof. intros E. exists [c]. split; [exact E|cbn; lia]. Qed.

Lemma segment_prepares (s : machine F) :
  prep_calls (snd (_exec_aline_segment hw ext s)) = prep_calls s ++ [PrepLine].
Proof.
  unfold _exec_aline_segment. cbv zeta.
  repeat match goal with
  | |- context [let '(_, _) := ?x in _] => destruct x
  | |- context [if ?c then _ else _] => destruct c
  end; proj; reflexivity.
Qed.

Lemma prepares_frame (s s1 s' : machine F) :
  prep_calls s1 = prep_calls s -> prepares_at_most_one s1 s' ->
  prepares_at_most_one s s'.
Proof. unfold prepares_at_most_one. intros E. rewrite E. auto. Qed.

Lemma prepares_then_none (s s1 s' : machine F) :
  prepares_at_most_one s s1 -> prep_calls s' = prep_calls s1 ->
  prepares_at_most_one s s'.
Proof. unfold prepares_at_most_one. intros P E. rewrite E. auto. Qed.

Ltac after_segment :=
  match goal with
  | |- context [_exec_aline_segment hw ext ?x] =>
      let K := fresh "K" in
      pose proof (segment_prepares x) as K;
      destruct (_exec_aline_segment hw ext x) as [? ?]; cbn [snd] in K
  end.

Ltac prepares_tac :=
  repeat (split_all; try after_segment); cbn [snd];
  first [ apply none_prepares; proj; reflexivity
        | eapply one_prepares; proj;
          match goal with K : prep_calls _ = _ |- _ => rewrite K end;
          proj; reflexivity ].

Lemma tail_prepares (bf : nat) (s : machine F) :
  prepares_at_most_one s (snd (_exec_aline_tail hw ext bf s)).
Proof. unfold _exec_aline_tail. cbv zeta. prepares_tac. Qed.

Lemma body_prepares (bf : nat) (s : machine F) :
  prepares_at_most_one s (snd (_exec_aline_body hw ext bf s)).
Proof.
  unfold _exec_aline_body. cbv zeta.
  destruct (sectionState_eqb (section_state (mr s)) SECTION_NEW);
    [destruct (fp_ZERO hw (body_length (run_block s)))|].
  - eapply prepares_frame; [|apply tail_prepares]. reflexivity.
  - prepares_tac.
  - prepares_tac.
Qed.

Lemma head_prepares (bf : nat) (s : machine F) :
  prepares_at_most_one s (snd (_exec_aline_head hw ext bf s)).
Proof.
  unfold _exec_aline_head. cbv zeta.
  destruct (sectionState_eqb (section_state (mr s)) SECTION_NEW);
    [destruct (fp_ZERO hw (head_length (run_block s)))|].
  - eapply prepares_frame; [|apply body_prepares]. reflexivity.
  - prepares_tac.
  - prepares_tac.
Qed.

Lemma free_run_buffer_prepares (s : machine F) :
  prep_calls (snd (free_run_buffer ext s)) = prep_calls s.
Proof. unfold free_run_buffer. destruct (mp_free_run_buffer ext (mp_q s)). reflexivity. Qed.

Lemma feedhold_prepares (bf : nat) (s : machine F) :
  prep_calls (snd (_exec_aline_feedhold ext bf s)) = prep_calls s.
Proof.
  unfold _exec_aline_feedhold. cbv zeta.
  split_all; proj; rewrite ?free_run_buffer_prepares; reflexivity.
Qed.

Lemma exec_aline_start_prepares (bf : nat) (s : machine F) :
  prep_calls (exec_aline_start hw bf s) = prep_calls s.
Proof. reflexivity. Qed.

Lemma exec_aline_run_prepares (bf : nat) (s : machine F) :
  prepares_at_most_one s (snd (exec_aline_run hw ext bf s)).
Proof.
  unfold exec_aline_run. cbv zeta.
  assert (P : prepares_at_most_one s
                (snd (match section (mr (upd_mr (set_block_state BLOCK_ACTIVE) s)) with
                      | SECTION_HEAD =>
                          _exec_aline_head hw ext bf (upd_mr (set_block_state BLOCK_ACTIVE) s)
                      | SECTION_BODY =>
                          _exec_aline_body hw ext bf (upd_mr (set_block_state BLOCK_ACTIVE) s)
                      | SECTION_TAIL =>
                          _exec_aline_tail hw ext bf (upd_mr (set_block_state BLOCK_ACTIVE) s)
                      end))).
  { eapply prepares_frame with (s1 := upd_mr (set_block_state BLOCK_ACTIVE) s);
      [reflexivity|].
    destruct (section _);
      [apply head_prepares | apply body_prepares | apply tail_prepares]. }
  destruct (match section (mr (upd_mr (set_block_state BLOCK_ACTIVE) s)) with
            | SECTION_HEAD => _ | SECTION_BODY => _ | SECTION_TAIL => _ end)
    as [status s1].
  cbn [snd] in P. eapply prepares_then_none; [exact P|].
  split_all; cbn [snd]; proj; try reflexivity.
  all: match goal with
       | |- context [free_run_buffer ext ?x] =>
           pose proof (free_run_buffer_prepares x) as K;
           destruct (free_run_buffer ext x) as [? ?]; cbn [snd] in K; proj_in K
       end.
  all: split_all; cbn [snd]; proj; exact K.
Qed.

Lemma mp_exec_aline_prepares (bf : nat) (s : machine F) :
  prepares_at_most_one s (snd (mp_exec_aline hw ext bf s)).
Proof.
  unfold mp_exec_aline.
  destruct (negb (cm_in_cycle s)); [apply none_prepares; reflexivity|].
  destruct (blockState_eqb (bf_block_state (buf_at bf s)) BLOCK_INACTIVE);
    [apply none_prepares; reflexivity|].
  cbv zeta.
  set (s1 := if blockState_eqb (block_state (mr s)) BLOCK_INACTIVE
             then exec_aline_start hw bf s else s).
  assert (E1 : prep_calls s1 = prep_calls s) by (subst s1; split_all; reflexivity).
  clearbody s1. eapply prepares_frame; [exact E1|].
  destruct (negb (cmFeedholdState_eqb (cm_hold_state s1) FEEDHOLD_OFF));
    [|apply exec_aline_run_prepares].
  destruct (Nat.leb _ _); [apply none_prepares; reflexivity|].
  pose proof (feedhold_prepares bf s1) as K.
  destruct (_exec_aline_feedhold ext bf s1) as [status s2]. cbn [snd] in K.
  destruct (stat_eqb status STAT_OK || stat_eqb status STAT_NOOP)%bool.
  - apply none_prepares. exact K.
  - eapply prepares_frame; [exact K|]. apply exec_aline_run_prepares.
Qed.

Lemma mp_exec_move_prepares (s : machine F) :
  (forall id bf s0, prepares_at_most_one s0 (snd (cb id bf s0))) ->
  prepares_at_most_one s (snd (mp_exec_move hw ext cb s)).
Proof.
  intros CB.
  unfold mp_exec_move. cbv zeta.
  destruct (out_of_band_dwell_flag (mr s)).
  { cbn [snd]. unfold prep_out_of_band_dwell. cbv zeta. proj.
    destruct (st_runtime_isbusy _);
      [apply none_prepares | eapply one_prepares]; proj; reflexivity. }
  destruct (mp_get_run_buffer ext (mp_q s)) as [bf|];
    [|eapply one_prepares; reflexivity].
  assert (C : forall s1, prep_calls s1 = prep_calls s ->
              prepares_at_most_one s
                (snd (match bf_func (buf_at bf s1) with
                      | Some BF_mp_exec_aline => mp_exec_aline hw ext bf s1
                      | Some (BF_callback id) => cb id bf s1
                      | None => (cm_panic STAT_INTERNAL_ERROR, s1)
                      end))).
  { intros s1 E1. eapply prepares_frame; [exact E1|].
    destruct (bf_func (buf_at bf s1)) as [[|id]|];
      [apply mp_exec_aline_prepares | apply CB | apply none_prepares; reflexivity]. }
  repeat match goal with
  | |- context [if ?c then (_, _) else _] => destruct c
  | |- prepares_at_most_one _ (snd (if ?c then _ else _)) => destruct c
  end.
  all: try (apply none_prepares; reflexivity).
  all: try (eapply one_prepares; reflexivity).
  all: apply C; split_all; reflexivity.
Qed.

(** Every invocation of [mp_exec_aline] and of [mp_exec_move] makes at most
    one call into the stepper preparation ([st_prep_line], [st_prep_null]
    or the dwell of [st_prep_out_of_band_dwell]), also when an empty head
    or body makes the head runner chain into the body or tail runner;
    for [mp_exec_move], provided the callbacks of the other buffer types
    make at most one such call. *)
Theorem exec_prepares_at_most_one (s : machine F) :
  (forall id bf s0, prepares_at_most_one s0 (snd (cb id bf s0))) ->
  (forall bf, prepares_at_most_one s (snd (mp_exec_aline hw ext bf s)))
  /\ prepares_at_most_one s (snd (mp_exec_move hw ext cb s)).
Proof.
  intros CB. split; [intros bf; apply mp_exec_aline_prepares|].
  apply mp_exec_move_prepares. exact CB.
Qed.

(** C8.  One invocation of the exec path makes at most one call into the
    stepper preparation ([st_prep_line], [st_prep_dwell], [st_prep_null] or
    [st_prep_command]): this holds for the head runner, also when a head (and
    a body) of zero length makes it chain into the body (and tail) runner,
    for [mp_exec_aline], and for [mp_exec_move], given that the callbacks of
    the blocks that are not lines, which are not part of plan_exec.cpp, make
    at most one such call. *)
Theorem exec_path_prepares_at_most_one (s : machine F) :
  (forall id bf s0, prepares_at_most_one s0 (snd (cb id bf s0))) ->
  (forall bf, prepares_at_most_one s (snd (_exec_aline_head hw ext bf s)))
  /\ (forall bf, prepares_at_most_one s (snd (mp_exec_aline hw ext bf s)))
  /\ prepares_at_most_one s (snd (mp_exec_move hw ext cb s)).
Proof.
  intros CB. split; [intros bf; apply head_prepares|].
  split; [intros bf; apply mp_exec_aline_prepares|].
  apply mp_exec_move_prepares. exact CB.
Qed.

(** *** Buffer states *)

Lemma pool_at_list_upd (i bf : nat) (f : mpBuf F -> mpBuf F) (pool : list (mpBuf F)) :
  pool_at i (list_upd bf f pool)
  = if (Nat.eqb i bf && Nat.ltb bf (List.length pool))%bool
    then f (pool_at i pool) else pool_at i pool.
Proof.
  unfold pool_at. revert i bf. induction pool as [|a l IH]; intros i bf.
  - destruct bf, i; cbn; rewrite ?andb_false_r; reflexivity.
  - destruct bf as [|bf]; destruct i as [|i]; cbn [list_upd nth]; try reflexivity.
    rewrite IH. reflexivity.
Qed.

Lemma state_list_upd (i bf : nat) (f : mpBuf F -> mpBuf F) (pool : list (mpBuf F)) :
  (forall b, buffer_state (f b) = buffer_state b) ->
  buffer_state (pool_at i (list_upd bf f pool)) = buffer_state (pool_at i pool).
Proof.
  intros K. rewrite pool_at_list_upd. destruct (_ && _)%bool; [apply K|reflexivity].
Qed.

Lemma length_list_upd (bf : nat) (f : mpBuf F -> mpBuf F) (pool : list (mpBuf F)) :
  List.length (list_upd bf f pool) = List.length pool.
Proof.
  revert bf. induction pool as [|a l IH]; intros [|bf]; cbn; auto.
Qed.

Ltac states_tac :=
  unfold state_of, buf_at; proj;
  rewrite ?state_list_upd by (intros; reflexivity); try reflexivity.

Lemma segment_states (i : nat) (s : machine F) :
  state_of i (snd (_exec_aline_segment hw ext s)) = state_of i s.
Proof.
  unfold _exec_aline_segment. cbv zeta. split_all; states_tac.
Qed.

Ltac after_segment_states i :=
  match goal with
  | |- context [_exec_aline_segment hw ext ?x] =>
      let K := fresh "K" in
      pose proof (segment_states i x) as K;
      destruct (_exec_aline_segment hw ext x) as [? ?]; cbn [snd] in K
  end.

Ltac runner_states i :=
  repeat (split_all; try after_segment_states i); cbn [snd];
  try match goal with K : state_of _ _ = _ |- _ => revert K end;
  states_tac;
  try (intros K; rewrite K; rewrite ?state_list_upd by (intros; reflexivity);
       reflexivity).

Lemma tail_states (i bf : nat) (s : machine F) :
  state_of i (snd (_exec_aline_tail hw ext bf s)) = state_of i s.
Proof. unfold _exec_aline_tail. cbv zeta. runner_states i. Qed.

Lemma body_states (i bf : nat) (s : machine F) :
  state_of i (snd (_exec_aline_body hw ext bf s)) = state_of i s.
Proof.
  unfold _exec_aline_body. cbv zeta.
  destruct (sectionState_eqb (section_state (mr s)) SECTION_NEW);
    [destruct (fp_ZERO hw (body_length (run_block s)))|].
  - rewrite tail_states. reflexivity.
  - runner_states i.
  - runner_states i.
Qed.

Lemma head_states (i bf : nat) (s : machine F) :
  state_of i (snd (_exec_aline_head hw ext bf s)) = state_of i s.
Proof.
  unfold _exec_aline_head. cbv zeta.
  destruct (sectionState_eqb (section_state (mr s)) SECTION_NEW);
    [destruct (fp_ZERO hw (head_length (run_block s)))|].
  - rewrite body_states. reflexivity.
  - runner_states i.
  - runner_states i.
Qed.

Lemma exec_aline_start_states (i bf : nat) (s : machine F) :
  state_of i (exec_aline_start hw bf s) = state_of i s.
Proof. unfold exec_aline_start. cbv zeta. states_tac. Qed.

Lemma revert_planned_states (fuel i bf : nat) (pool : list (mpBuf F)) :
  let a := buffer_state (pool_at i pool) in
  let b := buffer_state (pool_at i (revert_planned fuel bf pool)) in
  b = a
  \/ (b = MP_BUFFER_BACK_PLANNED
      /\ (bufferState_rank MP_BUFFER_BACK_PLANNED < bufferState_rank a)%nat).
Proof.
  cbv zeta. revert bf pool. induction fuel as [|fuel IH]; intros bf pool.
  - left. reflexivity.
  - cbn [revert_planned].
    destruct (bufferState_ltb MP_BUFFER_BACK_PLANNED (buffer_state (pool_at bf pool)))
      eqn:E; [|left; reflexivity].
    set (pool' := list_upd bf _ pool).
    assert (U : buffer_state (pool_at i pool') = buffer_state (pool_at i pool)
                \/ (buffer_state (pool_at i pool') = MP_BUFFER_BACK_PLANNED
                    /\ (bufferState_rank MP_BUFFER_BACK_PLANNED
                        < bufferState_rank (buffer_state (pool_at i pool)))%nat)).
    { subst pool'. rewrite pool_at_list_upd.
      destruct (Nat.eqb i bf && Nat.ltb bf (List.length pool))%bool eqn:B;
        [|left; reflexivity].
      right. apply andb_true_iff in B. destruct B as [B _].
      apply Nat.eqb_eq in B. subst i. split; [reflexivity|].
      unfold bufferState_ltb in E. apply Nat.ltb_lt in E. exact E. }
    destruct (IH (pool_nx bf pool) pool') as [J|[J1 J2]].
    + rewrite J. exact U.
    + destruct U as [U|[U1 U2]].
      * right. rewrite <- U. auto.
      * exfalso. rewrite U1 in J2. cbn in J2. lia.
Qed.

Hypothesis free_releases : forall (q : mpPlannerQueue F) (i : nat),
  kept_or_released (buffer_state (pool_at i (q_bf q)))
    (buffer_state (pool_at i (q_bf (snd (mp_free_run_buffer ext q))))).

Lemma free_run_buffer_states (i : nat) (s : machine F) :
  kept_or_released (state_of i s) (state_of i (snd (free_run_buffer ext s))).
Proof.
  unfold free_run_buffer, state_of, buf_at.
  pose proof (free_releases (mp_q s) i) as R.
  destruct (mp_free_run_buffer ext (mp_q s)) as [e q]. exact R.
Qed.

Lemma cmFeedholdState_eqb_eq (a b : cmFeedholdState) :
  cmFeedholdState_eqb a b = true -> a = b.
Proof. destruct a, b; cbn; congruence. Qed.

Lemma state_of_upd_mr (i : nat) (f : mpPlannerRuntime F -> mpPlannerRuntime F)
      (s : machine F) : state_of i (upd_mr f s) = state_of i s.
Proof. reflexivity. Qed.

Lemma state_of_upd_r (i : nat) (f : mpBlockRuntimeBuf F -> mpBlockRuntimeBuf F)
      (s : machine F) : state_of i (upd_r f s) = state_of i s.
Proof. reflexivity. Qed.

Lemma state_of_send (i : nat) (r : request) (s : machine F) :
  state_of i (send r s) = state_of i s.
Proof. reflexivity. Qed.

Lemma state_of_log_prep (i : nat) (c : prepCall) (s : machine F) :
  state_of i (log_prep c s) = state_of i s.
Proof. reflexivity. Qed.

Lemma state_of_set_cm_hold_state (i : nat) (v : cmFeedholdState) (s : machine F) :
  state_of i (set_cm_hold_state v s) = state_of i s.
Proof. reflexivity. Qed.

Lemma state_of_set_cm_motion_state (i : nat) (v : cmMotionState) (s : machine F) :
  state_of i (set_cm_motion_state v s) = state_of i s.
Proof. reflexivity. Qed.

Lemma state_of_set_mp_position (i : nat) (v : list F) (s : machine F) :
  state_of i (set_mp_position v s) = state_of i s.
Proof. reflexivity. Qed.

Lemma state_of_set_mp_run_time_remaining (i : nat) (v : F) (s : machine F) :
  state_of i (set_mp_run_time_remaining v s) = state_of i s.
Proof. reflexivity. Qed.

Lemma state_of_set_steppers (i : nat) (v : stepper F) (s : machine F) :
  state_of i (set_steppers v s) = state_of i s.
Proof. reflexivity. Qed.

Lemma state_of_upd_buf (i bf : nat) (f : mpBuf F -> mpBuf F) (s : machine F) :
  (forall b, buffer_state (f b) = buffer_state b) ->
  state_of i (upd_buf bf f s) = state_of i s.
Proof. intros K. unfold state_of, buf_at. proj. apply state_list_upd, K. Qed.

Lemma state_of_set_pool (i : nat) (pool : list (mpBuf F)) (s : machine F) :
  state_of i (set_mp_q (set_q_bf pool (mp_q s)) s) = buffer_state (pool_at i pool).
Proof. reflexivity. Qed.

Ltac frames :=
  unfold sr_request_status_report, st_request_forward_plan, cm_set_motion_state;
  repeat first
    [ rewrite state_of_upd_mr | rewrite state_of_upd_r | rewrite state_of_send
    | rewrite state_of_log_prep
    | rewrite state_of_set_cm_hold_state | rewrite state_of_set_cm_motion_state
    | rewrite state_of_set_mp_position | rewrite state_of_set_mp_run_time_remaining
    | rewrite state_of_set_steppers
    | rewrite state_of_upd_buf by (intros; reflexivity)
    | rewrite state_of_set_pool ].

Lemma kept_then_released (revert : Prop) (a b c : bufferState) :
  b = a -> kept_or_released b c -> kept_released_or_reverted revert a c.
Proof. intros -> [K|K]; [left|right; left]; exact K. Qed.

Lemma feedhold_states (i bf : nat) (s : machine F) :
  kept_released_or_reverted (cm_hold_state s = FEEDHOLD_MOTION_STOPPING)
    (state_of i s) (state_of i (snd (_exec_aline_feedhold ext bf s))).
Proof.
  unfold _exec_aline_feedhold. cbv zeta.
  destruct (cmFeedholdState_eqb (cm_hold_state s) FEEDHOLD_MOTION_STOPPING) eqn:EH.
  - apply cmFeedholdState_eqb_eq in EH.
    destruct (mp_runtime_is_idle ext (st_run (steppers s))); [|left; reflexivity].
    cbn [snd]. frames.
    destruct (cm_hold_type_skip s).
    { eapply kept_then_released; [|apply free_run_buffer_states]. frames. reflexivity. }
    match goal with |- context [if ?c then _ else _] => destruct c end.
    { eapply kept_then_released; [|apply free_run_buffer_states]. frames. reflexivity. }
    frames.
    match goal with
    | |- context [revert_planned ?fuel bf ?pool] =>
        destruct (revert_planned_states fuel i bf pool) as [R|[R1 R2]];
        [ left; rewrite R | right; right; rewrite R1 ];
        change (buffer_state (pool_at i pool)) with
          (state_of i (upd_buf bf (set_bf_block_state BLOCK_INITIAL_ACTION)
             (upd_buf bf (set_bf_length
                (get_axis_vector_length ext (position (mr s)) (target (mr s)))) s)))
          in *
    end.
    + frames. reflexivity.
    + revert R2. frames. intros R2. auto.
  - split_all; cbn [snd]; frames; left; reflexivity.
Qed.

Lemma exec_aline_run_states (i bf : nat) (s : machine F) :
  kept_or_released (state_of i s) (state_of i (snd (exec_aline_run hw ext bf s))).
Proof.
  unfold exec_aline_run. cbv zeta.
  assert (P : state_of i
                (snd (match section (mr (upd_mr (set_block_state BLOCK_ACTIVE) s)) with
                      | SECTION_HEAD =>
                          _exec_aline_head hw ext bf (upd_mr (set_block_state BLOCK_ACTIVE) s)
                      | SECTION_BODY =>
                          _exec_aline_body hw ext bf (upd_mr (set_block_state BLOCK_ACTIVE) s)
                      | SECTION_TAIL =>
                          _exec_aline_tail hw ext bf (upd_mr (set_block_state BLOCK_ACTIVE) s)
                      end)) = state_of i s).
  { destruct (section _);
      [rewrite head_states | rewrite body_states | rewrite tail_states];
      apply state_of_upd_mr. }
  destruct (match section (mr (upd_mr (set_block_state BLOCK_ACTIVE) s)) with
            | SECTION_HEAD => _ | SECTION_BODY => _ | SECTION_TAIL => _ end)
    as [status s1].
  cbn [snd] in P. rewrite <- P. clear P.
  split_all; cbn [snd]; frames; try (left; reflexivity).
  all: match goal with
       | |- context [free_run_buffer ext ?x] =>
           pose proof (free_run_buffer_states i x) as K;
           destruct (free_run_buffer ext x) as [? ?]; cbn [snd] in K;
           revert K; frames; intros K
       end.
  all: split_all; cbn [snd]; frames; exact K.
Qed.

Lemma released_after (revert : Prop) (a b c : bufferState) :
  kept_released_or_reverted revert a b -> kept_or_released b c ->
  kept_released_or_reverted revert a c.
Proof.
  intros [K|[K|K]] [L|L]; subst;
    first [left; reflexivity | right; left; reflexivity | right; right; exact K].
Qed.

Lemma mp_exec_aline_states (i bf : nat) (s : machine F) :
  kept_released_or_reverted (cm_hold_state s = FEEDHOLD_MOTION_STOPPING)
    (state_of i s) (state_of i (snd (mp_exec_aline hw ext bf s))).
Proof.
  unfold mp_exec_aline.
  destruct (negb (cm_in_cycle s)); [left; reflexivity|].
  destruct (blockState_eqb (bf_block_state (buf_at bf s)) BLOCK_INACTIVE);
    [left; reflexivity|].
  cbv zeta.
  assert (E1 : forall s1,
            s1 = (if blockState_eqb (block_state (mr s)) BLOCK_INACTIVE
                  then exec_aline_start hw bf s else s) ->
            state_of i s1 = state_of i s /\ cm_hold_state s1 = cm_hold_state s).
  { intros s1 ->. destruct (blockState_eqb _ _); [|split; reflexivity].
    split; [apply exec_aline_start_states|reflexivity]. }
  specialize (E1 _ eq_refl). revert E1.
  generalize (if blockState_eqb (block_state (mr s)) BLOCK_INACTIVE
              then exec_aline_start hw bf s else s).
  intros s1 [E1 E2]. rewrite <- E1, <- E2.
  destruct (negb (cmFeedholdState_eqb (cm_hold_state s1) FEEDHOLD_OFF)).
  - destruct (Nat.leb _ _); [left; reflexivity|].
    pose proof (feedhold_states i bf s1) as K.
    destruct (_exec_aline_feedhold ext bf s1) as [status s2]. cbn [snd] in K.
    destruct (stat_eqb status STAT_OK || stat_eqb status STAT_NOOP)%bool; [exact K|].
    eapply released_after; [exact K|]. apply exec_aline_run_states.
  - eapply released_after; [left; reflexivity|]. apply exec_aline_run_states.
Qed.

Lemma bufferState_eqb_eq (a b : bufferState) : bufferState_eqb a b = true -> a = b.
Proof. destruct a, b; cbn; congruence. Qed.

Lemma transition_of_kept (revert : Prop) (a b : bufferState) :
  kept_released_or_reverted revert a b -> buffer_transition revert a b.
Proof.
  intros [K|[K|K]]; [left; auto | right; right; left; exact K | right; right; right; exact K].
Qed.

Hypothesis callbacks_release : forall (id bf : nat) (s0 : machine F) (i : nat),
  kept_or_released (state_of i s0) (state_of i (snd (cb id bf s0))).

Lemma callback_states (i bf : nat) (s s1 : machine F) :
  cm_hold_state s1 = cm_hold_state s ->
  kept_released_or_reverted (cm_hold_state s = FEEDHOLD_MOTION_STOPPING)
    (state_of i s1)
    (state_of i (snd (match bf_func (buf_at bf s1) with
                      | Some BF_mp_exec_aline => mp_exec_aline hw ext bf s1
                      | Some (BF_callback id) => cb id bf s1
                      | None => (cm_panic STAT_INTERNAL_ERROR, s1)
                      end))).
Proof.
  intros E. rewrite <- E.
  destruct (bf_func (buf_at bf s1)) as [[|id]|].
  - apply mp_exec_aline_states.
  - eapply released_after; [left; reflexivity|]. apply callbacks_release.
  - left. reflexivity.
Qed.

(** The changes of the buffer states in one invocation of [mp_exec_move]:
    every buffer keeps its state, moves one step forward (the run buffer,
    from [MP_BUFFER_FULLY_PLANNED] to [MP_BUFFER_RUNNING]), is released, or
    is sent back to [MP_BUFFER_BACK_PLANNED] by the end of a feedhold. *)
Lemma mp_exec_move_states (i : nat) (s : machine F) :
  buffer_transition (cm_hold_state s = FEEDHOLD_MOTION_STOPPING)
    (state_of i s) (state_of i (snd (mp_exec_move hw ext cb s))).
Proof.
  unfold mp_exec_move. cbv zeta.
  destruct (out_of_band_dwell_flag (mr s)).
  { cbn [snd]. unfold prep_out_of_band_dwell. cbv zeta.
    destruct (st_runtime_isbusy _); frames; left; reflexivity. }
  destruct (mp_get_run_buffer ext (mp_q s)) as [bf|];
    [|cbn [snd]; unfold prep_null; frames; left; reflexivity].
  assert (A : forall s1, cm_hold_state s1 = cm_hold_state s ->
              kept_released_or_reverted (cm_hold_state s = FEEDHOLD_MOTION_STOPPING)
                (state_of i s1)
                (state_of i (snd (match bf_func
                                          (buf_at bf
                                             (if bufferState_leb MP_BUFFER_BACK_PLANNED
                                                   (buffer_state (buf_at (nx bf s1) s1))
                                              then st_request_forward_plan s1 else s1))
                                  with
                                  | Some BF_mp_exec_aline =>
                                      mp_exec_aline hw ext bf
                                        (if bufferState_leb MP_BUFFER_BACK_PLANNED
                                              (buffer_state (buf_at (nx bf s1) s1))
                                         then st_request_forward_plan s1 else s1)
                                  | Some (BF_callback id) =>
                                      cb id bf
                                        (if bufferState_leb MP_BUFFER_BACK_PLANNED
                                              (buffer_state (buf_at (nx bf s1) s1))
                                         then st_request_forward_plan s1 else s1)
                                  | None =>
                                      (cm_panic STAT_INTERNAL_ERROR,
                                       if bufferState_leb MP_BUFFER_BACK_PLANNED
                                            (buffer_state (buf_at (nx bf s1) s1))
                                       then st_request_forward_plan s1 else s1)
                                  end)))).
  { intros s1 E.
    destruct (bufferState_leb _ _); [|apply callback_states; exact E].
    change (state_of i s1) with (state_of i (st_request_forward_plan s1)).
    apply callback_states. exact E. }
  destruct (blockType_eqb (block_type (buf_at bf s)) BLOCK_TYPE_ALINE);
    [|apply transition_of_kept, callback_states; reflexivity].
  destruct (negb (bufferState_eqb (buffer_state (buf_at bf s)) MP_BUFFER_RUNNING));
    [|apply transition_of_kept, A; reflexivity].
  destruct (_ && _)%bool; [cbn [snd]; unfold prep_null; frames; left; reflexivity|].
  destruct (bufferState_eqb (buffer_state (buf_at bf s)) MP_BUFFER_BACK_PLANNED);
    [cbn [snd]; frames; left; reflexivity|].
  destruct (bufferState_eqb (buffer_state (buf_at bf s)) MP_BUFFER_FULLY_PLANNED) eqn:EF;
    [|left; reflexivity].
  apply bufferState_eqb_eq in EF.
  specialize (A (send PlannerTimeAccounting
                   (upd_buf bf (set_buffer_state MP_BUFFER_RUNNING) s)) eq_refl).
  match type of A with
  | kept_released_or_reverted _ _ ?c => revert A; generalize c
  end.
  intros c A.
  assert (B : state_of i (send PlannerTimeAccounting
                            (upd_buf bf (set_buffer_state MP_BUFFER_RUNNING) s))
              = state_of i s
              \/ (state_of i (send PlannerTimeAccounting
                                (upd_buf bf (set_buffer_state MP_BUFFER_RUNNING) s))
                  = MP_BUFFER_RUNNING
                  /\ state_of i s = MP_BUFFER_FULLY_PLANNED)).
  { rewrite state_of_send. unfold state_of, buf_at in *. proj.
    rewrite pool_at_list_upd.
    destruct (Nat.eqb i bf && _)%bool eqn:B; [|left; reflexivity].
    right. apply andb_true_iff in B. destruct B as [B _].
    apply Nat.eqb_eq in B. subst i. split; [reflexivity|exact EF]. }
  destruct B as [B|[B1 B2]].
  - rewrite B in A. apply transition_of_kept, A.
  - rewrite B1 in A. rewrite B2. destruct A as [A|[A|(A1 & A2 & A3)]].
    + right. left. split; [reflexivity | exact A].
    + right. right. left. exact A.
    + right. right. right. repeat split; auto; cbn; lia.
Qed.

Lemma plan_commands_states (fuel bf : nat) (planned : bool) (pool : list (mpBuf F))
      (i : nat) :
  let pool' := snd (plan_commands fuel bf planned pool) in
  buffer_state (pool_at i pool') = buffer_state (pool_at i pool)
  \/ (buffer_state (pool_at i pool) = MP_BUFFER_BACK_PLANNED
      /\ buffer_state (pool_at i pool') = MP_BUFFER_FULLY_PLANNED).
Proof.
  cbv zeta. revert bf planned pool.
  induction fuel as [|fuel IH]; intros bf planned pool; [left; reflexivity|].
  cbn [plan_commands].
  destruct (Nat.leb _ _); [|left; reflexivity].
  destruct (bufferState_eqb (buffer_state (pool_at bf pool)) MP_BUFFER_BACK_PLANNED)
    eqn:E; [|apply IH].
  apply bufferState_eqb_eq in E.
  destruct (IH (pool_nx bf pool) true
              (list_upd bf (set_buffer_state MP_BUFFER_FULLY_PLANNED) pool)) as [J|[J1 J2]].
  - rewrite J. rewrite pool_at_list_upd.
    destruct (Nat.eqb i bf && _)%bool eqn:B; [|left; reflexivity].
    right. apply andb_true_iff in B. destruct B as [B _].
    apply Nat.eqb_eq in B. subst i. split; [exact E|reflexivity].
  - revert J1. rewrite pool_at_list_upd.
    destruct (Nat.eqb i bf && _)%bool eqn:B.
    + cbn. discriminate.
    + intros J1. right. split; assumption.
Qed.

Lemma plan_aline_states (i bf : nat) (v : F) (s : machine F) :
  state_of bf s = MP_BUFFER_BACK_PLANNED ->
  state_of i (_plan_aline ext bf v s) = state_of i s
  \/ (state_of i s = MP_BUFFER_BACK_PLANNED
      /\ state_of i (_plan_aline ext bf v s) = MP_BUFFER_FULLY_PLANNED).
Proof.
  intros E. unfold _plan_aline. cbv zeta.
  rewrite state_of_upd_buf by (intros; reflexivity).
  unfold state_of, buf_at in *. proj. rewrite pool_at_list_upd.
  destruct (Nat.eqb i bf && _)%bool eqn:B; [|left; reflexivity].
  right. apply andb_true_iff in B. destruct B as [B _].
  apply Nat.eqb_eq in B. subst i. split; [exact E|reflexivity].
Qed.

Lemma mp_forward_plan_states (s : machine F) (i : nat) :
  state_of i (snd (mp_forward_plan ext s)) = state_of i s
  \/ (state_of i s = MP_BUFFER_BACK_PLANNED
      /\ state_of i (snd (mp_forward_plan ext s)) = MP_BUFFER_FULLY_PLANNED).
Proof.
  unfold mp_forward_plan.
  destruct (mp_get_run_buffer ext (mp_q s)) as [bf|];
    [|left; unfold prep_null; cbn [snd]; frames; reflexivity].
  destruct (bufferState_ltb _ _); [left; reflexivity|].
  destruct (if bufferState_eqb (buffer_state (buf_at bf s)) MP_BUFFER_RUNNING
            then (nx bf s, exit_velocity (run_block s))
            else (bf, entry_velocity (mr s))) as [bf1 v1].
  destruct (negb (blockType_eqb (block_type (buf_at bf1 s)) BLOCK_TYPE_ALINE)).
  - cbv zeta.
    pose proof (plan_commands_states (List.length (q_bf (mp_q s))) bf1 false
                  (q_bf (mp_q s)) i) as P.
    cbv zeta in P.
    destruct (plan_commands (List.length (q_bf (mp_q s))) bf1 false (q_bf (mp_q s)))
      as [[bf2 planned] pool]. cbn [snd] in P.
    change (buffer_state (pool_at i pool))
      with (state_of i (set_mp_q (set_q_bf pool (mp_q s)) s)) in P.
    change (buffer_state (pool_at i (q_bf (mp_q s)))) with (state_of i s) in P.
    revert P. generalize (set_mp_q (set_q_bf pool (mp_q s)) s). intros s2 P.
    assert (Q : forall v, 
              state_of i (snd (if (blockType_eqb (block_type (buf_at bf2 s2)) BLOCK_TYPE_ALINE
                                   && bufferState_eqb (buffer_state (buf_at bf2 s2))
                                        MP_BUFFER_BACK_PLANNED)%bool
                               then (STAT_OK, _plan_aline ext bf2 v s2)
                               else (if planned then STAT_OK else STAT_NOOP, s2)))
              = state_of i s2
              \/ (state_of i s2 = MP_BUFFER_BACK_PLANNED
                  /\ state_of i (snd (if (blockType_eqb (block_type (buf_at bf2 s2))
                                            BLOCK_TYPE_ALINE
                                          && bufferState_eqb (buffer_state (buf_at bf2 s2))
                                               MP_BUFFER_BACK_PLANNED)%bool
                                      then (STAT_OK, _plan_aline ext bf2 v s2)
                                      else (if planned then STAT_OK else STAT_NOOP, s2)))
                     = MP_BUFFER_FULLY_PLANNED)).
    { intros v. destruct (blockType_eqb _ _); [|left; reflexivity].
      destruct (bufferState_eqb _ _) eqn:E; [|left; reflexivity].
      apply bufferState_eqb_eq in E. cbn [andb snd]. apply plan_aline_states. exact E. }
    destruct (blockType_eqb (block_type (buf_at bf2 s2)) BLOCK_TYPE_ALINE
              && bufferState_ltb MP_BUFFER_BACK_PLANNED (buffer_state (buf_at bf2 s2)))%bool.
    + destruct (Q (exit_velocity (run_block s2))) as [Q1|[Q1 Q2]].
      * rewrite Q1. exact P.
      * destruct P as [P|[P1 P2]]; [right; rewrite <- P; auto|].
        exfalso. rewrite P2 in Q1. discriminate.
    + destruct (Q v1) as [Q1|[Q1 Q2]].
      * rewrite Q1. exact P.
      * destruct P as [P|[P1 P2]]; [right; rewrite <- P; auto|].
        exfalso. rewrite P2 in Q1. discriminate.
  - destruct (blockType_eqb _ _); [|left; reflexivity].
    destruct (bufferState_eqb _ _) eqn:E; [|left; reflexivity].
    apply bufferState_eqb_eq in E. cbn [andb snd]. apply plan_aline_states. exact E.
Qed.

(** [mp_forward_plan] changes the state of a buffer in one way only: from
    [MP_BUFFER_BACK_PLANNED] to [MP_BUFFER_FULLY_PLANNED].  In particular it
    leaves the running buffer, the empty buffers and the buffers that are
    not back planned as they are. *)
Theorem mp_forward_plan_only_promotes (s : machine F) (i : nat) :
  state_of i (snd (mp_forward_plan ext s)) = state_of i s
  \/ (state_of i s = MP_BUFFER_BACK_PLANNED
      /\ state_of i (snd (mp_forward_plan ext s)) = MP_BUFFER_FULLY_PLANNED).
Proof. exact (mp_forward_plan_states s i). Qed.

(** The changes of the buffer states in one invocation of the executor,
    given that [mp_free_run_buffer] and the callbacks of the other buffer
    types keep the state of a buffer or release it.  [mp_exec_aline] keeps
    the state of every buffer or releases it, except at the end of a
    feedhold (hold state [FEEDHOLD_MOTION_STOPPING]), where buffers past
    [MP_BUFFER_BACK_PLANNED] are sent back to that state; [mp_exec_move]
    besides starts the run buffer: the only other change of a state it
    makes is from [MP_BUFFER_FULLY_PLANNED] to [MP_BUFFER_RUNNING]. *)
Theorem exec_buffer_transitions (s : machine F) (i : nat) :
  (forall bf,
     kept_released_or_reverted (cm_hold_state s = FEEDHOLD_MOTION_STOPPING)
       (state_of i s) (state_of i (snd (mp_exec_aline hw ext bf s))))
  /\ buffer_transition (cm_hold_state s = FEEDHOLD_MOTION_STOPPING)
       (state_of i s) (state_of i (snd (mp_exec_move hw ext cb s))).
Proof.
  split; [intros bf; apply mp_exec_aline_states | apply mp_exec_move_states].
Qed.

Lemma planner_step_of_kept (revert : Prop) (a b : bufferState) :
  kept_released_or_reverted revert a b -> planner_step revert a b.
Proof.
  intros [K|[K|K]];
    [left; auto | right; right; right; left; exact K | right; right; right; right; exact K].
Qed.

Lemma planner_step_of_transition (revert : Prop) (a b : bufferState) :
  buffer_transition revert a b -> planner_step revert a b.
Proof.
  intros [K|[K|[K|K]]];
    [left; exact K | right; right; left; exact K | right; right; right; left; exact K
    | right; right; right; right; exact K].
Qed.

Lemma never_backwards_of_step (a b : bufferState) :
  planner_step False a b -> never_backwards a b.
Proof.
  intros [K|[[K1 K2]|[[K1 K2]|[K|[[] _]]]]]; subst; unfold never_backwards;
    first [left; cbn; lia | right; reflexivity].
Qed.

Lemma planner_step_no_revert (revert : Prop) (a b : bufferState) :
  ~ revert -> planner_step revert a b -> planner_step False a b.
Proof.
  intros N [K|[K|[K|[K|[R _]]]]];
    [left; exact K | right; left; exact K | right; right; left; exact K
    | right; right; right; left; exact K | contradiction].
Qed.

(** C3 (as the code has it).  The changes that the executor and the forward
    planner of plan_exec.cpp make to the state of a planner buffer, given
    that [mp_free_run_buffer] and the callbacks of the blocks that are not
    lines keep the state of a buffer or release it.  [mp_forward_plan] takes
    a buffer from [MP_BUFFER_BACK_PLANNED] to [MP_BUFFER_FULLY_PLANNED];
    [mp_exec_move] takes the run buffer from [MP_BUFFER_FULLY_PLANNED] to
    [MP_BUFFER_RUNNING]; a buffer is released ([MP_BUFFER_EMPTY]); and, at
    the end of a feedhold (hold state [FEEDHOLD_MOTION_STOPPING]),
    [_exec_aline_feedhold] sends the buffers past [MP_BUFFER_BACK_PLANNED]
    back to that state.  No other change is made: outside the end of a
    feedhold no state goes backwards. *)
Theorem buffer_state_steps (s : machine F) (i : nat) :
  ((forall bf,
      planner_step (cm_hold_state s = FEEDHOLD_MOTION_STOPPING)
        (state_of i s) (state_of i (snd (mp_exec_aline hw ext bf s))))
   /\ planner_step (cm_hold_state s = FEEDHOLD_MOTION_STOPPING)
        (state_of i s) (state_of i (snd (mp_exec_move hw ext cb s)))
   /\ planner_step False
        (state_of i s) (state_of i (snd (mp_forward_plan ext s))))
  /\ (cm_hold_state s <> FEEDHOLD_MOTION_STOPPING ->
      (forall bf,
         never_backwards (state_of i s) (state_of i (snd (mp_exec_aline hw ext bf s))))
      /\ never_backwards (state_of i s) (state_of i (snd (mp_exec_move hw ext cb s)))
      /\ never_backwards (state_of i s) (state_of i (snd (mp_forward_plan ext s)))).
Proof.
  assert (A : forall bf,
            planner_step (cm_hold_state s = FEEDHOLD_MOTION_STOPPING)
              (state_of i s) (state_of i (snd (mp_exec_aline hw ext bf s))))
    by (intros bf; apply planner_step_of_kept, mp_exec_aline_states).
  assert (M : planner_step (cm_hold_state s = FEEDHOLD_MOTION_STOPPING)
                (state_of i s) (state_of i (snd (mp_exec_move hw ext cb s))))
    by (apply planner_step_of_transition, mp_exec_move_states).
  assert (P : planner_step False
                (state_of i s) (state_of i (snd (mp_forward_plan ext s)))).
  { destruct (mp_forward_plan_states s i) as [K|[K1 K2]];
      [left; symmetry; exact K | right; left; split; assumption]. }
  split; [split; [exact A | split; [exact M | exact P]]|].
  intros N. split; [|split].
  - intros bf. eapply never_backwards_of_step, planner_step_no_revert; [exact N | apply A].
  - eapply never_backwards_of_step, planner_step_no_revert; [exact N | exact M].
  - apply never_backwards_of_step, P.
Qed.

Lemma revert_planned_keeps (fuel j k : nat) (pool : list (mpBuf F)) :
  bufferState_ltb MP_BUFFER_BACK_PLANNED (buffer_state (pool_at k pool)) = false ->
  pool_at k (revert_planned fuel j pool) = pool_at k pool.
Proof.
  revert j pool. induction fuel as [|fuel IH]; intros j pool E; [reflexivity|].
  cbn [revert_planned].
  destruct (bufferState_ltb MP_BUFFER_BACK_PLANNED (buffer_state (pool_at j pool)))
    eqn:EJ; [|reflexivity].
  assert (U : pool_at k (list_upd j (fun b => set_plannable true
                 (set_buffer_state MP_BUFFER_BACK_PLANNED b)) pool) = pool_at k pool).
  { rewrite pool_at_list_upd.
    destruct (Nat.eqb k j && _)%bool eqn:B; [|reflexivity].
    apply andb_true_iff in B. destruct B as [B _]. apply Nat.eqb_eq in B. subst k.
    congruence. }
  rewrite IH; [exact U|]. rewrite U. exact E.
Qed.

Lemma revert_planned_at (fuel bf : nat) (pool : list (mpBuf F)) :
  (bf < List.length pool)%nat ->
  bufferState_ltb MP_BUFFER_BACK_PLANNED (buffer_state (pool_at bf pool)) = true ->
  pool_at bf (revert_planned (S fuel) bf pool)
  = set_plannable true (set_buffer_state MP_BUFFER_BACK_PLANNED (pool_at bf pool)).
Proof.
  intros L E. cbn [revert_planned]. rewrite E.
  rewrite revert_planned_keeps.
  - rewrite pool_at_list_upd, Nat.eqb_refl.
    apply Nat.ltb_lt in L. rewrite L. reflexivity.
  - rewrite pool_at_list_upd, Nat.eqb_refl.
    apply Nat.ltb_lt in L. rewrite L. reflexivity.
Qed.

Lemma buf_at_upd_buf_same (bf : nat) (f : mpBuf F -> mpBuf F) (s : machine F) :
  (bf < List.length (q_bf (mp_q s)))%nat ->
  buf_at bf (upd_buf bf f s) = f (buf_at bf s).
Proof.
  intros L. unfold buf_at. proj. rewrite pool_at_list_upd, Nat.eqb_refl.
  apply Nat.ltb_lt in L. rewrite L. reflexivity.
Qed.

Lemma length_pool_upd_buf (bf : nat) (f : mpBuf F -> mpBuf F) (s : machine F) :
  List.length (q_bf (mp_q (upd_buf bf f s))) = List.length (q_bf (mp_q s)).
Proof. proj. apply length_list_upd. Qed.

Lemma block_state_mr_reset (m : mpPlannerRuntime F) :
  block_state (mr_reset m) = BLOCK_INACTIVE.
Proof.
  unfold mr_reset, set_mr_r, set_block_at. cbv zeta. proj.
  destruct (r_index m); reflexivity.
Qed.

(** The end of a feedhold.  When [mp_exec_aline] runs for a buffer past
    [MP_BUFFER_BACK_PLANNED] in hold state [FEEDHOLD_MOTION_STOPPING], with
    the steppers idle, a hold that is not of the skip type and a remaining
    length of at least [EPSILON4], it returns [STAT_NOOP] without preparing
    a segment, takes the buffer back to [MP_BUFFER_BACK_PLANNED], plannable
    and to be run again ([BLOCK_INITIAL_ACTION]) with the remaining length,
    resets the runtime and stops the motion, in hold state
    [FEEDHOLD_MOTION_STOPPED]. *)
Theorem feedhold_end_reverts_run_buffer (bf : nat) (s : machine F) :
  cm_in_cycle s = true ->
  blockState_eqb (bf_block_state (buf_at bf s)) BLOCK_INACTIVE = false ->
  blockState_eqb (block_state (mr s)) BLOCK_INACTIVE = false ->
  cm_hold_state s = FEEDHOLD_MOTION_STOPPING ->
  mp_runtime_is_idle ext (st_run (steppers s)) = true ->
  cm_hold_type_skip s = false ->
  f_ltb (get_axis_vector_length ext (position (mr s)) (target (mr s))) (EPSILON4 ext)
  = false ->
  (bf < List.length (q_bf (mp_q s)))%nat ->
  bufferState_ltb MP_BUFFER_BACK_PLANNED (state_of bf s) = true ->
  let r := mp_exec_aline hw ext bf s in
  fst r = STAT_NOOP
  /\ buf_at bf (snd r)
     = set_plannable true
         (set_buffer_state MP_BUFFER_BACK_PLANNED
            (set_bf_block_state BLOCK_INITIAL_ACTION
               (set_bf_length
                  (get_axis_vector_length ext (position (mr s)) (target (mr s)))
                  (buf_at bf s))))
  /\ cm_hold_state (snd r) = FEEDHOLD_MOTION_STOPPED
  /\ cm_motion_state (snd r) = MOTION_STOP
  /\ block_state (mr (snd r)) = BLOCK_INACTIVE
  /\ prep_calls (snd r) = prep_calls s.
Proof.
  intros CY BA MA HS ID SK LE LT ST r. subst r.
  unfold mp_exec_aline. rewrite CY, BA, MA, HS. cbn [negb cmFeedholdState_eqb
    cmFeedholdState_rank Nat.eqb Nat.leb].
  unfold _exec_aline_feedhold. rewrite HS, ID, SK. cbv zeta.
  cbn [cmFeedholdState_eqb cmFeedholdState_rank Nat.eqb].
  rewrite buf_at_upd_buf_same by exact LT. proj. rewrite LE.
  change (stat_eqb STAT_NOOP STAT_OK || stat_eqb STAT_NOOP STAT_NOOP)%bool with true.
  cbn [fst snd].
  assert (P : pool_at bf
                (list_upd bf (set_bf_block_state BLOCK_INITIAL_ACTION)
                   (list_upd bf
                      (set_bf_length
                         (get_axis_vector_length ext (position (mr s)) (target (mr s))))
                      (q_bf (mp_q s))))
              = set_bf_block_state BLOCK_INITIAL_ACTION
                  (set_bf_length
                     (get_axis_vector_length ext (position (mr s)) (target (mr s)))
                     (buf_at bf s))).
  { rewrite !pool_at_list_upd, !length_list_upd, Nat.eqb_refl.
    apply Nat.ltb_lt in LT. rewrite LT. reflexivity. }
  split; [reflexivity|]. split; [|repeat split; try reflexivity].
  2: { unfold sr_request_status_report, cm_set_motion_state. proj.
       apply block_state_mr_reset. }
  unfold buf_at, sr_request_status_report, cm_set_motion_state. proj.
  rewrite revert_planned_at.
  - rewrite P. reflexivity.
  - rewrite !length_list_upd. exact LT.
  - rewrite P. exact ST.
Qed.

End Exec.

Lemma example_callback_prepares {F : Type} `{FloatOps F} (id bf : nat) (s : machine F) :
  prepares_at_most_one s (snd (example_callback id bf s)).
Proof. exists [PrepCommand]. split; [reflexivity|cbn; lia]. Qed.

Lemma example_callback_releases {F : Type} `{FloatOps F} (id bf : nat) (s : machine F)
      (i : nat) :
  kept_or_released (state_of i s) (state_of i (snd (example_callback id bf s))).
Proof. left. reflexivity. Qed.

Lemma example_free_releases {F : Type} `{FloatOps F} (q : mpPlannerQueue F) (i : nat) :
  kept_or_released (buffer_state (pool_at i (q_bf q)))
    (buffer_state (pool_at i (q_bf (snd (mp_free_run_buffer example_ext q))))).
Proof.
  cbn [mp_free_run_buffer example_ext]. unfold example_free_run_buffer. cbv zeta.
  cbn [snd]. proj. rewrite pool_at_list_upd.
  destruct (_ && _)%bool; [right|left]; reflexivity.
Qed.

(** The theorem on a start of the example move: [mp_exec_move] takes the
    fully planned run buffer and prepares its first segment. *)
Lemma exec_prepares_at_most_one_witness :
  let s := example_machine FEEDHOLD_OFF
             (example_runtime BLOCK_INACTIVE SECTION_HEAD SECTION_OFF)
             MP_BUFFER_FULLY_PLANNED MP_BUFFER_BACK_PLANNED in
  prepares_at_most_one s
    (snd (mp_exec_move (@example_hw b32 _) example_ext example_callback s)).
Proof.
  intros s.
  exact (proj2 (exec_prepares_at_most_one example_hw example_ext example_callback s
                  example_callback_prepares)).
Defined.

(** The theorem on the same start, for the run buffer: it goes from
    [MP_BUFFER_FULLY_PLANNED] to [MP_BUFFER_RUNNING]. *)
Lemma exec_buffer_transitions_witness :
  let s := example_machine FEEDHOLD_OFF
             (example_runtime BLOCK_INACTIVE SECTION_HEAD SECTION_OFF)
             MP_BUFFER_FULLY_PLANNED MP_BUFFER_BACK_PLANNED in
  state_of 0 s = MP_BUFFER_FULLY_PLANNED
  /\ state_of 0 (snd (mp_exec_move (@example_hw b32 _) example_ext example_callback s))
     = MP_BUFFER_RUNNING
  /\ buffer_transition (cm_hold_state s = FEEDHOLD_MOTION_STOPPING)
       (state_of 0 s)
       (state_of 0 (snd (mp_exec_move (@example_hw b32 _) example_ext example_callback s))).
Proof.
  intros s.
  split; [reflexivity|]. split; [vm_compute; reflexivity|].
  exact (proj2 (exec_buffer_transitions example_hw example_ext example_callback
                  example_free_releases example_callback_releases s 0%nat)).
Defined.

(** The theorem on a block without a head: the head runner chains into the
    body runner, and one line is prepared. *)
Lemma exec_path_prepares_at_most_one_witness :
  let s := example_machine FEEDHOLD_OFF
             (set_block0 headless_block
                (example_runtime BLOCK_ACTIVE SECTION_HEAD SECTION_NEW))
             MP_BUFFER_RUNNING MP_BUFFER_BACK_PLANNED in
  let s' := snd (_exec_aline_head (@example_hw b32 _) example_ext 0 s) in
  section (mr s') = SECTION_BODY
  /\ prep_calls s' = [PrepLine]
  /\ prepares_at_most_one s s'.
Proof.
  intros s s'.
  split; [vm_compute; reflexivity|]. split; [vm_compute; reflexivity|].
  exact (proj1 (exec_path_prepares_at_most_one example_hw example_ext example_callback s
                  example_callback_prepares) 0%nat).
Defined.

(** The theorem on the start of the example move, with no feedhold: the
    run buffer goes forward, from [MP_BUFFER_FULLY_PLANNED] to
    [MP_BUFFER_RUNNING]. *)
Lemma buffer_state_steps_witness :
  let s := example_machine FEEDHOLD_OFF
             (example_runtime BLOCK_INACTIVE SECTION_HEAD SECTION_OFF)
             MP_BUFFER_FULLY_PLANNED MP_BUFFER_BACK_PLANNED in
  state_of 0 s = MP_BUFFER_FULLY_PLANNED
  /\ state_of 0 (snd (mp_exec_move (@example_hw b32 _) example_ext example_callback s))
     = MP_BUFFER_RUNNING
  /\ never_backwards (state_of 0 s)
       (state_of 0 (snd (mp_exec_move (@example_hw b32 _) example_ext example_callback s))).
Proof.
  intros s.
  split; [reflexivity|]. split; [vm_compute; reflexivity|].
  destruct (buffer_state_steps example_hw example_ext example_callback
              example_free_releases example_callback_releases s 0%nat) as [_ T].
  destruct (T ltac:(discriminate)) as (_ & T2 & _). exact T2.
Defined.

(** C3 (as stated) fails: at the end of a feedhold [mp_exec_aline] takes
    the run buffer of the example move back from [MP_BUFFER_RUNNING] to
    [MP_BUFFER_BACK_PLANNED]. *)
Lemma buffer_state_goes_back_at_feedhold_end :
  ~ (forall (s : machine b32) (bf i : nat),
       never_backwards (state_of i s)
         (state_of i (snd (mp_exec_aline example_hw example_ext bf s)))).
Proof.
  intros C.
  specialize (C (example_machine FEEDHOLD_MOTION_STOPPING
                   (example_runtime BLOCK_ACTIVE SECTION_TAIL SECTION_RUNNING)
                   MP_BUFFER_RUNNING MP_BUFFER_FULLY_PLANNED) 0%nat 0%nat).
  vm_compute in C. destruct C as [C|C]; [lia | discriminate C].
Qed.

(** The theorem on the example move held while running: the run buffer
    returns to [MP_BUFFER_BACK_PLANNED]. *)
Lemma feedhold_end_reverts_run_buffer_witness :
  let s := example_machine FEEDHOLD_MOTION_STOPPING
             (example_runtime BLOCK_ACTIVE SECTION_TAIL SECTION_RUNNING)
             MP_BUFFER_RUNNING MP_BUFFER_FULLY_PLANNED in
  let r := mp_exec_aline (@example_hw b32 _) example_ext 0 s in
  fst r = STAT_NOOP
  /\ buffer_state (buf_at 0 (snd r)) = MP_BUFFER_BACK_PLANNED
  /\ cm_hold_state (snd r) = FEEDHOLD_MOTION_STOPPED.
Proof.
  intros s r.
  pose proof (feedhold_end_reverts_run_buffer example_hw example_ext 0%nat s
                eq_refl eq_refl eq_refl eq_refl eq_refl eq_refl) as T.
  destruct T as (T1 & T2 & T3 & _);
    [vm_compute; reflexivity | cbn; lia | reflexivity|].
  fold r in T1, T2, T3. rewrite T2. repeat split; assumption.
Defined.

End PlannerFacts.
(* ================================================================= *)
(** ** The end of a section *)

Module WaypointFacts.
Import Arith MachInt MachIntFacts Stepper Planner PlannerFacts Curve.

Lemma stat_eqb_true (a b : stat_t) : stat_eqb a b = true -> a = b.
Proof. unfold stat_eqb. destruct (stat_eq_dec a b); [auto|discriminate]. Qed.

Lemma stat_eqb_false (a b : stat_t) : stat_eqb a b = false -> a <> b.
Proof. unfold stat_eqb. destruct (stat_eq_dec a b); [discriminate|auto]. Qed.

Section WithFloat.
Context {F : Type} `{FloatOps F}.
Variable hw : Settings F.
Variable ext : Externals F.

(** Extra: for any float arithmetic, with no feedhold in progress, a call
    of [_exec_aline_segment] that returns [STAT_OK] (the last segment of a
    section) has set the target and, after the segment is prepared, the
    position of the runtime to the waypoint of the section as computed at
    the start of the block, not to the sum of the segment lengths; it has
    made one call of [st_prep_line]. *)
Theorem last_segment_lands_on_waypoint (s : machine F) :
  cm_hold_state s = FEEDHOLD_OFF ->
  fst (_exec_aline_segment hw ext s) = STAT_OK ->
  let s' := snd (_exec_aline_segment hw ext s) in
  segment_count (mr s') = 0%Z
  /\ gm_target (mr s') = waypoint (mr s) (section (mr s))
  /\ position (mr s') = waypoint (mr s) (section (mr s))
  /\ prep_calls s' = prep_calls s ++ [PrepLine].
Proof.
  intros OFF. unfold _exec_aline_segment. cbv zeta.
  cbn [cm_hold_state upd_mr set_mr]. rewrite OFF.
  cbn [cmFeedholdState_eqb cmFeedholdState_rank Nat.eqb].
  repeat match goal with
  | |- context [let '(_, _) := ?x in _] => destruct x
  | |- context [if ?c then _ else _] => destruct c eqn:?
  end; cbn [fst snd]; intros E; try discriminate;
  try (exfalso;
       match goal with
       | A : negb (stat_eqb ?a STAT_OK) = true |- _ =>
           apply negb_true_iff in A; apply stat_eqb_false in A; congruence
       end);
  repeat match goal with H : f_ltb _ _ = _ |- _ => clear H end;
  repeat match goal with
  | H : context [segment_count _] |- _ => progress (proj_in H)
  end;
  proj;
  repeat match goal with
  | H : _ && true = _ |- _ => rewrite andb_true_r in H
  end;
  try congruence;
  (split; [apply Z.eqb_eq; assumption|]);
  (split; [reflexivity|]); (split; reflexivity).
Qed.
End WithFloat.

(** The theorem on the last segment of the head of the example move: the
    position becomes the waypoint at 1 mm. *)
Lemma last_segment_lands_on_waypoint_witness :
  position (mr (snd (_exec_aline_segment example_hw example_ext last_segment_machine)))
  = [inject_Z 1].
Proof.
  assert (E : fst (_exec_aline_segment example_hw example_ext last_segment_machine)
              = STAT_OK) by (vm_compute; reflexivity).
  destruct (@last_segment_lands_on_waypoint Q _ example_hw example_ext
              last_segment_machine eq_refl E) as (_ & _ & P & _).
  rewrite P. reflexivity.
Defined.

End WaypointFacts.
(* ================================================================= *)
(** ** The DDA interrupt: pulses and accumulators *)


(* ================================================================= *)
(** ** The DDA interrupt *)

Module DdaFacts.
Import Arith MachInt MachIntFacts Stepper Dda.
Open Scope Z_scope.

Lemma steps_of_app (m : nat) (a b : list ddaEvent) :
  steps_of m (a ++ b) = steps_of m a + steps_of m b.
Proof.
  induction a as [|e a IH]; [reflexivity|].
  destruct e; cbn [app steps_of]; rewrite IH; lia.
Qed.

Lemma steps_of_step_ends (m : nat) (l : list nat) : steps_of m (map StepEnd l) = 0.
Proof. induction l; cbn; auto. Qed.

(** One DDA step of one motor. *)
Lemma dda_motor_spec (X : Z) (m : nat) (rm : stRunMotor) :
  X < 2 ^ 31 -> accumulator_in_range X rm ->
  let rm' := fst (dda_motor X m rm) in
  let ev := snd (dda_motor X m rm) in
  accumulator_in_range X rm'
  /\ run_substep_increment rm' = run_substep_increment rm
  /\ run_substep_accumulator rm'
     = run_substep_accumulator rm + run_substep_increment rm - X * steps_of m ev
  /\ (forall j, j <> m -> steps_of j ev = 0)
  /\ 0 <= steps_of m ev <= 1.
Proof.
  intros B [[A1 A2] [I1 I2]]. cbv zeta. unfold dda_motor. cbv zeta.
  rewrite (to_int32_small (run_substep_accumulator rm + run_substep_increment rm))
    by lia.
  destruct (Z.ltb_spec 0 (run_substep_accumulator rm + run_substep_increment rm)) as [P|P];
    cbn [fst snd run_substep_increment run_substep_accumulator steps_of].
  - rewrite to_int32_small by lia. rewrite Nat.eqb_refl.
    unfold accumulator_in_range. cbn [run_substep_increment run_substep_accumulator].
    repeat split; try lia.
    intros j J. destruct (Nat.eqb_spec m j); [congruence|reflexivity].
  - unfold accumulator_in_range. cbn [run_substep_increment run_substep_accumulator].
    repeat split; try lia.
Qed.

(** One pass of the DDAs over the motors, numbered from [j0]. *)
Lemma dda_motors_spec (X : Z) (rms : list stRunMotor) (j0 : nat) :
  X < 2 ^ 31 -> Forall (accumulator_in_range X) rms ->
  let rms' := fst (dda_motors X j0 rms) in
  let evs := snd (dda_motors X j0 rms) in
  Forall (accumulator_in_range X) rms'
  /\ (forall j, (j < j0)%nat -> steps_of j evs = 0)
  /\ (forall i rm, nth_error rms i = Some rm ->
        exists rm', nth_error rms' i = Some rm'
          /\ run_substep_increment rm' = run_substep_increment rm
          /\ run_substep_accumulator rm'
             = run_substep_accumulator rm + run_substep_increment rm
               - X * steps_of (j0 + i) evs
          /\ 0 <= steps_of (j0 + i) evs <= 1).
Proof.
  intros B. revert j0. induction rms as [|rm rms IH]; intros j0 A; cbv zeta.
  - cbn. split; [constructor|]. split; [auto|]. intros [|i] rm; discriminate.
  - inversion A as [|? ? A1 A2]; subst.
    cbn [dda_motors].
    pose proof (dda_motor_spec X j0 rm B A1) as M. cbv zeta in M.
    destruct (dda_motor X j0 rm) as [rm1 ev]. cbn [fst snd] in M.
    destruct M as (M1 & M2 & M3 & M4 & M5).
    specialize (IH (S j0) A2). cbv zeta in IH.
    destruct (dda_motors X (S j0) rms) as [rms1 evs]. cbn [fst snd] in IH |- *.
    destruct IH as (H1 & H2 & H3).
    split; [constructor; assumption|]. split.
    + intros j J. rewrite steps_of_app, M4, H2 by lia. reflexivity.
    + intros [|i] r E; cbn [nth_error] in E |- *.
      * injection E as <-. exists rm1. rewrite steps_of_app, Nat.add_0_r.
        rewrite (H2 j0) by lia. repeat split; first [reflexivity | assumption | lia].
      * destruct (H3 i r E) as (r' & R1 & R2 & R3 & R4).
        exists r'. rewrite steps_of_app, M4 by lia.
        replace (j0 + S i)%nat with (S j0 + i)%nat by lia.
        repeat split; first [assumption | lia].
Qed.

Lemma dda_tick_spec (X : Z) (run : stRunSingleton) :
  X < 2 ^ 31 -> run_dda_ticks_X_substeps run = X ->
  Forall (accumulator_in_range X) (run_mot run) ->
  0 < run_dda_ticks_downcount run < 2 ^ 32 ->
  let run' := fst (fst (dda_tick run)) in
  let evs := snd (fst (dda_tick run)) in
  run_dda_ticks_X_substeps run' = X
  /\ run_dda_ticks_downcount run' = run_dda_ticks_downcount run - 1
  /\ snd (dda_tick run) = (run_dda_ticks_downcount run =? 1)
  /\ Forall (accumulator_in_range X) (run_mot run')
  /\ (forall i rm, nth_error (run_mot run) i = Some rm ->
        exists rm', nth_error (run_mot run') i = Some rm'
          /\ run_substep_increment rm' = run_substep_increment rm
          /\ run_substep_accumulator rm'
             = run_substep_accumulator rm + run_substep_increment rm
               - X * steps_of i evs
          /\ 0 <= steps_of i evs <= 1).
Proof.
  intros B EX A D. cbv zeta. unfold dda_tick.
  destruct (Z.eqb_spec (run_dda_ticks_downcount run) 0) as [E|_]; [lia|].
  rewrite EX.
  pose proof (dda_motors_spec X (run_mot run) 0 B A) as M. cbv zeta in M.
  destruct (dda_motors X 0 (run_mot run)) as [rms evs]. cbn [fst snd] in M |- *.
  destruct M as (M1 & _ & M3).
  assert (U : to_uint32 (run_dda_ticks_downcount run - 1)
              = run_dda_ticks_downcount run - 1).
  { unfold to_uint32. apply Z.mod_small. lia. }
  rewrite U. split; [reflexivity|]. split; [reflexivity|]. split.
  { destruct (Z.eqb_spec (run_dda_ticks_downcount run - 1) 0),
             (Z.eqb_spec (run_dda_ticks_downcount run) 1); auto; lia. }
  split; [exact M1|].
  intros i rm E. destruct (M3 i rm E) as (rm' & R1 & R2 & R3 & R4).
  exists rm'. rewrite steps_of_app, steps_of_step_ends. cbn [Nat.add] in *.
  repeat split; first [assumption | lia].
Qed.

(** Over [k] DDA interrupts of a segment (no more than the down count
    left), every accumulator stays in [[-X, 0]], the down count falls by
    [k], and the pulses of each motor account exactly for the substeps
    added. *)
Lemma dda_ticks_spec (k : nat) (X : Z) (run : stRunSingleton) :
  X < 2 ^ 31 -> run_dda_ticks_X_substeps run = X ->
  Forall (accumulator_in_range X) (run_mot run) ->
  Z.of_nat k <= run_dda_ticks_downcount run < 2 ^ 32 ->
  let run' := fst (dda_ticks k run) in
  let evs := snd (dda_ticks k run) in
  run_dda_ticks_downcount run' = run_dda_ticks_downcount run - Z.of_nat k
  /\ Forall (accumulator_in_range X) (run_mot run')
  /\ (forall i rm, nth_error (run_mot run) i = Some rm ->
        exists rm', nth_error (run_mot run') i = Some rm'
          /\ run_substep_increment rm' = run_substep_increment rm
          /\ run_substep_accumulator rm'
             = run_substep_accumulator rm
               + Z.of_nat k * run_substep_increment rm
               - X * steps_of i evs
          /\ 0 <= steps_of i evs <= Z.of_nat k).
Proof.
  intros B. revert run.
  induction k as [|k IH]; intros run EX A D; cbv zeta.
  - cbn [dda_ticks fst snd steps_of]. split; [lia|]. split; [exact A|].
    intros i rm E. exists rm. repeat split; first [assumption | lia].
  - cbn [dda_ticks].
    assert (D1 : 0 < run_dda_ticks_downcount run < 2 ^ 32) by lia.
    pose proof (dda_tick_spec X run B EX A D1) as T. cbv zeta in T.
    destruct (dda_tick run) as [[run1 ev1] e1]. cbn [fst snd] in T.
    destruct T as (T1 & T2 & _ & T4 & T5).
    assert (D2 : Z.of_nat k <= run_dda_ticks_downcount run1 < 2 ^ 32) by lia.
    specialize (IH run1 T1 T4 D2). cbv zeta in IH.
    destruct (dda_ticks k run1) as [run2 ev2]. cbn [fst snd] in IH |- *.
    destruct IH as (I1 & I2 & I3).
    split; [lia|]. split; [exact I2|].
    intros i rm E.
    destruct (T5 i rm E) as (rm1 & R1 & R2 & R3 & R4).
    destruct (I3 i rm1 R1) as (rm2 & S1 & S2 & S3 & S4).
    exists rm2. rewrite steps_of_app.
    split; [exact S1|]. split; [congruence|]. split; [|lia].
    rewrite S3, R3, R2. lia.
Qed.

(** Extra: over [k] DDA interrupts of a segment (no more than the down
    count left), every accumulator stays in [[-X, 0]], the down count
    falls by [k], and the pulses of each motor account exactly for the
    substeps added: [acc' = acc + k * increment - X * pulses].  So the
    substeps paid out in pulses, [X * pulses], differ from the substeps
    added, [k * increment], by at most [X], the substeps of one step. *)
Theorem dda_conserves_substeps (k : nat) (X : Z) (run : stRunSingleton) :
  X < 2 ^ 31 -> run_dda_ticks_X_substeps run = X ->
  Forall (accumulator_in_range X) (run_mot run) ->
  Z.of_nat k <= run_dda_ticks_downcount run < 2 ^ 32 ->
  let run' := fst (dda_ticks k run) in
  let evs := snd (dda_ticks k run) in
  run_dda_ticks_downcount run' = run_dda_ticks_downcount run - Z.of_nat k
  /\ Forall (accumulator_in_range X) (run_mot run')
  /\ (forall i rm, nth_error (run_mot run) i = Some rm ->
        exists rm', nth_error (run_mot run') i = Some rm'
          /\ run_substep_increment rm' = run_substep_increment rm
          /\ run_substep_accumulator rm'
             = run_substep_accumulator rm
               + Z.of_nat k * run_substep_increment rm
               - X * steps_of i evs
          /\ 0 <= steps_of i evs <= Z.of_nat k
          /\ - X <= Z.of_nat k * run_substep_increment rm - X * steps_of i evs <= X).
Proof.
  intros B EX A D.
  pose proof (dda_ticks_spec k X run B EX A D) as T. cbv zeta in T |- *.
  destruct T as (T1 & T2 & T3).
  split; [exact T1|]. split; [exact T2|].
  intros i rm E. destruct (T3 i rm E) as (rm' & R1 & R2 & R3 & R4).
  exists rm'. split; [exact R1|]. split; [exact R2|]. split; [exact R3|].
  split; [exact R4|].
  pose proof (proj1 (Forall_forall _ _) A rm (nth_error_In _ _ E)) as Ra.
  pose proof (proj1 (Forall_forall _ _) T2 rm' (nth_error_In _ _ R1)) as Rb.
  unfold accumulator_in_range in Ra, Rb. lia.
Qed.

(** The theorem on [dda_example_run], over its five ticks: motor 0, whose
    accumulator starts at -10, gets one pulse for the 20 substeps added and
    ends with the accumulator at 0 (the bound [X] is met), motor 1 gets
    five. *)
Lemma dda_conserves_substeps_witness :
  run_dda_ticks_downcount (fst (dda_ticks 5 dda_example_run)) = 0
  /\ Forall (accumulator_in_range 10) (run_mot (fst (dda_ticks 5 dda_example_run)))
  /\ exists rm', nth_error (run_mot (fst (dda_ticks 5 dda_example_run))) 0 = Some rm'
       /\ run_substep_accumulator rm'
          = -10 + 5 * 4 - 10 * steps_of 0 (snd (dda_ticks 5 dda_example_run))
       /\ -10 <= 5 * 4 - 10 * steps_of 0 (snd (dda_ticks 5 dda_example_run)) <= 10.
Proof.
  assert (A : Forall (accumulator_in_range 10) (run_mot dda_example_run)).
  { repeat constructor; cbn; lia. }
  assert (D : Z.of_nat 5 <= run_dda_ticks_downcount dda_example_run < 2 ^ 32).
  { cbn; lia. }
  pose proof (dda_conserves_substeps 5 10 dda_example_run eq_refl eq_refl A D) as T.
  cbv zeta in T. destruct T as (T1 & T2 & T3).
  split; [exact T1|]. split; [exact T2|].
  destruct (T3 0%nat _ eq_refl) as (rm' & R1 & _ & R3 & _ & R5).
  exists rm'. split; [exact R1|]. split; [exact R3 | exact R5].
Defined.

End DdaFacts.

(* ================================================================= *)
(** ** The interrupts of the stepper: loader, reset and prep slot *)

Module IsrFacts.
Import Arith Arith.B32 MachInt MachIntFacts Stepper Dda DdaFacts StepperFacts.
Open Scope Z_scope.

Section WithFloat.
Context {F : Type} `{FloatOps F}.
Variable hw : Settings F.

Lemma dda_tick_flag (run : stRunSingleton) :
  0 < run_dda_ticks_downcount run < 2 ^ 32 ->
  snd (dda_tick run) = (run_dda_ticks_downcount run =? 1)
  /\ run_dda_ticks_downcount (fst (fst (dda_tick run))) = run_dda_ticks_downcount run - 1.
Proof.
  intros D. unfold dda_tick.
  destruct (Z.eqb_spec (run_dda_ticks_downcount run) 0) as [E|_]; [lia|].
  destruct (dda_motors _ 0 (run_mot run)) as [rms evs]. cbn [fst snd run_dda_ticks_downcount].
  rewrite to_uint32_small by lia. split; [|reflexivity].
  destruct (Z.eqb_spec (run_dda_ticks_downcount run - 1) 0),
           (Z.eqb_spec (run_dda_ticks_downcount run) 1); auto; lia.
Qed.

Lemma with_run_with_run (st : stepper F) (r1 r2 : stRunSingleton) :
  with_run (with_run st r1) r2 = with_run st r2.
Proof. reflexivity. Qed.

Lemma dda_interrupts_before_end (k : nat) : forall (st : stepper F),
  Z.of_nat k < run_dda_ticks_downcount (st_run st) < 2 ^ 32 ->
  dda_interrupts k st
  = (with_run st (fst (dda_ticks k (st_run st))), snd (dda_ticks k (st_run st))).
Proof.
  induction k as [|k IH]; intros st D.
  - cbn. destruct st; reflexivity.
  - cbn [dda_interrupts dda_ticks]. unfold dda_timer_interrupt.
    assert (D1 : 0 < run_dda_ticks_downcount (st_run st) < 2 ^ 32) by lia.
    destruct (dda_tick_flag (st_run st) D1) as [T1 T2].
    destruct (dda_tick (st_run st)) as [[run1 ev1] e1]. cbn [fst snd] in T1, T2.
    destruct (Z.eqb_spec (run_dda_ticks_downcount (st_run st)) 1) as [E|_]; [lia|].
    subst e1.
    change {| st_pre := st_pre st; st_run := run1;
              dwell_event_registered := dwell_event_registered st;
              hw_log := hw_log st |} with (with_run st run1).
    rewrite IH by (cbn; lia). cbn [with_run st_run].
    destruct (dda_ticks k run1) as [run2 ev2]. reflexivity.
Qed.

Lemma dda_ticks_downcount (k : nat) : forall (run : stRunSingleton),
  Z.of_nat k <= run_dda_ticks_downcount run < 2 ^ 32 ->
  run_dda_ticks_downcount (fst (dda_ticks k run))
  = run_dda_ticks_downcount run - Z.of_nat k.
Proof.
  induction k as [|k IH]; intros run D.
  - cbn [dda_ticks fst]. lia.
  - cbn [dda_ticks].
    assert (D1 : 0 < run_dda_ticks_downcount run < 2 ^ 32) by lia.
    destruct (dda_tick_flag run D1) as [_ T2].
    destruct (dda_tick run) as [[run1 ev1] e1]. cbn [fst snd] in T2.
    specialize (IH run1 ltac:(lia)).
    destruct (dda_ticks k run1) as [run2 ev2]. cbn [fst] in IH |- *. lia.
Qed.

Lemma dda_interrupts_at_end (k : nat) : forall (st : stepper F),
  run_dda_ticks_downcount (st_run st) = Z.of_nat (S k) ->
  Z.of_nat (S k) < 2 ^ 32 ->
  dda_interrupts (S k) st
  = (_load_move (with_run st (fst (dda_ticks (S k) (st_run st)))),
     snd (dda_ticks (S k) (st_run st))).
Proof.
  induction k as [|k IH]; intros st E B.
  - cbn [dda_interrupts dda_ticks]. unfold dda_timer_interrupt.
    assert (D1 : 0 < run_dda_ticks_downcount (st_run st) < 2 ^ 32) by lia.
    destruct (dda_tick_flag (st_run st) D1) as [T1 _].
    destruct (dda_tick (st_run st)) as [[run1 ev1] e1]. cbn [fst snd] in T1 |- *.
    rewrite E in T1. cbn in T1. subst e1. reflexivity.
  - remember (S k) as m eqn:M.
    cbn [dda_interrupts dda_ticks]. unfold dda_timer_interrupt.
    assert (D1 : 0 < run_dda_ticks_downcount (st_run st) < 2 ^ 32) by lia.
    destruct (dda_tick_flag (st_run st) D1) as [T1 T2].
    destruct (dda_tick (st_run st)) as [[run1 ev1] e1]. cbn [fst snd] in T1, T2.
    destruct (Z.eqb_spec (run_dda_ticks_downcount (st_run st)) 1) as [E1|_]; [lia|].
    subst e1.
    change {| st_pre := st_pre st; st_run := run1;
              dwell_event_registered := dwell_event_registered st;
              hw_log := hw_log st |} with (with_run st run1).
    rewrite IH by (cbn [with_run st_run]; lia). cbn [with_run st_run st_pre dwell_event_registered hw_log].
    destruct (dda_ticks m run1) as [run2 ev2]. reflexivity.
Qed.

(** Extra: a segment of [n] ticks takes [n] DDA interrupts.  The first
    [n - 1] leave the prep slot and the effects of the loader untouched and
    the runtime busy; the [n]-th runs the loader, in the same interrupt, on
    the run slot the DDAs have left, with the down count at zero. *)
Theorem dda_loader_runs_at_segment_end (n : nat) (st : stepper F) :
  0 < run_dda_ticks_downcount (st_run st) < 2 ^ 32 ->
  Z.of_nat n = run_dda_ticks_downcount (st_run st) ->
  (forall k, (k < n)%nat ->
     st_pre (fst (dda_interrupts k st)) = st_pre st
     /\ hw_log (fst (dda_interrupts k st)) = hw_log st
     /\ 0 < run_dda_ticks_downcount (st_run (fst (dda_interrupts k st))))
  /\ dda_interrupts n st
     = (_load_move (with_run st (fst (dda_ticks n (st_run st)))),
        snd (dda_ticks n (st_run st)))
  /\ run_dda_ticks_downcount (fst (dda_ticks n (st_run st))) = 0.
Proof.
  intros D N. split; [|split].
  - intros k K.
    rewrite dda_interrupts_before_end by lia. cbn [fst with_run st_pre hw_log st_run].
    split; [reflexivity|]. split; [reflexivity|].
    rewrite dda_ticks_downcount by lia. lia.
  - destruct n as [|n]; [cbn in N; lia|].
    apply dda_interrupts_at_end; lia.
  - rewrite dda_ticks_downcount by lia. lia.
Qed.


(** Extra: [stepper_reset] zeroes the dwell down count but leaves the
    dwell event registered.  When it is called during a dwell, the next
    SysTick decrements the count from 0 to [2^32 - 1]: after [k + 1]
    SysTicks the count is [2^32 - 1 - k], the runtime is busy, and a
    requested load does nothing. *)
Theorem stepper_reset_during_dwell (initial_direction : Z) (st : stepper F) (k : nat) :
  dwell_event_registered st = true ->
  Z.of_nat k < 2 ^ 32 - 1 ->
  let st' := Nat.iter (S k) (@systick F _) (fst (stepper_reset initial_direction st)) in
  run_dwell_ticks_downcount (st_run st') = 2 ^ 32 - 1 - Z.of_nat k
  /\ st_runtime_isbusy (st_run st') = true
  /\ st_request_load_move st' = st'
  /\ pre_buffer_state (st_pre st') = PREP_BUFFER_OWNED_BY_EXEC.
Proof.
  intros R K st'.
  set (s0 := fst (stepper_reset initial_direction st)).
  set (s1 := systick s0).
  assert (A : dwell_event_registered s1 = true
              /\ run_dwell_ticks_downcount (st_run s1) = 2 ^ 32 - 1
              /\ pre_buffer_state (st_pre s1) = PREP_BUFFER_OWNED_BY_EXEC).
  { unfold s1, s0, systick, stepper_reset. cbn [fst dwell_event_registered].
    rewrite R. unfold dwell_systick_event, dwell_tick. cbn. auto. }
  destruct A as (A1 & A2 & A3).
  assert (E : st' = Nat.iter k (@systick F _) s1).
  { unfold st', s1. fold s0. rewrite Nat.iter_succ_r. reflexivity. }
  destruct (systick_iter_counting s1 (2 ^ 32 - 1) k A1 A2) as (B1 & B2 & B3 & B4);
    [lia | lia |].
  rewrite <- E in *.
  assert (Bz : st_runtime_isbusy (st_run st') = true).
  { unfold st_runtime_isbusy. rewrite B4.
    destruct (Z.eqb_spec (2 ^ 32 - 1 - Z.of_nat k) 0) as [Z0|_]; [lia|].
    cbn. apply orb_true_r. }
  split; [exact B4|]. split; [exact Bz|]. split.
  - unfold st_request_load_move. rewrite Bz. reflexivity.
  - rewrite B2. exact A3.
Qed.

(** Extra: when [st_prep_line] returns [STAT_OK] the prep slot is owned by
    the loader, holds an ALINE block and the tick count of the segment
    time; until the loader takes it, every further [st_prep_line] returns
    [STAT_INTERNAL_ERROR] and changes neither the slot nor the travel. *)
Theorem prepared_segment_not_overwritten
        (polarity : list Z) (pre pre1 : stPrepSingleton F)
        (travel following travel1 : list F) (segment_time : F) :
  st_prep_line hw polarity pre travel following segment_time = (STAT_OK, pre1, travel1) ->
  pre_buffer_state pre1 = PREP_BUFFER_OWNED_BY_LOADER
  /\ pre_block_type pre1 = BLOCK_TYPE_ALINE
  /\ pre_dda_ticks pre1 = segment_dda_ticks hw segment_time
  /\ forall travel' following' segment_time',
       st_prep_line hw polarity pre1 travel' following' segment_time'
       = (STAT_INTERNAL_ERROR, pre1, travel').
Proof.
  unfold st_prep_line at 1.
  destruct (negb (prepBufferState_eqb (pre_buffer_state pre) PREP_BUFFER_OWNED_BY_EXEC));
    [discriminate|].
  destruct (f_isinf segment_time); [discriminate|].
  destruct (f_isnan segment_time); [discriminate|].
  destruct (prep_motors _ _ _ _ _ _) as [mots t'].
  intros E. injection E as <- <-.
  cbn [pre_buffer_state pre_block_type pre_dda_ticks].
  split; [reflexivity|]. split; [reflexivity|]. split; [reflexivity|].
  intros. unfold st_prep_line. reflexivity.
Qed.

Lemma load_motors_increments (X : Z) (pms : list (stPrepMotor F)) :
  forall (rms : list stRunMotor) (motor : nat),
  List.length pms = List.length rms ->
  map run_substep_increment (snd (fst (load_motors X motor pms rms)))
  = map (@pre_substep_increment F) pms
  /\ map (@pre_substep_increment F) (fst (fst (load_motors X motor pms rms)))
     = map (@pre_substep_increment F) pms.
Proof.
  induction pms as [|pm pms IH]; intros [|rm rms] motor L; try discriminate.
  - cbn. auto.
  - cbn [load_motors]. injection L as L.
    specialize (IH rms (S motor) L).
    destruct (load_motors X (S motor) pms rms) as [[pms1 rms1] ev1].
    cbn [fst snd] in IH. destruct IH as [I1 I2].
    unfold load_motor.
    destruct (negb (pre_substep_increment pm =? 0)); cbn; rewrite I1, I2; auto.
Qed.

(** Extra: with the runtime idle and a line prepared, [_load_move] makes
    the down count, the accumulator depth and every motor's substep
    increment of the run slot those of the prep slot, hands the prep slot
    back to exec, and ends with the start of the DDA timer and the request
    of the next exec. *)
Theorem loader_runs_what_was_prepared (st : stepper F) :
  st_runtime_isbusy (st_run st) = false ->
  pre_buffer_state (st_pre st) = PREP_BUFFER_OWNED_BY_LOADER ->
  pre_block_type (st_pre st) = BLOCK_TYPE_ALINE ->
  List.length (pre_mot (st_pre st)) = List.length (run_mot (st_run st)) ->
  let st' := _load_move st in
  run_dda_ticks_downcount (st_run st') = pre_dda_ticks (st_pre st)
  /\ run_dda_ticks_X_substeps (st_run st') = pre_dda_ticks_X_substeps (st_pre st)
  /\ map run_substep_increment (run_mot (st_run st'))
     = map (@pre_substep_increment F) (pre_mot (st_pre st))
  /\ pre_buffer_state (st_pre st') = PREP_BUFFER_OWNED_BY_EXEC
  /\ exists evs, hw_log st' = hw_log st ++ evs ++ [DdaTimerStart; RequestExecMove].
Proof.
  intros I O B L. cbv zeta. unfold _load_move. rewrite I, O, B. cbn [prepBufferState_eqb negb].
  pose proof (load_motors_increments (pre_dda_ticks_X_substeps (st_pre st))
                (pre_mot (st_pre st)) (run_mot (st_run st)) 0 L) as [M _].
  destruct (load_motors _ 0 _ _) as [[pms rms] evs]. cbn [fst snd] in M. cbn.
  repeat split; auto. exists evs. reflexivity.
Qed.

End WithFloat.

(** The theorem on the five ticks of [dda_example_stepper]. *)
Lemma dda_loader_runs_at_segment_end_witness :
  fst (dda_interrupts 5 dda_example_stepper)
  = _load_move (with_run dda_example_stepper (fst (dda_ticks 5 dda_example_run))).
Proof.
  assert (D : 0 < run_dda_ticks_downcount (st_run dda_example_stepper) < 2 ^ 32).
  { cbn; lia. }
  destruct (@dda_loader_runs_at_segment_end b32 _ 5 dda_example_stepper D eq_refl)
    as (_ & E & _).
  rewrite E. reflexivity.
Defined.

(** The theorem on a reset during a dwell of 500 ticks: one SysTick later
    the runtime is busy with a count of [2^32 - 1]. *)
Lemma stepper_reset_during_dwell_witness :
  run_dwell_ticks_downcount
    (st_run (systick (fst (stepper_reset 0 dwelling_stepper)))) = 4294967295
  /\ st_runtime_isbusy
       (st_run (systick (fst (stepper_reset 0 dwelling_stepper)))) = true.
Proof.
  assert (K : Z.of_nat 0 < 2 ^ 32 - 1) by (cbn; lia).
  destruct (@stepper_reset_during_dwell b32 _ 0 dwelling_stepper 0 eq_refl K)
    as (A & B & _).
  split; [exact A | exact B].
Defined.

(** The theorem on [prepared_line]: a second line is refused. *)
Lemma prepared_segment_not_overwritten_witness :
  st_prep_line example_settings [0] (snd (fst prepared_line))
               [of_Z 5] [of_Z 0] (lit (1 # 12000))
  = (STAT_INTERNAL_ERROR, snd (fst prepared_line), [of_Z 5]).
Proof.
  assert (E : st_prep_line example_settings [0] reset_prep [of_Z 10] [of_Z 0]
                           (lit (1 # 12000))
              = (STAT_OK, snd (fst prepared_line), snd prepared_line)).
  { vm_compute. reflexivity. }
  destruct (@prepared_segment_not_overwritten b32 _ example_settings [0] reset_prep
              (snd (fst prepared_line)) [of_Z 10] [of_Z 0] (snd prepared_line)
              (lit (1 # 12000)) E) as (_ & _ & _ & T).
  apply T.
Defined.

(** The theorem on [ready_segment]: 1000 ticks are loaded. *)
Lemma loader_runs_what_was_prepared_witness :
  run_dda_ticks_downcount (st_run (_load_move (ready_segment 0 false))) = 1000.
Proof.
  destruct (@loader_runs_what_was_prepared b32 _ (ready_segment 0 false)
              eq_refl eq_refl eq_refl eq_refl) as (A & _).
  exact A.
Defined.

End IsrFacts.
(* ================================================================= *)
(** ** Motate utilities *)

Module MotateFacts.
Import Arith MachInt MachIntFacts Util UtilFacts Motate.
Open Scope Z_scope.

Lemma is_NUL_spec (c : ascii) : reflect (c = NUL) (is_NUL c).
Proof. unfold is_NUL. apply Ascii.eqb_spec. Qed.

Lemma chars_cons (c : ascii) (p : text) :
  chars (c :: p) = if is_NUL c then [] else c :: chars p.
Proof. reflexivity. Qed.

Lemma cons_eq_inv (a b : ascii) (l l' : list ascii) :
  a :: l = b :: l' -> a = b /\ l = l'.
Proof. intros X. split; [exact (f_equal (hd NUL) X) | exact (f_equal (@tl _) X)]. Qed.

Lemma streq_spec (n : nat) : forall (p q : text),
  (streq_ p q n = 1 <-> firstn n (chars p ++ [NUL]) = firstn n (chars q ++ [NUL]))
  /\ (streq_ p q n = 0 \/ streq_ p q n = 1).
Proof.
  induction n as [|n IH]; intros p q.
  - cbn. split; [split; reflexivity | right; reflexivity].
  - cbn [streq_].
    destruct p as [|c p], q as [|d q]; cbn [deref hd tl chars].
    + cbn. split; [split; reflexivity | right; reflexivity].
    + destruct (is_NUL_spec d) as [->|N].
      * cbn. split; [split; reflexivity | right; reflexivity].
      * destruct (Ascii.eqb_spec NUL d) as [E|E]; [congruence|]. cbn [negb].
        split; [|left; reflexivity].
        split; [discriminate|]. cbn. intros X. apply cons_eq_inv in X. destruct X; congruence.
    + destruct (is_NUL_spec c) as [->|N].
      * cbn. split; [split; reflexivity | right; reflexivity].
      * destruct (Ascii.eqb_spec c NUL) as [E|E]; [congruence|]. cbn [negb].
        split; [|left; reflexivity].
        split; [discriminate|]. cbn. intros X. apply cons_eq_inv in X. destruct X; congruence.
    + destruct (Ascii.eqb_spec c d) as [<-|E]; cbn [negb].
      * destruct (is_NUL_spec c) as [->|N].
        { cbn. split; [split; reflexivity | right; reflexivity]. }
        cbn [orb]. destruct (IH p q) as [I1 I2].
        split; [|exact I2]. rewrite I1. cbn [app firstn].
        split; [intros X; f_equal; exact X | intros X; apply cons_eq_inv in X; tauto].
      * split; [|left; reflexivity].
        split; [discriminate|].
        destruct (is_NUL_spec c) as [->|N], (is_NUL_spec d) as [->|M];
          cbn; intros X; apply cons_eq_inv in X; destruct X; congruence.
Qed.

(** Extra: [streq(p, q, n)] is 1 when [n] is 0 or a pointer is null;
    otherwise it is 1 if the two strings, terminating NUL included, agree
    on their first [n] characters, and 0 if not. *)
Theorem streq_compares_prefixes (p q : option text) (n : nat) :
  match p, q with
  | Some p, Some q =>
      (streq (Some p) (Some q) n = 1
       <-> firstn n (chars p ++ [NUL]) = firstn n (chars q ++ [NUL]))
      /\ (streq (Some p) (Some q) n = 0
          <-> firstn n (chars p ++ [NUL]) <> firstn n (chars q ++ [NUL]))
  | _, _ => streq p q n = 1
  end.
Proof.
  destruct p as [p|], q as [q|]; try reflexivity.
  destruct (streq_spec n p q) as [A B]. cbn [streq]. split; [exact A|].
  split.
  - intros Z0 X. apply A in X. congruence.
  - intros X. destruct B as [B|B]; [exact B|]. apply A in B. contradiction.
Qed.


(* ----------------------------------------------------------------- *)
(** *** Character buffers *)

Lemma length_poke (buf : list ascii) : forall (i : nat) (c : ascii),
  List.length (poke buf i c) = List.length buf.
Proof.
  induction buf as [|x buf IH]; intros [|i] c; cbn; auto.
Qed.

Lemma poke_split (buf : list ascii) : forall (i : nat) (c : ascii),
  (i < List.length buf)%nat ->
  poke buf i c = firstn i buf ++ c :: skipn (S i) buf.
Proof.
  induction buf as [|x buf IH]; intros [|i] c L; cbn in *; try lia; auto.
  rewrite IH by lia. reflexivity.
Qed.

Lemma firstn_poke_below (buf : list ascii) (i : nat) (c : ascii) :
  (i < List.length buf)%nat ->
  firstn (S i) (poke buf i c) = firstn i buf ++ [c].
Proof.
  intros L. rewrite poke_split by exact L.
  rewrite firstn_app, firstn_firstn, Nat.min_r by lia.
  rewrite firstn_length_le by lia.
  replace (S i - i)%nat with 1%nat by lia. reflexivity.
Qed.

Lemma skipn_poke_above (buf : list ascii) (i j : nat) (c : ascii) :
  (i < j)%nat -> skipn j (poke buf i c) = skipn j buf.
Proof.
  revert i j. induction buf as [|x buf IH]; intros [|i] [|j] L; cbn; try lia; auto.
  apply IH. lia.
Qed.

Lemma length_chars_le (f : text) : (List.length (chars f) <= List.length f)%nat.
Proof.
  induction f as [|c f IH]; cbn; [lia|]. destruct (is_NUL c); cbn; lia.
Qed.

Lemma c_strcpy_spec (f : text) : forall (buf : list ascii) (t : nat) (m cnt : Z),
  (m <= 0 \/ Z.of_nat t + m <= Z.of_nat (List.length buf)) ->
  - 2 ^ 31 + Z.of_nat (List.length (chars f)) <= m < 2 ^ 31 ->
  0 <= cnt -> cnt + Z.of_nat (List.length (chars f)) < 2 ^ 31 ->
  c_strcpy buf t f m cnt
  = (cnt + Z.of_nat (List.length (chars f)),
     if m <=? 0 then buf
     else firstn t buf ++ firstn (Z.to_nat (m - 1)) (chars f) ++ [NUL]
          ++ skipn (t + S (Nat.min (List.length (chars f)) (Z.to_nat (m - 1)))) buf).
Proof.
  assert (STOP : forall (buf : list ascii) (t : nat) (m : Z) (c : ascii),
    (m <= 0 \/ Z.of_nat t + m <= Z.of_nat (List.length buf)) ->
    c = NUL ->
    (if m <=? 0 then buf else if m =? 1 then poke buf t NUL else poke buf t c)
    = (if m <=? 0 then buf
       else firstn t buf ++ firstn (Z.to_nat (m - 1)) [] ++ [NUL]
            ++ skipn (t + S (Nat.min 0 (Z.to_nat (m - 1)))) buf)).
  { intros buf t m c R ->. destruct (Z.leb_spec m 0) as [M|M]; [reflexivity|].
    rewrite firstn_nil. cbn [app Nat.min]. rewrite Nat.add_1_r.
    destruct (m =? 1); apply poke_split; lia. }
  induction f as [|c f IH]; intros buf t m cnt R M C N.
  - cbn [c_strcpy chars List.length deref hd]. rewrite Z.add_0_r. f_equal.
    apply STOP; auto.
  - cbn [c_strcpy]. rewrite chars_cons in *. cbn [deref hd].
    destruct (is_NUL_spec c) as [E|E].
    + cbn [List.length]. rewrite Z.add_0_r. f_equal. apply STOP; auto.
    + cbn [List.length] in *. rewrite Nat2Z.inj_succ in *.
      rewrite !to_int32_small by lia.
      destruct (Z.leb_spec m 0) as [M0|M0].
      * rewrite IH by lia.
        destruct (Z.leb_spec (m - 1) 0) as [_|X]; [|lia]. f_equal. lia.
      * destruct R as [R|R]; [lia|].
        destruct (Z.eqb_spec m 1) as [M1|M1].
        { subst m. rewrite IH by (rewrite ?length_poke; lia).
          cbn [Z.sub Z.leb Z.compare Z.to_nat firstn app Z.add Z.opp Z.pos_sub].
          rewrite Nat.min_0_r, Nat.add_1_r. f_equal; [lia|].
          apply poke_split. lia. }
        rewrite IH by (rewrite ?length_poke; lia).
        destruct (Z.leb_spec (m - 1) 0) as [X|_]; [lia|]. f_equal; [lia|].
        replace (Z.to_nat (m - 1)) with (S (Z.to_nat (m - 1 - 1))) by lia.
        rewrite firstn_cons, firstn_poke_below by lia.
        rewrite skipn_poke_above by lia.
        rewrite <- app_assoc. cbn [app].
        match goal with
        | |- _ ++ _ :: _ ++ _ :: skipn ?a _ = _ ++ _ :: _ ++ _ :: skipn ?b _ =>
            replace b with a by lia
        end.
        reflexivity.
Qed.

(** Extra: for pointers that are not null, [c_strcpy] (and [strncpy])
    returns the length of the source string whatever [max_len_] is, as
    [strlcpy] does, and not the number of characters copied.  With
    [max_len_ <= 0] it writes nothing; otherwise, the destination having
    room for [max_len_] characters, it writes the first [max_len_ - 1]
    characters of the source followed by a NUL, and nothing after that.
    ([max_len_] is taken far enough from [INT_MIN] for the count-down not
    to overflow.) *)
Theorem c_strcpy_is_strlcpy (buf : list ascii) (t : nat) (f : text) (max_len_ : Z) :
  - 2 ^ 31 + Z.of_nat (List.length f) <= max_len_ < 2 ^ 31 ->
  Z.of_nat (List.length f) < 2 ^ 31 ->
  (max_len_ <= 0 \/ Z.of_nat t + max_len_ <= Z.of_nat (List.length buf)) ->
  fst (strncpy buf t f max_len_) = Z.of_nat (List.length (chars f))
  /\ snd (strncpy buf t f max_len_)
     = if max_len_ <=? 0 then buf
       else firstn t buf ++ firstn (Z.to_nat (max_len_ - 1)) (chars f) ++ [NUL]
            ++ skipn (t + S (Nat.min (List.length (chars f)) (Z.to_nat (max_len_ - 1))))
                     buf.
Proof.
  intros M L R. unfold strncpy.
  pose proof (length_chars_le f) as LC.
  rewrite c_strcpy_spec by lia. cbn [fst snd]. split; [lia | reflexivity].
Qed.


Lemma peek_app (a : list ascii) (x : ascii) (r : list ascii) :
  peek (a ++ x :: r) (List.length a) = x.
Proof. unfold peek. rewrite app_nth2, Nat.sub_diag by lia. reflexivity. Qed.

Lemma poke_app (a : list ascii) (x c : ascii) (r : list ascii) :
  poke (a ++ x :: r) (List.length a) c = a ++ c :: r.
Proof. induction a as [|y a IH]; cbn; [reflexivity|]. rewrite IH. reflexivity. Qed.

Lemma c_strreverse_spec (fuel : nat) : forall (a l b : list ascii),
  (List.length l / 2 <= fuel)%nat ->
  c_strreverse_ fuel (a ++ l ++ b) (List.length a) (Z.of_nat (List.length l))
  = a ++ rev l ++ b.
Proof.
  induction fuel as [|fuel IH]; intros a l b F.
  - destruct l as [|x [|y l]]; [reflexivity | reflexivity |].
    cbn [List.length] in F.
    assert (1 <= S (S (List.length l)) / 2)%nat.
    { apply Nat.div_le_lower_bound; lia. }
    lia.
  - cbn [c_strreverse_].
    destruct (Z.gtb_spec (Z.of_nat (List.length l)) 1) as [G|G].
    + destruct l as [|x l]; [cbn in G; lia|].
      destruct (exists_last (l := l)) as (m & y & ->).
      { intros ->. cbn in G. lia. }
      cbn [List.length] in *. rewrite length_app in *. cbn [List.length] in *.
      replace (List.length a + Z.to_nat (Z.of_nat (S (List.length m + 1)) - 1))%nat
        with (List.length (a ++ x :: m)) by (rewrite length_app; cbn [List.length]; lia).
      cbn [app]. rewrite peek_app.
      replace (a ++ x :: (m ++ [y]) ++ b) with ((a ++ x :: m) ++ y :: b)
        by (rewrite <- !app_assoc; reflexivity).
      rewrite peek_app.
      replace ((a ++ x :: m) ++ y :: b) with (a ++ x :: (m ++ y :: b))
        by (rewrite <- !app_assoc; reflexivity).
      rewrite poke_app.
      replace (a ++ y :: m ++ y :: b) with ((a ++ y :: m) ++ y :: b)
        by (rewrite <- !app_assoc; reflexivity).
      replace (List.length (a ++ x :: m)) with (List.length (a ++ y :: m))
        by (rewrite !length_app; reflexivity).
      rewrite poke_app.
      replace ((a ++ y :: m) ++ x :: b) with ((a ++ [y]) ++ m ++ (x :: b))
        by (rewrite <- !app_assoc; reflexivity).
      replace (S (List.length a)) with (List.length (a ++ [y]))
        by (rewrite length_app; cbn [List.length]; lia).
      replace (Z.of_nat (S (List.length m + 1)) - 2) with (Z.of_nat (List.length m))
        by lia.
      rewrite IH.
      * cbn [rev]. rewrite rev_app_distr. cbn [rev app].
        rewrite <- !app_assoc. reflexivity.
      * assert (E : (S (List.length m + 1) = List.length m + 1 * 2)%nat) by lia.
        rewrite E, Nat.div_add in F by lia. lia.
    + destruct l as [|x [|y l]]; [reflexivity | reflexivity | cbn in G; lia].
Qed.


(** The theorem on a copy of [hello] with [max_len_] 4 into the third
    character of [example_buffer]: the result is 5, three characters and a
    NUL are written. *)
Lemma c_strcpy_is_strlcpy_witness :
  strncpy example_buffer 2 (text_of "hello") 4
  = (5, text_of "XXhel" ++ [NUL] ++ text_of "XX").
Proof.
  destruct (c_strcpy_is_strlcpy example_buffer 2 (text_of "hello") 4
              ltac:(cbn; lia) ltac:(cbn; lia) ltac:(right; cbn; lia)) as [A B].
  rewrite (surjective_pairing (strncpy example_buffer 2 (text_of "hello") 4)).
  rewrite A, B. reflexivity.
Defined.

(* ----------------------------------------------------------------- *)
(** *** Integers to text *)

Lemma digit_char_nonzero (d : Z) : 1 <= d <= 9 -> digit_char d <> "0"%char.
Proof.
  intros D E. pose proof (proj2 (digit_char_spec d ltac:(lia))) as V.
  rewrite E in V. cbn in V. lia.
Qed.

Lemma hd_app_nonempty (a b : text) (d : ascii) : a <> [] -> hd d (a ++ b) = hd d a.
Proof. destruct a; [congruence | reflexivity]. Qed.

Lemma backwards_spec (fuel : nat) : forall (n count : Z),
  0 <= n < 2 ^ Z.of_nat fuel -> (count = 0 -> (0 < fuel)%nat) -> 0 <= count ->
  exists ds : text,
    all_digits ds = true
    /\ (forall v, int_val v (rev ds) = v * 10 ^ Z.of_nat (List.length ds) + n)
    /\ (0 < n -> hd "0"%char (rev ds) <> "0"%char)
    /\ (n = 0 -> ds = if count =? 0 then ["0"%char] else [])
    /\ (forall (a w b : list ascii) (maxlen : Z),
          List.length w = List.length ds ->
          Z.of_nat (List.length ds) < maxlen ->
          c_itoa_backwards_ fuel (a ++ w ++ b) (List.length a) n maxlen count
          = (count + Z.of_nat (List.length ds), a ++ ds ++ b))
    /\ (forall (buf : list ascii) (p : nat) (maxlen : Z),
          maxlen <= Z.of_nat (List.length ds) ->
          fst (c_itoa_backwards_ fuel buf p n maxlen count) = 0)
    /\ (List.length ds <= fuel)%nat
    /\ (0 < n \/ count <> 0 ->
        forall (fuel' : nat) (length_ : Z),
          (List.length ds < fuel')%nat ->
          c_itoa_len_ fuel' n length_ = length_ + Z.of_nat (List.length ds) + 1).
Proof.
  assert (LEN0 : forall fuel' length_, c_itoa_len_ fuel' 0 length_ = length_ + 1).
  { intros [|f] l; reflexivity. }
  assert (STOP : forall fuel n count, n = 0 -> count <> 0 ->
    forall (a w b : list ascii) (maxlen : Z),
      (List.length w = 0%nat -> 0 < maxlen ->
       c_itoa_backwards_ fuel (a ++ w ++ b) (List.length a) n maxlen count
       = (count + 0, a ++ b))
      /\ (forall (buf : list ascii) (p : nat),
            maxlen <= 0 -> fst (c_itoa_backwards_ fuel buf p n maxlen count) = 0)).
  { intros fuel0 n count -> C a w b maxlen. split.
    - intros W M. destruct w; [|discriminate]. cbn [app].
      destruct fuel0; cbn [c_itoa_backwards_];
        destruct (Z.ltb_spec maxlen 1); try lia;
        destruct (Z.eqb_spec count 0); try lia; cbn [Z.gtb Z.compare orb];
        rewrite Z.add_0_r; reflexivity.
    - intros buf p M.
      destruct fuel0; cbn [c_itoa_backwards_];
        destruct (Z.ltb_spec maxlen 1); try lia; reflexivity. }
  induction fuel as [|fuel IH]; intros n count N F C.
  - assert (n = 0) by (cbn in N; lia). subst n.
    assert (C0 : count <> 0) by (intros E; specialize (F E); lia).
    exists []. destruct (Z.eqb_spec count 0) as [E|_]; [congruence|].
    split; [reflexivity|]. split; [intros v; cbn; lia|]. split; [lia|].
    split; [reflexivity|]. split; [|split; [|split; [cbn; lia|]]].
    + intros a w b maxlen W M. apply (STOP 0%nat 0 count eq_refl C0 a w b maxlen); auto.
    + intros buf p maxlen M. apply (STOP 0%nat 0 count eq_refl C0 [] [] []); auto.
    + intros _ fuel' l _. rewrite LEN0. cbn. lia.
  - destruct (Z.eq_dec n 0) as [N0|N0]; [destruct (Z.eq_dec count 0) as [C0|C0]|].
    + (* zero, first digit *)
      subst n count. exists ["0"%char].
      split; [reflexivity|]. split; [intros v; cbn; lia|]. split; [lia|].
      split; [reflexivity|].
      destruct (STOP fuel 0 1 eq_refl ltac:(lia) [] [] [] 0) as [_ S0].
      split; [|split; [|split; [cbn; lia | intros [X|X]; lia]]].
      * intros a w b maxlen W M. cbn [List.length] in *.
        destruct w as [|x [|y w]]; try discriminate.
        cbn [c_itoa_backwards_ app].
        destruct (Z.ltb_spec maxlen 1); [lia|]. cbn [Z.gtb Z.compare Z.eqb orb].
        rewrite poke_app.
        change (Z.quot 0 10) with 0. change (digit_char (Z.rem 0 10)) with "0"%char.
        replace (a ++ "0"%char :: b) with ((a ++ ["0"%char]) ++ [] ++ b)
          by (rewrite <- app_assoc; reflexivity).
        replace (S (List.length a)) with (List.length (a ++ ["0"%char]))
          by (rewrite length_app; cbn [List.length]; lia).
        destruct (STOP fuel 0 (0 + 1) eq_refl ltac:(lia) (a ++ ["0"%char]) [] b
                       (maxlen - 1)) as [S1 _].
        rewrite S1 by (cbn; lia). f_equal.
      * intros buf p maxlen M. cbn [List.length] in M.
        cbn [c_itoa_backwards_].
        destruct (Z.ltb_spec maxlen 1); [reflexivity|]. cbn [Z.gtb Z.compare Z.eqb orb].
        destruct (STOP fuel 0 (0 + 1) eq_refl ltac:(lia) [] [] [] (maxlen - 1)) as [_ S1].
        apply S1. change (Z.quot 0 10) with 0. lia.
    + (* zero, digits written *)
      subst n. exists []. destruct (Z.eqb_spec count 0) as [E|_]; [congruence|].
      split; [reflexivity|]. split; [intros v; cbn; lia|]. split; [lia|].
      split; [reflexivity|]. split; [|split; [|split; [cbn; lia|]]].
      * intros a w b maxlen W M.
        apply (STOP (S fuel) 0 count eq_refl C0 a w b maxlen); auto.
      * intros buf p maxlen M. apply (STOP (S fuel) 0 count eq_refl C0 [] [] []); auto.
      * intros _ fuel' l _. rewrite LEN0. cbn. lia.
    + (* a digit and the rest *)
      assert (NP : 0 < n) by lia.
      rewrite Nat2Z.inj_succ, Z.pow_succ_r in N by lia.
      pose proof (Z.div_mod n 10 ltac:(lia)) as DM.
      pose proof (Z.mod_pos_bound n 10 ltac:(lia)) as MB.
      assert (Q0 : 0 <= n / 10) by (apply Z.div_pos; lia).
      assert (Q1 : n / 10 < 2 ^ Z.of_nat fuel) by (apply Z.div_lt_upper_bound; lia).
      destruct (IH (n / 10) (count + 1) ltac:(lia) ltac:(lia) ltac:(lia))
        as (ds & A & V & H & E & S1 & S0 & LB & LN).
      destruct (digit_char_spec (n mod 10) ltac:(lia)) as [Dc Dv].
      exists (digit_char (n mod 10) :: ds).
      split; [cbn [all_digits]; rewrite Dc, A; reflexivity|].
      split.
      { intros v. cbn [rev List.length]. rewrite int_val_app, V. cbn [int_val].
        rewrite Dv, Nat2Z.inj_succ, Z.pow_succ_r by lia. lia. }
      split.
      { intros _. cbn [rev]. destruct (Z.eq_dec (n / 10) 0) as [Z0|Z0].
        - rewrite (E Z0). destruct (Z.eqb_spec (count + 1) 0); [lia|].
          cbn [rev app hd]. apply digit_char_nonzero. lia.
        - rewrite hd_app_nonempty.
          + apply H. lia.
          + intros R. apply (f_equal (@List.length _)) in R.
            rewrite length_rev in R. cbn in R.
            destruct ds; [|discriminate].
            specialize (V 0). cbn in V. lia. }
      split; [lia|].
      assert (RQ : Z.rem n 10 = n mod 10) by (apply Z.rem_mod_nonneg; lia).
      assert (QQ : Z.quot n 10 = n / 10) by (apply Z.quot_div_nonneg; lia).
      split; [|split; [|split; [cbn [List.length]; lia|]]].
      * intros a w b maxlen W M. cbn [List.length] in *.
        destruct w as [|x w]; [discriminate|]. injection W as W.
        cbn [c_itoa_backwards_ app].
        destruct (Z.ltb_spec maxlen 1); [lia|].
        destruct (Z.gtb_spec n 0); [|lia]. cbn [orb].
        rewrite poke_app, RQ, QQ.
        replace (a ++ digit_char (n mod 10) :: w ++ b)
          with ((a ++ [digit_char (n mod 10)]) ++ w ++ b)
          by (rewrite <- app_assoc; reflexivity).
        replace (S (List.length a)) with (List.length (a ++ [digit_char (n mod 10)]))
          by (rewrite length_app; cbn [List.length]; lia).
        rewrite S1 by lia. rewrite <- app_assoc. cbn [app]. f_equal. lia.
      * intros buf p maxlen M. cbn [List.length] in M.
        cbn [c_itoa_backwards_].
        destruct (Z.ltb_spec maxlen 1); [reflexivity|].
        destruct (Z.gtb_spec n 0); [|lia]. cbn [orb].
        rewrite QQ. apply S0. lia.
      * intros _ [|fuel'] l FL; cbn [List.length] in FL; [lia|].
        cbn [c_itoa_len_].
        destruct (Z.ltb_spec n 0); [lia|]. destruct (Z.gtb_spec n 0); [|lia].
        rewrite QQ, LN by lia. cbn [List.length]. lia.
Qed.


Lemma buffer_split (buf : list ascii) (p k : nat) :
  (p + k <= List.length buf)%nat ->
  buf = firstn p buf ++ firstn k (skipn p buf) ++ skipn (p + k) buf
  /\ List.length (firstn p buf) = p
  /\ List.length (firstn k (skipn p buf)) = k.
Proof.
  intros L. split; [|split].
  - rewrite Nat.add_comm, <- skipn_skipn, !firstn_skipn. reflexivity.
  - apply firstn_length_le. lia.
  - apply firstn_length_le. rewrite length_skipn. lia.
Qed.

Lemma c_strreverse_app (a l b : list ascii) :
  c_strreverse (a ++ l ++ b) (List.length a) (Z.of_nat (List.length l))
  = (Z.of_nat (List.length l), a ++ rev l ++ b).
Proof.
  unfold c_strreverse. f_equal. apply c_strreverse_spec.
  change 2 with (Z.of_nat 2). rewrite <- Nat2Z.inj_div, Nat2Z.id. lia.
Qed.

Lemma itoa_fuel_bound (n : Z) : 0 <= n -> n < 2 ^ Z.of_nat (itoa_fuel n).
Proof.
  intros N. unfold itoa_fuel. rewrite Z.abs_eq by lia.
  destruct (Z.eq_dec n 0) as [->|NZ]; [cbn; lia|].
  pose proof (Z.log2_spec n ltac:(lia)) as [_ U].
  pose proof (Z.log2_nonneg n) as LN.
  rewrite !Nat2Z.inj_succ, Z2Nat.id by lia.
  rewrite Z.pow_succ_r by lia.
  unfold Z.succ in *. lia.
Qed.

Lemma c_itoa_len_S (fuel : nat) (value length_ : Z) :
  c_itoa_len_ (S fuel) value length_
  = if value <? 0 then c_itoa_len_ fuel (to_int32 (- value)) (length_ + 1)
    else if value >? 0 then c_itoa_len_ fuel (Z.quot value 10) (length_ + 1)
    else length_ + 1.
Proof. reflexivity. Qed.

Lemma c_itoa_spec (value : Z) :
  - 2 ^ 31 < value < 2 ^ 31 ->
  exists ds : text,
    all_digits ds = true
    /\ ds <> []
    /\ int_val 0 ds = Z.abs value
    /\ (value <> 0 -> hd "0"%char ds <> "0"%char)
    /\ (value = 0 -> ds = ["0"%char])
    /\ let l := if value <? 0 then "-"%char :: ds else ds in
       c_itoa_len value = (if value =? 0 then 1 else Z.of_nat (List.length l) + 1)
       /\ forall (buf : list ascii) (p : nat) (maxlen : Z),
            (Z.of_nat (List.length l) < maxlen ->
             (p + List.length l <= List.length buf)%nat ->
             c_itoa buf p value maxlen
             = (Z.of_nat (List.length l),
                firstn p buf ++ l ++ skipn (p + List.length l) buf))
            /\ (maxlen <= Z.of_nat (List.length l) ->
                fst (c_itoa buf p value maxlen) = if value <? 0 then 1 else 0).
Proof.
  intros R.
  assert (FB : Z.abs value < 2 ^ Z.of_nat (itoa_fuel value)).
  { pose proof (itoa_fuel_bound (Z.abs value) ltac:(lia)) as B.
    unfold itoa_fuel in *. rewrite Z.abs_idemp in B. exact B. }
  destruct (backwards_spec (itoa_fuel value) (Z.abs value) 0 ltac:(lia)
              ltac:(intros _; unfold itoa_fuel; lia) ltac:(lia))
    as (dl & A & V & H & E & S1 & S0 & LB & LN).
  assert (NE : dl <> []).
  { destruct (Z.eq_dec (Z.abs value) 0) as [Z0|Z0].
    - rewrite (E Z0). discriminate.
    - intros ->. specialize (V 0). cbn in V. lia. }
  exists (rev dl).
  split; [rewrite all_digits_rev; exact A|].
  split; [intros X; apply NE; apply (f_equal (@rev _)) in X;
          rewrite rev_involutive in X; exact X|].
  split; [rewrite V; lia|].
  split; [intros NZ; apply H; lia|].
  split; [intros ->; rewrite (E eq_refl); reflexivity|].
  cbv zeta.
  assert (LR : List.length (rev dl) = List.length dl) by apply length_rev.
  destruct (Z.ltb_spec value 0) as [NEG|POS].
  - (* negative *)
    assert (V' : to_int32 (- value) = Z.abs value) by (rewrite to_int32_small; lia).
    assert (F' : itoa_fuel (Z.abs value) = itoa_fuel value).
    { unfold itoa_fuel. rewrite Z.abs_idemp. reflexivity. }
    destruct (Z.eqb_spec value 0) as [X|_]; [lia|].
    split.
    + unfold c_itoa_len. rewrite c_itoa_len_S.
      destruct (Z.ltb_spec value 0); [|lia].
      rewrite V', LN by lia. cbn [List.length]. rewrite LR. lia.
    + intros buf p maxlen. cbn [List.length]. rewrite LR. split.
      * intros M RM.
        destruct (buffer_split buf p (S (List.length dl)) RM) as (B & BA & BW).
        unfold c_itoa. cbv zeta. destruct (Z.ltb_spec value 0); [|lia].
        rewrite V', F'.
        destruct (firstn (S (List.length dl)) (skipn p buf)) as [|x w] eqn:EW;
          [discriminate|]. cbn [List.length] in BW. injection BW as BW.
        revert B BA.
        generalize (firstn p buf) (skipn (p + S (List.length dl)) buf).
        intros a b B BA. subst buf p. cbn [app]. rewrite poke_app.
        replace (a ++ "-"%char :: w ++ b) with ((a ++ ["-"%char]) ++ w ++ b)
          by (rewrite <- app_assoc; reflexivity).
        replace (S (List.length a)) with (List.length (a ++ ["-"%char]))
          by (rewrite length_app; cbn [List.length]; lia).
        rewrite S1 by lia. cbn [Z.add].
        rewrite c_strreverse_app. rewrite <- app_assoc. cbn [app].
        f_equal. lia.
      * intros M. unfold c_itoa. cbv zeta. destruct (Z.ltb_spec value 0); [|lia].
        rewrite V', F'.
        pose proof (S0 (poke buf p "-"%char) (S p) (maxlen - 1) ltac:(lia)) as Z0.
        destruct (c_itoa_backwards_ _ _ _ _ _ _) as [n b1]. cbn [fst] in Z0. subst n.
        reflexivity.
  - (* not negative *)
    rewrite Z.abs_eq in * by lia.
    split.
    + unfold c_itoa_len. destruct (Z.eqb_spec value 0) as [->|NZ]; [reflexivity|].
      rewrite LN by lia. rewrite LR. lia.
    + intros buf p maxlen. rewrite LR. split.
      * intros M RM.
        destruct (buffer_split buf p (List.length dl) RM) as (B & BA & BW).
        unfold c_itoa. destruct (Z.ltb_spec value 0); [lia|].
        revert B BA BW.
        generalize (firstn p buf) (firstn (List.length dl) (skipn p buf))
                   (skipn (p + List.length dl) buf).
        intros a w b B BA BW. subst buf p.
        rewrite S1 by (auto; lia). cbn [Z.add].
        rewrite c_strreverse_app. reflexivity.
      * intros M. unfold c_itoa. destruct (Z.ltb_spec value 0); [lia|].
        pose proof (S0 buf p maxlen M) as Z0.
        destruct (c_itoa_backwards_ _ _ _ _ _ _) as [n b1]. cbn [fst] in Z0. subst n.
        reflexivity.
Qed.

(** Extra: [c_itoa] writes the decimal representation of [value]
    ([INT_MIN] apart): a minus sign for a negative value, then the digits
    of its magnitude, most significant first and without a leading zero.
    When [maxlen] exceeds the number of characters it writes them at [p],
    changes nothing else and returns their number; no NUL is added.
    When [maxlen] does not exceed it, the result is 0 for a value that is
    not negative and 1 for a negative one.  [c_itoa_len(value)] is one more
    than the number of characters for a value other than 0, that is the
    least [maxlen] that works, and 1 for 0. *)
Theorem c_itoa_writes_decimal (value : Z) :
  - 2 ^ 31 < value < 2 ^ 31 ->
  exists ds : text,
    all_digits ds = true
    /\ ds <> []
    /\ int_val 0 ds = Z.abs value
    /\ (value <> 0 -> hd "0"%char ds <> "0"%char)
    /\ (value = 0 -> ds = ["0"%char])
    /\ let l := if value <? 0 then "-"%char :: ds else ds in
       c_itoa_len value = (if value =? 0 then 1 else Z.of_nat (List.length l) + 1)
       /\ forall (buf : list ascii) (p : nat) (maxlen : Z),
            (Z.of_nat (List.length l) < maxlen ->
             (p + List.length l <= List.length buf)%nat ->
             c_itoa buf p value maxlen
             = (Z.of_nat (List.length l),
                firstn p buf ++ l ++ skipn (p + List.length l) buf))
            /\ (maxlen <= Z.of_nat (List.length l) ->
                fst (c_itoa buf p value maxlen) = if value <? 0 then 1 else 0).
Proof. exact (c_itoa_spec value). Qed.

(** The theorem on -42: three characters, and [c_itoa_len] gives 4. *)
Lemma c_itoa_writes_decimal_witness :
  exists ds : text,
    int_val 0 ds = 42
    /\ c_itoa_len (-42) = Z.of_nat (List.length ("-"%char :: ds)) + 1.
Proof.
  destruct (c_itoa_writes_decimal (-42) ltac:(lia)) as (ds & _ & _ & V & _ & _ & L & _).
  exists ds. split; [exact V | exact L].
Defined.

Lemma hd_skipn (buf : list ascii) : forall (k : nat), hd NUL (skipn k buf) = peek buf k.
Proof.
  unfold peek. induction buf as [|x buf IH]; intros [|k]; cbn; auto.
Qed.

Lemma c_atof_int_stop {F : Type} `{FloatOps F} (rest : text) (v : Z) :
  is_digit (hd NUL rest) = false -> Ascii.eqb (hd NUL rest) "." = false ->
  c_atof_int_ (F := F) rest v = (f_of_Z v, rest).
Proof.
  destruct rest as [|c rest]; [reflexivity|]. cbn [hd c_atof_int_].
  intros D P. rewrite D, P. reflexivity.
Qed.

(** Extra: [c_atof] reads back what [c_itoa] wrote, whatever the float
    arithmetic.  For a value other than [INT_MIN], a [maxlen] of at least
    [c_itoa_len(value)] (at least 2 for the value 0), room for [maxlen]
    characters at [p], and a character after the number that is neither a
    digit nor a point (a NUL, say), parsing the buffer at [p] stops right
    after the characters written and gives the value converted to [float],
    [(float)value], when the value is not negative, and [(float)(-value)]
    multiplied by the [double] constant [-1.0] when it is. *)
Theorem itoa_atof_round_trip {F : Type} `{FloatOps F}
        (buf : list ascii) (p : nat) (value maxlen : Z) :
  - 2 ^ 31 < value < 2 ^ 31 ->
  (if value =? 0 then 2 else c_itoa_len value) <= maxlen ->
  Z.of_nat p + maxlen <= Z.of_nat (List.length buf) ->
  let r := c_itoa buf p value maxlen in
  let stop := peek buf (p + Z.to_nat (fst r)) in
  is_digit stop = false -> Ascii.eqb stop "." = false ->
  fst (c_atof (F := F) (skipn p (snd r)))
  = (if value <? 0
     then f_of_d (d_mul (d_of_f (f_of_Z (- value))) (d_lit (-1)))
     else f_of_Z value)
  /\ snd (c_atof (F := F) (skipn p (snd r))) = skipn (p + Z.to_nat (fst r)) buf.
Proof.
  intros R M RM.
  destruct (c_itoa_spec value R) as (ds & A & NE & V & Hd & Z0 & T). cbv zeta in T.
  destruct T as (LEN & T). cbv zeta.
  assert (LM : Z.of_nat (List.length (if value <? 0 then "-"%char :: ds else ds)) < maxlen).
  { destruct (Z.eqb_spec value 0) as [->|NZ].
    - rewrite (Z0 eq_refl). cbn. lia.
    - lia. }
  destruct (T buf p maxlen) as [OK _].
  rewrite OK by lia. cbn [fst snd]. rewrite Nat2Z.id.
  rewrite skipn_app, skipn_all2 by (rewrite firstn_length_le; lia).
  rewrite firstn_length_le, Nat.sub_diag by lia. cbn [skipn app].
  rewrite <- hd_skipn.
  generalize (skipn (p + List.length (if value <? 0 then "-"%char :: ds else ds)) buf).
  intros rest D P.
  assert (IV : int_val 0 ds < 2 ^ 31) by lia.
  assert (HD : exists c ds', ds = c :: ds' /\ is_digit c = true).
  { destruct ds as [|c ds']; [congruence|]. exists c, ds'. split; [reflexivity|].
    cbn [all_digits] in A. apply andb_true_iff in A. tauto. }
  destruct HD as (c & ds' & -> & Dc).
  assert (NM : Ascii.eqb c "-" = false).
  { destruct (Ascii.eqb_spec c "-"); [subst; discriminate | reflexivity]. }
  destruct (Z.ltb_spec value 0) as [NEG|POS].
  - unfold c_atof. cbn [app]. change (Ascii.eqb "-" "-") with true. cbv iota.
    change (c :: ds' ++ rest) with ((c :: ds') ++ rest).
    rewrite c_atof_int_digits by (auto; lia).
    rewrite c_atof_int_stop by assumption. cbn [fst snd].
    split; [|reflexivity]. rewrite V, Z.abs_neq by lia. reflexivity.
  - unfold c_atof. cbn [app]. rewrite NM.
    change (c :: ds' ++ rest) with ((c :: ds') ++ rest).
    rewrite c_atof_int_digits by (auto; lia).
    rewrite c_atof_int_stop by assumption. cbn [fst snd].
    split; [|reflexivity]. rewrite V, Z.abs_eq by lia. reflexivity.
Qed.

(** The theorem in binary32 on -42 written at the start of [zero_buffer]:
    the text is read back as -42, and the parser stops at the NUL after
    it. *)
Lemma itoa_atof_round_trip_witness :
  @c_atof Arith.B32.b32 Arith.B32.binary32
    (skipn 0 (snd (c_itoa zero_buffer 0 (-42) 8)))
  = (Arith.B32.of_Z (-42), repeat NUL 5).
Proof.
  destruct (@itoa_atof_round_trip Arith.B32.b32 Arith.B32.binary32 zero_buffer 0 (-42) 8 ltac:(lia)
              ltac:(vm_compute; discriminate) ltac:(cbn; lia)
              eq_refl eq_refl) as [A B].
  rewrite (surjective_pairing (@c_atof Arith.B32.b32 Arith.B32.binary32 _)), A, B.
  vm_compute. reflexivity.
Defined.

End MotateFacts.

(* ================================================================= *)
(** ** Bit manipulation *)

Module BitFacts.
Import Arith MachInt MachIntFacts Util Motate.
Open Scope Z_scope.

Lemma testbit_to_uint32 (u n : Z) :
  0 <= n -> Z.testbit (to_uint32 u) n = (n <? 32) && Z.testbit u n.
Proof.
  intros N. unfold to_uint32.
  destruct (Z.ltb_spec n 32) as [L|L]; cbn [andb].
  - apply Z.mod_pow2_bits_low. lia.
  - apply Z.mod_pow2_bits_high. lia.
Qed.

Lemma testbit_not32 (u n : Z) :
  0 <= n -> Z.testbit (not32 u) n = (n <? 32) && negb (Z.testbit u n).
Proof.
  intros N. unfold not32. rewrite testbit_to_uint32 by exact N.
  rewrite Z.lnot_spec by exact N. reflexivity.
Qed.

Lemma testbit_uint32 (u n : Z) :
  0 <= u < 2 ^ 32 -> 0 <= n -> Z.testbit u n = (n <? 32) && Z.testbit u n.
Proof.
  intros U N. rewrite <- testbit_to_uint32 by exact N.
  rewrite to_uint32_small by exact U. reflexivity.
Qed.

Lemma uint32_of_bits (u : Z) :
  0 <= u -> (forall n, 32 <= n -> Z.testbit u n = false) -> 0 <= u < 2 ^ 32.
Proof.
  intros P B. split; [exact P|].
  destruct (Z.eq_dec u 0) as [->|NZ]; [lia|].
  apply Z.log2_lt_pow2; [lia|].
  destruct (Z.lt_ge_cases (Z.log2 u) 32) as [L|L]; [exact L|].
  pose proof (Z.bit_log2 u ltac:(lia)) as K. rewrite B in K by exact L. discriminate.
Qed.

Lemma land_nonneg_r (a b : Z) : 0 <= b -> 0 <= Z.land a b.
Proof. intros B. apply Z.land_nonneg. right. exact B. Qed.

(** Extra: on 32-bit values, [Wr_bits] gives a 32-bit value that reads back
    under the mask as the bits written, and outside the mask as the value
    before. *)
Theorem Wr_bits_Rd_bits (lvalue mask bits : Z) :
  0 <= lvalue < 2 ^ 32 -> 0 <= mask < 2 ^ 32 -> 0 <= bits < 2 ^ 32 ->
  0 <= Wr_bits lvalue mask bits < 2 ^ 32
  /\ Rd_bits (Wr_bits lvalue mask bits) mask = Rd_bits bits mask
  /\ Rd_bits (Wr_bits lvalue mask bits) (not32 mask) = Rd_bits lvalue (not32 mask).
Proof.
  intros L M B. unfold Wr_bits, Rd_bits.
  split; [|split].
  - apply uint32_of_bits.
    + apply Z.lor_nonneg. split; apply land_nonneg_r; [|lia].
      unfold not32, to_uint32. apply Z.mod_pos_bound. lia.
    + intros n N. rewrite Z.lor_spec, !Z.land_spec, testbit_not32 by lia.
      rewrite (testbit_uint32 mask n M) by lia.
      destruct (Z.ltb_spec n 32); [lia|]. cbn. rewrite !andb_false_r. reflexivity.
  - apply Z.bits_inj'. intros n N.
    rewrite !Z.land_spec, Z.lor_spec, !Z.land_spec, testbit_not32 by exact N.
    destruct (Z.testbit mask n), (Z.testbit bits n), (Z.testbit lvalue n), (n <? 32);
      reflexivity.
  - apply Z.bits_inj'. intros n N.
    rewrite !Z.land_spec, Z.lor_spec, !Z.land_spec, testbit_not32 by exact N.
    destruct (Z.testbit mask n), (Z.testbit bits n), (Z.testbit lvalue n), (n <? 32);
      reflexivity.
Qed.

Lemma ctz_shiftl_odd (k : Z) (p : positive) :
  0 <= k -> ctz_pos p = 0 -> ctz (Z.shiftl (Zpos p) k) = k.
Proof.
  intros K P. rewrite Z.shiftl_mul_pow2 by exact K.
  pattern k. apply natlike_ind; [|intros x X IH|exact K].
  - rewrite Z.mul_1_r. exact P.
  - rewrite Z.pow_succ_r by exact X.
    assert (Q : exists q, Zpos p * 2 ^ x = Zpos q).
    { pose proof (Z.pow_pos_nonneg 2 x ltac:(lia) X).
      destruct (Zpos p * 2 ^ x) as [|q|q] eqn:E; [lia | exists q; reflexivity | lia]. }
    destruct Q as [q Q].
    replace (Zpos p * (2 * 2 ^ x)) with (2 * (Zpos p * 2 ^ x)) by lia.
    rewrite Q in *. cbn [Z.mul Pos.mul ctz ctz_pos] in *. lia.
Qed.

Lemma ones_odd (w : Z) : 0 < w -> exists p, Z.ones w = Zpos p /\ ctz_pos p = 0.
Proof.
  intros W.
  assert (T : Z.testbit (Z.ones w) 0 = true) by (apply Z.ones_spec_low; lia).
  assert (P : 0 < Z.ones w).
  { rewrite Z.ones_equiv. pose proof (Z.pow_gt_1 2 w ltac:(lia)). lia. }
  destruct (Z.ones w) as [|p|p]; [lia | | lia].
  exists p. split; [reflexivity|].
  destruct p; [reflexivity | discriminate T | reflexivity].
Qed.

(** The theorem on the low byte of a value that is all ones. *)
Lemma Wr_bits_Rd_bits_witness :
  Wr_bits 4294967295 255 18 = 4294967058
  /\ Rd_bits (Wr_bits 4294967295 255 18) 255 = 18.
Proof.
  destruct (Wr_bits_Rd_bits 4294967295 255 18 ltac:(lia) ltac:(lia) ltac:(lia))
    as (_ & R & _).
  split; [reflexivity | rewrite R; reflexivity].
Defined.

(** Extra: for a mask of [w] contiguous ones starting at bit [k] (within
    32 bits), [Rd_bitfield] after [Wr_bitfield] gives the field written,
    reduced to [w] bits, and the bits outside the mask are those of the
    value before. *)
Theorem Wr_bitfield_Rd_bitfield (lvalue bitfield k w : Z) :
  0 <= k -> 0 < w -> k + w <= 32 ->
  0 <= lvalue < 2 ^ 32 -> 0 <= bitfield < 2 ^ 32 ->
  let mask := Z.shiftl (Z.ones w) k in
  0 <= mask < 2 ^ 32
  /\ Rd_bitfield (Wr_bitfield lvalue mask bitfield) mask = bitfield mod 2 ^ w
  /\ Rd_bits (Wr_bitfield lvalue mask bitfield) (not32 mask) = Rd_bits lvalue (not32 mask).
Proof.
  intros K W KW L B mask.
  assert (M : 0 <= mask < 2 ^ 32).
  { unfold mask. rewrite Z.shiftl_mul_pow2, Z.ones_equiv by lia.
    assert (2 ^ w * 2 ^ k <= 2 ^ 32).
    { rewrite <- Z.pow_add_r by lia. apply Z.pow_le_mono_r; lia. }
    pose proof (Z.pow_pos_nonneg 2 w ltac:(lia) ltac:(lia)).
    pose proof (Z.pow_pos_nonneg 2 k ltac:(lia) ltac:(lia)).
    nia. }
  assert (C : ctz mask = k).
  { destruct (ones_odd w W) as (p & E & P). unfold mask. rewrite E.
    apply ctz_shiftl_odd; assumption. }
  split; [exact M|].
  assert (S : 0 <= to_uint32 (Z.shiftl (to_uint32 bitfield) (ctz mask)) < 2 ^ 32)
    by (unfold to_uint32 at 1; apply Z.mod_pos_bound; lia).
  destruct (Wr_bits_Rd_bits lvalue mask _ L M S) as (_ & R1 & R2).
  unfold Rd_bitfield, Wr_bitfield. split; [|exact R2].
  rewrite R1, C. unfold Rd_bits.
  rewrite (to_uint32_small bitfield) by exact B.
  apply Z.bits_inj'. intros n N.
  rewrite Z.shiftr_spec, Z.land_spec, testbit_to_uint32 by lia.
  rewrite Z.shiftl_spec by lia. unfold mask. rewrite Z.shiftl_spec by lia.
  replace (n + k - k) with n by lia.
  destruct (Z.ltb_spec n w) as [Lw|Lw].
  - rewrite Z.ones_spec_low by lia. rewrite Z.mod_pow2_bits_low by lia.
    destruct (Z.ltb_spec (n + k) 32); [|lia]. cbn. apply andb_true_r.
  - rewrite Z.ones_spec_high by lia. rewrite Z.mod_pow2_bits_high by lia.
    apply andb_false_r.
Qed.

(** The theorem on the field of bits 4 to 7. *)
Lemma Wr_bitfield_Rd_bitfield_witness :
  Rd_bitfield (Wr_bitfield 4294967295 240 5) 240 = 5
  /\ Wr_bitfield 4294967295 240 5 = 4294967135.
Proof.
  destruct (Wr_bitfield_Rd_bitfield 4294967295 5 4 4 ltac:(lia) ltac:(lia) ltac:(lia)
              ltac:(lia) ltac:(lia)) as (_ & R & _).
  split; [exact R | reflexivity].
Defined.

End BitFacts.

(* ================================================================= *)
(** ** SysTick events and timeouts *)

Module SysTickFacts.
Import Arith MachInt MachIntFacts Util Motate.
Open Scope Z_scope.

Lemma set_next_same (nxt : nat -> option nat) (e : nat) (v : option nat) :
  set_next nxt e v e = v.
Proof. unfold set_next. rewrite Nat.eqb_refl. reflexivity. Qed.

Lemma set_next_other (nxt : nat -> option nat) (e e' : nat) (v : option nat) :
  e' <> e -> set_next nxt e v e' = nxt e'.
Proof.
  intros N. unfold set_next. destruct (Nat.eqb_spec e' e); [contradiction|reflexivity].
Qed.

Lemma chain_frame (nxt nxt' : nat -> option nat) (l : list nat) : forall (p : option nat),
  (forall e, In e l -> nxt' e = nxt e) ->
  chain nxt p l -> chain nxt' p l.
Proof.
  induction l as [|e l IH]; intros p Q C; [exact C|].
  destruct C as [-> C]. split; [reflexivity|].
  rewrite (Q e (or_introl eq_refl)). apply IH; [|exact C].
  intros e' I. apply Q. right. exact I.
Qed.

Lemma events_from_chain (nxt : nat -> option nat) (l : list nat) :
  forall (p : option nat) (fuel : nat),
  chain nxt p l -> (List.length l <= fuel)%nat ->
  events_from fuel nxt p = Some l.
Proof.
  induction l as [|e l IH]; intros p fuel C F.
  - cbn in C. subst p. destruct fuel; reflexivity.
  - destruct C as [-> C]. destruct fuel as [|fuel]; [cbn in F; lia|].
    cbn [events_from]. rewrite (IH _ fuel C) by (cbn in F; lia). reflexivity.
Qed.

Lemma register_walk_spec (l : list nat) :
  forall (nxt : nat -> option nat) (e0 x : nat) (fuel : nat),
  chain nxt (Some e0) (e0 :: l) -> NoDup (e0 :: l) -> x <> e0 ->
  (List.length l < fuel)%nat ->
  (In x l -> register_walk fuel nxt e0 x = Some nxt)
  /\ (~ In x l ->
      exists nxt', register_walk fuel nxt e0 x = Some nxt'
        /\ chain nxt' (Some e0) (e0 :: l ++ [x])
        /\ (forall e, ~ In e (e0 :: l) -> e <> x -> nxt' e = nxt e)).
Proof.
  induction l as [|e1 l IH]; intros nxt e0 x fuel C D N F.
  - destruct C as [_ C]. cbn in C.
    destruct fuel as [|fuel]; [lia|]. cbn [register_walk]. rewrite C.
    split; [intros []|]. intros _. eexists. split; [reflexivity|].
    split.
    + cbn [app chain]. split; [reflexivity|].
      rewrite set_next_other by congruence. rewrite set_next_same.
      split; [reflexivity|]. apply set_next_same.
    + intros e I E. rewrite !set_next_other; auto. intros ->. apply I. left. reflexivity.
  - destruct C as [_ [C1 C]].
    destruct fuel as [|fuel]; [cbn in F; lia|]. cbn [register_walk]. rewrite C1.
    inversion D as [|? ? D1 D2]; subst.
    destruct (Nat.eqb_spec x e1) as [->|NE].
    + split; [reflexivity|]. intros I. exfalso. apply I. left. reflexivity.
    + destruct (IH nxt e1 x fuel (conj eq_refl C) D2 NE ltac:(cbn in F; lia)) as [I1 I2].
      split.
      * intros [E|I]; [congruence|]. exact (I1 I).
      * intros I. destruct I2 as (nxt' & R & C' & Q).
        { intros J. apply I. right. exact J. }
        exists nxt'. split; [exact R|]. split.
        -- cbn [app chain]. split; [reflexivity|].
           rewrite Q; [rewrite C1; exact C' | exact D1 | congruence].
        -- intros e J E. apply Q; [|exact E]. intros K. apply J. right. exact K.
Qed.

(** Extra: [registerEvent] on a list of events [l] without repetition
    ([firstEvent] and the [next] pointers run through [l] and end in
    [nullptr]).  An event that is in the list is not registered twice: the
    timer is left as it is.  An event [x] that is not becomes the last of
    the list, and [_handleEvents] then calls the events of [l], then [x];
    when the list is empty this needs [x->next] to be [nullptr] already,
    since [registerEvent] does not reset it in that case. *)
Theorem registerEvent_appends (st : sysTickTimer) (l : list nat) (x fuel : nat) :
  chain (next st) (firstEvent st) l -> NoDup l ->
  (l = [] -> next st x = None) ->
  (List.length l <= fuel)%nat ->
  (In x l -> registerEvent fuel st x = Some st)
  /\ (~ In x l ->
      exists st', registerEvent fuel st x = Some st'
        /\ chain (next st') (firstEvent st') (l ++ [x])
        /\ _motateTickCount st' = _motateTickCount st
        /\ _handleEvents (S fuel) st' = Some (l ++ [x])).
Proof.
  intros C D E F. unfold registerEvent.
  destruct l as [|e0 l].
  - cbn in C. rewrite C. split; [intros []|]. intros _.
    eexists. split; [reflexivity|]. cbn [next firstEvent _motateTickCount app].
    assert (K : chain (next st) (Some x) [x]) by (split; [reflexivity | exact (E eq_refl)]).
    split; [exact K|]. split; [reflexivity|].
    unfold _handleEvents. cbn [next firstEvent].
    apply events_from_chain; [exact K | cbn; lia].
  - pose proof C as [C0 _]. rewrite C0.
    destruct (Nat.eqb_spec x e0) as [->|NE].
    + split; [reflexivity|]. intros I. exfalso. apply I. left. reflexivity.
    + rewrite C0 in C.
      destruct (register_walk_spec l (next st) e0 x fuel C D NE ltac:(cbn in F; lia))
        as [I1 I2].
      split.
      * intros [I|I]; [congruence|]. rewrite (I1 I), <- C0. destruct st; reflexivity.
      * intros I. destruct I2 as (nxt' & R & C' & Q).
        { intros J. apply I. right. exact J. }
        rewrite R. eexists. split; [reflexivity|].
        cbn [next firstEvent _motateTickCount].
        split; [exact C'|]. split; [reflexivity|].
        unfold _handleEvents. cbn [next firstEvent].
        apply events_from_chain; [exact C'|].
        cbn [List.length app]. rewrite length_app. cbn in *. lia.
Qed.

Lemma unregister_walk_spec (l : list nat) :
  forall (nxt : nat -> option nat) (e0 x : nat) (fuel : nat),
  chain nxt (Some e0) (e0 :: l) -> NoDup (e0 :: l) -> x <> e0 ->
  (List.length l < fuel)%nat ->
  (~ In x l -> unregister_walk fuel nxt e0 x = Some nxt)
  /\ (forall l1 l2, l = l1 ++ x :: l2 ->
      exists nxt', unregister_walk fuel nxt e0 x = Some nxt'
        /\ chain nxt' (Some e0) (e0 :: l1 ++ l2)
        /\ (forall e, ~ In e (e0 :: l1) -> nxt' e = nxt e)).
Proof.
  induction l as [|e1 l IH]; intros nxt e0 x fuel C D N F.
  - destruct C as [_ C]. cbn in C.
    destruct fuel as [|fuel]; [lia|]. cbn [unregister_walk]. rewrite C.
    split; [reflexivity|]. intros [|] l2 E; discriminate E.
  - destruct C as [_ [C1 C]].
    destruct fuel as [|fuel]; [cbn in F; lia|]. cbn [unregister_walk]. rewrite C1.
    inversion D as [|? ? D1 D2]; subst.
    inversion D2 as [|? ? D3 D4]; subst.
    destruct (Nat.eqb_spec e1 x) as [->|NE].
    + split; [intros I; exfalso; apply I; left; reflexivity|].
      intros l1 l2 E. destruct l1 as [|a l1].
      * cbn in E. injection E as <-. eexists. split; [reflexivity|].
        split.
        -- cbn [app chain]. split; [reflexivity|]. rewrite set_next_same.
           apply chain_frame with (nxt := nxt); [|exact C].
           intros e I. apply set_next_other. intros ->. apply D1. right. exact I.
        -- intros e I. apply set_next_other. intros ->. apply I. left. reflexivity.
      * cbn in E. injection E as -> ->. exfalso. apply D3.
        apply in_or_app. right. left. reflexivity.
    + destruct (IH nxt e1 x fuel (conj eq_refl C) D2 ltac:(congruence) ltac:(cbn in F; lia))
        as [I1 I2].
      split.
      * intros I. apply I1. intros J. apply I. right. exact J.
      * intros l1 l2 E. destruct l1 as [|a l1]; cbn in E; injection E as E1 E2;
          [congruence|]. subst a.
        destruct (I2 l1 l2 E2) as (nxt' & R & C' & Q).
        exists nxt'. split; [exact R|]. split.
        -- cbn [app chain]. split; [reflexivity|].
           rewrite Q; [rewrite C1; exact C'|].
           intros [J|J]; [subst; apply D1; left; reflexivity|].
           apply D1. right. rewrite E2. apply in_or_app. left. exact J.
        -- intros e J. apply Q. intros K. apply J. right. exact K.
Qed.

(** Extra: [unregisterEvent] on a list of events [l] without repetition.
    With no event registered it reads [firstEvent->next] through a null
    pointer.  An event that is not in a list that is not empty leaves the
    timer as it is.  An event [x] of the list is taken out, the others keep
    their order, and [_handleEvents] calls them and no longer [x]; the
    [next] pointer of [x] itself is left as it was. *)
Theorem unregisterEvent_removes (st : sysTickTimer) (l : list nat) (x fuel : nat) :
  chain (next st) (firstEvent st) l -> NoDup l ->
  (List.length l <= fuel)%nat ->
  (l = [] -> unregisterEvent fuel st x = None)
  /\ (l <> [] -> ~ In x l -> unregisterEvent fuel st x = Some st)
  /\ (forall l1 l2, l = l1 ++ x :: l2 ->
      exists st', unregisterEvent fuel st x = Some st'
        /\ chain (next st') (firstEvent st') (l1 ++ l2)
        /\ _motateTickCount st' = _motateTickCount st
        /\ _handleEvents fuel st' = Some (l1 ++ l2)
        /\ next st' x = next st x).
Proof.
  intros C D F. unfold unregisterEvent.
  destruct l as [|e0 l].
  - cbn in C. rewrite C. split; [reflexivity|].
    split; [intros K; congruence|]. intros [|] l2 E; discriminate E.
  - pose proof C as [C0 C1]. split; [discriminate|].
    inversion D as [|? ? D1 D2]; subst.
    destruct (Nat.eqb_spec e0 x) as [->|NE].
    + rewrite C0, Nat.eqb_refl. split; [intros _ I; exfalso; apply I; left; reflexivity|].
      intros l1 l2 E. destruct l1 as [|a l1]; cbn in E;
        [injection E as E2 | injection E as E1 E2].
      * subst l2. eexists. split; [reflexivity|].
        cbn [next firstEvent _motateTickCount app].
        split; [exact C1|]. split; [reflexivity|]. split; [|reflexivity].
        unfold _handleEvents. cbn [next firstEvent].
        apply events_from_chain; [exact C1 | cbn in F; lia].
      * exfalso. apply D1. rewrite E2. apply in_or_app. right. left. reflexivity.
    + rewrite C0. destruct (Nat.eqb_spec e0 x) as [|_]; [contradiction|].
      rewrite C0 in C.
      destruct (unregister_walk_spec l (next st) e0 x fuel C D ltac:(congruence)
                  ltac:(cbn in F; lia)) as [I1 I2].
      split.
      * intros _ I. rewrite I1 by (intros J; apply I; right; exact J).
        rewrite <- C0. destruct st; reflexivity.
      * intros l1 l2 E. destruct l1 as [|a l1]; cbn in E; injection E as E1 E2;
          [congruence|]. subst a.
        destruct (I2 l1 l2 E2) as (nxt' & R & C' & Q).
        rewrite R. eexists. split; [reflexivity|].
        cbn [next firstEvent _motateTickCount app].
        split; [exact C'|]. split; [reflexivity|]. split.
        -- unfold _handleEvents. cbn [next firstEvent].
           apply events_from_chain; [exact C'|].
           cbn [List.length] in *. rewrite E2, length_app in F. rewrite length_app.
           cbn [List.length] in F. lia.
        -- apply Q. intros [J|J]; [congruence|].
           inversion D2 as [|]; subst; [destruct l1; discriminate|].
           apply (NoDup_remove_2 _ _ _ D2). apply in_or_app. left. exact J.
Qed.

(** Extra: an event registered into an empty list keeps the [next] pointer
    it had.  Starting with no event and two fresh events [a] and [b]:
    after registering [a] and [b] and unregistering both, no event is
    called; registering [a] again then brings [b] back with it, and
    [_handleEvents] calls [a] and [b], although [b] is unregistered. *)
Theorem registerEvent_keeps_stale_next (st : sysTickTimer) (a b fuel : nat) :
  firstEvent st = None -> next st a = None -> next st b = None -> a <> b ->
  (2 <= fuel)%nat ->
  exists st1 st2 st3 st4 st5,
    registerEvent fuel st a = Some st1
    /\ registerEvent fuel st1 b = Some st2
    /\ _handleEvents fuel st2 = Some [a; b]
    /\ unregisterEvent fuel st2 a = Some st3
    /\ unregisterEvent fuel st3 b = Some st4
    /\ _handleEvents fuel st4 = Some []
    /\ registerEvent fuel st4 a = Some st5
    /\ _handleEvents fuel st5 = Some [a; b].
Proof.
  intros E A B N F.
  destruct fuel as [|[|fuel]]; [lia | lia |].
  assert (N1 : Nat.eqb b a = false) by (apply Nat.eqb_neq; congruence).
  assert (N2 : Nat.eqb a b = false) by (apply Nat.eqb_neq; congruence).
  set (nxt := set_next (set_next (next st) a (Some b)) b None).
  assert (Na : nxt a = Some b).
  { unfold nxt, set_next. rewrite N2, Nat.eqb_refl. reflexivity. }
  assert (Nb : nxt b = None).
  { unfold nxt, set_next. rewrite Nat.eqb_refl. reflexivity. }
  exists {| _motateTickCount := _motateTickCount st; firstEvent := Some a;
            next := next st |}.
  exists {| _motateTickCount := _motateTickCount st; firstEvent := Some a;
            next := nxt |}.
  exists {| _motateTickCount := _motateTickCount st; firstEvent := Some b;
            next := nxt |}.
  exists {| _motateTickCount := _motateTickCount st; firstEvent := None;
            next := nxt |}.
  exists {| _motateTickCount := _motateTickCount st; firstEvent := Some a;
            next := nxt |}.
  unfold registerEvent, unregisterEvent, _handleEvents.
  cbn [firstEvent next _motateTickCount].
  rewrite E, N1, ?Nat.eqb_refl.
  cbn [register_walk events_from]. rewrite A, Na, Nb.
  repeat split.
  all: destruct fuel; reflexivity.
Qed.


(** The theorem on [two_event_timer]: event 3 goes to the end. *)
Lemma registerEvent_appends_witness :
  exists st', registerEvent 2 two_event_timer 3 = Some st'
    /\ _handleEvents 3 st' = Some [1; 2; 3]%nat.
Proof.
  assert (C : chain (next two_event_timer) (firstEvent two_event_timer) [1; 2]%nat)
    by (cbn; auto).
  assert (D : NoDup [1; 2]%nat)
    by (repeat constructor; cbn; intuition discriminate).
  destruct (registerEvent_appends two_event_timer [1; 2]%nat 3 2 C D
              ltac:(discriminate) ltac:(cbn; lia)) as [_ T].
  destruct T as (st' & R & _ & _ & E); [cbn; intuition discriminate|].
  exists st'. split; [exact R | exact E].
Defined.

(** The theorem on [two_event_timer]: event 1 is taken out, event 2 stays. *)
Lemma unregisterEvent_removes_witness :
  exists st', unregisterEvent 2 two_event_timer 1 = Some st'
    /\ _handleEvents 2 st' = Some [2]%nat.
Proof.
  assert (C : chain (next two_event_timer) (firstEvent two_event_timer) [1; 2]%nat)
    by (cbn; auto).
  assert (D : NoDup [1; 2]%nat)
    by (repeat constructor; cbn; intuition discriminate).
  destruct (unregisterEvent_removes two_event_timer [1; 2]%nat 1 2 C D
              ltac:(cbn; lia)) as (_ & _ & T).
  destruct (T [] [2]%nat eq_refl) as (st' & R & _ & _ & E & _).
  exists st'. split; [exact R | exact E].
Defined.

(** The theorem on [idle_timer] and the events 1 and 2. *)
Lemma registerEvent_keeps_stale_next_witness :
  exists st4 st5,
    _handleEvents 2 st4 = Some []
    /\ registerEvent 2 st4 1 = Some st5
    /\ _handleEvents 2 st5 = Some [1; 2]%nat.
Proof.
  destruct (registerEvent_keeps_stale_next idle_timer 1 2 2 eq_refl eq_refl eq_refl
              ltac:(discriminate) ltac:(lia))
    as (st1 & st2 & st3 & st4 & st5 & _ & _ & _ & _ & _ & E4 & R & E5).
  exists st4, st5. split; [exact E4|]. split; [exact R | exact E5].
Defined.

Lemma increment_iter (k : nat) (st : sysTickTimer) :
  0 <= _motateTickCount st < 2 ^ 32 ->
  _motateTickCount (Nat.iter k _increment st)
  = to_uint32 (_motateTickCount st + Z.of_nat k).
Proof.
  intros V. induction k as [|k IH].
  - cbn [Nat.iter nat_rect Z.of_nat]. rewrite Z.add_0_r, to_uint32_small by exact V.
    reflexivity.
  - rewrite Nat.iter_succ. unfold _increment at 1. cbn [_motateTickCount].
    rewrite IH. unfold to_uint32. rewrite Zplus_mod_idemp_l. f_equal. lia.
Qed.

(** Extra: a [Timeout] set when the tick counter reads [start], with the
    given delay, is past after [k] ticks exactly when [start] is not zero
    and [k] is more than the delay, also when the 32-bit counter wraps in
    between.  A timeout set while the counter reads zero counts as not set
    and is never past. *)
Theorem Timeout_isPast_after (st : sysTickTimer) (delay : Z) (k : nat) :
  0 <= getValue st < 2 ^ 32 -> 0 <= delay < 2 ^ 32 -> Z.of_nat k < 2 ^ 32 ->
  isPast (Nat.iter k _increment st) (Timeout_set st delay)
  = (0 <? getValue st) && (delay <? Z.of_nat k).
Proof.
  intros V D K. unfold isPast, isSet, Timeout_set. cbn [start_ delay_].
  rewrite Z.gtb_ltb.
  destruct (Z.ltb_spec 0 (getValue st)) as [P|P]; cbn [negb andb]; [|reflexivity].
  rewrite Z.gtb_ltb. f_equal. unfold getValue in *.
  rewrite increment_iter by exact V.
  unfold to_uint32. rewrite Zminus_mod_idemp_l.
  replace (_motateTickCount st + Z.of_nat k - _motateTickCount st) with (Z.of_nat k) by lia.
  apply Z.mod_small. lia.
Qed.

(** The theorem on [wrapping_timer]: a delay of 3 ticks is past after 5
    ticks, when the counter has wrapped to 3. *)
Lemma Timeout_isPast_after_witness :
  getValue (Nat.iter 5 _increment wrapping_timer) = 3
  /\ isPast (Nat.iter 5 _increment wrapping_timer) (Timeout_set wrapping_timer 3) = true.
Proof.
  split; [reflexivity|].
  rewrite Timeout_isPast_after; [reflexivity | cbn; lia | lia | cbn; lia].
Defined.


End SysTickFacts.
